(** * Autonomous CI/CD healing agent: a shallow embedding and its properties

    The development follows the Python sources of the agent:

    - [agents/run_memory.py]                       (module [RunMemory])
    - [shared/results_exporter.py]                 (module [ResultsExporter])
    - [shared/format_fix.py]                       (module [FormatFix])
    - [agents/bug_classifier/error_classifier.py]  (module [ErrorClassifier])
    - [agents/tools/failure_classifier_tool.py]    (module [FailureClassifierTool])
    - [agents/tools/fix_planner_tool.py]           (module [FixPlanner])
    - [agents/tools/patch_applier_tool.py]         (module [PatchApplier])
    - [agents/reasoning_loop.py]                   (module [ReasoningLoop])
    - [agents/tools/verification_tool.py]          (module [VerificationTool])

    Conventions.  A Python [int] is a [Z].  A Python [str] is a Rocq [string],
    read as the UTF-8 encoding of the text; the character classes used by
    [strip], [\s], [\w] and [\d] are the ASCII ones.  A [dict] whose keys are
    fixed by the code is a record whose fields are options ([None] is an absent
    key, so that [d.get(k, default)] is [default] applied to the field).  The
    working tree is a finite map from path to file content.  Library calls the
    code cannot see into (the language model, the wall clock, [pathlib]) are
    explicit arguments; so is the run of the local tests that the verification
    tool falls back on. *)

From Stdlib Require Import ZArith Lia Bool Ascii String List Sorted.
From Stdlib Require Import SpecFloat.
From stdpp Require Import gmap strings list fin_maps.
Import ListNotations.

Local Open Scope Z_scope.

(* ===================================================================== *)
(** * Python built-ins used by the sources *)
(* ===================================================================== *)

Module Py.

(** [d.get(k, default)] on an optional field. *)
Definition get {A} (field : option A) (dflt : A) : A :=
  match field with Some v => v | None => dflt end.

(** Truthiness of a string and of a list. *)
Definition truthy (s : string) : bool :=
  match s with EmptyString => false | _ => true end.

Definition nonempty {A} (l : list A) : bool :=
  match l with [] => false | _ => true end.

(** Comparison of strings, as [<] on [str]: lexicographic on the characters. *)
Definition str_ltb (a b : string) : bool :=
  match String.compare a b with Lt => true | _ => false end.

(** Order on the sort key [(f.file, f.line)]: tuples compare
    lexicographically. *)
Definition key_ltb (a b : string * Z) : bool :=
  if String.eqb (fst a) (fst b) then snd a <? snd b else str_ltb (fst a) (fst b).

Definition key_leb (a b : string * Z) : bool := negb (key_ltb b a).

(** [sorted(l, key=...)] is a stable sort: an element is placed before the
    first element that is strictly greater, and after every element that
    compares equal and stood before it. *)
Section Sorted.
Context {A K : Type} (key : A -> K) (ltb : K -> K -> bool).

Fixpoint insert_sorted (x : A) (l : list A) : list A :=
  match l with
  | [] => [x]
  | y :: l' => if ltb (key y) (key x) then y :: insert_sorted x l'
               else x :: y :: l'
  end.

Definition sorted (l : list A) : list A := fold_right insert_sorted [] l.

End Sorted.


Definition get_last (l : list string) : string :=
  match last l with Some x => x | None => EmptyString end.

(** ** Strings *)

Definition nl : ascii := "010"%char.
Definition cr : ascii := "013"%char.
Definition tab : ascii := "009"%char.
Definition dquote : ascii := "034"%char.
Definition squote : ascii := "039"%char.

Definition chr (c : ascii) : string := String c EmptyString.
Definition NL : string := chr nl.

Definition code (c : ascii) : nat := nat_of_ascii c.

Definition between (lo hi : nat) (c : ascii) : bool :=
  (lo <=? code c)%nat && (code c <=? hi)%nat.

(** [str.isspace] on one character. *)
Definition isspace (c : ascii) : bool := between 9 13 c || between 28 32 c.
Definition isdigit (c : ascii) : bool := between 48 57 c.
Definition isupper (c : ascii) : bool := between 65 90 c.
Definition islower (c : ascii) : bool := between 97 122 c.
Definition isalnum (c : ascii) : bool := isdigit c || isupper c || islower c.
(** The class [\w]. *)
Definition isword (c : ascii) : bool := isalnum c || Ascii.eqb c "_".

Definition lower_char (c : ascii) : ascii :=
  if isupper c then ascii_of_nat (code c + 32) else c.

Fixpoint lower (s : string) : string :=
  match s with
  | EmptyString => EmptyString
  | String c s' => String (lower_char c) (lower s')
  end.

Definition len (s : string) : nat := String.length s.

(** [s.startswith(p)] and [s.endswith(p)]. *)
Definition startswith (s p : string) : bool := String.prefix p s.

Definition endswith (s p : string) : bool :=
  (len p <=? len s)%nat && String.eqb (substring (len s - len p) (len p) s) p.

(** [p in s] and [s.find(p)]. *)
Fixpoint contains (s p : string) : bool :=
  startswith s p ||
  match s with EmptyString => false | String _ s' => contains s' p end.

Fixpoint find_from (i : nat) (s p : string) : option nat :=
  if startswith s p then Some i
  else match s with EmptyString => None | String _ s' => find_from (S i) s' p end.

Definition find (s p : string) : option nat := find_from 0 s p.

(** [s[i:]] and [s[:i]]. *)
Fixpoint drop (i : nat) (s : string) : string :=
  match i, s with
  | S i', String _ s' => drop i' s'
  | _, _ => s
  end.

Definition take (i : nat) (s : string) : string := substring 0 i s.

Fixpoint rev_onto (s acc : string) : string :=
  match s with
  | EmptyString => acc
  | String c s' => rev_onto s' (String c acc)
  end.

Definition rev (s : string) : string := rev_onto s EmptyString.

(** [s.lstrip()], [s.rstrip()], [s.strip()], also with an explicit set of
    characters. *)
Fixpoint lstrip_by (p : ascii -> bool) (s : string) : string :=
  match s with
  | String c s' => if p c then lstrip_by p s' else s
  | EmptyString => EmptyString
  end.

Definition rstrip_by (p : ascii -> bool) (s : string) : string :=
  rev (lstrip_by p (rev s)).

Definition strip_by (p : ascii -> bool) (s : string) : string :=
  rstrip_by p (lstrip_by p s).

Definition lstrip := lstrip_by isspace.
Definition rstrip := rstrip_by isspace.
Definition strip := strip_by isspace.

Fixpoint mem_char (c : ascii) (chars : string) : bool :=
  match chars with
  | EmptyString => false
  | String d chars' => Ascii.eqb c d || mem_char c chars'
  end.

Definition strip_chars (chars s : string) : string :=
  strip_by (fun c => mem_char c chars) s.
Definition rstrip_chars (chars s : string) : string :=
  rstrip_by (fun c => mem_char c chars) s.

(** [sep.join(l)]. *)
Definition concat (l : list string) : string :=
  fold_right String.append EmptyString l.

Fixpoint join (sep : string) (l : list string) : string :=
  match l with
  | [] => EmptyString
  | [x] => x
  | x :: l' => x +:+ sep +:+ join sep l'
  end.

(** [c * n] for a one-character string. *)
Fixpoint repeat_char (c : ascii) (n : nat) : string :=
  match n with O => EmptyString | S n' => String c (repeat_char c n') end.

(** [s.count(c)] for a one-character argument. *)
Fixpoint count_char (c : ascii) (s : string) : nat :=
  match s with
  | EmptyString => O
  | String d s' => ((if Ascii.eqb c d then 1 else 0) + count_char c s')%nat
  end.

(** Line boundaries of [str.splitlines]. *)
Definition is_linebreak (c : ascii) : bool :=
  between 10 13 c || between 28 30 c.

(** [s.splitlines(keepends)]: [cur] is the current line, reversed. *)
Fixpoint splitlines_go (keepends : bool) (s cur : string) : list string :=
  match s with
  | EmptyString =>
      match cur with EmptyString => [] | _ => [rev cur] end
  | String c s' =>
      if Ascii.eqb c cr then
        match s' with
        | String d s'' =>
            if Ascii.eqb d nl then
              rev (if keepends then String d (String c cur) else cur)
                :: splitlines_go keepends s'' EmptyString
            else
              rev (if keepends then String c cur else cur)
                :: splitlines_go keepends s' EmptyString
        | EmptyString => [rev (if keepends then String c cur else cur)]
        end
      else if is_linebreak c then
        rev (if keepends then String c cur else cur)
          :: splitlines_go keepends s' EmptyString
      else splitlines_go keepends s' (String c cur)
  end.

Definition splitlines (keepends : bool) (s : string) : list string :=
  splitlines_go keepends s EmptyString.

(** [s.split(sep)] for a non-empty separator; [fuel] bounds the number of
    characters still to scan. *)
Fixpoint split_go (fuel : nat) (sep s cur : string) : list string :=
  match fuel with
  | O => [rev cur]
  | S fuel' =>
      match s with
      | EmptyString => [rev cur]
      | String c s' =>
          if startswith s sep
          then rev cur :: split_go fuel' sep (drop (len sep) s) EmptyString
          else split_go fuel' sep s' (String c cur)
      end
  end.

Definition split (sep s : string) : list string :=
  split_go (S (len s)) sep s EmptyString.

(** [s.replace(old, new, count)] for a non-empty [old]; [None] replaces every
    occurrence. *)
Fixpoint replace_go (fuel : nat) (old new : string) (count : option nat) (s : string) : string :=
  match fuel with
  | O => s
  | S fuel' =>
      match count with
      | Some O => s
      | _ =>
          match s with
          | EmptyString => EmptyString
          | String c s' =>
              if startswith s old
              then new +:+ replace_go fuel' old new (option_map Nat.pred count)
                                      (drop (len old) s)
              else String c (replace_go fuel' old new count s')
          end
      end
  end.

Definition replace (old new : string) (count : option nat) (s : string) : string :=
  replace_go (S (len s)) old new count s.

(** [str(n)] and [f"{n}"] for an [int]. *)
Definition digit_char (n : nat) : ascii := ascii_of_nat (48 + n).

Fixpoint digits_of (fuel : nat) (n : N) (acc : string) : string :=
  match fuel with
  | O => acc
  | S fuel' =>
      let acc' := String (digit_char (N.to_nat (n mod 10))) acc in
      if (n <? 10)%N then acc' else digits_of fuel' (n / 10)%N acc'
  end.

Definition str_of_N (n : N) : string := digits_of (S (N.to_nat (N.log2 n))) n EmptyString.

Definition str_of_Z (z : Z) : string :=
  match z with
  | Z0 => "0"
  | Zpos p => str_of_N (Npos p)
  | Zneg p => "-" +:+ str_of_N (Npos p)
  end.

(** [int(s)] for a string of decimal digits. *)
Fixpoint int_go (s : string) (acc : Z) : Z :=
  match s with
  | EmptyString => acc
  | String c s' => int_go s' (10 * acc + Z.of_nat (code c - 48))
  end.

Definition int_of (s : string) : Z := int_go s 0.

(** [Path(p).name]: the last component of the path, where empty components
    and [.] do not count. *)
Definition path_name (p : string) : string :=
  get_last (List.filter (fun c => negb (String.eqb c "" || String.eqb c ".")) (split "/" p)).

End Py.

(* ===================================================================== *)
(** * The fragment of Python's [re] used by the sources *)
(* ===================================================================== *)

(** A backtracking matcher with the priorities of [re]: alternatives are
    tried left to right, greedy repetitions try one more iteration first and
    lazy ones try to stop first; the first success is the match.  Flags are
    part of the syntax tree: the anchors come in a plain and a MULTILINE
    form, and IGNORECASE and DOTALL are chosen in the character tests. *)
Module Re.

Inductive re : Type :=
| Eps
| Chr (p : ascii -> bool)
| Seq (a b : re)
| Alt (a b : re)
| Star (greedy : bool) (a : re)
| Grp (n : nat) (a : re)
| Bos            (* [^] without MULTILINE *)
| BolM           (* [^] with MULTILINE *)
| Eol            (* [$] without MULTILINE *)
| EolM           (* [$] with MULTILINE *)
| EndZ           (* [\Z] *)
| WordB          (* [\b] *)
| Ahead (a : re) (* [(?=a)] *).

(** Position in the subject: the offset, the character before it and the
    text from it on. *)
Record cursor := mkCursor { pos : nat; prev : option ascii; rest : string }.

Definition captures := list (nat * (nat * nat)).

Definition result : Type := nat * captures.

Definition is_word_opt (c : option ascii) : bool :=
  match c with Some a => Py.isword a | None => false end.

Definition next (c : cursor) : option ascii :=
  match rest c with String a _ => Some a | EmptyString => None end.

(** The loop of a repetition: one more iteration of [body], which has to
    consume something, or the rest of the pattern; [fuel] bounds the number
    of iterations by the length of the remaining text. *)
Fixpoint star_loop (greedy : bool)
    (body : cursor -> captures -> (cursor -> captures -> option result) -> option result)
    (k : cursor -> captures -> option result)
    (fuel : nat) (c : cursor) (g : captures) {struct fuel} : option result :=
  match fuel with
  | O => k c g
  | S fuel' =>
      let again :=
        body c g (fun c' g' =>
          if (pos c' <=? pos c)%nat then None else star_loop greedy body k fuel' c' g') in
      if greedy then
        match again with Some x => Some x | None => k c g end
      else
        match k c g with Some x => Some x | None => again end
  end.

Fixpoint run (r : re) (c : cursor) (g : captures)
    (k : cursor -> captures -> option result) {struct r} : option result :=
  match r with
  | Eps => k c g
  | Chr p =>
      match rest c with
      | String a s' => if p a then k (mkCursor (S (pos c)) (Some a) s') g else None
      | EmptyString => None
      end
  | Seq a b => run a c g (fun c' g' => run b c' g' k)
  | Alt a b =>
      match run a c g k with
      | Some x => Some x
      | None => run b c g k
      end
  | Star greedy a => star_loop greedy (run a) k (S (Py.len (rest c))) c g
  | Grp n a => run a c g (fun c' g' => k c' ((n, (pos c, pos c')) :: g'))
  | Bos => match prev c with None => k c g | Some _ => None end
  | BolM =>
      match prev c with
      | None => k c g
      | Some a => if Ascii.eqb a Py.nl then k c g else None
      end
  | Eol =>
      match rest c with
      | EmptyString => k c g
      | String a EmptyString => if Ascii.eqb a Py.nl then k c g else None
      | _ => None
      end
  | EolM =>
      match rest c with
      | EmptyString => k c g
      | String a _ => if Ascii.eqb a Py.nl then k c g else None
      end
  | EndZ => match rest c with EmptyString => k c g | _ => None end
  | WordB =>
      if xorb (is_word_opt (prev c)) (is_word_opt (next c)) then k c g else None
  | Ahead a =>
      match run a c g (fun c' g' => Some (pos c', g')) with
      | Some (_, g') => k c g'
      | None => None
      end
  end.

(** A match object: start, end, the last span of every group. *)
Record match_ := mkMatch { m_start : nat; m_end : nat; m_groups : captures; m_subject : string }.

Definition match_at (r : re) (subject : string) (c : cursor) : option match_ :=
  match run r c [] (fun c' g' => Some (pos c', g')) with
  | Some (e, g) => Some (mkMatch (pos c) e g subject)
  | None => None
  end.

(** [m.group(n)]: [None] when the group did not take part in the match. *)
Fixpoint lookup_group (n : nat) (g : captures) : option (nat * nat) :=
  match g with
  | [] => None
  | (n', sp) :: g' => if (n =? n')%nat then Some sp else lookup_group n g'
  end.

Definition group (m : match_) (n : nat) : option string :=
  match n with
  | O => Some (substring (m_start m) (m_end m - m_start m) (m_subject m))
  | _ =>
      match lookup_group n (m_groups m) with
      | Some (a, b) => Some (substring a (b - a) (m_subject m))
      | None => None
      end
  end.

Definition group_str (m : match_) (n : nat) : string := Py.get (group m n) "".

(** [pattern.match(s)]: a match at the start of the subject. *)
Definition match_start (r : re) (s : string) : option match_ :=
  match_at r s (mkCursor 0 None s).

(** Scan for the leftmost match at or after the cursor. *)
Fixpoint search_from (fuel : nat) (r : re) (subject : string) (c : cursor) : option match_ :=
  match match_at r subject c with
  | Some m => Some m
  | None =>
      match fuel, rest c with
      | S fuel', String a s' =>
          search_from fuel' r subject (mkCursor (S (pos c)) (Some a) s')
      | _, _ => None
      end
  end.

(** [pattern.search(s)]. *)
Definition search (r : re) (s : string) : option match_ :=
  search_from (Py.len s) r s (mkCursor 0 None s).

Definition found (r : re) (s : string) : bool :=
  match search r s with Some _ => true | None => false end.

(** Move a cursor forward to an offset. *)
Fixpoint advance (n : nat) (c : cursor) : cursor :=
  match n, rest c with
  | S n', String a s' => advance n' (mkCursor (S (pos c)) (Some a) s')
  | _, _ => c
  end.

(** [pattern.finditer(s)]: the successive leftmost matches, each search
    starting where the previous match ended (one character further after an
    empty match). *)
Fixpoint finditer_from (fuel : nat) (r : re) (subject : string) (c : cursor) : list match_ :=
  match fuel with
  | O => []
  | S fuel' =>
      match search_from (Py.len (rest c)) r subject c with
      | None => []
      | Some m =>
          let stop := if (m_end m =? m_start m)%nat then S (m_end m) else m_end m in
          if (Py.len subject <? stop)%nat then [m]
          else m :: finditer_from fuel' r subject (advance (stop - pos c) c)
      end
  end.

Definition finditer (r : re) (s : string) : list match_ :=
  finditer_from (S (Py.len s)) r s (mkCursor 0 None s).

(** [re.sub(r, "", s)] restricted to a pattern anchored at the start of the
    subject: at most one match, removed. *)
Definition sub_prefix (r : re) (s : string) : string :=
  match match_start r s with
  | Some m => Py.drop (m_end m) s
  | None => s
  end.

(** ** Building patterns *)

Definition char (c : ascii) : re := Chr (Ascii.eqb c).
Definition chari (c : ascii) : re :=
  Chr (fun a => Ascii.eqb (Py.lower_char a) (Py.lower_char c)).
Definition notc (p : ascii -> bool) : re := Chr (fun a => negb (p a)).
Definition oneof (chars : string) : re := Chr (fun a => Py.mem_char a chars).
Definition oneofi (chars : string) : re :=
  Chr (fun a => Py.mem_char (Py.lower_char a) (Py.lower chars)).
Definition noneof (chars : string) : re := Chr (fun a => negb (Py.mem_char a chars)).
(** [.] without and with DOTALL. *)
Definition dot : re := Chr (fun a => negb (Ascii.eqb a Py.nl)).
Definition any : re := Chr (fun _ => true).
Definition space : re := Chr Py.isspace.
Definition nonspace : re := Chr (fun a => negb (Py.isspace a)).
Definition word : re := Chr Py.isword.
Definition digit : re := Chr Py.isdigit.

Fixpoint lit (s : string) : re :=
  match s with
  | EmptyString => Eps
  | String c EmptyString => char c
  | String c s' => Seq (char c) (lit s')
  end.

Fixpoint liti (s : string) : re :=
  match s with
  | EmptyString => Eps
  | String c EmptyString => chari c
  | String c s' => Seq (chari c) (liti s')
  end.

Fixpoint seq (l : list re) : re :=
  match l with
  | [] => Eps
  | [a] => a
  | a :: l' => Seq a (seq l')
  end.

Fixpoint alt (l : list re) : re :=
  match l with
  | [] => Eps
  | [a] => a
  | a :: l' => Alt a (alt l')
  end.

Definition star (a : re) : re := Star true a.
Definition lazy_star (a : re) : re := Star false a.
Definition plus (a : re) : re := Seq a (Star true a).
Definition lazy_plus (a : re) : re := Seq a (Star false a).
Definition opt (a : re) : re := Alt a Eps.

(** [a{lo,hi}] and [a{lo,}]. *)
Fixpoint upto (n : nat) (a : re) : re :=
  match n with
  | O => Eps
  | S n' => opt (Seq a (upto n' a))
  end.

Fixpoint times (n : nat) (a : re) : re :=
  match n with
  | O => Eps
  | S O => a
  | S n' => Seq a (times n' a)
  end.

Definition repeat (lo hi : nat) (a : re) : re :=
  match lo with
  | O => upto hi a
  | _ => Seq (times lo a) (upto (hi - lo) a)
  end.

Definition at_least (lo : nat) (a : re) : re :=
  match lo with
  | O => star a
  | _ => Seq (times lo a) (star a)
  end.

End Re.

(* ===================================================================== *)
(** * agents/run_memory.py *)
(* ===================================================================== *)

Module RunMemory.

(** Bug dictionaries produced by the classifier tool. *)
Record BugDict := mkBug {
  bug_file     : option string;
  bug_line     : option Z;
  bug_type     : option string;
  bug_message  : option string;
  bug_severity : option string;
  bug_fix_hint : option string;
  bug_escalate_to_llm : option bool
}.

(** Patch dictionaries produced by the patch applier. *)
Record PatchDict := mkPatch {
  patch_bug         : option BugDict;
  patch_status      : string;
  patch_method      : option string;
  patch_description : option string;
  patch_file        : option string;
  patch_reason      : option string;
  patch_patch       : option (list string)
}.

Definition empty_bug : BugDict := mkBug None None None None None None None.

Record FailureRecord := mkFailure {
  failure_file : string;
  failure_line : Z;
  failure_bug_type : string;
  failure_standardized_message : string;
  failure_iteration : Z
}.

Record FixRecord := mkFix {
  fix_file : string;
  fix_line : Z;
  fix_change_summary : string;
  fix_commit_hash : string;
  fix_iteration : Z
}.

Record CIRunRecord := mkCIRun {
  ci_iteration : Z;
  ci_status : string;
  ci_start_time : string;
  ci_end_time : string
}.

Record t := mkMemory {
  _failures : list FailureRecord;
  _fixes : list FixRecord;
  _ci_runs : list CIRunRecord
}.

Definition init : t := mkMemory [] [] [].

(** Read-only views. *)
Definition failures (m : t) : list FailureRecord :=
  Py.sorted (fun f => (failure_file f, failure_line f)) Py.key_ltb (_failures m).

Definition fixes (m : t) : list FixRecord :=
  Py.sorted (fun f => (fix_file f, fix_line f)) Py.key_ltb (_fixes m).

Definition ci_runs (m : t) : list CIRunRecord := _ci_runs m.

Definition other_iteration {A} (it : A -> Z) (iteration : Z) (r : A) : bool :=
  negb (it r =? iteration).

Definition failure_of_bug (iteration : Z) (bug : BugDict) : FailureRecord :=
  mkFailure (Py.get (bug_file bug) "unknown") (Py.get (bug_line bug) 0)
            (Py.get (bug_type bug) "unknown") (Py.get (bug_message bug) "")
            iteration.

Definition append_failures (m : t) (iteration : Z) (classified_bugs : list BugDict) : t :=
  let kept := List.filter (other_iteration failure_iteration iteration) (_failures m) in
  mkMemory (kept ++ map (failure_of_bug iteration) classified_bugs)
           (_fixes m) (_ci_runs m).

Definition fix_of_patch (iteration : Z) (commit_hash : string) (patch : PatchDict) : FixRecord :=
  let bug := Py.get (patch_bug patch) empty_bug in
  mkFix (Py.get (patch_file patch) (Py.get (bug_file bug) "unknown"))
        (Py.get (bug_line bug) 0)
        (Py.get (patch_description patch) "")
        commit_hash iteration.

Definition append_fixes (m : t) (iteration : Z) (applied_patches : list PatchDict)
    (commit_hash : string) : t :=
  let kept := List.filter (other_iteration fix_iteration iteration) (_fixes m) in
  mkMemory (_failures m)
           (kept ++ map (fix_of_patch iteration commit_hash) applied_patches)
           (_ci_runs m).

(** [now] holds the two readings of the wall clock that the call would make,
    [datetime.now(timezone.utc).isoformat()] for the start and for the end;
    each is used only when the corresponding argument is empty. *)
Definition append_ci_run (m : t) (iteration : Z) (status start_time end_time : string)
    (now : string * string) : t :=
  let kept := List.filter (other_iteration ci_iteration iteration) (_ci_runs m) in
  let start_time := if Py.truthy start_time then start_time else fst now in
  let end_time := if Py.truthy end_time then end_time else snd now in
  mkMemory (_failures m) (_fixes m)
           (kept ++ [mkCIRun iteration status start_time end_time]).

Definition latest_ci_run (m : t) : option CIRunRecord := last (_ci_runs m).

Definition failures_for_iteration (m : t) (iteration : Z) : list FailureRecord :=
  List.filter (fun f => failure_iteration f =? iteration) (_failures m).

Definition fixes_for_iteration (m : t) (iteration : Z) : list FixRecord :=
  List.filter (fun f => fix_iteration f =? iteration) (_fixes m).

End RunMemory.

(* ===================================================================== *)
(** * shared/results_exporter.py *)
(* ===================================================================== *)

Module ResultsExporter.
Import RunMemory.

(** One element of the [fixes] array of the result document. *)
Record FixEntry := mkFixEntry {
  entry_file : string;
  entry_bug_type : string;
  entry_line : Z;
  entry_commit_message : string;
  entry_status : string;
  entry_description : string;
  entry_failure_message : string
}.

(** The pattern [/heal_[^/]+/(.* )] (in comments a space keeps a star and a
    closing parenthesis apart). *)
Definition heal_dir_re : Re.re :=
  Re.seq [Re.lit "/heal_"; Re.plus (Re.noneof "/"); Re.char "/"; Re.Grp 1 (Re.star Re.dot)].

Definition project_markers : list string := ["src/"; "lib/"; "app/"; "tests/"; "test/"].

Fixpoint first_marker (markers : list string) (filepath : string) : option string :=
  match markers with
  | [] => None
  | marker :: rest =>
      match Py.find filepath marker with
      | Some idx => Some (Py.drop idx filepath)
      | None => first_marker rest filepath
      end
  end.

Definition _strip_temp_prefix (filepath : string) : string :=
  match Re.search heal_dir_re filepath with
  | Some m => Re.group_str m 1
  | None =>
      if Py.startswith filepath "/" then
        Py.get (first_marker project_markers filepath) filepath
      else filepath
  end.

Definition _normalize_for_match (filepath : string) : string :=
  _strip_temp_prefix filepath.

(** The four passes of [_infer_bug_type] and [_infer_failure_message]: the
    first failure record that matches, in the order of [memory.failures]. *)
Definition first_match {A} (test : FailureRecord -> bool) (proj : FailureRecord -> A)
    (l : list FailureRecord) : option A :=
  option_map proj (List.find test l).

Definition infer {A} (proj : FailureRecord -> A) (dflt : A) (fix_ : FixRecord) (m : t) : A :=
  let fix_file_ := _normalize_for_match (fix_file fix_) in
  let fix_basename := Py.path_name fix_file_ in
  let fs := failures m in
  match first_match (fun f => String.eqb (_normalize_for_match (failure_file f)) fix_file_
                              && (failure_line f =? fix_line fix_)) proj fs with
  | Some v => v
  | None =>
  match first_match (fun f => String.eqb (_normalize_for_match (failure_file f)) fix_file_) proj fs with
  | Some v => v
  | None =>
  match first_match (fun f => String.eqb (Py.path_name (failure_file f)) fix_basename
                              && (failure_line f =? fix_line fix_)) proj fs with
  | Some v => v
  | None =>
  match first_match (fun f => String.eqb (Py.path_name (failure_file f)) fix_basename) proj fs with
  | Some v => v
  | None => dflt
  end end end end.

Definition _infer_bug_type : FixRecord -> t -> string := infer failure_bug_type "unknown".
Definition _infer_failure_message : FixRecord -> t -> string :=
  infer failure_standardized_message "".

(** The canonical line of [shared/format_fix.py], whose arrow is U+2192. *)
Definition format_fix (bug_type file : string) (line : Z) (message : string) : string :=
  bug_type +:+ " error in " +:+ file +:+ " line " +:+ Py.str_of_Z line
    +:+ " → Fix: " +:+ message.

Definition fix_status (fix_ : FixRecord) (m : t) : string :=
  if existsb (fun ci => (fix_iteration fix_ <=? ci_iteration ci)
                        && String.eqb (ci_status ci) "success") (ci_runs m)
  then "verified" else "applied".

Definition build_fix (m : t) (fix_ : FixRecord) : FixEntry :=
  let status := fix_status fix_ m in
  let rel_file := _strip_temp_prefix (fix_file fix_) in
  let bug_type := _infer_bug_type fix_ m in
  let failure_msg := _infer_failure_message fix_ m in
  let commit_msg := fix_change_summary fix_ in
  let description :=
    bug_type +:+ " error in " +:+ rel_file +:+ " line " +:+ Py.str_of_Z (fix_line fix_)
      +:+ " → Fix: " +:+ commit_msg in
  mkFixEntry rel_file bug_type (fix_line fix_) commit_msg status description failure_msg.

Definition _build_fixes (m : t) : list FixEntry :=
  Py.sorted (fun e => (entry_file e, entry_line e)) Py.key_ltb
            (map (build_fix m) (fixes m)).

Record TimelineEntry := mkTimeline {
  timeline_iteration : Z;
  timeline_status : string;
  timeline_timestamp : string
}.

Definition _build_ci_timeline (m : t) : list TimelineEntry :=
  map (fun ci => mkTimeline (ci_iteration ci)
                   (if String.eqb (ci_status ci) "success" then "PASSED" else "FAILED")
                   (ci_start_time ci))
      (ci_runs m).

Definition _resolve_final_ci_status (m : t) : string :=
  match latest_ci_run m with
  | None => if Py.nonempty (failures m) then "FAILED" else "PASSED"
  | Some latest => if String.eqb (ci_status latest) "success" then "PASSED" else "FAILED"
  end.

(** What [validate_output.py] requires of every [commit_message]. *)
Definition commit_message_tagged (e : FixEntry) : bool :=
  Py.startswith (entry_commit_message e) "[AI-AGENT]".

(** ** The failures array *)

(** One element of the [failures_detected] array. *)
Record FailureEntry := mkFailureEntry {
  detected_file : string;
  detected_line : Z;
  detected_bug_type : string;
  detected_message : string;
  detected_description : string;
  detected_iteration : Z
}.

Definition failure_key (f : FailureRecord) : string * Z * string :=
  (failure_file f, failure_line f, failure_bug_type f).

(** The description of a detection, whose dash is U+2014. *)
Definition detection (f : FailureRecord) : FailureEntry :=
  mkFailureEntry (failure_file f) (failure_line f) (failure_bug_type f)
    (failure_standardized_message f)
    (failure_file f +:+ " — Line " +:+ Py.str_of_Z (failure_line f) +:+ ": "
       +:+ failure_standardized_message f)
    (failure_iteration f).

(** The body of the loop of [_build_failures_detected]: the keys seen and
    the entries so far. *)
Definition detect_step (st : gset (string * Z * string) * list FailureEntry)
    (f : FailureRecord) : gset (string * Z * string) * list FailureEntry :=
  if bool_decide (failure_key f ∈ fst st) then st
  else ({[failure_key f]} ∪ fst st, snd st ++ [detection f]).

Definition _build_failures_detected (m : t) : list FailureEntry :=
  Py.sorted (fun e => (detected_file e, detected_line e)) Py.key_ltb
            (snd (fold_left detect_step (failures m) (∅, []))).

(** ** Commits and score *)

(** [len({fix.commit_hash for fix in memory.fixes if fix.commit_hash})] *)
Definition commit_hashes (m : t) : gset string :=
  list_to_set (List.filter Py.truthy (map fix_commit_hash (fixes m))).

Definition _count_unique_commits (m : t) : Z := Z.of_nat (size (commit_hashes m)).

Record Score := mkScore {
  score_base : Z;
  speed_bonus : Z;
  commit_penalty : Z;
  score_total_commits : Z;
  final_score : Z
}.

(** A Python [float] is a binary64 number; [float_300] is 300.0, that is
    300 * 2^44 * 2^-44 with a mantissa of 53 bits. *)
Definition float_300 : spec_float := S754_finite false 5277655813324800 (-44).

Definition _calculate_score (final_ci : string) (runtime_seconds : spec_float)
    (total_commits : Z) : Score :=
  let base := 100 in
  let speed_bonus := if SFltb runtime_seconds float_300 then 10 else 0 in
  let excess_commits := Z.max (total_commits - 20) 0 in
  let commit_penalty := -2 * excess_commits in
  let final_score := Z.max (base + speed_bonus + commit_penalty) 0 in
  mkScore base speed_bonus commit_penalty total_commits final_score.

(** The score as [build_results] computes it for a memory. *)
Definition score_of (m : t) (runtime_seconds : spec_float) : Score :=
  _calculate_score (_resolve_final_ci_status m) runtime_seconds (_count_unique_commits m).

End ResultsExporter.

(* ===================================================================== *)
(** * shared/format_fix.py *)
(* ===================================================================== *)

Module FormatFix.
Import RunMemory.

Definition format_fix (bug_type file : string) (line : Z) (message : string) : string :=
  bug_type +:+ " error in " +:+ file +:+ " line " +:+ Py.str_of_Z line
    +:+ " → Fix: " +:+ message.

Definition format_failure_record (failure : FailureRecord) : string :=
  format_fix (failure_bug_type failure) (failure_file failure) (failure_line failure)
             (failure_standardized_message failure).

(** The [for ... else] of [format_fix_record]: the first failure at the same
    file and line, else the first failure in the same file, else
    [unknown]. *)
Definition format_fix_record (fix_ : FixRecord) (memory : option RunMemory.t) : string :=
  let bug_type :=
    match memory with
    | None => "unknown"
    | Some m =>
        match List.find (fun f => String.eqb (failure_file f) (fix_file fix_)
                                  && (failure_line f =? fix_line fix_)) (failures m) with
        | Some f => failure_bug_type f
        | None =>
            match List.find (fun f => String.eqb (failure_file f) (fix_file fix_))
                            (failures m) with
            | Some f => failure_bug_type f
            | None => "unknown"
            end
        end
    end in
  format_fix bug_type (fix_file fix_) (fix_line fix_) (fix_change_summary fix_).

(** A fix dictionary as read from the result document: any key may be
    missing. *)
Record FixDict := mkFixDict {
  dict_bug_type : option string;
  dict_file : option string;
  dict_line : option Z;
  dict_commit_message : option string
}.

Definition format_fix_dict (fix_ : FixDict) : string :=
  format_fix (Py.get (dict_bug_type fix_) "unknown") (Py.get (dict_file fix_) "unknown")
             (Py.get (dict_line fix_) 0) (Py.get (dict_commit_message fix_) "").

Definition format_all (fixes : list FixDict) : list string := map format_fix_dict fixes.

(** The keys of an exported fix entry that the formatter reads. *)
Definition dict_of_entry (e : ResultsExporter.FixEntry) : FixDict :=
  mkFixDict (Some (ResultsExporter.entry_bug_type e)) (Some (ResultsExporter.entry_file e))
            (Some (ResultsExporter.entry_line e))
            (Some (ResultsExporter.entry_commit_message e)).

End FormatFix.

(* ===================================================================== *)
(** * agents/bug_classifier/error_classifier.py *)
(* ===================================================================== *)

Module ErrorClassifier.

Inductive BugType := LINTING | SYNTAX | LOGIC | TYPE_ERROR | IMPORT | INDENTATION.

Definition value (t : BugType) : string :=
  match t with
  | LINTING => "LINTING"
  | SYNTAX => "SYNTAX"
  | LOGIC => "LOGIC"
  | TYPE_ERROR => "TYPE_ERROR"
  | IMPORT => "IMPORT"
  | INDENTATION => "INDENTATION"
  end.

Definition all_types : list BugType :=
  [LINTING; SYNTAX; LOGIC; TYPE_ERROR; IMPORT; INDENTATION].

Record BugReport := mkReport {
  file : string;
  line : Z;
  bug_type : string;
  message : string
}.

(** The identity of a bug: [(b.file, b.line, b.bug_type)]. *)
Definition key (b : BugReport) : string * Z * string := (file b, line b, bug_type b).

Definition key_eqb (a b : string * Z * string) : bool :=
  String.eqb (fst (fst a)) (fst (fst b)) && (snd (fst a) =? snd (fst b))
  && String.eqb (snd a) (snd b).

(** ** Regex pass *)

(** A message template is the text before and after its [{detail}] field. *)
Record Template := mkTemplate { before : string; after : string }.

Definition raw (t : Template) : string := before t +:+ "{detail}" +:+ after t.
Definition format (t : Template) (detail : string) : string :=
  before t +:+ detail +:+ after t.

Definition detail_only : Template := mkTemplate "" "".

(** Numbers of the named groups. *)
Definition g_file : nat := 1.
Definition g_line : nat := 2.
Definition g_detail : nat := 3.

Section Rules.
Import Re.

Definition q : string := Py.chr Py.dquote.
Definition file_g (a : re) : re := Grp g_file a.
Definition line_g : re := Grp g_line (plus digit).
Definition detail_g (a : re) : re := Grp g_detail a.

(** All rules are compiled with MULTILINE and IGNORECASE. *)
Definition word_i : re := word.
Definition not_space_colon : re := Chr (fun a => negb (Py.isspace a || Ascii.eqb a ":")).

(** [File "<file>", line <line>] *)
Definition traceback_head (file_body : re) : re :=
  seq [liti "File "; char Py.dquote; file_g file_body; char Py.dquote;
       liti ", line "; line_g].

Definition not_quote_plus : re := plus (noneof q).

(** [File "..", line N(?:.*\n){1,5}.*?(?P<detail>ERR)] *)
Definition traceback_rule (err : re) : re :=
  seq [traceback_head not_quote_plus;
       repeat 1 5 (Seq (star dot) (char Py.nl));
       lazy_star dot; detail_g err].

(** [<file>:<line>] with a file free of blanks and colons. *)
Definition loc (file_body : re) : re := seq [file_g file_body; char ":"; line_g].

Definition js_ext : re := alt [liti "js"; liti "ts"; liti "jsx"; liti "tsx"; liti "mjs"; liti "cjs"].
Definition js_ext_node : re := alt [liti "js"; liti "jsx"; liti "mjs"; liti "cjs"].
Definition tsx : re := Seq (liti "ts") (opt (chari "x")).

(** [Sorry:\s*(?P<detail>ERR.+?)\s*\('?(?P<file>[^']+?)'?,\s*line\s+(?P<line>\d+)\)] *)
Definition sorry_rule (err : string) : re :=
  seq [liti "Sorry:"; star space; detail_g (Seq (liti err) (lazy_plus dot));
       star space; char "("; opt (char Py.squote);
       file_g (lazy_plus (noneof (Py.chr Py.squote))); opt (char Py.squote);
       char ","; star space; liti "line"; plus space; line_g; char ")"].

(** [File "..", line N\n\s+.+\n(?P<detail>ERR.+)] *)
Definition heuristic_rule (file_body : re) (err : string) : re :=
  seq [traceback_head file_body; char Py.nl; plus space; plus dot; char Py.nl;
       detail_g (Seq (liti err) (plus dot))].

Definition alnum_i : re := Chr Py.isalnum.

(** [(?P<file>[^\s:]+\.[a-zA-Z0-9]+):(?P<line>\d+).*\b(?P<detail>(?:KEYWORDS).+)] *)
Definition bare_rule (keywords : list string) : re :=
  seq [loc (seq [plus not_space_colon; char "."; plus alnum_i]);
       star dot; WordB; detail_g (Seq (alt (map liti keywords)) (plus dot))].

Definition _REGEX_RULES : list (re * BugType * Template) :=
  [ (traceback_rule (Seq (liti "IndentationError:") (plus dot)), INDENTATION, detail_only);
    (traceback_rule (Seq (liti "TabError:") (plus dot)), INDENTATION, detail_only);
    (traceback_rule (Seq (liti "SyntaxError:") (plus dot)), SYNTAX, detail_only);
    (traceback_rule (Seq (liti "TypeError:") (plus dot)), TYPE_ERROR, detail_only);
    (traceback_rule (seq [alt [liti "ImportError"; liti "ModuleNotFoundError"];
                          char ":"; plus dot]), IMPORT, detail_only);
    (traceback_rule (Seq (liti "AssertionError") (star dot)), LOGIC, detail_only);
    (seq [loc (plus not_space_colon); lit ": ";
          detail_g (Seq (liti "AssertionError") (star dot))],
     LOGIC, mkTemplate "AssertionError: " "");
    (seq [loc (plus not_space_colon); char ":"; plus digit; char ":"; star space;
          detail_g (seq [oneofi "EWFCB"; plus digit; plus space; plus dot])],
     LINTING, detail_only);
    (seq [loc (plus not_space_colon); char ":"; plus digit; char ":"; star space;
          detail_g (seq [oneofi "CRWEF"; times 4 digit; char ":"; plus dot])],
     LINTING, detail_only);
    (seq [loc (plus not_space_colon); star dot;
          detail_g (seq [opt (oneof (Py.chr Py.squote +:+ q)); plus word_i;
                         opt (oneof (Py.chr Py.squote +:+ q)); plus space;
                         liti "imported but unused"; star dot])],
     LINTING, mkTemplate "unused import: " "");
    (seq [loc (seq [plus not_space_colon; char "."; js_ext]); char Py.nl; star dot;
          char Py.nl; star space; detail_g (Seq (liti "SyntaxError:") (plus dot))],
     SYNTAX, detail_only);
    (seq [file_g (seq [plus (Chr (fun a => negb (Py.isspace a || Ascii.eqb a "(")));
                       char "."; tsx]);
          char "("; line_g; char ","; plus digit; lit "):"; star space; liti "error";
          plus space; detail_g (seq [liti "TS"; plus digit; char ":"; plus dot])],
     TYPE_ERROR, detail_only);
    (seq [loc (seq [plus not_space_colon; char "."; tsx]); char ":"; plus digit;
          star space; char "-"; star space; liti "error"; plus space;
          detail_g (seq [liti "TS"; plus digit; char ":"; plus dot])],
     TYPE_ERROR, detail_only);
    (seq [loc (plus not_space_colon); char ":"; plus digit; plus space;
          alt [liti "error"; liti "warning"]; plus space; detail_g (lazy_plus dot);
          at_least 2 space; plus nonspace],
     LINTING, detail_only);
    (seq [loc (plus not_space_colon); star dot; liti "Cannot find module"; plus space;
          char Py.squote; detail_g (plus (noneof (Py.chr Py.squote))); char Py.squote],
     IMPORT, mkTemplate "Cannot find module '" "'");
    (seq [loc (plus not_space_colon); star dot;
          detail_g (seq [liti "expect("; plus dot; lit ")."; plus word_i; char "(";
                         plus dot; char ")"])],
     LOGIC, mkTemplate "Assertion failure: " "");
    (sorry_rule "SyntaxError:", SYNTAX, detail_only);
    (sorry_rule "IndentationError:", INDENTATION, detail_only);
    (sorry_rule "TabError:", INDENTATION, detail_only);
    (seq [liti "FAIL:"; star space;
          detail_g (seq [alt [liti "SyntaxError"; liti "IndentationError"; liti "TabError"];
                         char ":"; lazy_plus dot]);
          star space; opt (char "(");
          file_g (lazy_plus (Chr (fun a => negb (Py.isspace a || Ascii.eqb a Py.squote
                                                 || Ascii.eqb a ","))));
          alt [char ","; plus space]; liti "line"; plus space; line_g],
     SYNTAX, detail_only);
    (seq [loc (seq [plus not_space_colon; char "."; js_ext_node]); star space;
          char Py.nl; star dot; char Py.nl; char Py.nl; star space;
          detail_g (Seq (liti "SyntaxError:") (plus dot))],
     SYNTAX, detail_only);
    (heuristic_rule not_quote_plus "TypeError:", TYPE_ERROR, detail_only);
    (heuristic_rule not_quote_plus "LogicError:", LOGIC, detail_only);
    (heuristic_rule (Seq not_quote_plus (liti ".java")) "SyntaxError:", SYNTAX, detail_only);
    (seq [traceback_head not_quote_plus; star dot;
          detail_g (seq [liti "expected"; plus dot; char ":"])],
     SYNTAX, detail_only);
    (bare_rule ["IndentationError"; "unexpected indent"; "unindent does not match"],
     INDENTATION, detail_only);
    (bare_rule ["SyntaxError"; "invalid syntax"; "unexpected EOF"; "missing colon"],
     SYNTAX, detail_only);
    (bare_rule ["TypeError"; "type mismatch"; "cannot assign"], TYPE_ERROR, detail_only);
    (bare_rule ["ModuleNotFoundError"; "ImportError"; "No module named";
                "Cannot find module"], IMPORT, detail_only);
    (bare_rule ["AssertionError"; "assertion failed"; "assert "], LOGIC, detail_only) ].
End Rules.

(** The bug a match stands for. *)
Definition report_of (bug_type : BugType) (msg_template : Template) (m : Re.match_) : BugReport :=
  let file := Re.group_str m g_file in
  let line := Py.int_of (Re.group_str m g_line) in
  let detail := Re.group_str m g_detail in
  let message :=
    if Py.truthy detail then format msg_template (Py.strip detail) else raw msg_template in
  mkReport file line (value bug_type) message.

Definition recorded (k : string * Z * string) (bugs : list BugReport) : bool :=
  existsb (fun b => key_eqb (key b) k) bugs.

(** The state of the two nested loops: the bugs and the matched spans. *)
Definition acc : Type := list BugReport * list (nat * nat).

Definition record_match (bug_type : BugType) (msg_template : Template) (a : acc)
    (m : Re.match_) : acc :=
  let b := report_of bug_type msg_template m in
  if recorded (key b) (fst a) then a
  else (fst a ++ [b], snd a ++ [(Re.m_start m, Re.m_end m)]).

Definition apply_rule (log : string) (a : acc) (rule : Re.re * BugType * Template) : acc :=
  let '(pattern, bug_type, msg_template) := rule in
  fold_left (record_match bug_type msg_template) (Re.finditer pattern log) a.

Definition regex_pass (rules : list (Re.re * BugType * Template)) (log : string) : acc :=
  fold_left (apply_rule log) rules ([], []).

(** Every match of every rule, in the order in which the loops visit them. *)
Definition candidates (rules : list (Re.re * BugType * Template)) (log : string)
    : list BugReport :=
  flat_map (fun rule : Re.re * BugType * Template =>
              let '(pattern, bug_type, msg_template) := rule in
              map (report_of bug_type msg_template) (Re.finditer pattern log))
           rules.

(** The first record of a list that carries the key [k]. *)
Definition first_with (k : string * Z * string) (l : list BugReport) : option BugReport :=
  List.find (fun b => key_eqb (key b) k) l.

(** *** The text left for the language model *)

Definition span_ltb (a b : nat * nat) : bool :=
  if (fst a =? fst b)%nat then (snd a <? snd b)%nat else (fst a <? fst b)%nat.

(** [sorted(spans, reverse=True)] *)
Definition sorted_desc (spans : list (nat * nat)) : list (nat * nat) :=
  Py.sorted (fun sp => sp) (fun a b => span_ltb b a) spans.

(** [del l[start:end]] *)
Definition del_slice {A} (start stop : nat) (l : list A) : list A :=
  List.firstn start l ++ List.skipn (Nat.max start stop) l.

Definition unmatched_chars (log : string) (spans : list (nat * nat)) : list nat :=
  fold_left (fun chars sp => del_slice (fst sp) (snd sp) chars)
            (sorted_desc spans) (List.seq 0 (Py.len log)).

(** The lines of the log with their claimed offsets
    [sum(len(l) + 1 for l in log.splitlines()[:i])]. *)
Fixpoint with_offsets (start : nat) (lines : list string) : list (nat * string) :=
  match lines with
  | [] => []
  | l :: rest => (start, l) :: with_offsets (start + Py.len l + 1) rest
  end.

Definition mem_nat (n : nat) (l : list nat) : bool := existsb (Nat.eqb n) l.

Definition unmatched_lines (log : string) (spans : list (nat * nat)) : list string :=
  let remaining := unmatched_chars log spans in
  flat_map
    (fun ol : nat * string =>
       let '(line_start, l) := ol in
       if existsb (fun p => mem_nat p remaining) (List.seq line_start (Py.len l)) then
         let stripped := Py.strip l in
         if Py.truthy stripped && negb (Py.startswith stripped "Traceback")
            && (10 <? Py.len stripped)%nat
         then [stripped] else []
       else [])
    (with_offsets 0 (Py.splitlines false log)).

Definition is_useful (ln : string) : bool :=
  let s := Py.strip ln in
  Py.truthy s
  && negb (Py.startswith s "---")
  && negb (Py.startswith s "===")
  && negb (Py.startswith s "FAILED")
  && negb (Py.startswith s "PASSED")
  && negb (Py.contains (Py.lower ln) "short test summary").

(** [--- SOURCE ANALYSIS .+?---\n.+?\n--- END .+?---] with DOTALL *)
Definition source_block_pattern : Re.re :=
  Re.seq [Re.lit "--- SOURCE ANALYSIS "; Re.lazy_plus Re.any; Re.lit "---"; Re.char Py.nl;
          Re.lazy_plus Re.any; Re.char Py.nl; Re.lit "--- END "; Re.lazy_plus Re.any;
          Re.lit "---"].

Definition _regex_classify (log : string) : list BugReport * list string :=
  let '(bugs, matched_spans) := regex_pass _REGEX_RULES log in
  let unmatched_text :=
    if Py.nonempty matched_spans
    then Py.join Py.NL (unmatched_lines log matched_spans)
    else log in
  let useful := List.filter is_useful (Py.splitlines false unmatched_text) in
  let source_blocks :=
    map (fun m => Re.group_str m 0) (Re.finditer source_block_pattern log) in
  (bugs, useful ++ source_blocks).

(** ** Language-model fallback *)

(** One object of the JSON array that the model returns. *)
Record LlmItem := mkItem {
  item_file : option string;
  item_line : option Z;
  item_bug_type : option string;
  item_message : option string
}.

Definition upper_char (c : ascii) : ascii :=
  if Py.islower c then ascii_of_nat (Py.code c - 32) else c.

Fixpoint upper (s : string) : string :=
  match s with
  | EmptyString => EmptyString
  | String c s' => String (upper_char c) (upper s')
  end.

Definition valid_type (t : string) : bool :=
  existsb (fun v => String.eqb (value v) t) all_types.

Definition report_of_item (item : LlmItem) : list BugReport :=
  let bug_type := upper (Py.get (item_bug_type item) "") in
  if valid_type bug_type then
    [mkReport (Py.get (item_file item) "unknown") (Py.get (item_line item) 0)
              bug_type (Py.get (item_message item) "")]
  else [].

(** [ask] stands for the exchange with the model, retries included: the
    decoded array, or [None] when every attempt failed. *)
Definition _llm_classify (api_key : string) (ask : list string -> option (list LlmItem))
    (lines : list string) : list BugReport :=
  if negb (Py.nonempty lines) then []
  else if negb (Py.truthy api_key) then []
  else match ask lines with
       | Some items => flat_map report_of_item items
       | None => []
       end.

(** ** Test-file detection *)

Definition anchored (body : list Re.re) : Re.re :=
  Re.seq (Re.alt [Re.Bos; Re.char "/"] :: body).

Definition _TEST_FILE_RE : list Re.re :=
  [ anchored [Re.lit "test_"; Re.plus (Re.noneof "/"); Re.lit ".py"; Re.Eol];
    anchored [Re.plus (Re.noneof "/"); Re.lit "_test.py"; Re.Eol];
    anchored [Re.lit "test"; Re.opt (Re.char "s"); Re.char "/"];
    anchored [Re.lit "conftest.py"; Re.Eol];
    anchored [Re.lit "__tests__/"] ].

Definition _is_test_path (filepath : string) : bool :=
  existsb (fun p => Re.found p filepath) _TEST_FILE_RE.

(** ** Re-attribution of test-file bugs *)

(** [FAILED\s+(\S+?)::(\S+)\s+-\s+(.+)] *)
Definition failed_pattern : Re.re :=
  Re.seq [Re.lit "FAILED"; Re.plus Re.space; Re.Grp 1 (Re.lazy_plus Re.nonspace);
          Re.lit "::"; Re.Grp 2 (Re.plus Re.nonspace); Re.plus Re.space; Re.char "-";
          Re.plus Re.space; Re.Grp 3 (Re.plus Re.dot)].

(** The traceback shape: the word File, a quoted path (group 1), then
    [, line (\d+)] (group 2). *)
Definition file_ref_verbose : Re.re :=
  Re.seq [Re.lit "File "; Re.char Py.dquote; Re.Grp 1 (Re.plus (Re.noneof q));
          Re.char Py.dquote; Re.lit ", line "; Re.Grp 2 (Re.plus Re.digit)].

(** [^(\S+\.(?:py|js|ts|jsx|tsx)):(\d+):] with MULTILINE *)
Definition file_ref_short : Re.re :=
  Re.seq [Re.BolM;
          Re.Grp 1 (Re.seq [Re.plus Re.nonspace; Re.char ".";
                            Re.alt [Re.lit "py"; Re.lit "js"; Re.lit "ts"; Re.lit "jsx";
                                    Re.lit "tsx"]]);
          Re.char ":"; Re.Grp 2 (Re.plus Re.digit); Re.char ":"].

(** [_{5,}\s+(\S+)\s+_{5,}(.*?)(?=_{5,}\s+\S+\s+_{5,}|={5,}|\Z)] with DOTALL *)
Definition test_section_re : Re.re :=
  let bar := Re.at_least 5 (Re.char "_") in
  Re.seq [bar; Re.plus Re.space; Re.Grp 1 (Re.plus Re.nonspace); Re.plus Re.space; bar;
          Re.Grp 2 (Re.lazy_star Re.any);
          Re.Ahead (Re.alt [Re.seq [bar; Re.plus Re.space; Re.plus Re.nonspace;
                                    Re.plus Re.space; bar];
                            Re.at_least 5 (Re.char "=");
                            Re.EndZ])].

(** What the summary says about a failed test. *)
Record FailedTest := mkFailed { test_path : string; error_msg : string }.

(** The dictionary [failed_tests]: a later summary line of the same test name
    replaces an earlier one. *)
Definition failed_tests (log : string) : gmap string FailedTest :=
  fold_left (fun d m => <[Re.group_str m 2 := mkFailed (Re.group_str m 1)
                                                       (Py.strip (Re.group_str m 3))]> d)
            (Re.finditer failed_pattern log) ∅.

Definition ref_of (m : Re.match_) : string * Z :=
  (Re.group_str m 1, Py.int_of (Re.group_str m 2)).

(** Every reference of a section: those of the traceback shape first, then
    those of the short shape. *)
Definition file_refs (section_text : string) : list (string * Z) :=
  map ref_of (Re.finditer file_ref_verbose section_text)
  ++ map ref_of (Re.finditer file_ref_short section_text).

Definition is_source_ref (r : string * Z) : bool :=
  let f := fst r in
  negb (_is_test_path f)
  && negb (Py.contains f "/site-packages/")
  && negb (Py.startswith f "/usr/")
  && negb (Py.startswith f "<").

Definition source_refs (section_text : string) : list (string * Z) :=
  List.filter is_source_ref (file_refs section_text).

Definition strip_workspace (src_file : string) : string :=
  if Py.startswith src_file "/workspace/" then Py.drop (Py.len "/workspace/") src_file
  else src_file.

Definition infer_type (error_msg : string) : string :=
  let el := Py.lower error_msg in
  if Py.contains el "indexerror" then value LOGIC
  else if Py.contains el "zerodivisionerror" then value LOGIC
  else if Py.contains el "recursionerror" then value LOGIC
  else if Py.contains el "typeerror" then value TYPE_ERROR
  else if Py.contains el "importerror" || Py.contains el "modulenotfound" then value IMPORT
  else if Py.contains el "syntaxerror" then value SYNTAX
  else if Py.contains el "indentationerror" then value INDENTATION
  else value LOGIC.

(** The bug traced from one section of the log, if any. *)
Definition trace_section (failed : gmap string FailedTest) (section_match : Re.match_)
    : list BugReport :=
  let test_name := Re.group_str section_match 1 in
  let section_text := Re.group_str section_match 2 in
  match failed !! test_name with
  | None => []
  | Some info =>
      match last (source_refs section_text) with
      | None => []
      | Some (src_file, src_line) =>
          [mkReport (strip_workspace src_file) src_line (infer_type (error_msg info))
                    (error_msg info)]
      end
  end.

Definition source_bugs_from_tracebacks (log : string) : list BugReport :=
  flat_map (trace_section (failed_tests log)) (Re.finditer test_section_re log).

(** Keep the first bug of every key. *)
Definition dedup_step (st : gset (string * Z * string) * list BugReport) (b : BugReport)
    : gset (string * Z * string) * list BugReport :=
  if bool_decide (key b ∈ fst st) then st
  else ({[key b]} ∪ fst st, snd st ++ [b]).

Definition dedup (bugs : list BugReport) : list BugReport :=
  snd (fold_left dedup_step bugs (∅, [])).

Definition _trace_test_bugs_to_source (bugs : list BugReport) (log : string) : list BugReport :=
  if bool_decide (failed_tests log = ∅) then bugs
  else
    let traced := source_bugs_from_tracebacks log in
    if negb (Py.nonempty traced) then bugs
    else
      let non_test_bugs := List.filter (fun b => negb (_is_test_path (file b))) bugs in
      dedup (non_test_bugs ++ traced).

(** ** Public API *)

Definition by_location (bugs : list BugReport) : list BugReport :=
  Py.sorted (fun b => (file b, line b)) Py.key_ltb bugs.

Definition classify_errors (log : string) : list BugReport :=
  by_location (fst (_regex_classify log)).

(** Merge of the model's bugs into the regex bugs: a key already present is
    skipped. *)
Definition merge_step (st : gset (string * Z * string) * list BugReport) (lb : BugReport)
    : gset (string * Z * string) * list BugReport :=
  if bool_decide (key lb ∈ fst st) then st
  else ({[key lb]} ∪ fst st, snd st ++ [lb]).

Definition merge_llm (bugs llm_bugs : list BugReport) : list BugReport :=
  snd (fold_left merge_step llm_bugs (list_to_set (map key bugs), bugs)).

Definition classify_errors_async (api_key : string)
    (ask : list string -> option (list LlmItem)) (log : string) : list BugReport :=
  let '(bugs, unmatched) := _regex_classify log in
  let bugs :=
    if Py.nonempty unmatched
    then merge_llm bugs (_llm_classify api_key ask unmatched)
    else bugs in
  by_location (_trace_test_bugs_to_source bugs log).

End ErrorClassifier.
(* ===================================================================== *)
(** * agents/tools/failure_classifier_tool.py *)
(* ===================================================================== *)

(** The part of [pathlib] and of the operating system that the tools use.
    The working tree itself is a finite map from the path of a file, as
    [str(path)] prints it, to its content. *)
Record Os := mkOs {
  path_of     : string -> string;                     (* [str(Path(s))] *)
  path_join   : string -> string -> string;           (* [str(Path(a) / b)] *)
  is_absolute : string -> bool;
  resolve     : string -> string;                     (* [str(Path(s).resolve())] *)
  relative_to : string -> string -> option string;    (* [None]: ValueError *)
  rglob       : gmap string string -> string -> string -> list string;
                                              (* [sorted(repo_path.rglob(name))] *)
  read_error  : string -> option string;      (* the exception that [read_text] raises *)
  write_error : string -> option string;      (* the exception that [write_text] raises *)
  write_left  : string -> string -> option string
      (* what a [write_text] that raised leaves in the file, from the path and
         the text to write: [None] when the file was not opened, else the part
         of the text that was written, the empty string when the file was only
         truncated *)
}.

Module FailureClassifierTool.
Import RunMemory.

Definition _SEVERITY (bug_type : string) : option string :=
  if String.eqb bug_type "SYNTAX" then Some "high"
  else if String.eqb bug_type "INDENTATION" then Some "high"
  else if String.eqb bug_type "IMPORT" then Some "high"
  else if String.eqb bug_type "TYPE_ERROR" then Some "medium"
  else if String.eqb bug_type "LOGIC" then Some "medium"
  else if String.eqb bug_type "LINTING" then Some "low"
  else None.

Definition _FIX_HINTS (bug_type : string) : option string :=
  if String.eqb bug_type "SYNTAX"
  then Some "Check for missing colons, brackets, or parentheses."
  else if String.eqb bug_type "INDENTATION"
  then Some "Align indentation to surrounding block."
  else if String.eqb bug_type "IMPORT"
  then Some "Verify module name and ensure package is installed."
  else if String.eqb bug_type "TYPE_ERROR"
  then Some "Check argument types match the function signature."
  else if String.eqb bug_type "LOGIC"
  then Some "Review assertion: expected vs actual values differ."
  else if String.eqb bug_type "LINTING"
  then Some "Remove unused import or fix style violation."
  else None.

Definition _normalize_path (os : Os) (filepath repo_path : string) : string :=
  if negb (Py.truthy filepath) || negb (Py.truthy repo_path) then filepath
  else
    let rp := resolve os repo_path in
    let relative :=
      if is_absolute os filepath then
        match relative_to os filepath rp with
        | Some r => Some r
        | None => relative_to os filepath repo_path
        end
      else None in
    match relative with
    | Some r => r
    | None =>
        let repo_str := Py.rstrip_chars "/" rp +:+ "/" in
        if Py.startswith filepath repo_str then Py.drop (Py.len repo_str) filepath
        else
          let repo_str2 := Py.rstrip_chars "/" repo_path +:+ "/" in
          if Py.startswith filepath repo_str2 then Py.drop (Py.len repo_str2) filepath
          else filepath
    end.

Definition enrich (os : Os) (repo_path : string) (bug : ErrorClassifier.BugReport) : BugDict :=
  let t := ErrorClassifier.bug_type bug in
  mkBug (Some (_normalize_path os (ErrorClassifier.file bug) repo_path))
        (Some (ErrorClassifier.line bug))
        (Some t)
        (Some (ErrorClassifier.message bug))
        (Some (Py.get (_SEVERITY t) "low"))
        (Some (Py.get (_FIX_HINTS t) "Manual investigation required."))
        None.

Definition severity_order (severity : string) : Z :=
  if String.eqb severity "high" then 0
  else if String.eqb severity "medium" then 1
  else if String.eqb severity "low" then 2
  else 3.

(** The sort key [(severity_order, file, line)]. *)
Definition sort_key (b : BugDict) : Z * (string * Z) :=
  (severity_order (Py.get (bug_severity b) ""), (Py.get (bug_file b) "", Py.get (bug_line b) 0)).

Definition sort_key_ltb (a b : Z * (string * Z)) : bool :=
  if fst a =? fst b then Py.key_ltb (snd a) (snd b) else fst a <? fst b.

(** The key [(b["file"], b["line"], b["bug_type"])]. *)
Definition dict_key (b : BugDict) : option string * option Z * option string :=
  (bug_file b, bug_line b, bug_type b).

Definition unique_step
    (st : gset (option string * option Z * option string) * list BugDict) (b : BugDict)
    : gset (option string * option Z * option string) * list BugDict :=
  if bool_decide (dict_key b ∈ fst st) then st
  else ({[dict_key b]} ∪ fst st, snd st ++ [b]).

Definition unique (classified : list BugDict) : list BugDict :=
  snd (fold_left unique_step classified (∅, [])).

(** The [classified_bugs] output of [execute].  [test_output] and
    [repo_path] are the two state keys that the tool reads. *)
Definition execute (os : Os) (api_key : string)
    (ask : list string -> option (list ErrorClassifier.LlmItem))
    (test_output : option string) (repo_path : option string) : list BugDict :=
  let test_output := Py.get test_output "" in
  let repo_path := Py.get repo_path "" in
  if negb (Py.truthy test_output) then []
  else
    let bugs := ErrorClassifier.classify_errors_async api_key ask test_output in
    if negb (Py.nonempty bugs) then []
    else
      let classified := map (enrich os repo_path) bugs in
      unique (Py.sorted sort_key sort_key_ltb classified).

End FailureClassifierTool.
(* ===================================================================== *)
(** * agents/tools/fix_planner_tool.py *)
(* ===================================================================== *)

(** Plan entries, shared by the planner and the applier. *)
Record PlanEntry := mkEntry {
  plan_bug            : option RunMemory.BugDict;
  plan_strategy       : option string;
  plan_reason         : option string;
  plan_description    : option string;
  plan_target_file    : option string;
  plan_source_context : option string;
  plan_line_range     : option (Z * Z)
}.

(** Slices and the working tree. *)
Module Tree.

(** [l[start:stop]] for integers of either sign. *)
Definition clip (len : nat) (i : Z) : nat :=
  if i <? 0 then Z.to_nat (Z.max 0 (Z.of_nat len + i))
  else Nat.min (Z.to_nat i) len.

Definition slice {A} (start stop : Z) (l : list A) : list A :=
  let a := clip (List.length l) start in
  let b := clip (List.length l) stop in
  List.firstn (b - a) (List.skipn a l).

(** [l[:stop]] and [l[start:]]. *)
Definition slice_to {A} (stop : Z) (l : list A) : list A := slice 0 stop l.
Definition slice_from {A} (start : Z) (l : list A) : list A :=
  List.skipn (clip (List.length l) start) l.

(** [l.insert(i, x)] and [l.pop(i)] for an index within the list. *)
Definition insert_at {A} (i : nat) (x : A) (l : list A) : list A :=
  List.firstn i l ++ x :: List.skipn i l.

Definition pop {A} (i : nat) (l : list A) : list A :=
  List.firstn i l ++ List.skipn (S i) l.

Definition is_file (fs : gmap string string) (path : string) : bool :=
  bool_decide (is_Some (fs !! path)).

(** [path.read_text(encoding="utf-8", errors="replace")]: the content, or the
    text of the exception. *)
Definition read_text (os : Os) (fs : gmap string string) (path : string) : string + string :=
  match read_error os path with
  | Some exc => inr exc
  | None =>
      match fs !! path with
      | Some content => inl content
      | None => inr ("[Errno 2] No such file or directory: '" +:+ path +:+ "'")
      end
  end.

(** The format [{n:4d}] of an f-string. *)
Definition fmt4d (n : Z) : string :=
  let s := Py.str_of_Z n in
  Py.repeat_char " " (4 - Py.len s) +:+ s.

(** The numbered listing of a window of lines. *)
Fixpoint numbered (first : Z) (lines : list string) : string :=
  match lines with
  | [] => ""
  | ln :: rest => fmt4d first +:+ " | " +:+ ln +:+ numbered (first + 1) rest
  end.

End Tree.

Module FixPlanner.
Import RunMemory.

Definition _TEST_FILE_PATTERNS : list Re.re :=
  [ ErrorClassifier.anchored [Re.lit "test_"; Re.plus (Re.noneof "/"); Re.lit ".py"; Re.Eol];
    ErrorClassifier.anchored [Re.plus (Re.noneof "/"); Re.lit "_test.py"; Re.Eol];
    ErrorClassifier.anchored
      [Re.plus (Re.noneof "/"); Re.char "."; Re.alt [Re.lit "test"; Re.lit "spec"];
       Re.char ".";
       Re.alt [Re.lit "js"; Re.lit "ts"; Re.lit "jsx"; Re.lit "tsx"; Re.lit "mjs"; Re.lit "cjs"];
       Re.Eol];
    ErrorClassifier.anchored [Re.lit "__tests__/"];
    ErrorClassifier.anchored [Re.lit "test"; Re.opt (Re.char "s"); Re.lit "/test_"];
    ErrorClassifier.anchored [Re.lit "conftest.py"; Re.Eol] ].

Definition _is_test_file (filepath : string) : bool :=
  existsb (fun p => Re.found p filepath) _TEST_FILE_PATTERNS.

Definition open_count (opening closing : ascii) (s : string) : Z :=
  Z.of_nat (Py.count_char opening s) - Z.of_nat (Py.count_char closing s).

Definition _choose_strategy (bug_type : string) (line_no : Z) (message : string)
    (lines : list string) : string * string :=
  if (line_no <? 1) || (Z.of_nat (List.length lines) <? line_no) then
    ("llm", "Line out of range; will use LLM to infer fix.")
  else
    let original_line := nth (Z.to_nat (line_no - 1)) lines "" in
    let n := Py.str_of_Z line_no in
    let low := Py.lower message in
    let stripped := Py.rstrip original_line in
    let open_p := open_count "(" ")" stripped in
    let open_b := open_count "[" "]" stripped in
    let open_c := open_count "{" "}" stripped in
    if String.eqb bug_type "INDENTATION" then
      ("deterministic_indent",
       "Fix indentation at line " +:+ n +:+ " to match surrounding block.")
    else if String.eqb bug_type "SYNTAX" && Py.contains low "expected ':'"
            && negb (Py.endswith stripped ":") then
      ("deterministic_colon", "Add missing colon at end of line " +:+ n +:+ ".")
    else if String.eqb bug_type "SYNTAX" && Py.contains low "missing semicolon" then
      ("deterministic_semicolon", "Add missing semicolon at end of line " +:+ n +:+ ".")
    else if String.eqb bug_type "SYNTAX"
            && (Py.contains message "unexpected EOF" || Py.contains low "expected")
            && ((0 <? open_p) || (0 <? open_b) || (0 <? open_c)) then
      ("deterministic_bracket",
       "Add missing bracket(s) '"
         +:+ Py.repeat_char ")" (Z.to_nat open_p) +:+ Py.repeat_char "]" (Z.to_nat open_b)
         +:+ Py.repeat_char "}" (Z.to_nat open_c) +:+ "' at line " +:+ n +:+ ".")
    else if String.eqb bug_type "LINTING"
            && (Py.contains low "imported but unused" || Py.contains low "f401"
                || Py.contains low "unused import") then
      ("deterministic_unused_import",
       "Remove unused import at line " +:+ n +:+ ": " +:+ message)
    else if String.eqb bug_type "TYPE_ERROR" && Py.contains low "is not a function" then
      ("deterministic_type_error", "Fix type error at line " +:+ n +:+ ": " +:+ message)
    else if String.eqb bug_type "LOGIC"
            && (Py.contains low "should multiply" || Py.contains low "should divide"
                || Py.contains low "should add" || Py.contains low "should subtract") then
      ("deterministic_logic", "Fix logic error at line " +:+ n +:+ ": " +:+ message)
    else if Py.contains low "zerodivisionerror"
            || (String.eqb bug_type "LOGIC" && Py.contains original_line "/") then
      ("deterministic_zero_division",
       "Add zero-division guard at line " +:+ n +:+ ": " +:+ message)
    else if Py.contains low "indexerror"
            || (String.eqb bug_type "LOGIC"
                && (Py.contains original_line "[" || Py.contains original_line "split")) then
      ("deterministic_index_error", "Add bounds check at line " +:+ n +:+ ": " +:+ message)
    else if Py.contains low "recursion" then
      ("deterministic_recursion_error",
       "Add recursion base-case guard at line " +:+ n +:+ ": " +:+ message)
    else
      ("llm", "Use LLM (temperature=0) to generate minimal fix for " +:+ bug_type
              +:+ " at line " +:+ n +:+ ": " +:+ message).

Definition _plan_one (os : Os) (fs : gmap string string) (bug : BugDict) (repo_path : string)
    : PlanEntry :=
  let filepath := Py.get (bug_file bug) "unknown" in
  let bug_type := Py.get (RunMemory.bug_type bug) "" in
  let line_no := Py.get (bug_line bug) 0 in
  let message := Py.get (bug_message bug) "" in
  if _is_test_file filepath then
    mkEntry (Some bug) (Some "skip_test_file") (Some "Will not modify test files.") None
            (Some filepath) (Some "") None
  else
    let expected := path_join os repo_path filepath in
    let found :=
      if Tree.is_file fs expected then Some expected
      else head (rglob os fs repo_path (Py.path_name filepath)) in
    match found with
    | None =>
        mkEntry (Some bug) (Some "unresolvable") (Some ("File not found: " +:+ filepath)) None
                (Some filepath) (Some "") None
    | Some abs_path =>
        match Tree.read_text os fs abs_path with
        | inr exc =>
            mkEntry (Some bug) (Some "unresolvable") (Some ("Cannot read file: " +:+ exc)) None
                    (Some abs_path) (Some "") None
        | inl content =>
            let lines := Py.splitlines true content in
            let start := Z.max 0 (line_no - 16) in
            let stop := Z.min (Z.of_nat (List.length lines)) (line_no + 15) in
            let snippet := Tree.numbered (start + 1) (Tree.slice start stop lines) in
            let '(strategy, description) := _choose_strategy bug_type line_no message lines in
            mkEntry (Some bug) (Some strategy) None (Some description) (Some abs_path)
                    (Some snippet) (Some (start + 1, stop))
        end
    end.

(** Keys of fixes made before: [(file, bug_type)] pairs. *)
Definition prev_fix_keys (memory : option RunMemory.t) (applied_patches : list PatchDict)
    : gset (string * string) :=
  list_to_set
    (match memory with
     | Some m => map (fun f => (fix_file f, "")) (RunMemory.fixes m)
     | None => []
     end
     ++ map (fun p => let b := Py.get (patch_bug p) empty_bug in
                      (Py.get (bug_file b) "", Py.get (RunMemory.bug_type b) ""))
            applied_patches).

Definition escalate (bug : BugDict) : BugDict :=
  mkBug (bug_file bug) (bug_line bug) (RunMemory.bug_type bug) (bug_message bug)
        (bug_severity bug) (bug_fix_hint bug) (Some true).

Definition plan_step (os : Os) (fs : gmap string string) (repo_path : string)
    (prev : gset (string * string))
    (st : gset (string * Z) * list PlanEntry) (bug : BugDict)
    : gset (string * Z) * list PlanEntry :=
  let filepath := Py.get (bug_file bug) "unknown" in
  let line_no := Py.get (bug_line bug) 0 in
  let loc := (filepath, line_no) in
  if bool_decide (loc ∈ fst st) then st
  else
    let bug_type := Py.get (RunMemory.bug_type bug) "" in
    let already_tried :=
      bool_decide ((filepath, bug_type) ∈ prev) || bool_decide ((filepath, "") ∈ prev) in
    let bug := if already_tried then escalate bug else bug in
    let entry := _plan_one os fs bug repo_path in
    let entry :=
      if already_tried && Py.startswith (Py.get (plan_strategy entry) "") "deterministic"
      then mkEntry (plan_bug entry) (Some "llm") (plan_reason entry)
                   (Some ("Escalated to LLM: deterministic fix already failed for "
                          +:+ bug_type +:+ " in " +:+ filepath))
                   (plan_target_file entry) (plan_source_context entry)
                   (plan_line_range entry)
      else entry in
    ({[loc]} ∪ fst st, snd st ++ [entry]).

(** The [fix_plan] output of [execute]. *)
Definition execute (os : Os) (fs : gmap string string) (memory : option RunMemory.t)
    (applied_patches : list PatchDict) (bugs : list BugDict) (repo_path : string)
    : list PlanEntry :=
  snd (fold_left (plan_step os fs repo_path (prev_fix_keys memory applied_patches))
                 bugs (∅, [])).

End FixPlanner.
(* ===================================================================== *)
(** * agents/tools/patch_applier_tool.py *)
(* ===================================================================== *)

Module PatchApplier.
Import RunMemory.

Definition MAX_CHANGED_LINES : nat := 20.

Definition _TEST_FILE_PATTERNS : list Re.re := FixPlanner._TEST_FILE_PATTERNS.

Definition _is_test_file (filepath : string) : bool :=
  existsb (fun p => Re.found p filepath) _TEST_FILE_PATTERNS.

(** ** Helpers on lines *)

(** [len(line) - len(line.lstrip())] *)
Definition indent_of (line : string) : nat := Py.len line - Py.len (Py.lstrip line).

(** [line[:n]] *)
Definition pad_of (line : string) : string := Py.take (indent_of line) line.

Definition spaces (n : nat) : string := Py.repeat_char " " n.

(** Insertion-ordered counting, as a [dict] does it. *)
Fixpoint bump (k : nat) (counts : list (nat * nat)) : list (nat * nat) :=
  match counts with
  | [] => [(k, 1%nat)]
  | (k', n) :: rest => if (k =? k')%nat then (k', S n) :: rest else (k', n) :: bump k rest
  end.

(** [Counter(l).most_common(1)[0][0]]: the first key of the highest count. *)
Fixpoint most_common_from (best : nat * nat) (counts : list (nat * nat)) : nat :=
  match counts with
  | [] => fst best
  | (k, n) :: rest =>
      if (snd best <? n)%nat then most_common_from (k, n) rest
      else most_common_from best rest
  end.

Definition most_common (l : list nat) (dflt : nat) : nat :=
  match fold_left (fun counts k => bump k counts) l [] with
  | [] => dflt
  | first :: rest => most_common_from first rest
  end.

Fixpoint diffs (sorted_indents : list nat) : list nat :=
  match sorted_indents with
  | a :: ((b :: _) as rest) =>
      if (0 <? b - a)%nat then (b - a)%nat :: diffs rest else diffs rest
  | _ => []
  end.

Definition counted_indent (line : string) : list nat :=
  let stripped := Py.lstrip line in
  if Py.truthy stripped && negb (Py.startswith stripped "#") then
    let indent := (Py.len line - Py.len stripped)%nat in
    if (0 <? indent)%nat then [indent] else []
  else [].

Definition _detect_indent_unit (lines : list string) : nat :=
  let indent_counts := fold_left (fun counts k => bump k counts)
                                 (flat_map counted_indent lines) [] in
  match indent_counts with
  | [] => 4%nat
  | _ =>
      let indents := Py.sorted (fun k => k) Nat.ltb (map fst indent_counts) in
      match diffs indents with
      | [] => hd 4%nat indents
      | ds => most_common ds 4%nat
      end
  end.

Definition _detect_indent_string (lines : list string) : string :=
  if existsb (fun line => Py.startswith line (Py.chr Py.tab)) lines then Py.chr Py.tab
  else spaces (_detect_indent_unit lines).

(** The lines [lines[i]] for [i] in [range(idx - 1, max(idx - span, -1), -1)],
    each with its index. *)
Definition above (span idx : nat) (lines : list string) : list (nat * string) :=
  let lowest := (idx - (span - 1))%nat in
  List.rev (List.filter (fun il : nat * string => (lowest <=? fst il)%nat)
                        (List.combine (List.seq 0 idx) (List.firstn idx lines))).

(** ** Deterministic rules *)

Definition _fix_indentation (lines : list string) (idx : nat) : option (list string) :=
  match idx with
  | O => None
  | _ =>
      (* the nearest line above that is not blank *)
      match List.find (fun l => Py.truthy (Py.strip l)) (List.rev (List.firstn idx lines)) with
      | None => None
      | Some prev_line =>
          let prev_indent := indent_of prev_line in
          let prev_stripped := Py.rstrip prev_line in
          let indent_unit := _detect_indent_unit lines in
          let expected_indent :=
            if Py.endswith prev_stripped ":" then (prev_indent + indent_unit)%nat
            else prev_indent in
          let current_line := nth idx lines "" in
          let current_indent := indent_of current_line in
          if Py.endswith prev_stripped ":" && (current_indent <=? prev_indent)%nat then
            Some (Tree.insert_at idx (spaces expected_indent +:+ "pass" +:+ Py.NL) lines)
          else if (current_indent =? expected_indent)%nat then None
          else Some (<[idx := spaces expected_indent +:+ Py.lstrip current_line]> lines)
      end
  end.

Definition q1 : string := Py.chr Py.squote.
Definition q2 : string := Py.chr Py.dquote.
Definition quote : Re.re := Re.oneof (q1 +:+ q2).

(** The quoted name followed by [imported but unused], with IGNORECASE. *)
Definition unused_quoted_re : Re.re :=
  Re.seq [quote; Re.Grp 1 (Re.plus (Re.noneof (q1 +:+ q2))); quote; Re.star Re.dot;
          Re.liti "imported but unused"].

(** [unused import:?\s*] then an optional quote, [(\S+)] and an optional
    quote, with IGNORECASE. *)
Definition unused_import_re : Re.re :=
  Re.seq [Re.liti "unused import"; Re.opt (Re.char ":"); Re.star Re.space; Re.opt quote;
          Re.Grp 1 (Re.plus Re.nonspace); Re.opt quote].

(** [(from\s+\S+\s+import\s+)(.* )] *)
Definition from_import_re : Re.re :=
  Re.seq [Re.Grp 1 (Re.seq [Re.lit "from"; Re.plus Re.space; Re.plus Re.nonspace;
                            Re.plus Re.space; Re.lit "import"; Re.plus Re.space]);
          Re.Grp 2 (Re.star Re.dot)].

(** [name.rsplit(".", 1)[-1]] *)
Definition after_last_dot (name : string) : string :=
  Py.get_last (Py.split "." name).

Definition keep_names (unused_name names_str : string) : list string :=
  let names := map Py.strip (Py.split "," names_str) in
  let unused_simple := after_last_dot unused_name in
  List.filter (fun n => negb (String.eqb n unused_simple) && negb (String.eqb n unused_name))
              names.

Definition _remove_unused_import (lines : list string) (idx : nat) (bug : BugDict)
    : option (list string) * string :=
  let message := Py.get (bug_message bug) "" in
  let line_no := Py.str_of_Z (Z.of_nat idx + 1) in
  let original := nth idx lines "" in
  let stripped := Py.strip original in
  let m :=
    match Re.search unused_quoted_re message with
    | Some m => Some m
    | None => Re.search unused_import_re message
    end in
  match m with
  | None => (Some (Tree.pop idx lines), "Removed unused import line " +:+ line_no)
  | Some m =>
      let unused_name := Re.group_str m 1 in
      let indent := indent_of original in
      if Py.startswith stripped "import " && Py.endswith stripped ";" then
        (Some (Tree.pop idx lines),
         "Removed unused Java import '" +:+ unused_name +:+ "' at line " +:+ line_no)
      else
        match (if Py.startswith stripped "from " && Py.contains stripped "import "
               then Re.match_start from_import_re stripped else None) with
        | Some from_match =>
            let prefix := Re.group_str from_match 1 in
            match keep_names unused_name (Re.group_str from_match 2) with
            | [] => (Some (Tree.pop idx lines), "Removed unused import line " +:+ line_no)
            | filtered =>
                (Some (<[idx := spaces indent +:+ prefix +:+ Py.join ", " filtered +:+ Py.NL]>
                         lines),
                 "Removed '" +:+ unused_name +:+ "' from import at line " +:+ line_no)
            end
        | None =>
            if Py.startswith stripped "import " then
              let names_str := Py.strip (Py.drop (Py.len "import ") stripped) in
              match keep_names unused_name names_str with
              | [] =>
                  (Some (Tree.pop idx lines),
                   "Removed unused import '" +:+ unused_name +:+ "' at line " +:+ line_no)
              | filtered =>
                  (Some (<[idx := spaces indent +:+ "import " +:+ Py.join ", " filtered
                                  +:+ Py.NL]> lines),
                   "Removed '" +:+ unused_name +:+ "' from import at line " +:+ line_no)
              end
            else (Some (Tree.pop idx lines), "Removed unused import line " +:+ line_no)
        end
  end.

(** [(\w+)\.(\w+)\s+is not a function.*is a number] *)
Definition not_a_function_re : Re.re :=
  Re.seq [Re.Grp 1 (Re.plus Re.word); Re.char "."; Re.Grp 2 (Re.plus Re.word);
          Re.plus Re.space; Re.lit "is not a function"; Re.star Re.dot;
          Re.lit "is a number"].

Definition _fix_type_error (lines : list string) (idx : nat) (bug : BugDict)
    : option (list string) * string :=
  let message := Py.get (bug_message bug) "" in
  let original := nth idx lines "" in
  let line_no := Py.str_of_Z (Z.of_nat idx + 1) in
  match Re.search not_a_function_re message with
  | Some m =>
      let var_name := Re.group_str m 1 in
      let method := Re.group_str m 2 in
      let new_line :=
        Py.replace (var_name +:+ "." +:+ method +:+ "(")
                   ("String(" +:+ var_name +:+ ")." +:+ method +:+ "(") None original in
      if negb (String.eqb new_line original) then
        (Some (<[idx := new_line]> lines),
         "Wrapped '" +:+ var_name +:+ "' in String() before ." +:+ method
           +:+ "() at line " +:+ line_no)
      else (None, "")
  | None => (None, "")
  end.

Definition op_map : list (string * string) :=
  [("multiply", "*"); ("divide", "/"); ("add", "+"); ("subtract", "-")].

(** The operator of the last name of [op_map] that follows [lead] in the
    message. *)
Definition named_op (lead message : string) : option string :=
  fold_left (fun found (op : string * string) =>
               if Py.contains message (lead +:+ " " +:+ fst op) then Some (snd op) else found)
            op_map None.

Definition _fix_logic_error (lines : list string) (idx : nat) (bug : BugDict)
    : option (list string) * string :=
  let message := Py.lower (Py.get (bug_message bug) "") in
  let original := nth idx lines "" in
  let line_no := Py.str_of_Z (Z.of_nat idx + 1) in
  match named_op "should" message, named_op "not" message with
  | Some should_op, Some not_op =>
      if negb (String.eqb should_op not_op) then
        let new_line :=
          Py.replace (" " +:+ not_op +:+ " ") (" " +:+ should_op +:+ " ") (Some 1%nat)
                     original in
        if negb (String.eqb new_line original) then
          (Some (<[idx := new_line]> lines),
           "Changed '" +:+ not_op +:+ "' to '" +:+ should_op +:+ "' at line " +:+ line_no)
        else (None, "")
      else (None, "")
  | _, _ => (None, "")
  end.

(** [(\S+)\s*/\s*(\S+)] *)
Definition division_re : Re.re :=
  Re.seq [Re.Grp 1 (Re.plus Re.nonspace); Re.star Re.space; Re.char "/"; Re.star Re.space;
          Re.Grp 2 (Re.plus Re.nonspace)].

(** [(\S+(?:\[\S+\])?)\s*=] *)
Definition assign_re : Re.re :=
  Re.seq [Re.Grp 1 (Re.seq [Re.plus Re.nonspace;
                            Re.opt (Re.seq [Re.char "["; Re.plus Re.nonspace; Re.char "]"])]);
          Re.star Re.space; Re.char "="].

Definition is_loop_head (ls : string) : bool :=
  Py.startswith ls "for " || Py.startswith ls "while ".

(** The scan for an enclosing loop over the nine lines above [idx]. *)
Fixpoint in_loop (indent_len : nat) (scan : list (nat * string)) : bool :=
  match scan with
  | [] => false
  | (_, line) :: rest =>
      let ls := Py.strip line in
      if is_loop_head ls then true
      else if Py.truthy ls && negb (Py.startswith ls "#")
              && (indent_of line <? indent_len)%nat
      then false
      else in_loop indent_len rest
  end.

Definition _fix_zero_division (lines : list string) (idx : nat) (bug : BugDict)
    : option (list string) * string :=
  let line_no := Py.str_of_Z (Z.of_nat idx + 1) in
  let original := nth idx lines "" in
  let indent_len := indent_of original in
  let pad := pad_of original in
  let stripped := Py.strip original in
  match Re.search division_re stripped with
  | None => (None, "")
  | Some div_match =>
      let divisor := Py.rstrip_chars ",;:" (Re.group_str div_match 2) in
      let indent_str := _detect_indent_string lines in
      let test := pad +:+ "if " +:+ divisor +:+ " == 0:" +:+ Py.NL in
      if Py.startswith stripped "return " then
        (Some (Tree.insert_at idx (test +:+ pad +:+ indent_str +:+ "return 0" +:+ Py.NL) lines),
         "Added zero-division guard before line " +:+ line_no)
      else
        match Re.match_start assign_re stripped with
        | Some assign_match =>
            let target := Re.group_str assign_match 1 in
            let reset := pad +:+ indent_str +:+ target +:+ " = 0" +:+ Py.NL in
            if in_loop indent_len (above 10 idx lines) then
              (Some (Tree.insert_at idx
                       (test +:+ reset +:+ pad +:+ indent_str +:+ "continue" +:+ Py.NL) lines),
               "Added zero-division guard before line " +:+ line_no)
            else
              (Some (<[idx := test +:+ reset +:+ pad +:+ "else:" +:+ Py.NL
                              +:+ pad +:+ indent_str +:+ stripped +:+ Py.NL]> lines),
               "Added zero-division guard at line " +:+ line_no)
        | None =>
            (Some (Tree.insert_at idx (test +:+ pad +:+ indent_str +:+ "pass" +:+ Py.NL) lines),
             "Added zero-division guard before line " +:+ line_no)
        end
  end.

(** [(\w+)\[(\d+)\]] *)
Definition subscript_re : Re.re :=
  Re.seq [Re.Grp 1 (Re.plus Re.word); Re.char "["; Re.Grp 2 (Re.plus Re.digit); Re.char "]"].

(** The end of the block that starts at [idx]: the first later line that is
    blank or indented less than [indent_len]. *)
Fixpoint block_end (indent_len : nat) (at_ : nat) (following : list string) : nat :=
  match following with
  | [] => at_
  | line :: rest =>
      if Py.truthy (Py.strip line) && negb (indent_of line <? indent_len)%nat
      then block_end indent_len (S at_) rest
      else at_
  end.

Definition _fix_index_error (lines : list string) (idx : nat) (bug : BugDict)
    : option (list string) * string :=
  let line_no := Py.str_of_Z (Z.of_nat idx + 1) in
  let original := nth idx lines "" in
  let indent_len := indent_of original in
  let pad := pad_of original in
  let stripped := Py.strip original in
  let indent_str := _detect_indent_string lines in
  match Re.search subscript_re stripped with
  | None =>
      let stop := block_end indent_len (S idx) (List.skipn (S idx) lines) in
      (Some (List.firstn idx lines
             ++ (pad +:+ "try:" +:+ Py.NL)
             :: map (String.append indent_str) (List.firstn (stop - idx) (List.skipn idx lines))
             ++ (pad +:+ "except (IndexError, KeyError):" +:+ Py.NL
                     +:+ pad +:+ indent_str +:+ "continue" +:+ Py.NL)
             :: List.skipn stop lines),
       "Wrapped line " +:+ line_no +:+ " in try/except for IndexError")
  | Some idx_match =>
      let var_name := Re.group_str idx_match 1 in
      let index_val := Py.str_of_Z (Py.int_of (Re.group_str idx_match 2)) in
      let guard :=
        pad +:+ "if len(" +:+ var_name +:+ ") <= " +:+ index_val +:+ ":" +:+ Py.NL
            +:+ pad +:+ indent_str +:+ "continue" +:+ Py.NL in
      (Some (Tree.insert_at idx guard lines),
       "Added bounds check for " +:+ var_name +:+ "[" +:+ index_val +:+ "] at line "
         +:+ line_no)
  end.

(** [def\s+(\w+)\s*\((\w+)] *)
Definition def_re : Re.re :=
  Re.seq [Re.lit "def"; Re.plus Re.space; Re.Grp 1 (Re.plus Re.word); Re.star Re.space;
          Re.char "("; Re.Grp 2 (Re.plus Re.word)].

(** [(\w+)\s*\((\w+)\s*-] *)
Definition call_re : Re.re :=
  Re.seq [Re.Grp 1 (Re.plus Re.word); Re.star Re.space; Re.char "(";
          Re.Grp 2 (Re.plus Re.word); Re.star Re.space; Re.char "-"].

(** The parameter of the nearest [def] among the nineteen lines above. *)
Fixpoint def_param (scan : list (nat * string)) : option string :=
  match scan with
  | [] => None
  | (_, line) :: rest =>
      match Re.match_start def_re (Py.strip line) with
      | Some func_match => Some (Re.group_str func_match 2)
      | None => def_param rest
      end
  end.

(** Where the guard goes: behind the [return] that follows the nearest
    [if param ==] among the four lines above, else at [idx]. *)
Fixpoint guard_position (param_name : string) (lines : list string) (idx : nat)
    (scan : list (nat * string)) : nat :=
  match scan with
  | [] => idx
  | (i, line) :: rest =>
      let ls := Py.strip line in
      if Py.startswith ls ("if " +:+ param_name +:+ " ==")
         || Py.startswith ls ("if " +:+ param_name +:+ "==")
      then
        match List.find (fun j => Py.startswith (Py.strip (nth j lines "")) "return")
                        (List.seq (S i) (Nat.min (i + 3) (List.length lines) - S i)) with
        | Some j => S j
        | None => idx
        end
      else guard_position param_name lines idx rest
  end.

Definition _fix_recursion_error (lines : list string) (idx : nat) (bug : BugDict)
    : option (list string) * string :=
  let line_no := Py.str_of_Z (Z.of_nat idx + 1) in
  let original := nth idx lines "" in
  let pad := pad_of original in
  let stripped := Py.strip original in
  let param_name :=
    match def_param (above 20 idx lines) with
    | Some p => p
    | None =>
        match Re.search call_re stripped with
        | Some call_match => Re.group_str call_match 2
        | None => "n"
        end
    end in
  let indent_str := _detect_indent_string lines in
  let guard :=
    pad +:+ "if " +:+ param_name +:+ " < 0:" +:+ Py.NL
        +:+ pad +:+ indent_str +:+ "return 1" +:+ Py.NL in
  let insert_at := guard_position param_name lines idx (above 5 idx lines) in
  (Some (Tree.insert_at insert_at guard lines),
   "Added negative-input guard for " +:+ param_name +:+ " at line " +:+ line_no).

Definition append_to_line (lines : list string) (idx : nat) (stripped suffix : string)
    : list string :=
  <[idx := stripped +:+ suffix +:+ Py.NL]> lines.

Definition or_none (r : option (list string) * string) : option (list string) * string :=
  match fst r with Some _ => r | None => (None, "") end.

Definition _deterministic_patch (strategy : string) (lines : list string) (bug : BugDict)
    : option (list string) * string :=
  let line_no := Py.get (bug_line bug) 0 in
  if (line_no <? 1) || (Z.of_nat (List.length lines) <? line_no) then (None, "")
  else
    let idx := Z.to_nat (line_no - 1) in
    let n := Py.str_of_Z line_no in
    let original_line := nth idx lines "" in
    let stripped := Py.rstrip original_line in
    if String.eqb strategy "deterministic_indent" then
      match _fix_indentation lines idx with
      | Some fixed => (Some fixed, "Fixed indentation at line " +:+ n)
      | None => (None, "")
      end
    else if String.eqb strategy "deterministic_colon" then
      if negb (Py.endswith stripped ":")
      then (Some (append_to_line lines idx stripped ":"), "Added missing colon at line " +:+ n)
      else (None, "")
    else if String.eqb strategy "deterministic_bracket" then
      let suffix :=
        Py.repeat_char ")" (Z.to_nat (FixPlanner.open_count "(" ")" stripped))
        +:+ Py.repeat_char "]" (Z.to_nat (FixPlanner.open_count "[" "]" stripped))
        +:+ Py.repeat_char "}" (Z.to_nat (FixPlanner.open_count "{" "}" stripped)) in
      if Py.truthy suffix
      then (Some (append_to_line lines idx stripped suffix),
            "Added missing bracket(s) '" +:+ suffix +:+ "' at line " +:+ n)
      else (None, "")
    else if String.eqb strategy "deterministic_semicolon" then
      if negb (Py.endswith stripped ";")
      then (Some (append_to_line lines idx stripped ";"),
            "Added missing semicolon at line " +:+ n)
      else (None, "")
    else if String.eqb strategy "deterministic_unused_import" then
      or_none (_remove_unused_import lines idx bug)
    else if String.eqb strategy "deterministic_type_error" then
      or_none (_fix_type_error lines idx bug)
    else if String.eqb strategy "deterministic_logic" then
      or_none (_fix_logic_error lines idx bug)
    else if String.eqb strategy "deterministic_zero_division" then
      or_none (_fix_zero_division lines idx bug)
    else if String.eqb strategy "deterministic_index_error" then
      or_none (_fix_index_error lines idx bug)
    else if String.eqb strategy "deterministic_recursion_error" then
      or_none (_fix_recursion_error lines idx bug)
    else (None, "").

(** ** Model-assisted patch *)

(** [^\s*\d+\s+\|\s?], the line number of a listing. *)
Definition line_number_re : Re.re :=
  Re.seq [Re.Bos; Re.star Re.space; Re.plus Re.digit; Re.plus Re.space; Re.char "|";
          Re.opt Re.space].

Definition clean_replace_line (line : string) : string :=
  let cleaned := Re.sub_prefix line_number_re line in
  if negb (Py.endswith cleaned Py.NL) && Py.endswith line Py.NL
  then cleaned +:+ Py.NL else cleaned.

(** [replace_lines[-1] += "\n"] when the last line lacks its newline. *)
Fixpoint close_last_line (lines : list string) : list string :=
  match lines with
  | [] => []
  | [l] => [if Py.endswith l Py.NL then l else l +:+ Py.NL]
  | l :: rest => l :: close_last_line rest
  end.

Definition lines_of (part : string) : list string :=
  if Py.truthy part then Py.splitlines true part else [].

(** What the model is asked: the file, the bug and the lines.  The answer is
    the content of the reply, or [None] when the exchange raised. *)
Definition Model : Type := string -> BugDict -> list string -> option string.

Definition _llm_patch (api_key : string) (model : Model) (lines : list string)
    (bug : BugDict) (abs_path : string) (source_context : string)
    : option (list string) * string :=
  if negb (Py.truthy api_key) then (None, "")
  else
    let line_no := Py.get (bug_line bug) 0 in
    let start := Z.max 0 (line_no - 4) in
    let stop := Z.min (Z.of_nat (List.length lines)) (line_no + 3) in
    let snippet_lines := Tree.slice start stop lines in
    match model abs_path bug lines with
    | None => (None, "")
    | Some reply =>
        let content := Py.strip reply in
        let content :=
          Py.strip (Py.replace "```" "" None (Py.replace "```python" "" None content)) in
        if negb (Py.contains content "<<<<") || negb (Py.contains content "====")
           || negb (Py.contains content ">>>>")
        then (None, "")
        else
          let parts := Py.split "====" content in
          let search_part :=
            Py.strip_chars Py.NL (Py.get_last (Py.split "<<<<" (nth 0 parts ""))) in
          let replace_part :=
            Py.strip_chars Py.NL (hd "" (Py.split ">>>>" (nth 1 parts ""))) in
          let search_lines := lines_of search_part in
          let replace_lines :=
            close_last_line (map clean_replace_line (lines_of replace_part)) in
          let search_str := Py.concat search_lines in
          let replace_str := Py.concat replace_lines in
          let clean_snippet_str :=
            Py.concat (map (Re.sub_prefix line_number_re) snippet_lines) in
          let full_text := Py.concat lines in
          let new_text :=
            if Py.truthy search_str && Py.contains clean_snippet_str search_str then
              Py.replace search_str replace_str (Some 1%nat) full_text
            else if Py.truthy search_str && Py.contains full_text search_str then
              Py.replace search_str replace_str (Some 1%nat) full_text
            else
              Py.concat (Tree.slice_to start lines ++ replace_lines
                         ++ Tree.slice_from stop lines) in
          let new_lines := Py.splitlines true new_text in
          let changed_count :=
            Z.abs (Z.of_nat (List.length new_lines) - Z.of_nat (List.length lines)) in
          if Z.of_nat MAX_CHANGED_LINES <? changed_count then (None, "")
          else (Some new_lines,
                "LLM fix around line " +:+ Py.str_of_Z line_no +:+ " via SEARCH/REPLACE")
    end.

(** ** Writing a patch *)

(** The deltas [L<i>: -old → +new] of the positions at which the old and the
    new lines differ. *)
Fixpoint diff_lines (i : Z) (old_lines new_lines : list string) : list string :=
  match old_lines, new_lines with
  | old :: olds, new :: news =>
      let rest := diff_lines (i + 1) olds news in
      if negb (String.eqb old new)
      then ("L" +:+ Py.str_of_Z i +:+ ": -" +:+ Py.rstrip old +:+ " → +" +:+ Py.rstrip new)
             :: rest
      else rest
  | _, _ => []
  end.

Definition not_applied (bug : BugDict) (status reason : string) : PatchDict :=
  mkPatch (Some bug) status None None None (Some reason) None.

Definition _write_patch (os : Os) (fs : gmap string string) (abs_path : string)
    (old_lines new_lines : list string) (bug : BugDict) (description method : string)
    (repo_path : string) : PatchDict * gmap string string :=
  match write_error os abs_path with
  | Some exc =>
      (* [write_text] opens the file for writing, which empties it, before
         the write can raise *)
      (not_applied bug "write_error" exc,
       match write_left os abs_path (Py.concat new_lines) with
       | Some written => <[abs_path := written]> fs
       | None => fs
       end)
  | None =>
      let display_path :=
        Py.get (relative_to os abs_path (resolve os repo_path)) abs_path in
      (mkPatch (Some bug) "applied" (Some method) (Some description) (Some display_path)
               None (Some (List.firstn MAX_CHANGED_LINES (diff_lines 1 old_lines new_lines))),
       <[abs_path := Py.concat new_lines]> fs)
  end.

(** ** One entry *)

(** The path that an entry's target stands for. *)
Definition abs_path_of (os : Os) (repo_path target_file : string) : string :=
  if is_absolute os target_file then path_of os target_file
  else path_join os repo_path target_file.

Definition _apply_one (os : Os) (api_key : string) (model : Model)
    (fs : gmap string string) (entry : PlanEntry) (repo_path : string)
    : PatchDict * gmap string string :=
  let target_file := Py.get (plan_target_file entry) "" in
  let strategy := Py.get (plan_strategy entry) "" in
  let bug := Py.get (plan_bug entry) empty_bug in
  if _is_test_file target_file then
    (not_applied bug "skipped_test_file" "Test file protection (double check).", fs)
  else
    let abs_path := abs_path_of os repo_path target_file in
    if negb (Tree.is_file fs abs_path) then
      (not_applied bug "file_not_found" ("Target file not found: " +:+ target_file), fs)
    else
      match Tree.read_text os fs abs_path with
      | inr exc => (not_applied bug "read_error" exc, fs)
      | inl original =>
          let lines := Py.splitlines true original in
          let deterministic := Py.startswith strategy "deterministic" in
          let no_fix :=
            (not_applied bug "no_fix_generated"
               ("Could not generate a fix via strategy '" +:+ strategy +:+ "'."), fs) in
          let by_model :=
            if String.eqb strategy "llm" || deterministic then
              match _llm_patch api_key model lines bug abs_path
                               (Py.get (plan_source_context entry) "") with
              | (Some fixed_lines, desc) =>
                  _write_patch os fs abs_path lines fixed_lines bug desc "llm" repo_path
              | (None, _) => no_fix
              end
            else no_fix in
          if deterministic then
            match _deterministic_patch strategy lines bug with
            | (Some fixed_lines, desc) =>
                _write_patch os fs abs_path lines fixed_lines bug desc "deterministic"
                             repo_path
            | (None, _) => by_model
            end
          else by_model
      end.

(** ** The whole plan *)

Definition is_actionable (entry : PlanEntry) : bool :=
  let strategy := Py.get (plan_strategy entry) "" in
  negb (String.eqb strategy "skip_test_file" || String.eqb strategy "unresolvable").

(** The key under which [execute] groups an entry. *)
Definition group_key (entry : PlanEntry) : string :=
  Py.get (plan_target_file entry)
         (Py.get (bug_file (Py.get (plan_bug entry) empty_bug)) "").

Definition entry_line (entry : PlanEntry) : Z :=
  Py.get (bug_line (Py.get (plan_bug entry) empty_bug)) 0.

(** The keys of [by_file], each once, in the order of first insertion. *)
Fixpoint distinct (keys : list string) : list string :=
  match keys with
  | [] => []
  | k :: rest => k :: List.filter (fun k' => negb (String.eqb k' k)) (distinct rest)
  end.

(** [entries.sort(key=line, reverse=True)]: stable, highest line first. *)
Definition bottom_up (entries : list PlanEntry) : list PlanEntry :=
  Py.sorted entry_line (fun a b => b <? a) entries.

Definition ordered_entries (plan : list PlanEntry) : list PlanEntry :=
  let actionable := List.filter is_actionable plan in
  flat_map (fun target_file =>
              bottom_up (List.filter (fun e => String.eqb (group_key e) target_file)
                                     actionable))
           (Py.sorted (fun k => k) Py.str_ltb (distinct (map group_key actionable))).

Definition skipped_entry (entry : PlanEntry) : PatchDict :=
  let strategy := Py.get (plan_strategy entry) "" in
  mkPatch (plan_bug entry) ("skipped_" +:+ strategy) None None None
          (Some (Py.get (plan_reason entry) strategy)) None.

Record Outputs := mkOutputs {
  applied_patches : list PatchDict;
  skipped_patches : list PatchDict;
  applied_count : Z
}.

(** The loop over the ordered entries: the results so far and the tree. *)
Definition apply_step (os : Os) (api_key : string) (model : Model) (repo_path : string)
    (st : list PatchDict * list PatchDict * gmap string string) (entry : PlanEntry)
    : list PatchDict * list PatchDict * gmap string string :=
  let '(applied, skipped, fs) := st in
  let '(result, fs') := _apply_one os api_key model fs entry repo_path in
  if String.eqb (patch_status result) "applied"
  then (applied ++ [result], skipped, fs')
  else (applied, skipped ++ [result], fs').

Definition execute (os : Os) (api_key : string) (model : Model)
    (fs : gmap string string) (plan : list PlanEntry) (repo_path : string)
    : Outputs * gmap string string :=
  let non_actionable := List.filter (fun e => negb (is_actionable e)) plan in
  let '(applied, skipped, fs') :=
    fold_left (apply_step os api_key model repo_path) (ordered_entries plan)
              ([], map skipped_entry non_actionable, fs) in
  (mkOutputs applied skipped (Z.of_nat (List.length applied)), fs').

End PatchApplier.
(* ===================================================================== *)
(** * agents/reasoning_loop.py *)
(* ===================================================================== *)

Module ReasoningLoop.
Import RunMemory.

Definition MAX_TOTAL_COMMITS : Z := 10.

Inductive Phase :=
| RUN_TESTS | CLASSIFY | PLAN_FIX | APPLY_PATCH | COMMIT_PUSH
| WAIT_FOR_CI | FETCH_CI_RESULTS | VERIFY | DONE.

(** Each phase: its tool, the next phase on continue, the next phase on
    stop. *)
Definition TRANSITIONS (phase : Phase) : option (string * Phase * Phase) :=
  match phase with
  | RUN_TESTS        => Some ("test_runner", CLASSIFY, DONE)
  | CLASSIFY         => Some ("failure_classifier", PLAN_FIX, DONE)
  | PLAN_FIX         => Some ("fix_planner", APPLY_PATCH, DONE)
  | APPLY_PATCH      => Some ("patch_applier", COMMIT_PUSH, DONE)
  | COMMIT_PUSH      => Some ("commit_push", WAIT_FOR_CI, DONE)
  | WAIT_FOR_CI      => Some ("wait_for_ci", FETCH_CI_RESULTS, DONE)
  | FETCH_CI_RESULTS => Some ("fetch_ci_results", VERIFY, DONE)
  | VERIFY           => Some ("verification", CLASSIFY, DONE)
  | DONE             => None
  end.

(** ** The shared workflow state *)

(** The dictionary [shared]: one optional field for every key that the loop
    reads or writes or that a default tool requires; [other_keys] holds the
    names of all further keys that are present. *)
Record State := mkState {
  repo_path : option (string);
  repo_url : option (string);
  branch : option (string);
  test_output : option (string);
  local_all_passed : option (bool);
  classified_bugs : option (list RunMemory.BugDict);
  fix_plan : option (list PlanEntry);
  applied_patches : option (list RunMemory.PatchDict);
  applied_count : option (Z);
  commit_sha : option (string);
  push_status : option (string);
  ci_run_id : option (Z);
  ci_status : option (string);
  ci_conclusion : option (string);
  ci_logs : option (string);
  all_passed : option (bool);
  verdict : option (string);
  should_continue : option (bool);
  verification_output : option (string);
  _prev_failure_keys : option (gset (string * string));
  _ci_unavailable : option (bool);
  _tool_skipped : option (bool);
  _first_iteration : option (bool);
  _current_iteration : option (Z);
  _max_iterations : option (Z);
  other_keys : gset string
}.

Definition empty_state : State :=
  mkState None None None None None None None None None None None None None
          None None None None None None None None None None None None ∅.

Definition over {A} (new old : option A) : option A :=
  match new with Some v => Some v | None => old end.

(** [shared.update(outputs)] *)
Definition update (s outputs : State) : State :=
  mkState (over (repo_path outputs) (repo_path s))
          (over (repo_url outputs) (repo_url s))
          (over (branch outputs) (branch s))
          (over (test_output outputs) (test_output s))
          (over (local_all_passed outputs) (local_all_passed s))
          (over (classified_bugs outputs) (classified_bugs s))
          (over (fix_plan outputs) (fix_plan s))
          (over (applied_patches outputs) (applied_patches s))
          (over (applied_count outputs) (applied_count s))
          (over (commit_sha outputs) (commit_sha s))
          (over (push_status outputs) (push_status s))
          (over (ci_run_id outputs) (ci_run_id s))
          (over (ci_status outputs) (ci_status s))
          (over (ci_conclusion outputs) (ci_conclusion s))
          (over (ci_logs outputs) (ci_logs s))
          (over (all_passed outputs) (all_passed s))
          (over (verdict outputs) (verdict s))
          (over (should_continue outputs) (should_continue s))
          (over (verification_output outputs) (verification_output s))
          (over (_prev_failure_keys outputs) (_prev_failure_keys s))
          (over (_ci_unavailable outputs) (_ci_unavailable s))
          (over (_tool_skipped outputs) (_tool_skipped s))
          (over (_first_iteration outputs) (_first_iteration s))
          (over (_current_iteration outputs) (_current_iteration s))
          (over (_max_iterations outputs) (_max_iterations s))
          (other_keys outputs ∪ other_keys s).

(** [k in state] *)
Definition has_key (s : State) (k : string) : bool :=
  if String.eqb k "repo_path" then bool_decide (is_Some (repo_path s))
  else if String.eqb k "repo_url" then bool_decide (is_Some (repo_url s))
  else if String.eqb k "branch" then bool_decide (is_Some (branch s))
  else if String.eqb k "test_output" then bool_decide (is_Some (test_output s))
  else if String.eqb k "local_all_passed" then bool_decide (is_Some (local_all_passed s))
  else if String.eqb k "classified_bugs" then bool_decide (is_Some (classified_bugs s))
  else if String.eqb k "fix_plan" then bool_decide (is_Some (fix_plan s))
  else if String.eqb k "applied_patches" then bool_decide (is_Some (applied_patches s))
  else if String.eqb k "applied_count" then bool_decide (is_Some (applied_count s))
  else if String.eqb k "commit_sha" then bool_decide (is_Some (commit_sha s))
  else if String.eqb k "push_status" then bool_decide (is_Some (push_status s))
  else if String.eqb k "ci_run_id" then bool_decide (is_Some (ci_run_id s))
  else if String.eqb k "ci_status" then bool_decide (is_Some (ci_status s))
  else if String.eqb k "ci_conclusion" then bool_decide (is_Some (ci_conclusion s))
  else if String.eqb k "ci_logs" then bool_decide (is_Some (ci_logs s))
  else if String.eqb k "all_passed" then bool_decide (is_Some (all_passed s))
  else if String.eqb k "verdict" then bool_decide (is_Some (verdict s))
  else if String.eqb k "should_continue" then bool_decide (is_Some (should_continue s))
  else if String.eqb k "verification_output" then bool_decide (is_Some (verification_output s))
  else if String.eqb k "_prev_failure_keys" then bool_decide (is_Some (_prev_failure_keys s))
  else if String.eqb k "_ci_unavailable" then bool_decide (is_Some (_ci_unavailable s))
  else if String.eqb k "_tool_skipped" then bool_decide (is_Some (_tool_skipped s))
  else if String.eqb k "_first_iteration" then bool_decide (is_Some (_first_iteration s))
  else if String.eqb k "_current_iteration" then bool_decide (is_Some (_current_iteration s))
  else if String.eqb k "_max_iterations" then bool_decide (is_Some (_max_iterations s))
  else bool_decide (k ∈ other_keys s).

(** [state[k] = v], one definition for each key. *)
Definition set_repo_path (v : string) (s : State) : State :=
  mkState (Some v) (repo_url s) (branch s) (test_output s) (local_all_passed s)
          (classified_bugs s) (fix_plan s) (applied_patches s) (applied_count s)
          (commit_sha s) (push_status s) (ci_run_id s) (ci_status s)
          (ci_conclusion s) (ci_logs s) (all_passed s) (verdict s)
          (should_continue s) (verification_output s) (_prev_failure_keys s)
          (_ci_unavailable s) (_tool_skipped s) (_first_iteration s)
          (_current_iteration s) (_max_iterations s) (other_keys s).

Definition set_repo_url (v : string) (s : State) : State :=
  mkState (repo_path s) (Some v) (branch s) (test_output s) (local_all_passed s)
          (classified_bugs s) (fix_plan s) (applied_patches s) (applied_count s)
          (commit_sha s) (push_status s) (ci_run_id s) (ci_status s)
          (ci_conclusion s) (ci_logs s) (all_passed s) (verdict s)
          (should_continue s) (verification_output s) (_prev_failure_keys s)
          (_ci_unavailable s) (_tool_skipped s) (_first_iteration s)
          (_current_iteration s) (_max_iterations s) (other_keys s).

Definition set_branch (v : string) (s : State) : State :=
  mkState (repo_path s) (repo_url s) (Some v) (test_output s) (local_all_passed s)
          (classified_bugs s) (fix_plan s) (applied_patches s) (applied_count s)
          (commit_sha s) (push_status s) (ci_run_id s) (ci_status s)
          (ci_conclusion s) (ci_logs s) (all_passed s) (verdict s)
          (should_continue s) (verification_output s) (_prev_failure_keys s)
          (_ci_unavailable s) (_tool_skipped s) (_first_iteration s)
          (_current_iteration s) (_max_iterations s) (other_keys s).

Definition set_test_output (v : string) (s : State) : State :=
  mkState (repo_path s) (repo_url s) (branch s) (Some v) (local_all_passed s)
          (classified_bugs s) (fix_plan s) (applied_patches s) (applied_count s)
          (commit_sha s) (push_status s) (ci_run_id s) (ci_status s)
          (ci_conclusion s) (ci_logs s) (all_passed s) (verdict s)
          (should_continue s) (verification_output s) (_prev_failure_keys s)
          (_ci_unavailable s) (_tool_skipped s) (_first_iteration s)
          (_current_iteration s) (_max_iterations s) (other_keys s).

Definition set_local_all_passed (v : bool) (s : State) : State :=
  mkState (repo_path s) (repo_url s) (branch s) (test_output s) (Some v)
          (classified_bugs s) (fix_plan s) (applied_patches s) (applied_count s)
          (commit_sha s) (push_status s) (ci_run_id s) (ci_status s)
          (ci_conclusion s) (ci_logs s) (all_passed s) (verdict s)
          (should_continue s) (verification_output s) (_prev_failure_keys s)
          (_ci_unavailable s) (_tool_skipped s) (_first_iteration s)
          (_current_iteration s) (_max_iterations s) (other_keys s).

Definition set_classified_bugs (v : list RunMemory.BugDict) (s : State) : State :=
  mkState (repo_path s) (repo_url s) (branch s) (test_output s)
          (local_all_passed s) (Some v) (fix_plan s) (applied_patches s)
          (applied_count s) (commit_sha s) (push_status s) (ci_run_id s)
          (ci_status s) (ci_conclusion s) (ci_logs s) (all_passed s) (verdict s)
          (should_continue s) (verification_output s) (_prev_failure_keys s)
          (_ci_unavailable s) (_tool_skipped s) (_first_iteration s)
          (_current_iteration s) (_max_iterations s) (other_keys s).

Definition set_fix_plan (v : list PlanEntry) (s : State) : State :=
  mkState (repo_path s) (repo_url s) (branch s) (test_output s)
          (local_all_passed s) (classified_bugs s) (Some v) (applied_patches s)
          (applied_count s) (commit_sha s) (push_status s) (ci_run_id s)
          (ci_status s) (ci_conclusion s) (ci_logs s) (all_passed s) (verdict s)
          (should_continue s) (verification_output s) (_prev_failure_keys s)
          (_ci_unavailable s) (_tool_skipped s) (_first_iteration s)
          (_current_iteration s) (_max_iterations s) (other_keys s).

Definition set_applied_patches (v : list RunMemory.PatchDict) (s : State) : State :=
  mkState (repo_path s) (repo_url s) (branch s) (test_output s)
          (local_all_passed s) (classified_bugs s) (fix_plan s) (Some v)
          (applied_count s) (commit_sha s) (push_status s) (ci_run_id s)
          (ci_status s) (ci_conclusion s) (ci_logs s) (all_passed s) (verdict s)
          (should_continue s) (verification_output s) (_prev_failure_keys s)
          (_ci_unavailable s) (_tool_skipped s) (_first_iteration s)
          (_current_iteration s) (_max_iterations s) (other_keys s).

Definition set_applied_count (v : Z) (s : State) : State :=
  mkState (repo_path s) (repo_url s) (branch s) (test_output s)
          (local_all_passed s) (classified_bugs s) (fix_plan s) (applied_patches s)
          (Some v) (commit_sha s) (push_status s) (ci_run_id s) (ci_status s)
          (ci_conclusion s) (ci_logs s) (all_passed s) (verdict s)
          (should_continue s) (verification_output s) (_prev_failure_keys s)
          (_ci_unavailable s) (_tool_skipped s) (_first_iteration s)
          (_current_iteration s) (_max_iterations s) (other_keys s).

Definition set_commit_sha (v : string) (s : State) : State :=
  mkState (repo_path s) (repo_url s) (branch s) (test_output s)
          (local_all_passed s) (classified_bugs s) (fix_plan s) (applied_patches s)
          (applied_count s) (Some v) (push_status s) (ci_run_id s) (ci_status s)
          (ci_conclusion s) (ci_logs s) (all_passed s) (verdict s)
          (should_continue s) (verification_output s) (_prev_failure_keys s)
          (_ci_unavailable s) (_tool_skipped s) (_first_iteration s)
          (_current_iteration s) (_max_iterations s) (other_keys s).

Definition set_push_status (v : string) (s : State) : State :=
  mkState (repo_path s) (repo_url s) (branch s) (test_output s)
          (local_all_passed s) (classified_bugs s) (fix_plan s) (applied_patches s)
          (applied_count s) (commit_sha s) (Some v) (ci_run_id s) (ci_status s)
          (ci_conclusion s) (ci_logs s) (all_passed s) (verdict s)
          (should_continue s) (verification_output s) (_prev_failure_keys s)
          (_ci_unavailable s) (_tool_skipped s) (_first_iteration s)
          (_current_iteration s) (_max_iterations s) (other_keys s).

Definition set_ci_run_id (v : Z) (s : State) : State :=
  mkState (repo_path s) (repo_url s) (branch s) (test_output s)
          (local_all_passed s) (classified_bugs s) (fix_plan s) (applied_patches s)
          (applied_count s) (commit_sha s) (push_status s) (Some v) (ci_status s)
          (ci_conclusion s) (ci_logs s) (all_passed s) (verdict s)
          (should_continue s) (verification_output s) (_prev_failure_keys s)
          (_ci_unavailable s) (_tool_skipped s) (_first_iteration s)
          (_current_iteration s) (_max_iterations s) (other_keys s).

Definition set_ci_status (v : string) (s : State) : State :=
  mkState (repo_path s) (repo_url s) (branch s) (test_output s)
          (local_all_passed s) (classified_bugs s) (fix_plan s) (applied_patches s)
          (applied_count s) (commit_sha s) (push_status s) (ci_run_id s) (Some v)
          (ci_conclusion s) (ci_logs s) (all_passed s) (verdict s)
          (should_continue s) (verification_output s) (_prev_failure_keys s)
          (_ci_unavailable s) (_tool_skipped s) (_first_iteration s)
          (_current_iteration s) (_max_iterations s) (other_keys s).

Definition set_ci_conclusion (v : string) (s : State) : State :=
  mkState (repo_path s) (repo_url s) (branch s) (test_output s)
          (local_all_passed s) (classified_bugs s) (fix_plan s) (applied_patches s)
          (applied_count s) (commit_sha s) (push_status s) (ci_run_id s)
          (ci_status s) (Some v) (ci_logs s) (all_passed s) (verdict s)
          (should_continue s) (verification_output s) (_prev_failure_keys s)
          (_ci_unavailable s) (_tool_skipped s) (_first_iteration s)
          (_current_iteration s) (_max_iterations s) (other_keys s).

Definition set_ci_logs (v : string) (s : State) : State :=
  mkState (repo_path s) (repo_url s) (branch s) (test_output s)
          (local_all_passed s) (classified_bugs s) (fix_plan s) (applied_patches s)
          (applied_count s) (commit_sha s) (push_status s) (ci_run_id s)
          (ci_status s) (ci_conclusion s) (Some v) (all_passed s) (verdict s)
          (should_continue s) (verification_output s) (_prev_failure_keys s)
          (_ci_unavailable s) (_tool_skipped s) (_first_iteration s)
          (_current_iteration s) (_max_iterations s) (other_keys s).

Definition set_all_passed (v : bool) (s : State) : State :=
  mkState (repo_path s) (repo_url s) (branch s) (test_output s)
          (local_all_passed s) (classified_bugs s) (fix_plan s) (applied_patches s)
          (applied_count s) (commit_sha s) (push_status s) (ci_run_id s)
          (ci_status s) (ci_conclusion s) (ci_logs s) (Some v) (verdict s)
          (should_continue s) (verification_output s) (_prev_failure_keys s)
          (_ci_unavailable s) (_tool_skipped s) (_first_iteration s)
          (_current_iteration s) (_max_iterations s) (other_keys s).

Definition set_verdict (v : string) (s : State) : State :=
  mkState (repo_path s) (repo_url s) (branch s) (test_output s)
          (local_all_passed s) (classified_bugs s) (fix_plan s) (applied_patches s)
          (applied_count s) (commit_sha s) (push_status s) (ci_run_id s)
          (ci_status s) (ci_conclusion s) (ci_logs s) (all_passed s) (Some v)
          (should_continue s) (verification_output s) (_prev_failure_keys s)
          (_ci_unavailable s) (_tool_skipped s) (_first_iteration s)
          (_current_iteration s) (_max_iterations s) (other_keys s).

Definition set_should_continue (v : bool) (s : State) : State :=
  mkState (repo_path s) (repo_url s) (branch s) (test_output s)
          (local_all_passed s) (classified_bugs s) (fix_plan s) (applied_patches s)
          (applied_count s) (commit_sha s) (push_status s) (ci_run_id s)
          (ci_status s) (ci_conclusion s) (ci_logs s) (all_passed s) (verdict s)
          (Some v) (verification_output s) (_prev_failure_keys s)
          (_ci_unavailable s) (_tool_skipped s) (_first_iteration s)
          (_current_iteration s) (_max_iterations s) (other_keys s).

Definition set_verification_output (v : string) (s : State) : State :=
  mkState (repo_path s) (repo_url s) (branch s) (test_output s)
          (local_all_passed s) (classified_bugs s) (fix_plan s) (applied_patches s)
          (applied_count s) (commit_sha s) (push_status s) (ci_run_id s)
          (ci_status s) (ci_conclusion s) (ci_logs s) (all_passed s) (verdict s)
          (should_continue s) (Some v) (_prev_failure_keys s) (_ci_unavailable s)
          (_tool_skipped s) (_first_iteration s) (_current_iteration s)
          (_max_iterations s) (other_keys s).

Definition set_prev_failure_keys (v : gset (string * string)) (s : State) : State :=
  mkState (repo_path s) (repo_url s) (branch s) (test_output s)
          (local_all_passed s) (classified_bugs s) (fix_plan s) (applied_patches s)
          (applied_count s) (commit_sha s) (push_status s) (ci_run_id s)
          (ci_status s) (ci_conclusion s) (ci_logs s) (all_passed s) (verdict s)
          (should_continue s) (verification_output s) (Some v) (_ci_unavailable s)
          (_tool_skipped s) (_first_iteration s) (_current_iteration s)
          (_max_iterations s) (other_keys s).

Definition set_ci_unavailable (v : bool) (s : State) : State :=
  mkState (repo_path s) (repo_url s) (branch s) (test_output s)
          (local_all_passed s) (classified_bugs s) (fix_plan s) (applied_patches s)
          (applied_count s) (commit_sha s) (push_status s) (ci_run_id s)
          (ci_status s) (ci_conclusion s) (ci_logs s) (all_passed s) (verdict s)
          (should_continue s) (verification_output s) (_prev_failure_keys s)
          (Some v) (_tool_skipped s) (_first_iteration s) (_current_iteration s)
          (_max_iterations s) (other_keys s).

Definition set_tool_skipped (v : bool) (s : State) : State :=
  mkState (repo_path s) (repo_url s) (branch s) (test_output s)
          (local_all_passed s) (classified_bugs s) (fix_plan s) (applied_patches s)
          (applied_count s) (commit_sha s) (push_status s) (ci_run_id s)
          (ci_status s) (ci_conclusion s) (ci_logs s) (all_passed s) (verdict s)
          (should_continue s) (verification_output s) (_prev_failure_keys s)
          (_ci_unavailable s) (Some v) (_first_iteration s) (_current_iteration s)
          (_max_iterations s) (other_keys s).

Definition set_first_iteration (v : bool) (s : State) : State :=
  mkState (repo_path s) (repo_url s) (branch s) (test_output s)
          (local_all_passed s) (classified_bugs s) (fix_plan s) (applied_patches s)
          (applied_count s) (commit_sha s) (push_status s) (ci_run_id s)
          (ci_status s) (ci_conclusion s) (ci_logs s) (all_passed s) (verdict s)
          (should_continue s) (verification_output s) (_prev_failure_keys s)
          (_ci_unavailable s) (_tool_skipped s) (Some v) (_current_iteration s)
          (_max_iterations s) (other_keys s).

Definition set_current_iteration (v : Z) (s : State) : State :=
  mkState (repo_path s) (repo_url s) (branch s) (test_output s)
          (local_all_passed s) (classified_bugs s) (fix_plan s) (applied_patches s)
          (applied_count s) (commit_sha s) (push_status s) (ci_run_id s)
          (ci_status s) (ci_conclusion s) (ci_logs s) (all_passed s) (verdict s)
          (should_continue s) (verification_output s) (_prev_failure_keys s)
          (_ci_unavailable s) (_tool_skipped s) (_first_iteration s) (Some v)
          (_max_iterations s) (other_keys s).

Definition set_max_iterations (v : Z) (s : State) : State :=
  mkState (repo_path s) (repo_url s) (branch s) (test_output s)
          (local_all_passed s) (classified_bugs s) (fix_plan s) (applied_patches s)
          (applied_count s) (commit_sha s) (push_status s) (ci_run_id s)
          (ci_status s) (ci_conclusion s) (ci_logs s) (all_passed s) (verdict s)
          (should_continue s) (verification_output s) (_prev_failure_keys s)
          (_ci_unavailable s) (_tool_skipped s) (_first_iteration s)
          (_current_iteration s) (Some v) (other_keys s).

(** [state[k] = v] for a key [k] that has no field of its own. *)
Definition set_other (k : string) (s : State) : State :=
  mkState (repo_path s) (repo_url s) (branch s) (test_output s) (local_all_passed s)
          (classified_bugs s) (fix_plan s) (applied_patches s) (applied_count s)
          (commit_sha s) (push_status s) (ci_run_id s) (ci_status s) (ci_conclusion s)
          (ci_logs s) (all_passed s) (verdict s) (should_continue s)
          (verification_output s) (_prev_failure_keys s) (_ci_unavailable s)
          (_tool_skipped s) (_first_iteration s) (_current_iteration s)
          (_max_iterations s) ({[k]} ∪ other_keys s).

(** ** Tool results and iteration reports *)

Record ToolResult := mkResult {
  result_tool_name : string;
  result_status : string;
  result_summary : string;
  result_outputs : State;
  result_errors : list string
}.

Record IterationReport := mkReport {
  iteration : Z;
  tool_invocations : list ToolResult;
  bugs_found : Z;
  patches_applied : Z;
  report_commit_sha : string;
  report_ci_conclusion : string;
  report_all_passed : bool;
  report_verdict : string;
  timestamp : string
}.

(** [IterationReport(iteration=n)] created at the clock reading [now]. *)
Definition new_report (n : Z) (now : string) : IterationReport :=
  mkReport n [] 0 0 "" "" false "" now.

Definition with_invocation (r : ToolResult) (rep : IterationReport) : IterationReport :=
  mkReport (iteration rep) (tool_invocations rep ++ [r]) (bugs_found rep)
           (patches_applied rep) (report_commit_sha rep) (report_ci_conclusion rep)
           (report_all_passed rep) (report_verdict rep) (timestamp rep).

Definition with_bugs_found (n : Z) (rep : IterationReport) : IterationReport :=
  mkReport (iteration rep) (tool_invocations rep) n (patches_applied rep)
           (report_commit_sha rep) (report_ci_conclusion rep) (report_all_passed rep)
           (report_verdict rep) (timestamp rep).

Definition with_patches_applied (n : Z) (rep : IterationReport) : IterationReport :=
  mkReport (iteration rep) (tool_invocations rep) (bugs_found rep) n
           (report_commit_sha rep) (report_ci_conclusion rep) (report_all_passed rep)
           (report_verdict rep) (timestamp rep).

Definition with_commit_sha (sha : string) (rep : IterationReport) : IterationReport :=
  mkReport (iteration rep) (tool_invocations rep) (bugs_found rep) (patches_applied rep)
           sha (report_ci_conclusion rep) (report_all_passed rep) (report_verdict rep)
           (timestamp rep).

Definition with_ci_conclusion (c : string) (rep : IterationReport) : IterationReport :=
  mkReport (iteration rep) (tool_invocations rep) (bugs_found rep) (patches_applied rep)
           (report_commit_sha rep) c (report_all_passed rep) (report_verdict rep)
           (timestamp rep).

Definition with_all_passed (b : bool) (rep : IterationReport) : IterationReport :=
  mkReport (iteration rep) (tool_invocations rep) (bugs_found rep) (patches_applied rep)
           (report_commit_sha rep) (report_ci_conclusion rep) b (report_verdict rep)
           (timestamp rep).

Definition with_verdict (v : string) (rep : IterationReport) : IterationReport :=
  mkReport (iteration rep) (tool_invocations rep) (bugs_found rep) (patches_applied rep)
           (report_commit_sha rep) (report_ci_conclusion rep) (report_all_passed rep) v
           (timestamp rep).

(** ** The transition logic *)

(** The set [{(b.get("file", ""), b.get("bug_type", "")) for b in bugs}]. *)
Definition failure_keys (bugs : list BugDict) : gset (string * string) :=
  list_to_set (map (fun b => (Py.get (bug_file b) "", Py.get (bug_type b) "")) bugs).

Definition nonempty_set (keys : gset (string * string)) : bool :=
  negb (bool_decide (keys = ∅)).

(** The value that [_reason_transition] returns, together with the state,
    the report and the memory as the call leaves them.  [now] holds the clock
    readings that an append of a CI run would take. *)
Definition Step : Type := Phase * State * IterationReport * option RunMemory.t.

Definition step_phase (step : Step) : Phase := fst (fst (fst step)).
Definition step_state (step : Step) : State := snd (fst (fst step)).
Definition step_report (step : Step) : IterationReport := snd (fst step).

Definition _reason_transition (phase : Phase) (state : State) (report : IterationReport)
    (next_continue next_stop : Phase) (current_iteration max_iterations : Z)
    (memory : option RunMemory.t) (now : string * string) : Step :=
  match phase with
  | RUN_TESTS =>
      let local_passed := Py.get (local_all_passed state) false in
      let ci_succeeded :=
        match memory with
        | Some m =>
            match last (RunMemory.ci_runs m) with
            | Some last_ci => String.eqb (RunMemory.ci_status last_ci) "success"
            | None => false
            end
        | None => false
        end in
      if ci_succeeded then
        (DONE, state, with_verdict "pass" (with_all_passed true report), memory)
      else
        let state :=
          if local_passed && Py.truthy (Py.get (ci_logs state) "")
          then set_test_output (Py.get (ci_logs state) "") state
          else state in
        (next_continue, state, report, memory)
  | CLASSIFY =>
      let bugs := Py.get (classified_bugs state) [] in
      let report := with_bugs_found (Z.of_nat (List.length bugs)) report in
      let memory :=
        match memory with
        | Some m => if Py.nonempty bugs then Some (append_failures m current_iteration bugs)
                    else Some m
        | None => None
        end in
      if negb (Py.nonempty bugs) then
        if Py.get (local_all_passed state) false then
          (DONE, state, with_verdict "pass" (with_all_passed true report), memory)
        else
          (next_stop, state, with_verdict "no_bugs_classified" report, memory)
      else
        let current_keys := failure_keys bugs in
        let prev_keys := Py.get (_prev_failure_keys state) ∅ in
        if nonempty_set prev_keys && bool_decide (current_keys = prev_keys) then
          (next_stop, state, with_verdict "no_new_failures" report, memory)
        else
          (next_continue, set_prev_failure_keys current_keys state, report, memory)
  | PLAN_FIX =>
      let plan := Py.get (fix_plan state) [] in
      let actionable := List.filter PatchApplier.is_actionable plan in
      if negb (Py.nonempty actionable) then
        (next_stop, state, with_verdict "no_actionable_fixes" report, memory)
      else (next_continue, state, report, memory)
  | APPLY_PATCH =>
      let applied := Py.get (applied_count state) 0 in
      let report := with_patches_applied applied report in
      if applied =? 0 then
        (next_stop, state, with_verdict "no_patches_applied" report, memory)
      else (next_continue, state, report, memory)
  | COMMIT_PUSH =>
      let sha := Py.get (commit_sha state) "" in
      let push := Py.get (push_status state) "" in
      let report := with_commit_sha sha report in
      let memory :=
        match memory with
        | Some m =>
            if Py.truthy sha
            then Some (append_fixes m current_iteration
                                    (Py.get (applied_patches state) []) sha)
            else Some m
        | None => None
        end in
      if negb (Py.truthy sha) then
        (next_stop, state, with_verdict "commit_failed" report, memory)
      else if String.eqb push "push_failed" then
        (DONE, state,
         with_all_passed false (with_verdict "push_failed_fixes_applied" report), memory)
      else (next_continue, state, report, memory)
  | WAIT_FOR_CI =>
      if negb (String.eqb (Py.get (ci_status state) "") "completed") then
        let state := set_ci_unavailable true state in
        let state := set_ci_conclusion "" state in
        let state := set_ci_logs (Py.get (test_output state) "") state in
        (VERIFY, state, report, memory)
      else (next_continue, set_ci_unavailable false state, report, memory)
  | FETCH_CI_RESULTS =>
      let logs := Py.get (ci_logs state) "" in
      let conclusion := Py.get (ci_conclusion state) "" in
      let memory :=
        match memory with
        | Some m =>
            Some (append_ci_run m current_iteration
                                (if Py.truthy conclusion then conclusion else "unknown")
                                "" "" now)
        | None => None
        end in
      if negb (Py.truthy logs) then
        (next_stop, state, with_verdict "no_ci_logs" report, memory)
      else (next_continue, state, report, memory)
  | VERIFY =>
      let report := with_all_passed (Py.get (all_passed state) false) report in
      let report := with_ci_conclusion (Py.get (ci_conclusion state) "") report in
      let report := with_verdict (Py.get (verdict state) "fail") report in
      let at_limit := max_iterations <=? current_iteration in
      if Py.get (_ci_unavailable state) false then
        if Py.get (local_all_passed state) false then
          let report :=
            with_ci_conclusion "local_pass"
              (with_verdict "pass_local" (with_all_passed true report)) in
          let memory :=
            match memory with
            | Some m => Some (append_ci_run m current_iteration "success" "" "" now)
            | None => None
            end in
          (DONE, state, report, memory)
        else if negb at_limit then
          let state :=
            set_test_output
              (Py.get (verification_output state) (Py.get (test_output state) "")) state in
          (next_continue, set_should_continue true state, report, memory)
        else (next_stop, state, with_verdict "fail_local_no_ci" report, memory)
      else if report_all_passed report then (DONE, state, report, memory)
      else if Py.get (should_continue state) false && negb at_limit then
        let state :=
          set_test_output
            (Py.get (ci_logs state) (Py.get (verification_output state) "")) state in
        (next_continue, state, report, memory)
      else (next_stop, state, report, memory)
  | DONE => (next_stop, state, report, memory)
  end.

(** ** One graph invocation *)

(** What the loop owns: the shared state, the memory, the report of the
    running iteration, the world outside (working tree, remote, CI) and the
    number of clock readings taken. *)
Record Loop (W : Type) := mkLoop {
  shared : State;
  memory : RunMemory.t;
  report : IterationReport;
  world : W;
  ticks : nat
}.
Arguments mkLoop {W}.
Arguments shared {W}.
Arguments memory {W}.
Arguments report {W}.
Arguments world {W}.
Arguments ticks {W}.

(** A tool reads the state, may change the memory and the world, and returns
    its result, or the text of the exception that it raised. *)
Definition Tool (W : Type) : Type :=
  State -> RunMemory.t -> W -> (ToolResult + string) * RunMemory.t * W.

Record AgentTool (W : Type) := mkTool {
  input_keys : list string;
  execute : Tool W
}.
Arguments mkTool {W}.
Arguments input_keys {W}.
Arguments execute {W}.

(** [registry.get]: the tool registered under a name, or the text of the
    [KeyError] raised for a name that is not registered. *)
Definition Registry (W : Type) : Type := string -> AgentTool W + string.

(** [registry.validate_io(tool_name, state)], for a registered tool. *)
Definition validate_io {W} (t : AgentTool W) (state : State) : list string :=
  List.filter (fun k => negb (has_key state k)) (input_keys t).

Definition default_input_keys (tool_name : string) : list string :=
  if String.eqb tool_name "test_runner" then ["repo_path"]
  else if String.eqb tool_name "failure_classifier" then ["test_output"]
  else if String.eqb tool_name "fix_planner" then ["classified_bugs"; "repo_path"]
  else if String.eqb tool_name "patch_applier" then ["fix_plan"; "repo_path"]
  else if String.eqb tool_name "commit_push" then ["repo_path"; "branch"]
  else if String.eqb tool_name "wait_for_ci" then ["repo_url"; "branch"; "commit_sha"]
  else if String.eqb tool_name "fetch_ci_results" then ["repo_url"; "ci_run_id"]
  else if String.eqb tool_name "verification" then ["ci_conclusion"]
  else [].

Section Graph.
(** [recursion_error] is the text of the error that the graph library raises
    when an invocation reaches its recursion limit. *)
Context {W : Type} (registry : Registry W) (clock : nat -> string)
        (recursion_error : string).

(** How a graph invocation ends: at END, or with an exception. *)
Inductive Ending := Ended | Raised (exc : string).

(** The node of a tool, then the conditional edge behind it. *)
Definition node_and_edge (phase : Phase) (l : Loop W) : (Phase + Ending) * Loop W :=
  match TRANSITIONS phase with
  | None => (inr Ended, l)
  | Some (tool_name, next_continue, next_stop) =>
      match registry tool_name with
      | inr exc => (inr (Raised exc), l)
      | inl t =>
      if Py.nonempty (validate_io t (shared l)) then
        (inr Ended,
         mkLoop (set_tool_skipped true (shared l)) (memory l) (report l) (world l) (ticks l))
      else
        let state := set_tool_skipped false (shared l) in
        match execute t state (memory l) (world l) with
        | (inr exc, memory', world') =>
            (inr (Raised exc), mkLoop state memory' (report l) world' (ticks l))
        | (inl result, memory', world') =>
            let report' := with_invocation result (report l) in
            let state := update state (result_outputs result) in
            if Py.get (_tool_skipped state) false then
              (inr Ended, mkLoop state memory' report' world' (ticks l))
            else
              let now := (clock (ticks l), clock (S (ticks l))) in
              let '(next_phase, state, report', memory'') :=
                _reason_transition phase state report' next_continue next_stop
                                   (Py.get (_current_iteration state) 1)
                                   (Py.get (_max_iterations state) 5)
                                   (Some memory') now in
              let l' := mkLoop state (Py.get memory'' memory') report' world'
                               (S (S (ticks l))) in
              match next_phase with
              | DONE => (inr Ended, l')
              | _ => (inl next_phase, l')
              end
        end
      end
  end.

(** [compiled_graph.ainvoke(..., {"recursion_limit": limit})].  The graph
    library runs node after node along the conditional edges; the model
    takes its recursion limit as the number of nodes that one invocation
    may run, after which the library raises. *)
Fixpoint run_graph (limit : nat) (phase : Phase) (l : Loop W) : Ending * Loop W :=
  match limit with
  | O => (Raised recursion_error, l)
  | S limit' =>
      match node_and_edge phase l with
      | (inr ending, l') => (ending, l')
      | (inl next_phase, l') => run_graph limit' next_phase l'
      end
  end.

Definition recursion_limit : nat := 25.

(** ** The outer loop *)

Record Totals := mkTotals {
  current_iteration : Z;
  iterations : list IterationReport;
  total_bugs : Z;
  total_fixes : Z;
  total_commits : Z
}.

(** One pass through the body of the [while] loop: the new totals, the loop
    state, and whether a [break] was taken. *)
Definition iterate (t : Totals) (l : Loop W) : Totals * Loop W * bool :=
  let n := current_iteration t + 1 in
  let rep := new_report n (clock (ticks l)) in
  let state := set_current_iteration n (set_first_iteration (n =? 1) (shared l)) in
  let state := set_other "_current_report" (set_other "_run_memory" state) in
  let l := mkLoop state (memory l) rep (world l) (S (ticks l)) in
  let '(ending, l) := run_graph recursion_limit RUN_TESTS l in
  let rep :=
    match ending with
    | Ended => report l
    | Raised exc => with_verdict ("graph_error: " +:+ exc) (report l)
    end in
  let commits :=
    if Py.truthy (report_commit_sha rep) then total_commits t + 1 else total_commits t in
  let t' := mkTotals n (iterations t ++ [rep]) (total_bugs t + bugs_found rep)
                     (total_fixes t + patches_applied rep) commits in
  let l := mkLoop (shared l) (memory l) rep (world l) (ticks l) in
  let stop :=
    report_all_passed rep
    || (MAX_TOTAL_COMMITS <=? commits)
    || negb (Py.get (should_continue (shared l)) false) in
  (t', l, stop).

(** [while current_iteration < max_iterations]; [fuel] bounds the number of
    passes. *)
Fixpoint while_loop (fuel : nat) (max_iterations : Z) (t : Totals) (l : Loop W)
    : Totals * Loop W :=
  match fuel with
  | O => (t, l)
  | S fuel' =>
      if current_iteration t <? max_iterations then
        let '(t', l', stop) := iterate t l in
        if stop then (t', l') else while_loop fuel' max_iterations t' l'
      else (t, l)
  end.

Record ReasoningLoopResult := mkLoopResult {
  status : string;
  iterations_used : nat;
  result_max_iterations : Z;
  total_bugs_found : Z;
  total_fixes_applied : Z;
  result_iterations : list IterationReport;
  final_test_output : string;
  final_memory : RunMemory.t
}.

(** [run_reasoning_loop]: the shared state starts as the configuration on
    top of the repository path. *)
Definition run_reasoning_loop (repo_path : string) (max_iterations : Z) (config : State)
    (w : W) : ReasoningLoopResult * W :=
  let state := update (set_repo_path repo_path empty_state) config in
  let state := set_max_iterations max_iterations state in
  let '(t, l) :=
    while_loop (Z.to_nat max_iterations) max_iterations (mkTotals 0 [] 0 0 0)
               (mkLoop state RunMemory.init (new_report 0 "") w 0) in
  let final_passed :=
    match last (iterations t) with
    | Some rep => report_all_passed rep
    | None => false
    end in
  let mem :=
    if final_passed && (total_bugs t =? 0) && (total_fixes t =? 0)
       && (total_commits t =? 0)
    then append_ci_run (memory l) (current_iteration t) "success" "" ""
                       (clock (ticks l), clock (S (ticks l)))
    else memory l in
  let status :=
    if final_passed then "healed"
    else if 0 <? total_fixes t then "partial"
    else "failed" in
  (mkLoopResult status (List.length (iterations t)) max_iterations (total_bugs t)
                (total_fixes t) (iterations t)
                (Py.get (verification_output (shared l))
                        (Py.get (test_output (shared l)) ""))
                mem,
   world l).

End Graph.

End ReasoningLoop.
(* ===================================================================== *)
(** * agents/tools/verification_tool.py *)
(* ===================================================================== *)

Module VerificationTool.
Import RunMemory ReasoningLoop.

(** The counts that [execute] reads from the state, beside the keys of the
    state record. *)
Record Suites := mkSuites {
  ci_failing_suites : option Z;
  ci_passing_suites : option Z;
  failing_suites : option Z
}.

(** The counts among the outputs: [improvement], [passing_suites] and
    [failing_suites]. *)
Record Counts := mkCounts {
  improvement : Z;
  passing : Z;
  failing : Z
}.

(** The dictionary [outputs]; [local] is the value of [local_all_passed],
    which only the fallback writes. *)
Definition outputs (passed continue : bool) (verdict_ output : string)
    (local : option bool) : State :=
  let s :=
    set_all_passed passed
      (set_should_continue continue
         (set_verdict verdict_
            (set_verification_output output empty_state))) in
  let s := set_other "improvement" (set_other "passing_suites"
                                      (set_other "failing_suites" s)) in
  match local with
  | Some b => set_local_all_passed b s
  | None => s
  end.

(** [memory.ci_runs[-2]] *)
Definition before_last (runs : list CIRunRecord) : option CIRunRecord :=
  nth_error runs (List.length runs - 2).

(** [local] is what [_run_local_verification] returns: whether the local
    tests passed, and their output.  [now] holds the clock readings that an
    append of a CI run would take. *)
Definition execute (state : State) (suites : Suites) (memory : option RunMemory.t)
    (local : bool * string) (now : string * string)
    : ToolResult * Counts * option RunMemory.t :=
  let ci_conclusion := Py.get (ReasoningLoop.ci_conclusion state) "" in
  let logs := Py.get (ci_logs state) "" in
  let ci_unavailable := Py.get (_ci_unavailable state) false in
  let ci_conclusion :=
    match memory with
    | Some m =>
        match latest_ci_run m with
        | Some latest =>
            if Py.truthy ci_conclusion then ci_conclusion else RunMemory.ci_status latest
        | None => ci_conclusion
        end
    | None => ci_conclusion
    end in
  if ci_unavailable || negb (Py.truthy ci_conclusion) then
    let '(local_passed, local_output) := local in
    if local_passed then
      (mkResult "verification" "success"
                "CI unavailable but local tests PASS — healing verified locally."
                (outputs true false "pass" local_output (Some true)) [],
       mkCounts 0 1 0,
       match memory with
       | Some m =>
           Some (append_ci_run m (Py.get (_current_iteration state) 1) "success" "" "" now)
       | None => None
       end)
    else
      (mkResult "verification" "failure"
                "CI unavailable. Local tests still FAIL — continue iterating."
                (outputs false true "fail" local_output (Some false)) [],
       mkCounts 0 0 1,
       memory)
  else
    let passed := String.eqb ci_conclusion "success" in
    let prev_failing := Py.get (failing_suites suites) 0 in
    let prev_failing :=
      match memory with
      | Some m =>
          if (2 <=? List.length (ci_runs m))%nat then
            match before_last (ci_runs m) with
            | Some prev_ci =>
                if negb (String.eqb (RunMemory.ci_status prev_ci) "success")
                   && (prev_failing =? 0)
                then 1 else prev_failing
            | None => prev_failing
            end
          else prev_failing
      | None => prev_failing
      end in
    let failing_ := Py.get (ci_failing_suites suites) 0 in
    let passing_ := Py.get (ci_passing_suites suites) 0 in
    let improvement_ := prev_failing - failing_ in
    let '(verdict_, continue, summary) :=
      if passed then
        ("pass", false, "CI passed (conclusion: success). Healing complete.")
      else if 0 <? improvement_ then
        ("partial", true,
         "CI failed (conclusion: " +:+ ci_conclusion +:+ "), but improved: "
           +:+ Py.str_of_Z failing_ +:+ " failing (was " +:+ Py.str_of_Z prev_failing
           +:+ ", fixed " +:+ Py.str_of_Z improvement_ +:+ ").")
      else
        ("fail", 0 <? failing_,
         "CI failed (conclusion: " +:+ ci_conclusion +:+ "). No improvement: "
           +:+ Py.str_of_Z failing_ +:+ " failing (was " +:+ Py.str_of_Z prev_failing
           +:+ ").") in
    let verification_output_ :=
      if Py.truthy logs then logs else "CI conclusion: " +:+ ci_conclusion in
    (mkResult "verification" (if passed then "success" else "failure") summary
              (outputs passed continue verdict_ verification_output_ None) [],
     mkCounts improvement_ passing_ failing_,
     memory).

End VerificationTool.
(* ===================================================================== *)
(** * Concrete runs used by the examples below *)
(* ===================================================================== *)

Module Scenario.
Import RunMemory.

(** A bug as the classifier tool reports it. *)
Definition bug (file : string) (line : Z) (type message : string) : BugDict :=
  mkBug (Some file) (Some line) (Some type) (Some message) None None None.

(** An applied patch as [PatchApplierTool._write_patch] returns it. *)
Definition applied_patch (b : BugDict) (method description file : string) : PatchDict :=
  mkPatch (Some b) "applied" (Some method) (Some description) (Some file) None (Some []).

Definition colon_bug : BugDict := bug "app/main.py" 10 "SYNTAX" "SyntaxError: expected ':'".

Definition colon_patch : PatchDict :=
  applied_patch colon_bug "deterministic" "Added missing colon at line 10" "app/main.py".

(** Memory after one iteration that classified [colon_bug], patched it and
    committed the patch as [abc1234]. *)
Definition one_fix_memory : t :=
  append_fixes (append_failures init 1 [colon_bug]) 1 [colon_patch] "abc1234".

Definition clock1 : string * string :=
  ("2026-01-01T00:00:00+00:00", "2026-01-01T00:00:01+00:00").
Definition clock2 : string * string :=
  ("2026-01-01T00:05:00+00:00", "2026-01-01T00:05:01+00:00").

Definition two_ci_memory : t :=
  append_ci_run (append_ci_run one_fix_memory 1 "failure" "" "" clock1)
                2 "success" "" "" clock2.


(** A pytest report: one failing test whose traceback ends in a source
    file. *)
Definition pytest_log : string :=
  Py.join Py.NL
    [ "=================================== FAILURES ===================================";
      "_____________________________ test_divide_by_zero ______________________________";
      "";
      "    def test_divide_by_zero():";
      ">       result = divide(10, 0)";
      "";
      "tests/test_math_ops.py:24: ";
      "_ _ _ _ _ _ _ _ _ _ _ _ _ _ _ _ _ _ _ _ _ _ _ _ _ _ _ _ _ _ _ _ _ _ _ _ _ _ _ _";
      "";
      "    def divide(a, b):";
      ">       return a / b";
      "E       ZeroDivisionError: division by zero";
      "";
      "src/math_ops.py:21: ZeroDivisionError";
      "=========================== short test summary info ============================";
      "FAILED tests/test_math_ops.py::test_divide_by_zero - ZeroDivisionError: division by zero";
      "============================== 1 failed in 0.03s ===============================";
      "" ].

Definition no_match : Re.match_ := Re.mkMatch 0 0 [] "".

Definition pytest_summary : Re.match_ :=
  hd no_match (Re.finditer ErrorClassifier.failed_pattern pytest_log).

Definition pytest_section : Re.match_ :=
  hd no_match (Re.finditer ErrorClassifier.test_section_re pytest_log).

(** A bug that an earlier pass had attributed to the test file. *)
Definition test_file_bug : ErrorClassifier.BugReport :=
  ErrorClassifier.mkReport "tests/test_math_ops.py" 24 "LOGIC"
                           "ZeroDivisionError: division by zero".


(** A pytest report of a test that is a method of a class: the failure
    section is headed by the class and the method joined by a dot, the
    summary line joins them by two colons. *)
Definition class_log : string :=
  Py.join Py.NL
    [ "=================================== FAILURES ===================================";
      "___________________________ TestMath.test_divide ___________________________";
      "";
      "self = <tests.test_math_ops.TestMath object at 0x7f3c5a1d2e50>";
      "";
      "    def test_divide(self):";
      ">       result = divide(10, 0)";
      "";
      "tests/test_math_ops.py:40: ";
      "_ _ _ _ _ _ _ _ _ _ _ _ _ _ _ _ _ _ _ _ _ _ _ _ _ _ _ _ _ _ _ _ _ _ _ _ _ _ _ _";
      "";
      "    def divide(a, b):";
      ">       return a / b";
      "E       ZeroDivisionError: division by zero";
      "";
      "src/math_ops.py:21: ZeroDivisionError";
      "=========================== short test summary info ============================";
      "FAILED tests/test_math_ops.py::TestMath::test_divide - ZeroDivisionError: division by zero";
      "============================== 1 failed in 0.03s ===============================";
      "" ].

(** The bug that an earlier pass had attributed to the test file. *)
Definition class_test_bug : ErrorClassifier.BugReport :=
  ErrorClassifier.mkReport "tests/test_math_ops.py" 40 "LOGIC"
                           "ZeroDivisionError: division by zero".

(** A report of two failing tests: a function whose traceback ends in
    [src/text_ops.py], and the method of [class_log]. *)
Definition two_tests_log : string :=
  Py.join Py.NL
    [ "=================================== FAILURES ===================================";
      "_______________________________ test_first_word ________________________________";
      "";
      "    def test_first_word():";
      ">       assert first_word('') == ''";
      "";
      "tests/test_text_ops.py:12: ";
      "_ _ _ _ _ _ _ _ _ _ _ _ _ _ _ _ _ _ _ _ _ _ _ _ _ _ _ _ _ _ _ _ _ _ _ _ _ _ _ _";
      "";
      "    def first_word(text):";
      ">       return text.split()[0]";
      "E       IndexError: list index out of range";
      "";
      "src/text_ops.py:7: IndexError";
      "___________________________ TestMath.test_divide ___________________________";
      "";
      "    def test_divide(self):";
      ">       result = divide(10, 0)";
      "";
      "tests/test_math_ops.py:40: ";
      "_ _ _ _ _ _ _ _ _ _ _ _ _ _ _ _ _ _ _ _ _ _ _ _ _ _ _ _ _ _ _ _ _ _ _ _ _ _ _ _";
      "";
      "    def divide(a, b):";
      ">       return a / b";
      "E       ZeroDivisionError: division by zero";
      "";
      "src/math_ops.py:21: ZeroDivisionError";
      "=========================== short test summary info ============================";
      "FAILED tests/test_text_ops.py::test_first_word - IndexError: list index out of range";
      "FAILED tests/test_math_ops.py::TestMath::test_divide - ZeroDivisionError: division by zero";
      "============================== 2 failed in 0.04s ===============================";
      "" ].

Definition first_word_test_bug : ErrorClassifier.BugReport :=
  ErrorClassifier.mkReport "tests/test_text_ops.py" 12 "LOGIC"
                           "IndexError: list index out of range".

(** A report in the short traceback style, in which the message of the
    error carries the traceback of a child process: a reference of the
    interpreter's shape comes after the last reference of the short
    shape. *)
Definition mixed_log : string :=
  Py.join Py.NL
    [ "=================================== FAILURES ===================================";
      "__________________________________ test_load ___________________________________";
      "tests/test_loader.py:9: in test_load";
      "    load('settings.ini')";
      "src/loader.py:12: in load";
      "    return run_parser(path)";
      "E   RuntimeError: parser failed:";
      "E   Traceback (most recent call last):";
      "E     File " +:+ Py.chr Py.dquote +:+ "src/config.py" +:+ Py.chr Py.dquote
        +:+ ", line 5, in parse";
      "E   ValueError: bad header";
      "=========================== short test summary info ============================";
      "FAILED tests/test_loader.py::test_load - RuntimeError: parser failed:";
      "============================== 1 failed in 0.02s ===============================";
      "" ].

(** A plain POSIX reading of the path operations, on paths that are already
    normal. *)
Definition below (path base : string) : option string :=
  let prefix := Py.rstrip_chars "/" base +:+ "/" in
  if Py.startswith path prefix then Some (Py.drop (Py.len prefix) path) else None.

Definition posix : Os :=
  mkOs (fun s => s)
       (fun a b => if Py.startswith b "/" then b else Py.rstrip_chars "/" a +:+ "/" +:+ b)
       (fun s => Py.startswith s "/")
       (fun s => s)
       below
       (fun fs repo name =>
          List.filter (fun p => match below p repo with
                                | Some _ => String.eqb (Py.path_name p) name
                                | None => false
                                end)
                      (map fst (map_to_list fs)))
       (fun _ => None)
       (fun _ => None)
       (fun _ _ => None).

Definition repo : string := "/tmp/heal_demo".

(** No key for the model: the model-assisted path is unavailable. *)
Definition no_key : string := "".
Definition silent_model : PatchApplier.Model := fun _ _ _ => None.

Definition planned (b : BugDict) (strategy target : string) : PlanEntry :=
  mkEntry (Some b) (Some strategy) None (Some "") (Some target) (Some "") None.

(** *** A block of twenty-two statements wrapped by the index-error rule *)

Definition report_body : list string :=
  map (fun n => "    cell_" +:+ Py.str_of_Z n +:+ " = row[k] + " +:+ Py.str_of_Z n +:+ Py.NL)
      [1; 2; 3; 4; 5; 6; 7; 8; 9; 10; 11; 12; 13; 14; 15; 16; 17; 18; 19; 20; 21; 22].

Definition report_lines : list string :=
  ("for row in rows:" +:+ Py.NL) :: report_body.

Definition report_path : string := "/tmp/heal_demo/src/report.py".

Definition report_tree : gmap string string :=
  {[ report_path := Py.concat report_lines ]}.

Definition index_bug : BugDict :=
  bug "src/report.py" 2 "LOGIC" "IndexError: list index out of range".

Definition index_entry : PlanEntry :=
  planned index_bug "deterministic_index_error" report_path.

(** *** Two bugs, one line apart, in a recursive function *)

Definition fact_lines : list string :=
  [ "def fact(n):" +:+ Py.NL;
    "    if n == 0:" +:+ Py.NL;
    "        return 1" +:+ Py.NL;
    "    scale = n / 2" +:+ Py.NL;
    "    return scale * fact(n - 1)" +:+ Py.NL ].

Definition fact_path : string := "/tmp/heal_demo/src/fact.py".

Definition fact_tree : gmap string string :=
  {[ fact_path := Py.concat fact_lines ]}.

Definition operator_bug : BugDict :=
  bug "src/fact.py" 4 "LOGIC" "LogicError: should multiply, not divide".

Definition recursion_bug : BugDict :=
  bug "src/fact.py" 5 "LOGIC" "RecursionError: maximum recursion depth exceeded".

Definition operator_entry : PlanEntry :=
  planned operator_bug "deterministic_logic" fact_path.

Definition recursion_entry : PlanEntry :=
  planned recursion_bug "deterministic_recursion_error" fact_path.


(** Memory after an iteration that patched the operator and committed the
    patch as [def5678]. *)
Definition fact_fix_memory : t :=
  append_fixes init 1
    [applied_patch operator_bug "deterministic" "Changed '/' to '*' at line 4" "src/fact.py"]
    "def5678".

(** *** A header without its colon *)

Definition fact_header : list string :=
  [ "def fact(n)" +:+ Py.NL;
    "    return n" +:+ Py.NL ].

Definition header_bug : BugDict :=
  bug "src/fact.py" 1 "SYNTAX" "SyntaxError: expected ':'".

(** *** A bug reported in a test file *)

Definition test_bug : BugDict :=
  bug "tests/test_fact.py" 7 "LOGIC" "AssertionError: assert fact(3) == 6".

(** ** A scripted registry for the reasoning loop *)

(** The world of the scripted tools is the list of the tools that have run,
    in order. *)
Definition Trace : Type := list string.

Definition calls (name : string) (trace : Trace) : nat :=
  List.length (List.filter (String.eqb name) trace).

(** A tool that succeeds with the given outputs and leaves the memory
    alone. *)
Definition stub (name : string) (keys : list string)
    (outputs : ReasoningLoop.State -> Trace -> ReasoningLoop.State)
    : ReasoningLoop.AgentTool Trace :=
  ReasoningLoop.mkTool keys
    (fun state memory trace =>
       (inl (ReasoningLoop.mkResult name "success" "" (outputs state trace) []),
        memory, trace ++ [name])).

Definition fresh : ReasoningLoop.State := ReasoningLoop.empty_state.

(** Local tests fail, every classified bug is planned, patched and
    committed, no CI workflow is found, and local verification still fails;
    [classified n] is what the classifier reports at its call number [n]. *)
Definition scripted (classified : nat -> list BugDict) : ReasoningLoop.Registry Trace :=
  fun name =>
    if String.eqb name "test_runner" then
      inl (stub name ["repo_path"] (fun _ _ =>
        ReasoningLoop.set_test_output "1 failed"
          (ReasoningLoop.set_local_all_passed false
             (ReasoningLoop.set_all_passed false fresh))))
    else if String.eqb name "failure_classifier" then
      inl (stub name ["test_output"] (fun _ trace =>
        ReasoningLoop.set_classified_bugs (classified (calls name trace)) fresh))
    else if String.eqb name "fix_planner" then
      inl (stub name ["classified_bugs"; "repo_path"] (fun state _ =>
        ReasoningLoop.set_fix_plan
          (map (fun b => planned b "deterministic" (Py.get (bug_file b) ""))
               (Py.get (ReasoningLoop.classified_bugs state) []))
          fresh))
    else if String.eqb name "patch_applier" then
      inl (stub name ["fix_plan"; "repo_path"] (fun state _ =>
        let plan := Py.get (ReasoningLoop.fix_plan state) [] in
        ReasoningLoop.set_applied_patches
          (map (fun e => applied_patch (Py.get (plan_bug e) empty_bug) "deterministic"
                                       "patched" (Py.get (plan_target_file e) ""))
               plan)
          (ReasoningLoop.set_applied_count (Z.of_nat (List.length plan)) fresh)))
    else if String.eqb name "commit_push" then
      inl (stub name ["repo_path"; "branch"] (fun _ _ =>
        ReasoningLoop.set_commit_sha "c0ffee1"
          (ReasoningLoop.set_push_status "success" fresh)))
    else if String.eqb name "wait_for_ci" then
      inl (stub name ["repo_url"; "branch"; "commit_sha"] (fun _ _ =>
        ReasoningLoop.set_ci_run_id 0
          (ReasoningLoop.set_ci_conclusion ""
             (ReasoningLoop.set_ci_status "" fresh))))
    else if String.eqb name "fetch_ci_results" then
      inl (stub name ["repo_url"; "ci_run_id"] (fun _ _ =>
        ReasoningLoop.set_ci_logs "" fresh))
    else if String.eqb name "verification" then
      inl (stub name ["ci_conclusion"] (fun _ _ =>
        ReasoningLoop.set_all_passed false
          (ReasoningLoop.set_should_continue true
             (ReasoningLoop.set_verdict "fail"
                (ReasoningLoop.set_verification_output "1 failed"
                   (ReasoningLoop.set_local_all_passed false fresh))))))
    else inr ("Tool '" +:+ name +:+ "' not found.").

Definition recursion_error : string := "Recursion limit of 25 reached".

Definition utc (n : nat) : string := "2026-01-01T00:00:" +:+ Py.str_of_Z (Z.of_nat n).

Definition loop_config : ReasoningLoop.State :=
  ReasoningLoop.set_repo_url "https://github.com/org/repo"
    (ReasoningLoop.set_branch "auto-heal" fresh).

(** The same failure in [app/main.py] twice (its line shifted by the first
    patch), then a new failure in another file, then nothing that the
    classifier recognises. *)
Definition shifted_colon_bug : BugDict :=
  bug "app/main.py" 11 "SYNTAX" "SyntaxError: expected ':'".

Definition lint_bug : BugDict :=
  bug "app/util.py" 3 "LINTING" "F401 'os' imported but unused".

Definition stagnating (n : nat) : list BugDict :=
  match n with
  | 0%nat => [colon_bug]
  | 1%nat => [shifted_colon_bug]
  | 2%nat => [lint_bug]
  | _ => []
  end.

Definition stagnating_run : ReasoningLoop.ReasoningLoopResult * Trace :=
  ReasoningLoop.run_reasoning_loop (scripted stagnating) utc recursion_error repo 3 loop_config [].

(** A classifier that reports a failure in another file at every call. *)
Definition restless (n : nat) : list BugDict :=
  [bug ("app/mod" +:+ Py.str_of_Z (Z.of_nat n) +:+ ".py") 1 "SYNTAX"
       "SyntaxError: invalid syntax"].

Definition restless_run : ReasoningLoop.ReasoningLoopResult * Trace :=
  ReasoningLoop.run_reasoning_loop (scripted restless) utc recursion_error repo 2 loop_config [].

(** The same with the default of five iterations. *)
Definition restless_run5 : ReasoningLoop.ReasoningLoopResult * Trace :=
  ReasoningLoop.run_reasoning_loop (scripted restless) utc recursion_error repo 5 loop_config [].

(** A classifier whose every fourth report repeats the one before it, and
    whose other reports each name a failure in another file. *)
Definition relapsing (n : nat) : list BugDict :=
  restless (if (n mod 4 =? 3)%nat then (n - 1)%nat else n).

Definition relapsing_run : ReasoningLoop.ReasoningLoopResult * Trace :=
  ReasoningLoop.run_reasoning_loop (scripted relapsing) utc recursion_error repo 5 loop_config [].

(** A classifier that reports the same failure at every call. *)
Definition stuck (n : nat) : list BugDict := [colon_bug].

Definition stuck_run : ReasoningLoop.ReasoningLoopResult * Trace :=
  ReasoningLoop.run_reasoning_loop (scripted stuck) utc recursion_error repo 3 loop_config [].

(** The state in which the first CLASSIFY phase of that run decides, and the
    loop as the second one finds it: the stored keys are those of the first,
    and the classifier has run once. *)
Definition first_classification : ReasoningLoop.State :=
  ReasoningLoop.set_classified_bugs [colon_bug]
    (ReasoningLoop.set_test_output "1 failed"
       (ReasoningLoop.set_repo_path repo loop_config)).

Definition before_second_classification : ReasoningLoop.Loop Trace :=
  ReasoningLoop.mkLoop
    (ReasoningLoop.step_state
       (ReasoningLoop._reason_transition ReasoningLoop.CLASSIFY first_classification
          (ReasoningLoop.new_report 1 (utc 0)) ReasoningLoop.PLAN_FIX ReasoningLoop.DONE
          1 3 (Some init) clock1))
    (append_failures init 1 [colon_bug])
    (ReasoningLoop.new_report 1 (utc 0))
    ["failure_classifier"]
    0.

End Scenario.
(* ===================================================================== *)
(** * Properties and invariants stated about the code *)
(* ===================================================================== *)

(** ** Of the matcher *)
Module Shift.
Import Re.

(** Patterns that never look behind the cursor. *)
Fixpoint forward_only (r : re) : Prop :=
  match r with
  | Bos | BolM | WordB => False
  | Seq a b | Alt a b => forward_only a /\ forward_only b
  | Star _ a | Grp _ a | Ahead a => forward_only a
  | _ => True
  end.

(** Two cursors over the same remaining text, [d] characters apart. *)
Definition shifted (d : nat) (c c' : cursor) : Prop :=
  rest c = rest c' /\ pos c' = (pos c + d)%nat.

Definition same_outcome (d : nat) (k k' : cursor -> captures -> option result) : Prop :=
  forall c c' g g', shifted d c c' -> (is_Some (k c g) <-> is_Some (k' c' g')).

End Shift.

(** ** Of the classifier's loops *)
Module Distinct.
Import ErrorClassifier.

(** The loop keeps the keys of the recorded bugs distinct, and what it has
    recorded for a key is the first candidate of that key. *)
Definition pass_inv (seen : list BugReport) (bugs : list BugReport) : Prop :=
  NoDup (map key bugs) /\ forall k, first_with k bugs = first_with k seen.

Definition seen_inv (l : list BugReport) (st : gset (string * Z * string) * list BugReport)
    : Prop :=
  NoDup (map key (snd st))
  /\ (forall k, k ∈ fst st <-> In k (map key (snd st)))
  /\ (forall b, In b (snd st) -> In b l)
  /\ (forall b, In b l -> In (key b) (map key (snd st))).

End Distinct.

(** ** Of the planner *)
Module Protected.
Import RunMemory FixPlanner.

Definition location (bug : BugDict) : string * Z :=
  (Py.get (bug_file bug) "unknown", Py.get (bug_line bug) 0).

(** An entry that excludes the bug at [loc] from editing. *)
Definition skips (loc : string * Z) (entry : PlanEntry) : Prop :=
  plan_strategy entry = Some "skip_test_file"
  /\ plan_target_file entry = Some (fst loc)
  /\ exists bug, plan_bug entry = Some bug /\ location bug = loc.

Definition plan_inv (st : gset (string * Z) * list PlanEntry) : Prop :=
  forall loc, loc ∈ fst st -> _is_test_file (fst loc) = true ->
              exists entry, In entry (snd st) /\ skips loc entry.

End Protected.

(** ** Of the run memory *)
Module Reachable.
Import RunMemory.

(** The memories that a run can hold: the empty one, and what the three
    append methods make of such a memory. *)
Inductive reachable : RunMemory.t -> Prop :=
| reach_init : reachable init
| reach_failures m n bugs :
    reachable m -> reachable (append_failures m n bugs)
| reach_fixes m n patches commit_hash :
    reachable m -> reachable (append_fixes m n patches commit_hash)
| reach_ci_run m n status start_time end_time now :
    reachable m -> reachable (append_ci_run m n status start_time end_time now).

(** The fix records of one iteration carry one commit hash. *)
Definition one_hash (l : list FixRecord) : Prop :=
  forall f1 f2, In f1 l -> In f2 l -> fix_iteration f1 = fix_iteration f2 ->
                fix_commit_hash f1 = fix_commit_hash f2.

(** The iterations for which fixes are stored. *)
Definition fixed_iterations (m : RunMemory.t) : gset Z :=
  list_to_set (map fix_iteration (_fixes m)).

End Reachable.

(** ** Of the exported failures *)
Module Detected.
Import RunMemory ResultsExporter.

Definition entry_key (e : FailureEntry) : string * Z * string :=
  (detected_file e, detected_line e, detected_bug_type e).

(** What the loop of [_build_failures_detected] keeps true, after the
    failure records [l]. *)
Definition detect_inv (l : list FailureRecord)
    (st : gset (string * Z * string) * list FailureEntry) : Prop :=
  NoDup (map entry_key (snd st))
  /\ (forall k, k ∈ fst st <-> In k (map entry_key (snd st)))
  /\ (forall e, In e (snd st) -> exists f, In f l /\ e = detection f)
  /\ (forall f, In f l -> In (failure_key f) (map entry_key (snd st))).

End Detected.

(** ** Of the results of the patch applier *)
Module Reported.
Import RunMemory PatchApplier.

(** The number of results so far. *)
Definition tally (st : list PatchDict * list PatchDict * gmap string string) : nat :=
  (List.length (fst (fst st)) + List.length (snd (fst st)))%nat.

(** What the loop of [execute] keeps true of its results and of the tree,
    started on the tree [fs]. *)
Definition well_reported (fs : gmap string string)
    (st : list PatchDict * list PatchDict * gmap string string) : Prop :=
  dom (snd st) = dom fs
  /\ (fst (fst st) = [] ->
      Forall (fun p => patch_status p <> "write_error") (snd (fst st)) ->
      snd st = fs)
  /\ Forall (fun p => patch_status p = "applied"
                      /\ (patch_method p = Some "deterministic"
                          \/ patch_method p = Some "llm")
                      /\ exists deltas, patch_patch p = Some deltas
                                        /\ (List.length deltas <= MAX_CHANGED_LINES)%nat)
            (fst (fst st))
  /\ Forall (fun p => patch_status p <> "applied") (snd (fst st)).

End Reported.

(** ** Of the fix plan *)
Module Planned.
Import RunMemory FixPlanner.

(** The location of the bug that an entry plans for. *)
Definition entry_location (entry : PlanEntry) : string * Z :=
  Protected.location (Py.get (plan_bug entry) empty_bug).

(** The strategies that [_plan_one] and the escalation of [execute] name. *)
Definition strategies : list string :=
  [ "skip_test_file"; "unresolvable"; "llm";
    "deterministic_indent"; "deterministic_colon"; "deterministic_semicolon";
    "deterministic_bracket"; "deterministic_unused_import"; "deterministic_type_error";
    "deterministic_logic"; "deterministic_zero_division"; "deterministic_index_error";
    "deterministic_recursion_error" ].

(** A bug for which a fix was made before, as [execute] tests it. *)
Definition already_tried (prev : gset (string * string)) (bug : BugDict) : bool :=
  bool_decide ((Py.get (bug_file bug) "unknown", Py.get (RunMemory.bug_type bug) "") ∈ prev)
  || bool_decide ((Py.get (bug_file bug) "unknown", "") ∈ prev).

(** What the loop of [execute] keeps true, after the bugs [done]. *)
Definition located (done : list BugDict) (st : gset (string * Z) * list PlanEntry) : Prop :=
  List.NoDup (map entry_location (snd st))
  /\ (forall loc, loc ∈ fst st <-> In loc (map entry_location (snd st)))
  /\ (forall loc, loc ∈ fst st <-> In loc (map Protected.location done))
  /\ (forall entry, In entry (snd st) ->
        exists bug, In bug done
                    /\ (plan_bug entry = Some bug \/ plan_bug entry = Some (escalate bug)))
  /\ (List.length (snd st) <= List.length done)%nat.

(** What [execute] plans for: the entry names its bug, its target and one
    of the strategies; a test file is skipped and nothing else is; a
    deterministic strategy is planned only for a bug that was not tried
    before, in a file that was read, at a line of that file. *)
Definition well_planned (os : Os) (fs : gmap string string) (prev : gset (string * string))
    (entry : PlanEntry) : Prop :=
  exists strategy target bug,
    plan_strategy entry = Some strategy
    /\ plan_target_file entry = Some target
    /\ plan_bug entry = Some bug
    /\ In strategy strategies
    /\ (strategy = "skip_test_file"
        <-> _is_test_file (Py.get (bug_file bug) "unknown") = true)
    /\ (Py.startswith strategy "deterministic" = true ->
        already_tried prev bug = false
        /\ exists content,
             Tree.read_text os fs target = inl content
             /\ 1 <= Py.get (bug_line bug) 0
                  <= Z.of_nat (List.length (Py.splitlines true content))).

End Planned.

(** ** Of the reasoning loop *)
Module Budget.
Import ReasoningLoop.

(** The number of iterations that produced a commit. *)
Definition committed (reports : list IterationReport) : Z :=
  Z.of_nat (List.length (List.filter (fun r => Py.truthy (report_commit_sha r)) reports)).

(** What holds of the totals whenever the loop condition is tested. *)
Definition within_budget (max_iterations : Z) (t : Totals) : Prop :=
  current_iteration t = Z.of_nat (List.length (iterations t))
  /\ total_commits t = committed (iterations t)
  /\ current_iteration t <= Z.max 0 max_iterations
  /\ forall pre rep post,
       iterations t = pre ++ rep :: post ->
       committed pre < MAX_TOTAL_COMMITS /\ Z.of_nat (List.length pre) < max_iterations.

End Budget.

(** ** Of the iteration reports of a run *)
Module Numbered.
Import ReasoningLoop.

(** The sum of a count over the reports. *)
Definition total (count : IterationReport -> Z) (reports : list IterationReport) : Z :=
  fold_right (fun rep acc => count rep + acc) 0 reports.

(** The numbers [1 .. n]. *)
Definition numbers (n : nat) : list Z := map Z.of_nat (List.seq 1 n).

(** What holds of the totals while the loop runs. *)
Definition numbered (t : Totals) : Prop :=
  map iteration (iterations t) = numbers (List.length (iterations t))
  /\ current_iteration t = Z.of_nat (List.length (iterations t))
  /\ total_bugs t = total bugs_found (iterations t)
  /\ total_fixes t = total patches_applied (iterations t).

Definition not_passed (rep : IterationReport) : Prop := report_all_passed rep = false.

End Numbered.
(* ===================================================================== *)
(** * Properties of the stable sort *)
(* ===================================================================== *)

Section SortedFacts.
Context {A K : Type} (key : A -> K) (ltb : K -> K -> bool).

Lemma insert_sorted_length x l :
  List.length (Py.insert_sorted key ltb x l) = S (List.length l).
Proof.
  induction l as [|y l IH]; simpl; [reflexivity|].
  destruct (ltb (key y) (key x)); simpl; [now rewrite IH | reflexivity].
Qed.

Lemma sorted_length l : List.length (Py.sorted key ltb l) = List.length l.
Proof.
  unfold Py.sorted.
  induction l as [|x l IH]; simpl; [reflexivity|].
  now rewrite insert_sorted_length, IH.
Qed.

Lemma insert_sorted_In x y l :
  In y (Py.insert_sorted key ltb x l) <-> y = x \/ In y l.
Proof.
  induction l as [|z l IH]; simpl.
  - intuition.
  - destruct (ltb (key z) (key x)); simpl; rewrite ?IH; intuition.
Qed.

Lemma sorted_In y l : In y (Py.sorted key ltb l) <-> In y l.
Proof.
  unfold Py.sorted.
  induction l as [|x l IH]; simpl; [reflexivity|].
  rewrite insert_sorted_In, IH. intuition.
Qed.

Lemma sorted_nil_iff l : Py.sorted key ltb l = [] <-> l = [].
Proof.
  split; intros H.
  - apply (f_equal (@List.length A)) in H. rewrite sorted_length in H.
    destruct l; [reflexivity | discriminate].
  - now subst.
Qed.

Lemma insert_sorted_Permutation x l :
  Permutation (Py.insert_sorted key ltb x l) (x :: l).
Proof.
  induction l as [|y l IH]; simpl; [reflexivity|].
  destruct (ltb (key y) (key x)); [|reflexivity].
  rewrite IH. apply perm_swap.
Qed.

Lemma sorted_Permutation l : Permutation (Py.sorted key ltb l) l.
Proof.
  unfold Py.sorted.
  induction l as [|x l IH]; simpl; [reflexivity|].
  rewrite insert_sorted_Permutation. now constructor.
Qed.
End SortedFacts.

Section SortedOrder.
Context {A K : Type} (key : A -> K) (ltb : K -> K -> bool).
Hypothesis ltb_asym : forall a b, ltb a b = true -> ltb b a = false.
Hypothesis ltb_trans : forall a b c, ltb b a = false -> ltb c b = false -> ltb c a = false.

Lemma insert_sorted_ordered x l :
  StronglySorted (fun a b => ltb (key b) (key a) = false) l ->
  StronglySorted (fun a b => ltb (key b) (key a) = false) (Py.insert_sorted key ltb x l).
Proof.
  induction l as [|y l IH]; intros Hs; simpl.
  - constructor; constructor.
  - apply StronglySorted_inv in Hs as [Hs Hy].
    destruct (ltb (key y) (key x)) eqn:Hyx.
    + constructor; [now apply IH|].
      apply List.Forall_forall. intros z Hz. apply insert_sorted_In in Hz as [->|Hz].
      * now apply ltb_asym.
      * rewrite List.Forall_forall in Hy. now apply Hy.
    + constructor; [now constructor|].
      constructor; [assumption|].
      rewrite List.Forall_forall in Hy |- *. intros z Hz.
      apply (ltb_trans _ (key y)); [assumption | now apply Hy].
Qed.

(** The result of the sort is in order: no element is strictly less than
    one that stands before it. *)
Lemma sorted_ordered l :
  StronglySorted (fun a b => ltb (key b) (key a) = false) (Py.sorted key ltb l).
Proof.
  unfold Py.sorted. induction l as [|x l IH]; simpl; [constructor|].
  now apply insert_sorted_ordered.
Qed.
End SortedOrder.

(* ===================================================================== *)
(** * Run memory: re-entrant appends *)
(* ===================================================================== *)

Section RunMemoryFacts.
Import RunMemory.

Lemma filter_other_idem {A} (it : A -> Z) n (l : list A) :
  List.filter (other_iteration it n) (List.filter (other_iteration it n) l)
  = List.filter (other_iteration it n) l.
Proof.
  induction l as [|x l IH]; simpl; [reflexivity|].
  destruct (other_iteration it n x) eqn:E; simpl; [rewrite E, IH|]; auto.
Qed.

Lemma filter_other_fresh {A B} (it : A -> Z) n (mk : B -> A) (l : list B) :
  (forall b, it (mk b) = n) ->
  List.filter (other_iteration it n) (map mk l) = [].
Proof.
  intros Hit. induction l as [|b l IH]; simpl; [reflexivity|].
  unfold other_iteration at 1. rewrite Hit, Z.eqb_refl. simpl. exact IH.
Qed.

Lemma filter_other_append {A B} (it : A -> Z) n (mk : B -> A) (old : list A) (new : list B) :
  (forall b, it (mk b) = n) ->
  List.filter (other_iteration it n)
              (List.filter (other_iteration it n) old ++ map mk new)
  = List.filter (other_iteration it n) old.
Proof.
  intros Hit. rewrite List.filter_app, filter_other_idem, filter_other_fresh by assumption.
  apply app_nil_r.
Qed.

Lemma append_failures_twice m n bugs :
  append_failures (append_failures m n bugs) n bugs = append_failures m n bugs.
Proof.
  unfold append_failures; simpl. f_equal.
  now rewrite (filter_other_append failure_iteration n (failure_of_bug n)).
Qed.

Lemma append_fixes_twice m n patches h :
  append_fixes (append_fixes m n patches h) n patches h = append_fixes m n patches h.
Proof.
  unfold append_fixes; simpl. f_equal.
  now rewrite (filter_other_append fix_iteration n (fix_of_patch n h)).
Qed.

Lemma append_ci_run_twice m n status s e now1 now2 :
  append_ci_run (append_ci_run m n status s e now1) n status s e now2
  = append_ci_run m n status s e now2.
Proof.
  unfold append_ci_run; simpl. f_equal.
  rewrite List.filter_app, filter_other_idem. simpl.
  unfold other_iteration at 2. simpl. rewrite Z.eqb_refl. simpl.
  now rewrite app_nil_r.
Qed.

Lemma append_failures_frame m n bugs :
  List.filter (other_iteration failure_iteration n) (_failures (append_failures m n bugs))
  = List.filter (other_iteration failure_iteration n) (_failures m).
Proof.
  simpl. now apply (filter_other_append failure_iteration n (failure_of_bug n)).
Qed.

Lemma append_fixes_frame m n patches h :
  List.filter (other_iteration fix_iteration n) (_fixes (append_fixes m n patches h))
  = List.filter (other_iteration fix_iteration n) (_fixes m).
Proof.
  simpl. now apply (filter_other_append fix_iteration n (fix_of_patch n h)).
Qed.

Lemma append_ci_run_frame m n status s e now :
  List.filter (other_iteration ci_iteration n) (_ci_runs (append_ci_run m n status s e now))
  = List.filter (other_iteration ci_iteration n) (_ci_runs m).
Proof.
  simpl. rewrite List.filter_app, filter_other_idem. simpl.
  unfold other_iteration at 2. simpl. rewrite Z.eqb_refl. simpl.
  apply app_nil_r.
Qed.

(** The clock is read only for a timestamp that the caller left empty. *)
Lemma append_ci_run_clock m n status s e now1 now2 :
  Py.truthy s = true -> Py.truthy e = true ->
  append_ci_run m n status s e now1 = append_ci_run m n status s e now2.
Proof.
  intros Hs He. unfold append_ci_run. now rewrite Hs, He.
Qed.

(** What two calls of [append_ci_run] agree on with one call, whatever the
    clock: the iterations and the statuses of the runs, in order. *)
Lemma append_ci_run_twice_runs m n status s e now1 now2 :
  map (fun run => (ci_iteration run, ci_status run))
      (_ci_runs (append_ci_run (append_ci_run m n status s e now1) n status s e now2))
  = map (fun run => (ci_iteration run, ci_status run))
        (_ci_runs (append_ci_run m n status s e now1)).
Proof.
  rewrite append_ci_run_twice. unfold append_ci_run; simpl.
  now rewrite !map_app.
Qed.

(** C3, as the code has it.  Appending failures or fixes for iteration [n]
    twice with the same arguments stores what appending once stores.  For
    a CI run this holds when both timestamps are given.  A timestamp left
    empty is read from the clock at every call, so the second call replaces
    the run of iteration [n] by the run that a single call at the later
    time stores: the two memories agree on the iterations and the statuses
    of the runs, on the failures and on the fixes, and may differ in the
    timestamps of that one run.  An append for iteration [n] keeps, in
    order and unchanged, every stored record of an iteration other than
    [n], and leaves the two other collections as they were. *)
Theorem append_replaces_its_own_iteration :
  forall (m : t) (n : Z),
    (forall bugs,
        append_failures (append_failures m n bugs) n bugs = append_failures m n bugs) /\
    (forall patches commit_hash,
        append_fixes (append_fixes m n patches commit_hash) n patches commit_hash
        = append_fixes m n patches commit_hash) /\
    (forall status start_time end_time now1 now2,
        start_time <> "" -> end_time <> "" ->
        append_ci_run (append_ci_run m n status start_time end_time now1)
                      n status start_time end_time now2
        = append_ci_run m n status start_time end_time now1) /\
    (forall status start_time end_time now1 now2,
        let once := append_ci_run m n status start_time end_time now1 in
        let twice := append_ci_run once n status start_time end_time now2 in
        twice = append_ci_run m n status start_time end_time now2
        /\ map (fun run => (ci_iteration run, ci_status run)) (_ci_runs twice)
           = map (fun run => (ci_iteration run, ci_status run)) (_ci_runs once)
        /\ _failures twice = _failures once /\ _fixes twice = _fixes once) /\
    (forall bugs,
        let m' := append_failures m n bugs in
        List.filter (other_iteration failure_iteration n) (_failures m')
        = List.filter (other_iteration failure_iteration n) (_failures m)
        /\ _fixes m' = _fixes m /\ _ci_runs m' = _ci_runs m) /\
    (forall patches commit_hash,
        let m' := append_fixes m n patches commit_hash in
        List.filter (other_iteration fix_iteration n) (_fixes m')
        = List.filter (other_iteration fix_iteration n) (_fixes m)
        /\ _failures m' = _failures m /\ _ci_runs m' = _ci_runs m) /\
    (forall status start_time end_time now,
        let m' := append_ci_run m n status start_time end_time now in
        List.filter (other_iteration ci_iteration n) (_ci_runs m')
        = List.filter (other_iteration ci_iteration n) (_ci_runs m)
        /\ _failures m' = _failures m /\ _fixes m' = _fixes m).
Proof.
  intros m n. split; [|split; [|split; [|split; [|split; [|split]]]]].
  - intros; apply append_failures_twice.
  - intros; apply append_fixes_twice.
  - intros status s e now1 now2 Hs He. rewrite append_ci_run_twice.
    apply append_ci_run_clock; [now destruct s | now destruct e].
  - intros status s e now1 now2. cbv zeta.
    split; [apply append_ci_run_twice|].
    split; [apply append_ci_run_twice_runs | now split].
  - intros bugs. cbv zeta. split; [apply append_failures_frame | now split].
  - intros patches h. cbv zeta. split; [apply append_fixes_frame | now split].
  - intros status s e now. cbv zeta. split; [apply append_ci_run_frame | now split].
Qed.

(** C3, where appending twice is not appending once: a CI run whose
    timestamps are left to the clock, which is how every caller appends
    one.  The second call stores the later clock reading, and the memory
    after the two calls is not the memory after the first. *)
Lemma append_ci_run_twice_is_not_once :
  append_ci_run (append_ci_run init 1 "success" "" "" Scenario.clock1)
                1 "success" "" "" Scenario.clock2
  <> append_ci_run init 1 "success" "" "" Scenario.clock1.
Proof. intros H. vm_compute in H. discriminate H. Qed.

(** A stored record of another iteration is still stored after an append. *)
Lemma append_failures_keeps m n bugs r :
  In r (_failures m) -> failure_iteration r <> n ->
  In r (_failures (append_failures m n bugs)).
Proof.
  intros Hin Hne. simpl. apply in_or_app. left.
  apply List.filter_In. split; [assumption|].
  unfold other_iteration. apply negb_true_iff, Z.eqb_neq. exact Hne.
Qed.

Lemma latest_after_append m n status s e now :
  latest_ci_run (append_ci_run m n status s e now)
  = Some (mkCIRun n status (if Py.truthy s then s else fst now)
                           (if Py.truthy e then e else snd now)).
Proof.
  unfold latest_ci_run; simpl. apply last_snoc.
Qed.
End RunMemoryFacts.

(* ===================================================================== *)
(** * Result document: final CI status and fix entries *)
(* ===================================================================== *)

Section ResultsExporterFacts.
Import RunMemory ResultsExporter.

Lemma passed_not_failed : "PASSED" <> "FAILED".
Proof. discriminate. Qed.

Lemma nonempty_failures m : Py.nonempty (failures m) = Py.nonempty (_failures m).
Proof.
  unfold failures.
  destruct (_failures m) as [|f l] eqn:E; [reflexivity|].
  destruct (Py.sorted _ _ (f :: l)) eqn:E'; [|reflexivity].
  apply sorted_nil_iff in E'. discriminate.
Qed.

(** C10.  Without any CI run record the final status is PASSED exactly
    when no failure record is stored, and FAILED otherwise; with CI run
    records it is PASSED exactly when the status of the last one, which is
    the most recently appended one, is [success], and FAILED otherwise. *)
Theorem final_ci_status_resolved :
  forall m : t,
    (_ci_runs m = [] ->
       (_resolve_final_ci_status m = "PASSED" <-> _failures m = []) /\
       (_resolve_final_ci_status m = "FAILED" <-> _failures m <> [])) /\
    (forall runs latest, _ci_runs m = runs ++ [latest] ->
       (_resolve_final_ci_status m = "PASSED" <-> ci_status latest = "success") /\
       (_resolve_final_ci_status m = "FAILED" <-> ci_status latest <> "success")) /\
    (forall n status s e now,
       _resolve_final_ci_status (append_ci_run m n status s e now) = "PASSED"
       <-> status = "success").
Proof.
  intros m. split; [|split].
  - intros Hruns. unfold _resolve_final_ci_status, latest_ci_run.
    rewrite Hruns. simpl. rewrite nonempty_failures.
    destruct (_failures m); simpl; split; split; intros H;
      try reflexivity; try discriminate; try congruence.
  - intros runs latest Hruns. unfold _resolve_final_ci_status, latest_ci_run.
    rewrite Hruns, last_snoc.
    destruct (String.eqb (ci_status latest) "success") eqn:E.
    + apply String.eqb_eq in E. split; split; intros H;
        try reflexivity; try discriminate; try congruence.
    + apply String.eqb_neq in E. split; split; intros H;
        try reflexivity; try discriminate; try congruence.
  - intros n status s e now. unfold _resolve_final_ci_status.
    rewrite latest_after_append. simpl.
    destruct (String.eqb status "success") eqn:E.
    + apply String.eqb_eq in E. split; intros; [assumption | reflexivity].
    + apply String.eqb_neq in E. split; intros H; [discriminate | contradiction].
Qed.

Lemma final_ci_status_resolved_witness :
  _resolve_final_ci_status RunMemory.init = "PASSED"
  /\ _resolve_final_ci_status Scenario.one_fix_memory = "FAILED"
  /\ _resolve_final_ci_status Scenario.two_ci_memory = "PASSED".
Proof.
  split; [|split].
  - apply (proj1 (final_ci_status_resolved RunMemory.init)); reflexivity.
  - apply (proj1 (final_ci_status_resolved Scenario.one_fix_memory)); [reflexivity|].
    discriminate.
  - apply (proj1 (proj2 (final_ci_status_resolved Scenario.two_ci_memory))
             [mkCIRun 1 "failure" (fst Scenario.clock1) (snd Scenario.clock1)]
             (mkCIRun 2 "success" (fst Scenario.clock2) (snd Scenario.clock2)));
      reflexivity.
Defined.

(** Every fix entry carries the canonical description built from its own
    fields. *)
Lemma build_fix_description m f :
  entry_description (build_fix m f)
  = format_fix (entry_bug_type (build_fix m f)) (entry_file (build_fix m f))
               (entry_line (build_fix m f)) (entry_commit_message (build_fix m f)).
Proof. reflexivity. Qed.

Lemma build_fixes_description m :
  Forall (fun e => entry_description e
                   = format_fix (entry_bug_type e) (entry_file e) (entry_line e)
                                (entry_commit_message e))
         (_build_fixes m).
Proof.
  apply List.Forall_forall. intros e He.
  unfold _build_fixes in He. apply sorted_In in He.
  apply in_map_iff in He. destruct He as [f [<- _]]. apply build_fix_description.
Qed.

(** The commit-message field is the change summary of the fix record,
    which is the description of the applied patch. *)
Lemma build_fixes_commit_message m :
  Forall (fun e => exists f, In f (_fixes m)
                             /\ entry_commit_message e = fix_change_summary f)
         (_build_fixes m).
Proof.
  apply List.Forall_forall. intros e He.
  unfold _build_fixes in He. apply sorted_In in He.
  apply in_map_iff in He. destruct He as [f [<- Hf]].
  exists f. split; [|reflexivity]. unfold fixes in Hf. now apply sorted_In in Hf.
Qed.

(** C9.  At the failing input: one missing-colon fix, recorded as the
    loop records it.  The entry has the canonical description, but its
    commit-message field is the patch description and does not begin with
    the tag that [validate_output.py] requires. *)
Theorem build_fixes_commit_message_untagged :
  _build_fixes Scenario.one_fix_memory =
    [ mkFixEntry "app/main.py" "SYNTAX" 10 "Added missing colon at line 10" "applied"
        "SYNTAX error in app/main.py line 10 → Fix: Added missing colon at line 10"
        "SyntaxError: expected ':'" ]
  /\ Forall (fun e => commit_message_tagged e = false)
            (_build_fixes Scenario.one_fix_memory).
Proof.
  split; [vm_compute; reflexivity|].
  vm_compute. repeat constructor.
Qed.
End ResultsExporterFacts.
(* ===================================================================== *)
(** * The matcher: independence of what lies before the cursor *)
(* ===================================================================== *)

Section RegexFacts.
Import Re Shift.

Lemma is_Some_orelse {A} (x y : option A) :
  is_Some (match x with Some v => Some v | None => y end) <-> is_Some x \/ is_Some y.
Proof.
  destruct x; simpl; split; intros H; eauto.
  destruct H as [H|H]; [destruct H; discriminate | assumption].
Qed.

Lemma star_loop_shifted d greedy body k k' fuel :
  (forall c c' g g' k k',
      shifted d c c' -> same_outcome d k k' ->
      (is_Some (body c g k) <-> is_Some (body c' g' k'))) ->
  forall c c' g g',
    shifted d c c' -> same_outcome d k k' ->
    (is_Some (star_loop greedy body k fuel c g)
     <-> is_Some (star_loop greedy body k' fuel c' g')).
Proof.
  intros Hbody. induction fuel as [|fuel IH]; intros c c' g g' Hc Hk; simpl.
  - now apply Hk.
  - assert (Hagain :
      is_Some (body c g (fun c1 g1 =>
                 if (pos c1 <=? pos c)%nat then None
                 else star_loop greedy body k fuel c1 g1))
      <-> is_Some (body c' g' (fun c1 g1 =>
                 if (pos c1 <=? pos c')%nat then None
                 else star_loop greedy body k' fuel c1 g1))).
    { apply Hbody; [assumption|].
      intros c1 c1' g1 g1' Hc1. destruct Hc as [Hrest Hpos], Hc1 as [Hr1 Hp1].
      replace (pos c1' <=? pos c')%nat with (pos c1 <=? pos c)%nat.
      2:{ rewrite Hp1, Hpos. destruct (Nat.leb_spec (pos c1) (pos c));
          destruct (Nat.leb_spec (pos c1 + d) (pos c + d)); try reflexivity; lia. }
      destruct (pos c1 <=? pos c)%nat; [split; intros [? [=]]|].
      apply IH; [split; assumption | assumption]. }
    destruct greedy.
    + rewrite !is_Some_orelse, Hagain, (Hk c c' g g' Hc). reflexivity.
    + rewrite !is_Some_orelse, Hagain, (Hk c c' g g' Hc). reflexivity.
Qed.

Lemma run_shifted d r : forward_only r ->
  forall c c' g g' k k',
    shifted d c c' -> same_outcome d k k' ->
    (is_Some (run r c g k) <-> is_Some (run r c' g' k')).
Proof.
  induction r as [|p|a IHa b IHb|a IHa b IHb|greedy a IHa|n a IHa| | | | | | |a IHa];
    intros Hf c c' g g' k k' Hc Hk; cbn [run forward_only] in Hf |- *; try contradiction.
  - now apply Hk.
  - destruct Hc as [Hrest Hpos]. rewrite <- Hrest.
    destruct (rest c) as [|ch s'] eqn:E; [split; intros [? [=]]|].
    destruct (p ch); [|split; intros [? [=]]].
    apply Hk. split; simpl; [reflexivity | lia].
  - destruct Hf as [Hfa Hfb].
    apply (IHa Hfa c c' g g' (fun c1 g1 => run b c1 g1 k) (fun c1 g1 => run b c1 g1 k') Hc).
    intros c1 c1' g1 g1' Hc1. now apply IHb.
  - destruct Hf as [Hfa Hfb]. rewrite !is_Some_orelse.
    rewrite (IHa Hfa c c' g g' k k' Hc Hk), (IHb Hfb c c' g g' k k' Hc Hk).
    reflexivity.
  - destruct Hc as [Hrest Hpos]. rewrite <- Hrest.
    apply (star_loop_shifted d); [|split; assumption|assumption].
    intros c1 c1' g1 g1' k1 k1' Hc1 Hk1. now apply IHa.
  - apply (IHa Hf c c' g g' _ _ Hc).
    intros c1 c1' g1 g1' Hc1. now apply Hk.
  - pose proof Hc as [Hrest _]. rewrite <- Hrest. clear Hrest.
    destruct (rest c) as [|ch [|ch' s']]; [now apply Hk | |].
    + destruct (Ascii.eqb ch Py.nl); [now apply Hk|].
      split; intros [? [=]].
    + split; intros [? [=]].
  - pose proof Hc as [Hrest _]. rewrite <- Hrest. clear Hrest.
    destruct (rest c) as [|ch s']; [now apply Hk|].
    destruct (Ascii.eqb ch Py.nl); [now apply Hk|].
    split; intros [? [=]].
  - pose proof Hc as [Hrest _]. rewrite <- Hrest. clear Hrest.
    destruct (rest c) as [|ch s']; [now apply Hk|].
    split; intros [? [=]].
  - assert (Hin : is_Some (run a c g (fun c1 g1 => Some (pos c1, g1)))
                  <-> is_Some (run a c' g' (fun c1 g1 => Some (pos c1, g1)))).
    { apply (IHa Hf c c' g g' _ _ Hc). intros c1 c1' g1 g1' _. split; eauto. }
    destruct (run a c g _) as [[e1 g1]|], (run a c' g' _) as [[e2 g2]|].
    + now apply Hk.
    + exfalso. destruct Hin as [Hin _]. destruct Hin as [? [=]]. eauto.
    + exfalso. destruct Hin as [_ Hin]. destruct Hin as [? [=]]. eauto.
    + split; intros [? [=]].
Qed.

(** *** Scanning *)

Lemma app_cons c p s : String c p +:+ s = String c (p +:+ s).
Proof. reflexivity. Qed.

Lemma len_app p s : Py.len (p +:+ s) = (Py.len p + Py.len s)%nat.
Proof. induction p as [|c p IH]; [reflexivity|]. rewrite app_cons. simpl. now rewrite IH. Qed.

Lemma advance_add a : forall b c, advance (a + b) c = advance b (advance a c).
Proof.
  induction a as [|a IH]; intros b c; simpl; [reflexivity|].
  destruct (rest c) as [|ch s'] eqn:E.
  - destruct b; simpl; rewrite ?E; reflexivity.
  - apply IH.
Qed.

Lemma advance_prefix p : forall s c,
  rest c = p +:+ s ->
  rest (advance (Py.len p) c) = s /\ pos (advance (Py.len p) c) = (pos c + Py.len p)%nat.
Proof.
  induction p as [|ch p IH]; intros s c Hc; simpl.
  - split; [assumption | lia].
  - rewrite Hc, app_cons.
    destruct (IH s (mkCursor (S (pos c)) (Some ch) (p +:+ s)) eq_refl) as [H1 H2].
    split; [assumption|]. rewrite H2. simpl. lia.
Qed.

Lemma advance_rest_len n : forall c,
  (n <= Py.len (rest c))%nat ->
  Py.len (rest (advance n c)) = (Py.len (rest c) - n)%nat
  /\ pos (advance n c) = (pos c + n)%nat.
Proof.
  induction n as [|n IH]; intros c Hn; simpl.
  - split; lia.
  - destruct (rest c) as [|ch s'] eqn:E; simpl in Hn; [lia|].
    destruct (IH (mkCursor (S (pos c)) (Some ch) s')) as [H1 H2]; [simpl; lia|].
    simpl in H1, H2. split; [rewrite H1 | rewrite H2]; simpl; lia.
Qed.

Lemma advance_keeps_prev n : forall c,
  is_Some (prev c) -> is_Some (prev (advance n c)).
Proof.
  induction n as [|n IH]; intros c H; simpl; [assumption|].
  destruct (rest c) as [|ch s']; [assumption|]. apply IH. simpl. eauto.
Qed.

Lemma advance_no_prev n c :
  prev (advance n c) = None -> advance n c = c.
Proof.
  destruct n as [|n]; intros H; simpl in *; [reflexivity|].
  destruct (rest c) as [|ch s'] eqn:E; [reflexivity|].
  exfalso.
  destruct (advance_keeps_prev n (mkCursor (S (pos c)) (Some ch) s')) as [x Hx];
    [simpl; eauto | congruence].
Qed.

Lemma search_from_found r subject fuel : forall c n,
  (n <= fuel)%nat -> (n <= Py.len (rest c))%nat ->
  is_Some (match_at r subject (advance n c)) ->
  is_Some (search_from fuel r subject c).
Proof.
  induction fuel as [|fuel IH]; intros c n Hfuel Hlen Hm.
  - assert (n = 0)%nat by lia. subst n. simpl in *.
    destruct (match_at r subject c); [eauto | destruct Hm; discriminate].
  - simpl. destruct (match_at r subject c) eqn:E; [eauto|].
    destruct n as [|n]; [simpl in Hm; rewrite E in Hm; destruct Hm; discriminate|].
    simpl in Hm. destruct (rest c) as [|ch s'] eqn:Er; [simpl in Hlen; lia|].
    apply (IH _ n); [lia | simpl in *; lia | assumption].
Qed.

Lemma search_from_inv r subject fuel : forall c,
  is_Some (search_from fuel r subject c) ->
  exists n, (n <= Py.len (rest c))%nat /\ is_Some (match_at r subject (advance n c)).
Proof.
  induction fuel as [|fuel IH]; intros c H; simpl in H.
  - exists 0%nat. split; [lia|]. simpl.
    destruct (match_at r subject c); [eauto|].
    destruct (rest c); destruct H; discriminate.
  - destruct (match_at r subject c) eqn:E.
    + exists 0%nat. split; [lia|]. simpl. rewrite E. eauto.
    + destruct (rest c) as [|ch s'] eqn:Er; [destruct H; discriminate|].
      apply IH in H. destruct H as [n [Hn Hm]]. exists (S n).
      split; [simpl in *; lia|]. simpl. rewrite Er. exact Hm.
Qed.

Lemma is_Some_match_at r subject c :
  is_Some (match_at r subject c)
  <-> is_Some (run r c [] (fun c' g' => Some (pos c', g'))).
Proof.
  unfold match_at. destruct (run r c [] _) as [[e g]|]; split; intros [? [=]]; eauto.
Qed.

Lemma found_iff r s :
  found r s = true <-> is_Some (search r s).
Proof.
  unfold found. destruct (search r s); split; intros H; eauto; try discriminate.
  destruct H; discriminate.
Qed.

(** A pattern of the shape [(^|/)body], where the body only looks forward,
    still matches when the path is put below a directory. *)
Lemma anchored_below_directory body dir s :
  forward_only body ->
  found (Seq (Alt Bos (char "/")) body) s = true ->
  found (Seq (Alt Bos (char "/")) body) (dir +:+ "/" +:+ s) = true.
Proof.
  intros Hf H. apply found_iff in H. apply found_iff.
  unfold search in *. apply search_from_inv in H. destruct H as [n [Hn Hm]].
  simpl in Hn. apply is_Some_match_at in Hm. cbn [run] in Hm.
  apply is_Some_orelse in Hm.
  set (big := dir +:+ "/" +:+ s) in *.
  set (C0 := mkCursor 0 None big).
  set (kf := fun (c' : cursor) (g' : captures) => Some (pos c', g')) in *.
  destruct (advance_prefix dir ("/" +:+ s) C0 eq_refl) as [Hrest1 Hpos1].
  assert (Hlen : Py.len big = (Py.len dir + S (Py.len s))%nat).
  { unfold big. rewrite !len_app. reflexivity. }
  (* the cursor in [big] that stands in front of the slash before [s] *)
  set (c1 := advance (Py.len dir) C0) in *.
  destruct Hm as [Hm|Hm].
  - (* matched at the very start of [s] *)
    destruct (prev (advance n (mkCursor 0 None s))) eqn:Ep;
      [destruct Hm; discriminate|].
    apply advance_no_prev in Ep. rewrite Ep in Hm.
    apply (search_from_found _ _ _ C0 (Py.len dir)); [lia | simpl; lia |].
    apply is_Some_match_at. cbn [run]. apply is_Some_orelse. right.
    fold c1. unfold char. cbn [run]. rewrite Hrest1, app_cons. simpl.
    refine (proj1 (run_shifted (S (pos c1)) body Hf _ _ _ _ kf kf _ _) Hm).
    + split; simpl; [reflexivity | lia].
    + intros ? ? ? ? ?. unfold kf. split; eauto.
  - (* matched behind a slash inside [s] *)
    unfold char in Hm. cbn [run] in Hm.
    set (cn := advance n (mkCursor 0 None s)) in *.
    destruct (rest cn) as [|ch s'] eqn:Ern; [destruct Hm; discriminate|].
    destruct (Ascii.eqb "/" ch) eqn:Ech; [|destruct Hm; discriminate].
    destruct (advance_rest_len n (mkCursor 0 None s) Hn) as [_ Hposn].
    simpl in Hposn. fold cn in Hposn.
    assert (Hc2 : advance (Py.len dir + 1 + n) C0 = advance n (advance 1 c1)).
    { rewrite <- Nat.add_assoc, advance_add. fold c1. now rewrite advance_add. }
    assert (Hadv1 : rest (advance 1 c1) = s /\ pos (advance 1 c1) = S (pos c1)).
    { simpl. rewrite Hrest1, app_cons. simpl. split; reflexivity. }
    destruct Hadv1 as [Hr1 Hp1].
    assert (Hshift : forall m c c', rest c = rest c' ->
               rest (advance m c) = rest (advance m c')
               /\ (pos (advance m c') + pos c = pos (advance m c) + pos c')%nat).
    { clear. induction m as [|m IH]; intros c c' Hr; simpl; [split; [assumption | lia]|].
      rewrite <- Hr. destruct (rest c) as [|ch s'] eqn:E; [split; [congruence | lia]|].
      destruct (IH (mkCursor (S (pos c)) (Some ch) s') (mkCursor (S (pos c')) (Some ch) s') eq_refl)
        as [H1 H2]. simpl in H2. split; [assumption | lia]. }
    destruct (Hshift n (mkCursor 0 None s) (advance 1 c1) (eq_sym Hr1)) as [Hr2 Hp2].
    fold cn in Hr2, Hp2. simpl in Hp2.
    apply (search_from_found _ _ _ C0 (Py.len dir + 1 + n)); [lia | simpl; lia |].
    rewrite Hc2. apply is_Some_match_at. cbn [run]. apply is_Some_orelse. right.
    unfold char. cbn [run]. rewrite <- Hr2, Ern, Ech.
    refine (proj1 (run_shifted (pos (advance n (advance 1 c1)) - pos cn) body Hf
                               _ _ _ _ kf kf _ _) Hm).
    + split; simpl; [reflexivity | lia].
    + intros ? ? ? ? ?. unfold kf. split; eauto.
Qed.
End RegexFacts.
(* ===================================================================== *)
(** * Classification: one bug per key *)
(* ===================================================================== *)

Section ClassifierFacts.
Import ErrorClassifier Distinct.

Lemma key_eqb_eq a b : key_eqb a b = true <-> a = b.
Proof.
  destruct a as [[f l] t], b as [[f' l'] t']. unfold key_eqb; simpl.
  rewrite !andb_true_iff, !String.eqb_eq, Z.eqb_eq.
  split; [intros [[-> ->] ->]; reflexivity | intros [= -> -> ->]; auto].
Qed.

Lemma recorded_iff k bugs : recorded k bugs = true <-> In k (map key bugs).
Proof.
  unfold recorded. rewrite existsb_exists, in_map_iff.
  split; intros [b [H1 H2]]; exists b.
  - apply key_eqb_eq in H2. auto.
  - split; [assumption|]. now apply key_eqb_eq.
Qed.

Lemma first_with_app k l1 l2 :
  first_with k (l1 ++ l2)
  = match first_with k l1 with Some b => Some b | None => first_with k l2 end.
Proof.
  unfold first_with. induction l1 as [|x l1 IH]; simpl; [reflexivity|].
  destruct (key_eqb (key x) k); [reflexivity | exact IH].
Qed.

Lemma first_with_none k l : first_with k l = None <-> ~ In k (map key l).
Proof.
  unfold first_with. split.
  - intros H Hin. apply in_map_iff in Hin. destruct Hin as [b [Hk Hb]].
    apply (List.find_none _ _ H) in Hb. rewrite Hk in Hb.
    assert (key_eqb k k = true) by now apply key_eqb_eq. congruence.
  - intros H. destruct (List.find _ l) as [b|] eqn:E; [|reflexivity].
    apply List.find_some in E. destruct E as [Hb Hk]. apply key_eqb_eq in Hk.
    exfalso. apply H. apply in_map_iff. exists b. auto.
Qed.

Lemma record_match_inv t tm a m seen :
  pass_inv seen (fst a) ->
  pass_inv (seen ++ [report_of t tm m]) (fst (record_match t tm a m)).
Proof.
  intros [Hnd Hfirst]. unfold record_match.
  set (b := report_of t tm m).
  destruct (recorded (key b) (fst a)) eqn:E.
  - split; [assumption|]. intros k. rewrite first_with_app, <- (Hfirst k).
    destruct (first_with k (fst a)) eqn:Ek; [reflexivity|].
    simpl. destruct (key_eqb (key b) k) eqn:Ekb; [|reflexivity].
    apply key_eqb_eq in Ekb. subst k.
    apply recorded_iff in E. apply first_with_none in Ek. contradiction.
  - simpl. split.
    + rewrite map_app. simpl. apply NoDup_app. split; [assumption|]. split.
      * intros k Hk Hk2. apply list_elem_of_singleton in Hk2. subst k.
        apply list_elem_of_In in Hk. apply recorded_iff in Hk. congruence.
      * apply NoDup_singleton.
    + intros k. rewrite !first_with_app, (Hfirst k). reflexivity.
Qed.

Lemma apply_matches_inv t tm ms : forall a seen,
  pass_inv seen (fst a) ->
  pass_inv (seen ++ map (report_of t tm) ms)
           (fst (fold_left (record_match t tm) ms a)).
Proof.
  induction ms as [|m ms IH]; intros a seen H; simpl.
  - now rewrite app_nil_r.
  - replace (seen ++ report_of t tm m :: map (report_of t tm) ms)
      with ((seen ++ [report_of t tm m]) ++ map (report_of t tm) ms)
      by now rewrite <- app_assoc.
    apply IH. now apply record_match_inv.
Qed.

Lemma regex_pass_inv log rules : forall a seen,
  pass_inv seen (fst a) ->
  pass_inv (seen ++ candidates rules log) (fst (fold_left (apply_rule log) rules a)).
Proof.
  induction rules as [|[[p t] tm] rules IH]; intros a seen H; simpl.
  - now rewrite app_nil_r.
  - rewrite app_assoc. apply IH. unfold apply_rule. now apply apply_matches_inv.
Qed.

Lemma regex_bugs_inv rules log :
  pass_inv (candidates rules log) (fst (regex_pass rules log)).
Proof.
  apply (regex_pass_inv log rules ([], []) []). split; [constructor | reflexivity].
Qed.

Lemma regex_classify_bugs log :
  fst (_regex_classify log) = fst (regex_pass _REGEX_RULES log).
Proof.
  unfold _regex_classify. destruct (regex_pass _REGEX_RULES log). reflexivity.
Qed.

(** *** Deduplication by a set of seen keys *)

Lemma dedup_step_inv l st b :
  seen_inv l st -> seen_inv (l ++ [b]) (dedup_step st b).
Proof.
  intros (Hnd & Hseen & Hsub & Hcov). unfold dedup_step. case_bool_decide as Hin.
  - split; [assumption|]. split; [assumption|]. split.
    + intros b' Hb'. apply in_or_app. left. auto.
    + intros b' Hb'. apply in_app_or in Hb'. destruct Hb' as [Hb'|[<-|[]]]; [auto|].
      now apply Hseen.
  - unfold seen_inv. simpl. split; [|split; [|split]].
    + rewrite map_app. simpl. apply NoDup_app. split; [assumption|]. split.
      * intros k Hk Hk2. apply list_elem_of_singleton in Hk2. subst k.
        apply list_elem_of_In in Hk. apply Hseen in Hk. contradiction.
      * apply NoDup_singleton.
    + intros k. rewrite map_app, in_app_iff, elem_of_union, elem_of_singleton, Hseen.
      simpl. intuition.
    + intros b' Hb'. apply in_app_or in Hb'. apply in_or_app.
      destruct Hb' as [Hb'|Hb']; [left; auto | right; assumption].
    + intros b' Hb'. rewrite map_app, in_app_iff. apply in_app_or in Hb'.
      destruct Hb' as [Hb'|[<-|[]]]; [left; auto | right; simpl; auto].
Qed.

Lemma dedup_fold_inv l2 : forall l1 st,
  seen_inv l1 st -> seen_inv (l1 ++ l2) (fold_left dedup_step l2 st).
Proof.
  induction l2 as [|b l2 IH]; intros l1 st H; simpl.
  - now rewrite app_nil_r.
  - replace (l1 ++ b :: l2) with ((l1 ++ [b]) ++ l2) by now rewrite <- app_assoc.
    apply IH. now apply dedup_step_inv.
Qed.

Lemma dedup_inv l : seen_inv l (fold_left dedup_step l (∅, [])).
Proof.
  apply (dedup_fold_inv l [] (∅, [])). unfold seen_inv; simpl. split; [|split; [|split]].
  - constructor.
  - intros k. split; [intros H; now apply not_elem_of_empty in H | intros []].
  - intros ? [].
  - intros ? [].
Qed.

Lemma dedup_NoDup l : NoDup (map key (dedup l)).
Proof. apply (dedup_inv l). Qed.

Lemma dedup_In b l : In b (dedup l) -> In b l.
Proof. apply (dedup_inv l). Qed.

Lemma dedup_covers b l : In b l -> exists b', In b' (dedup l) /\ key b' = key b.
Proof.
  intros H. apply (dedup_inv l) in H. apply in_map_iff in H.
  destruct H as [b' [Hk Hb']]. exists b'. auto.
Qed.

(** The merge of the model's bugs keeps keys distinct as well. *)
Lemma merge_step_inv st lb :
  NoDup (map key (snd st)) ->
  (forall k, k ∈ fst st <-> In k (map key (snd st))) ->
  NoDup (map key (snd (merge_step st lb)))
  /\ (forall k, k ∈ fst (merge_step st lb) <-> In k (map key (snd (merge_step st lb)))).
Proof.
  intros Hnd Hseen. unfold merge_step. case_bool_decide as Hin.
  - split; assumption.
  - simpl. split.
    + rewrite map_app. simpl. apply NoDup_app. split; [assumption|]. split.
      * intros k Hk Hk2. apply list_elem_of_singleton in Hk2. subst k.
        apply list_elem_of_In in Hk. apply Hseen in Hk. contradiction.
      * apply NoDup_singleton.
    + intros k. rewrite map_app, in_app_iff, elem_of_union, elem_of_singleton, Hseen.
      simpl. intuition.
Qed.

Lemma merge_fold_NoDup l : forall st,
  NoDup (map key (snd st)) ->
  (forall k, k ∈ fst st <-> In k (map key (snd st))) ->
  NoDup (map key (snd (fold_left merge_step l st))).
Proof.
  induction l as [|b l IH]; intros st Hnd Hseen; simpl; [assumption|].
  destruct (merge_step_inv st b Hnd Hseen) as [H1 H2]. now apply IH.
Qed.

Lemma merge_llm_NoDup bugs llm_bugs :
  NoDup (map key bugs) -> NoDup (map key (merge_llm bugs llm_bugs)).
Proof.
  intros H. unfold merge_llm. apply merge_fold_NoDup; simpl; [assumption|].
  intros k. rewrite elem_of_list_to_set. apply list_elem_of_In.
Qed.

Lemma trace_NoDup bugs log :
  NoDup (map key bugs) -> NoDup (map key (_trace_test_bugs_to_source bugs log)).
Proof.
  intros H. unfold _trace_test_bugs_to_source.
  case_bool_decide; [assumption|].
  destruct (negb (Py.nonempty _)); [assumption | apply dedup_NoDup].
Qed.

Lemma classify_errors_async_NoDup api_key ask log :
  NoDup (map key (classify_errors_async api_key ask log)).
Proof.
  unfold classify_errors_async.
  pose proof (regex_bugs_inv _REGEX_RULES log) as [Hnd _].
  rewrite <- regex_classify_bugs in Hnd.
  destruct (_regex_classify log) as [bugs unmatched]. simpl in Hnd.
  unfold by_location.
  rewrite (Permutation_map key (sorted_Permutation _ _ _)).
  apply trace_NoDup. destruct (Py.nonempty unmatched); [|assumption].
  now apply merge_llm_NoDup.
Qed.
End ClassifierFacts.

Section ToolFacts.
Import RunMemory FailureClassifierTool.

Lemma unique_step_inv st b :
  NoDup (map dict_key (snd st)) ->
  (forall k, k ∈ fst st <-> In k (map dict_key (snd st))) ->
  NoDup (map dict_key (snd (unique_step st b)))
  /\ (forall k, k ∈ fst (unique_step st b) <-> In k (map dict_key (snd (unique_step st b)))).
Proof.
  intros Hnd Hseen. unfold unique_step. case_bool_decide as Hin.
  - split; assumption.
  - simpl. split.
    + rewrite map_app. simpl. apply NoDup_app. split; [assumption|]. split.
      * intros k Hk Hk2. apply list_elem_of_singleton in Hk2. subst k.
        apply list_elem_of_In in Hk. apply Hseen in Hk. contradiction.
      * apply NoDup_singleton.
    + intros k. rewrite map_app, in_app_iff, elem_of_union, elem_of_singleton, Hseen.
      simpl. intuition.
Qed.

Lemma unique_fold_inv l : forall st,
  NoDup (map dict_key (snd st)) ->
  (forall k, k ∈ fst st <-> In k (map dict_key (snd st))) ->
  NoDup (map dict_key (snd (fold_left unique_step l st))).
Proof.
  induction l as [|b l IH]; intros st Hnd Hseen; simpl; [assumption|].
  destruct (unique_step_inv st b Hnd Hseen) as [H1 H2]. now apply IH.
Qed.

Lemma unique_NoDup l : NoDup (map dict_key (unique l)).
Proof.
  unfold unique. apply unique_fold_inv; simpl.
  - constructor.
  - intros k. split; [intros H; now apply not_elem_of_empty in H | intros []].
Qed.

(** C7.  For every log the regex pass records at most one bug per
    (file, line, bug_type): what it records for a key is the first match,
    in rule order and then in text order, that carries the key; later
    matches of the key are dropped.  The whole classification (regex pass,
    merge of the model's bugs, re-attribution, sort) keeps keys distinct,
    and for every input the bug list that the classifier tool outputs
    holds no two entries with the same (file, line, bug_type). *)
Theorem classification_is_deduplicated :
  (forall log,
      NoDup (map ErrorClassifier.key (fst (ErrorClassifier._regex_classify log)))) /\
  (forall log k,
      ErrorClassifier.first_with k (fst (ErrorClassifier._regex_classify log))
      = ErrorClassifier.first_with k (ErrorClassifier.candidates ErrorClassifier._REGEX_RULES log)) /\
  (forall api_key ask log,
      NoDup (map ErrorClassifier.key
                 (ErrorClassifier.classify_errors_async api_key ask log))) /\
  (forall os api_key ask test_output repo_path,
      NoDup (map dict_key (execute os api_key ask test_output repo_path))).
Proof.
  split; [|split; [|split]].
  - intros log. rewrite regex_classify_bugs. apply regex_bugs_inv.
  - intros log k. rewrite regex_classify_bugs. apply regex_bugs_inv.
  - apply classify_errors_async_NoDup.
  - intros os api_key ask test_output repo_path. unfold execute.
    destruct (negb (Py.truthy _)); [constructor|].
    destruct (negb (Py.nonempty _)); [constructor|].
    apply unique_NoDup.
Qed.
End ToolFacts.
(* ===================================================================== *)
(** * Re-attribution of test-file bugs to source files *)
(* ===================================================================== *)

Section TraceFacts.
Import ErrorClassifier.

Lemma startswith_split p : forall s,
  Py.startswith s p = true -> s = p +:+ Py.drop (Py.len p) s.
Proof.
  unfold Py.startswith.
  induction p as [|c p IH]; intros s H; [reflexivity|].
  destruct s as [|c' s]; simpl in H; [discriminate|].
  destruct (Ascii.ascii_dec c c') as [->|]; [|discriminate].
  rewrite app_cons. simpl. f_equal. now apply IH.
Qed.

Lemma is_test_path_below dir s :
  _is_test_path s = true -> _is_test_path (dir +:+ "/" +:+ s) = true.
Proof.
  unfold _is_test_path. rewrite !existsb_exists.
  intros [p [Hp Hfound]]. exists p. split; [assumption|].
  simpl in Hp.
  repeat (destruct Hp as [<-|Hp];
          [apply anchored_below_directory; [simpl; tauto | exact Hfound]|]).
  destruct Hp.
Qed.

(** Dropping the container prefix does not turn a source path into a test
    path. *)
Lemma strip_workspace_source f :
  _is_test_path f = false -> _is_test_path (strip_workspace f) = false.
Proof.
  intros H. unfold strip_workspace.
  destruct (Py.startswith f "/workspace/") eqn:E; [|assumption].
  apply startswith_split in E.
  destruct (_is_test_path (Py.drop _ f)) eqn:E'; [|reflexivity].
  apply (is_test_path_below "/workspace") in E'.
  change ("/workspace" +:+ "/" +:+ Py.drop (Py.len "/workspace/") f)
    with ("/workspace/" +:+ Py.drop (Py.len "/workspace/") f) in E'.
  rewrite <- E in E'. congruence.
Qed.

Lemma failed_tests_fold ms : forall (d : gmap string FailedTest) name,
  is_Some (d !! name) \/ (exists m, In m ms /\ Re.group_str m 2 = name) ->
  is_Some (fold_left (fun d m => <[Re.group_str m 2 :=
                                     mkFailed (Re.group_str m 1)
                                              (Py.strip (Re.group_str m 3))]> d)
                     ms d !! name).
Proof.
  induction ms as [|m ms IH]; intros d name H; simpl.
  - destruct H as [H|[m [[] _]]]. exact H.
  - apply IH. destruct H as [H|[m' [[<-|Hin] Hname]]].
    + left. destruct (decide (Re.group_str m 2 = name)) as [<-|Hne].
      * rewrite lookup_insert_eq. eauto.
      * now rewrite lookup_insert_ne.
    + left. rewrite Hname, lookup_insert_eq. eauto.
    + right. eauto.
Qed.

(** A test named on a FAILED line of the summary is in the dictionary. *)
Lemma failed_tests_lookup log summary :
  In summary (Re.finditer failed_pattern log) ->
  is_Some (failed_tests log !! Re.group_str summary 2).
Proof.
  intros H. unfold failed_tests. apply failed_tests_fold. right. eauto.
Qed.

Lemma last_In {A} (l : list A) x : last l = Some x -> In x l.
Proof.
  intros H. apply list_elem_of_In. apply last_Some in H. destruct H as [l' ->].
  apply list_elem_of_In, in_or_app. right. now left.
Qed.

Lemma trace_section_source failed section_match b :
  In b (trace_section failed section_match) -> _is_test_path (file b) = false.
Proof.
  unfold trace_section. destruct (failed !! _) as [info|]; [|intros []].
  destruct (last (source_refs _)) as [[src_file src_line]|] eqn:E; [|intros []].
  intros [<-|[]]. simpl. apply strip_workspace_source.
  apply last_In in E. unfold source_refs in E. apply List.filter_In in E.
  destruct E as [_ E]. unfold is_source_ref in E. simpl in E.
  rewrite !andb_true_iff in E. destruct E as [[[E _] _] _].
  now apply negb_true_iff in E.
Qed.

Lemma traced_are_sources log b :
  In b (source_bugs_from_tracebacks log) -> _is_test_path (file b) = false.
Proof.
  unfold source_bugs_from_tracebacks. rewrite in_flat_map.
  intros [m [_ H]]. now apply trace_section_source in H.
Qed.

(** Where the pass does re-attribute.  Take a test that a FAILED line of
    the summary names, and a failure section of the log whose header is
    that very name, as it is for a test function.  If the section holds a
    reference that is neither in the test tree, nor in a bundled
    third-party path, nor a pseudo-file, then the list returned by the
    re-attribution pass holds a bug located at the last such reference of
    the list that the pass builds (references of the traceback shape come
    before those of the short shape; the container prefix [/workspace/] is
    dropped from the file), typed from the error message of the summary,
    and every bug of the returned list lies outside the test tree. *)
Theorem reattribution_to_last_source_reference :
  forall bugs log summary section_match src_file src_line,
    In summary (Re.finditer failed_pattern log) ->
    In section_match (Re.finditer test_section_re log) ->
    Re.group_str section_match 1 = Re.group_str summary 2 ->
    last (source_refs (Re.group_str section_match 2)) = Some (src_file, src_line) ->
    let returned := _trace_test_bugs_to_source bugs log in
    (exists b info,
        In b returned
        /\ file b = strip_workspace src_file /\ line b = src_line
        /\ failed_tests log !! Re.group_str summary 2 = Some info
        /\ bug_type b = infer_type (error_msg info))
    /\ (forall b, In b returned -> _is_test_path (file b) = false)
    /\ (forall b, In b returned ->
          In b bugs \/ In b (source_bugs_from_tracebacks log)).
Proof.
  intros bugs log summary section_match src_file src_line Hsum Hsec Hname Hlast returned.
  destruct (failed_tests_lookup log summary Hsum) as [info Hinfo].
  set (traced_bug := mkReport (strip_workspace src_file) src_line
                              (infer_type (error_msg info)) (error_msg info)).
  assert (Htraced : In traced_bug (source_bugs_from_tracebacks log)).
  { unfold source_bugs_from_tracebacks. apply in_flat_map.
    exists section_match. split; [assumption|].
    unfold trace_section. rewrite Hname, Hinfo, Hlast. now left. }
  assert (Hreturned : returned
            = dedup (List.filter (fun b => negb (_is_test_path (file b))) bugs
                     ++ source_bugs_from_tracebacks log)).
  { unfold returned, _trace_test_bugs_to_source.
    case_bool_decide as Hempty; [rewrite Hempty, lookup_empty in Hinfo; discriminate|].
    destruct (source_bugs_from_tracebacks log); [destruct Htraced | reflexivity]. }
  rewrite Hreturned. split; [|split].
  - destruct (dedup_covers traced_bug
                (List.filter (fun b => negb (_is_test_path (file b))) bugs
                 ++ source_bugs_from_tracebacks log)) as [b [Hb Hkey]].
    { apply in_or_app. now right. }
    exists b, info. unfold key in Hkey. simpl in Hkey.
    injection Hkey as Hf Hl Ht. auto.
  - intros b Hb. apply dedup_In in Hb. apply in_app_or in Hb.
    destruct Hb as [Hb|Hb].
    + apply List.filter_In in Hb. destruct Hb as [_ Hb]. now apply negb_true_iff in Hb.
    + now apply traced_are_sources in Hb.
  - intros b Hb. apply dedup_In in Hb. apply in_app_or in Hb.
    destruct Hb as [Hb|Hb]; [left | right; assumption].
    apply List.filter_In in Hb. tauto.
Qed.

Lemma reattribution_to_last_source_reference_witness :
  (exists b info,
      In b (_trace_test_bugs_to_source [Scenario.test_file_bug] Scenario.pytest_log)
      /\ file b = strip_workspace "src/math_ops.py" /\ line b = 21
      /\ failed_tests Scenario.pytest_log !! Re.group_str Scenario.pytest_summary 2
         = Some info
      /\ bug_type b = infer_type (error_msg info))
  /\ (forall b,
        In b (_trace_test_bugs_to_source [Scenario.test_file_bug] Scenario.pytest_log) ->
        _is_test_path (file b) = false)
  /\ (forall b,
        In b (_trace_test_bugs_to_source [Scenario.test_file_bug] Scenario.pytest_log) ->
        In b [Scenario.test_file_bug]
        \/ In b (source_bugs_from_tracebacks Scenario.pytest_log)).
Proof.
  apply (reattribution_to_last_source_reference
           [Scenario.test_file_bug] Scenario.pytest_log
           Scenario.pytest_summary Scenario.pytest_section "src/math_ops.py" 21).
  - vm_compute. left. reflexivity.
  - vm_compute. left. reflexivity.
  - vm_compute. reflexivity.
  - vm_compute. reflexivity.
Defined.

(** C8.  The pass does not do this for each FAILED test.  It looks a
    failure section up by its header among the names that the FAILED lines
    give after the first pair of colons.  For the method of a test class
    the two differ: the header is [TestMath.test_divide], the name of the
    summary is [TestMath::test_divide].  In [Scenario.class_log] the one
    FAILED test has a section whose only reference outside the test tree
    is line 21 of [src/math_ops.py], yet the pass returns the list it was
    given: the bug stays at the test file and none is emitted at the
    source.  In [Scenario.two_tests_log] the same test fails beside a test
    function: the function is traced to [src/text_ops.py], and the bug of
    the method, attributed to its test file, is dropped with every other
    bug of a test file, so that this failure is no longer in the list at
    all. *)
Theorem methods_of_test_classes_are_not_traced :
  map (fun m => (Re.group_str m 1, Re.group_str m 2))
      (Re.finditer failed_pattern Scenario.class_log)
  = [("tests/test_math_ops.py", "TestMath::test_divide")]
  /\ map (fun m => (Re.group_str m 1, source_refs (Re.group_str m 2)))
         (Re.finditer test_section_re Scenario.class_log)
     = [("TestMath.test_divide", [("src/math_ops.py", 21)])]
  /\ _is_test_path (file Scenario.class_test_bug) = true
  /\ _trace_test_bugs_to_source [Scenario.class_test_bug] Scenario.class_log
     = [Scenario.class_test_bug]
  /\ map (fun m => (Re.group_str m 1, Re.group_str m 2))
         (Re.finditer failed_pattern Scenario.two_tests_log)
     = [("tests/test_text_ops.py", "test_first_word");
        ("tests/test_math_ops.py", "TestMath::test_divide")]
  /\ map (fun m => (Re.group_str m 1, source_refs (Re.group_str m 2)))
         (Re.finditer test_section_re Scenario.two_tests_log)
     = [("test_first_word", [("src/text_ops.py", 7)]);
        ("TestMath.test_divide", [("src/math_ops.py", 21)])]
  /\ _trace_test_bugs_to_source [Scenario.first_word_test_bug; Scenario.class_test_bug]
                                Scenario.two_tests_log
     = [mkReport "src/text_ops.py" 7 "LOGIC" "IndexError: list index out of range"].
Proof. repeat split; vm_compute; reflexivity. Qed.

(** The last reference is the last of the list that the pass builds, with
    every reference of the traceback shape before every reference of the
    short shape, which need not be the order of the text: in
    [Scenario.mixed_log] the section ends with line 5 of [src/config.py],
    and the bug is located at line 12 of [src/loader.py], which the text
    has earlier. *)
Remark last_reference_is_last_of_the_list :
  map (fun m => (Re.group_str m 1, source_refs (Re.group_str m 2)))
      (Re.finditer test_section_re Scenario.mixed_log)
  = [("test_load", [("src/config.py", 5); ("src/loader.py", 12)])]
  /\ _trace_test_bugs_to_source [] Scenario.mixed_log
     = [mkReport "src/loader.py" 12 "LOGIC" "RuntimeError: parser failed:"].
Proof. split; vm_compute; reflexivity. Qed.
End TraceFacts.
(* ===================================================================== *)
(** * Planning and patching: protected files, order of application *)
(* ===================================================================== *)

Section PlannerFacts.
Import RunMemory FixPlanner Protected.

Lemma plan_one_test_file os fs bug repo_path :
  _is_test_file (Py.get (bug_file bug) "unknown") = true ->
  _plan_one os fs bug repo_path
  = mkEntry (Some bug) (Some "skip_test_file") (Some "Will not modify test files.") None
            (Some (Py.get (bug_file bug) "unknown")) (Some "") None.
Proof. intros H. unfold _plan_one. now rewrite H. Qed.

Lemma plan_step_inv os fs repo_path prev st bug :
  plan_inv st ->
  plan_inv (plan_step os fs repo_path prev st bug)
  /\ location bug ∈ fst (plan_step os fs repo_path prev st bug)
  /\ fst st ⊆ fst (plan_step os fs repo_path prev st bug).
Proof.
  intros Hinv. unfold plan_step. fold (location bug).
  case_bool_decide as Hseen; [split; [assumption|]; split; [assumption | set_solver]|].
  cbv zeta. split; [|split; simpl; set_solver].
  intros loc Hloc Htest. cbn [fst snd] in Hloc |- *.
  apply elem_of_union in Hloc. destruct Hloc as [Hloc|Hloc].
  - apply elem_of_singleton in Hloc. subst loc. simpl in Htest.
    set (tried := bool_decide _ || bool_decide _).
    set (bug' := if tried then escalate bug else bug).
    assert (Hfile : bug_file bug' = bug_file bug) by (unfold bug'; now destruct tried).
    assert (Hline : bug_line bug' = bug_line bug) by (unfold bug'; now destruct tried).
    assert (Hplan : _plan_one os fs bug' repo_path
              = mkEntry (Some bug') (Some "skip_test_file")
                        (Some "Will not modify test files.") None
                        (Some (Py.get (bug_file bug) "unknown")) (Some "") None).
    { rewrite <- Hfile. apply plan_one_test_file. now rewrite Hfile. }
    rewrite Hplan. simpl. rewrite andb_false_r.
    eexists. split; [apply in_or_app; right; left; reflexivity|].
    split; [reflexivity|]. split; [reflexivity|].
    exists bug'. split; [reflexivity|].
    unfold location. now rewrite Hfile, Hline.
  - destruct (Hinv loc Hloc Htest) as [entry [Hin Hskip]].
    exists entry. split; [apply in_or_app; now left | assumption].
Qed.

Lemma plan_fold_inv os fs repo_path prev bugs : forall st,
  plan_inv st ->
  let st' := fold_left (plan_step os fs repo_path prev) bugs st in
  plan_inv st' /\ (forall bug, In bug bugs -> location bug ∈ fst st') /\ fst st ⊆ fst st'.
Proof.
  induction bugs as [|bug bugs IH]; intros st Hinv; simpl.
  - split; [assumption|]. split; [intros ? [] | set_solver].
  - destruct (plan_step_inv os fs repo_path prev st bug Hinv) as (H1 & H2 & H3).
    destruct (IH _ H1) as (H4 & H5 & H6). split; [assumption|]. split.
    + intros b [<-|Hb]; [apply H6, H2 | auto].
    + intros x Hx. apply H6, H3, Hx.
Qed.

Lemma planner_skips_test_files os fs memory applied bugs repo_path bug :
  In bug bugs ->
  _is_test_file (Py.get (bug_file bug) "unknown") = true ->
  exists entry,
    In entry (execute os fs memory applied bugs repo_path) /\ skips (location bug) entry.
Proof.
  intros Hin Htest. unfold execute.
  destruct (plan_fold_inv os fs repo_path (prev_fix_keys memory applied) bugs (∅, []))
    as (H1 & H2 & _).
  { intros loc Hloc. now apply not_elem_of_empty in Hloc. }
  apply H1; [now apply H2 | exact Htest].
Qed.
End PlannerFacts.

Section ApplierFacts.
Import RunMemory PatchApplier Protected.

Lemma skip_strategy_not_actionable entry :
  plan_strategy entry = Some "skip_test_file" -> is_actionable entry = false.
Proof. intros H. unfold is_actionable. now rewrite H. Qed.

(** The double check of [_apply_one]. *)
Lemma apply_one_test_file os api_key model fs entry repo_path :
  _is_test_file (Py.get (plan_target_file entry) "") = true ->
  _apply_one os api_key model fs entry repo_path
  = (not_applied (Py.get (plan_bug entry) empty_bug) "skipped_test_file"
                 "Test file protection (double check).", fs).
Proof. intros H. unfold _apply_one. now rewrite H. Qed.

Lemma write_patch_tree os fs abs_path old_lines new_lines bug d method repo_path path :
  path <> abs_path ->
  snd (_write_patch os fs abs_path old_lines new_lines bug d method repo_path) !! path
  = fs !! path.
Proof.
  intros Hne. unfold _write_patch. destruct (write_error os abs_path).
  - simpl. destruct (write_left os abs_path _); [now rewrite lookup_insert_ne | reflexivity].
  - simpl. now rewrite lookup_insert_ne.
Qed.

(** [_apply_one] touches nothing but the file that the target stands for,
    and not even that one when the target is named as a test file. *)
Lemma apply_one_frame os api_key model fs entry repo_path path :
  (_is_test_file (Py.get (plan_target_file entry) "") = false ->
   abs_path_of os repo_path (Py.get (plan_target_file entry) "") <> path) ->
  snd (_apply_one os api_key model fs entry repo_path) !! path = fs !! path.
Proof.
  intros Hne. unfold _apply_one.
  destruct (_is_test_file _) eqn:Etest; [reflexivity|].
  specialize (Hne eq_refl).
  destruct (negb (Tree.is_file fs _)); [reflexivity|].
  destruct (Tree.read_text os fs _) as [original|exc]; [|reflexivity].
  assert (Hmodel :
    snd (if String.eqb (Py.get (plan_strategy entry) "") "llm"
            || Py.startswith (Py.get (plan_strategy entry) "") "deterministic"
         then
           match _llm_patch api_key model (Py.splitlines true original)
                   (Py.get (plan_bug entry) empty_bug)
                   (abs_path_of os repo_path (Py.get (plan_target_file entry) ""))
                   (Py.get (plan_source_context entry) "") with
           | (Some fixed_lines, desc) =>
               _write_patch os fs
                 (abs_path_of os repo_path (Py.get (plan_target_file entry) ""))
                 (Py.splitlines true original) fixed_lines
                 (Py.get (plan_bug entry) empty_bug) desc "llm" repo_path
           | (None, _) =>
               (not_applied (Py.get (plan_bug entry) empty_bug) "no_fix_generated"
                  ("Could not generate a fix via strategy '"
                     +:+ Py.get (plan_strategy entry) "" +:+ "'."), fs)
           end
         else
           (not_applied (Py.get (plan_bug entry) empty_bug) "no_fix_generated"
              ("Could not generate a fix via strategy '"
                 +:+ Py.get (plan_strategy entry) "" +:+ "'."), fs)) !! path
    = fs !! path).
  { destruct (_ || _); [|reflexivity].
    destruct (_llm_patch _ _ _ _ _ _) as [[fixed|] desc]; [|reflexivity].
    apply write_patch_tree. congruence. }
  cbv zeta.
  destruct (Py.startswith _ "deterministic"); [|exact Hmodel].
  destruct (_deterministic_patch _ _ _) as [[fixed|] desc]; [|exact Hmodel].
  apply write_patch_tree. congruence.
Qed.

Lemma ordered_entries_In plan entry :
  In entry (ordered_entries plan) -> In entry plan /\ is_actionable entry = true.
Proof.
  unfold ordered_entries. rewrite in_flat_map. intros [k [_ H]].
  unfold bottom_up in H. apply sorted_In in H.
  apply List.filter_In in H. destruct H as [H _].
  now apply List.filter_In in H.
Qed.

Lemma apply_fold_frame os api_key model repo_path path entries :
  forall applied skipped fs,
    (forall e, In e entries ->
               _is_test_file (Py.get (plan_target_file e) "") = false ->
               abs_path_of os repo_path (Py.get (plan_target_file e) "") <> path) ->
    snd (fold_left (apply_step os api_key model repo_path) entries (applied, skipped, fs))
      !! path = fs !! path.
Proof.
  induction entries as [|e entries IH]; intros applied skipped fs H; simpl; [reflexivity|].
  pose proof (apply_one_frame os api_key model fs e repo_path path (H e (or_introl eq_refl)))
    as He.
  destruct (_apply_one os api_key model fs e repo_path) as [result fs'] eqn:E.
  simpl in He.
  destruct (String.eqb (patch_status result) "applied");
    (rewrite IH; [exact He | intros e' He'; apply H; now right]).
Qed.

(** A file of the working tree changes only if an actionable entry whose
    target is not named as a test file stands for it. *)
Lemma execute_frame os api_key model fs plan repo_path path :
  (forall e, In e plan -> is_actionable e = true ->
             _is_test_file (Py.get (plan_target_file e) "") = false ->
             abs_path_of os repo_path (Py.get (plan_target_file e) "") <> path) ->
  snd (execute os api_key model fs plan repo_path) !! path = fs !! path.
Proof.
  intros H. unfold execute.
  pose proof (apply_fold_frame os api_key model repo_path path (ordered_entries plan)
                [] (map skipped_entry (List.filter (fun e => negb (is_actionable e)) plan))
                fs) as Hfold.
  destruct (fold_left _ _ _) as [[applied skipped] fs'] eqn:E. simpl in *.
  apply Hfold. intros e He. apply ordered_entries_In in He. destruct He. auto.
Qed.

(** C2.  A bug whose file is named as a test file gets a plan entry with
    strategy [skip_test_file] whose target is that file.  Such an entry is
    not actionable, and [_apply_one] would return it unapplied with the
    tree as it was.  Over any plan, a file whose every actionable entry
    names it as a test file keeps its bytes. *)
Theorem test_files_are_protected :
  forall os fs memory applied bugs repo_path bug,
    In bug bugs ->
    FixPlanner._is_test_file (Py.get (bug_file bug) "unknown") = true ->
    (exists entry,
        In entry (FixPlanner.execute os fs memory applied bugs repo_path)
        /\ skips (location bug) entry
        /\ is_actionable entry = false
        /\ forall api_key model tree,
             snd (_apply_one os api_key model tree entry repo_path) = tree)
    /\ (forall api_key model tree plan path,
          (forall e, In e plan -> is_actionable e = true ->
                     abs_path_of os repo_path (Py.get (plan_target_file e) "") = path ->
                     _is_test_file (Py.get (plan_target_file e) "") = true) ->
          snd (execute os api_key model tree plan repo_path) !! path = tree !! path).
Proof.
  intros os fs memory applied bugs repo_path bug Hin Htest. split.
  - destruct (planner_skips_test_files os fs memory applied bugs repo_path bug Hin Htest)
      as [entry [He Hskip]].
    exists entry. split; [assumption|]. split; [assumption|].
    destruct Hskip as (Hs & Ht & _). split; [now apply skip_strategy_not_actionable|].
    intros api_key model tree. rewrite apply_one_test_file; [reflexivity|].
    rewrite Ht. exact Htest.
  - intros api_key model tree plan path H. apply execute_frame.
    intros e He Hact Hnot Habs.
    rewrite (H e He Hact Habs) in Hnot. discriminate.
Qed.

Lemma test_files_are_protected_witness :
  (exists entry,
      In entry (FixPlanner.execute Scenario.posix Scenario.fact_tree None []
                  [Scenario.operator_bug; Scenario.test_bug] Scenario.repo)
      /\ skips (location Scenario.test_bug) entry
      /\ is_actionable entry = false
      /\ forall api_key model tree,
           snd (_apply_one Scenario.posix api_key model tree entry Scenario.repo) = tree)
  /\ (forall api_key model tree plan path,
        (forall e, In e plan -> is_actionable e = true ->
                   abs_path_of Scenario.posix Scenario.repo
                               (Py.get (plan_target_file e) "") = path ->
                   _is_test_file (Py.get (plan_target_file e) "") = true) ->
        snd (execute Scenario.posix api_key model tree plan Scenario.repo) !! path
        = tree !! path).
Proof.
  apply (test_files_are_protected Scenario.posix Scenario.fact_tree None []
           [Scenario.operator_bug; Scenario.test_bug] Scenario.repo Scenario.test_bug).
  - right. left. reflexivity.
  - vm_compute. reflexivity.
Defined.

(** The cap of the model-assisted path bounds the difference of the line
    counts, whatever the lines hold. *)
Lemma llm_patch_line_count api_key model lines bug abs_path source_context new_lines d :
  _llm_patch api_key model lines bug abs_path source_context = (Some new_lines, d) ->
  Z.abs (Z.of_nat (List.length new_lines) - Z.of_nat (List.length lines))
  <= Z.of_nat MAX_CHANGED_LINES.
Proof.
  unfold _llm_patch. destruct (negb (Py.truthy api_key)); [discriminate|].
  destruct (model abs_path bug lines) as [reply|]; [|discriminate].
  cbv zeta. destruct (_ || _); [discriminate|].
  match goal with
  | |- context [Z.of_nat (List.length ?text) - Z.of_nat (List.length lines)] =>
      generalize text; intros result
  end.
  destruct (Z.ltb_spec (Z.of_nat MAX_CHANGED_LINES)
              (Z.abs (Z.of_nat (List.length result) - Z.of_nat (List.length lines))))
    as [Hlt|Hge]; [discriminate|].
  intros [= <- _]. exact Hge.
Qed.

(** C1.  At the failing input: the index-error rule wraps a block of
    twenty-two statements.  The entry is reported applied, the file on disk
    is rewritten, and the old and the new file differ at twenty-two line
    positions, more than the cap of twenty; the patch record lists the first
    twenty of them. *)
Theorem oversized_deterministic_patch_is_written :
  let result := execute Scenario.posix Scenario.no_key Scenario.silent_model
                        Scenario.report_tree [Scenario.index_entry] Scenario.repo in
  let new_lines :=
    Py.splitlines true (Py.get (snd result !! Scenario.report_path) "") in
  map patch_status (applied_patches (fst result)) = ["applied"]
  /\ map patch_method (applied_patches (fst result)) = [Some "deterministic"]
  /\ skipped_patches (fst result) = []
  /\ snd result !! Scenario.report_path <> Scenario.report_tree !! Scenario.report_path
  /\ List.length Scenario.report_lines = 23%nat
  /\ List.length new_lines = 26%nat
  /\ List.length (diff_lines 1 Scenario.report_lines new_lines) = 22%nat
  /\ (MAX_CHANGED_LINES < List.length (diff_lines 1 Scenario.report_lines new_lines))%nat.
Proof.
  vm_compute. repeat split; try reflexivity; try discriminate.
  apply Nat.ltb_lt. reflexivity.
Qed.

(** *** The order of application *)

Lemma distinct_In k keys : In k (distinct keys) <-> In k keys.
Proof.
  induction keys as [|k' keys IH]; simpl; [reflexivity|].
  rewrite List.filter_In, IH.
  destruct (String.eqb_spec k k') as [->|Hne]; simpl; intuition congruence.
Qed.

Lemma distinct_NoDup keys : List.NoDup (distinct keys).
Proof.
  induction keys as [|k keys IH]; simpl; constructor.
  - rewrite List.filter_In, String.eqb_refl. simpl. intros [_ H]. discriminate.
  - now apply List.NoDup_filter.
Qed.

Lemma flat_map_single {A} (f : string) (segment : string -> list A) keys :
  List.NoDup keys ->
  flat_map (fun k => if String.eqb k f then segment k else []) keys
  = if existsb (String.eqb f) keys then segment f else [].
Proof.
  induction keys as [|k keys IH]; intros Hnd; simpl; [reflexivity|].
  apply List.NoDup_cons_iff in Hnd as [Hk Hnd]. rewrite (IH Hnd).
  rewrite (String.eqb_sym f k).
  destruct (String.eqb_spec k f) as [->|Hne]; simpl; [|reflexivity].
  destruct (existsb (String.eqb f) keys) eqn:Hex; [|now rewrite List.app_nil_r].
  apply List.existsb_exists in Hex as (k' & Hin & Heq). apply String.eqb_eq in Heq.
  subst k'. contradiction.
Qed.

Lemma filter_flat_map {A B} (p : B -> bool) (g : A -> list B) l :
  List.filter p (flat_map g l) = flat_map (fun a => List.filter p (g a)) l.
Proof.
  induction l as [|a l IH]; simpl; [reflexivity|].
  now rewrite List.filter_app, IH.
Qed.

Lemma filter_all {A} (p : A -> bool) l :
  (forall a, In a l -> p a = true) -> List.filter p l = l.
Proof.
  induction l as [|a l IH]; intros H; simpl; [reflexivity|].
  rewrite (H a (or_introl eq_refl)), IH; [reflexivity|].
  intros b Hb. apply H. now right.
Qed.

Lemma filter_none {A} (p : A -> bool) l :
  (forall a, In a l -> p a = false) -> List.filter p l = [].
Proof.
  induction l as [|a l IH]; intros H; simpl; [reflexivity|].
  rewrite (H a (or_introl eq_refl)). apply IH. intros b Hb. apply H. now right.
Qed.

Lemma bottom_up_In e entries : In e (bottom_up entries) <-> In e entries.
Proof. apply sorted_In. Qed.

(** Within a file, the entries are applied from the highest reported line
    to the lowest. *)
Lemma bottom_up_descending entries :
  StronglySorted (fun a b => entry_line b <= entry_line a) (bottom_up entries).
Proof.
  unfold bottom_up.
  assert (Hs : StronglySorted (fun a b => (entry_line a <? entry_line b) = false)
                 (Py.sorted entry_line (fun a b => b <? a) entries)).
  { apply (sorted_ordered entry_line (fun a b => b <? a)).
    - intros a b H. apply Z.ltb_lt in H. apply Z.ltb_ge. lia.
    - intros a b c H1 H2. apply Z.ltb_ge in H1, H2. apply Z.ltb_ge. lia. }
  induction Hs as [|e l _ IH Hall]; constructor; [assumption|].
  rewrite List.Forall_forall in Hall |- *. intros e' He'.
  now apply Z.ltb_ge, Hall.
Qed.

(** The entries that [execute] applies for one target file, in the order in
    which it applies them, are the actionable entries of that file sorted
    by line, highest first; entries of one file are applied in one run,
    file after file. *)
Lemma ordered_entries_by_file plan target_file :
  List.filter (fun e => String.eqb (group_key e) target_file) (ordered_entries plan)
  = bottom_up (List.filter (fun e => String.eqb (group_key e) target_file)
                           (List.filter is_actionable plan)).
Proof.
  unfold ordered_entries. cbv zeta.
  set (actionable := List.filter is_actionable plan).
  set (segment := fun k => bottom_up (List.filter (fun e => String.eqb (group_key e) k)
                                                  actionable)).
  rewrite filter_flat_map.
  rewrite (flat_map_ext _
             (fun k => if String.eqb k target_file then segment k else [])).
  - rewrite flat_map_single.
    + destruct (existsb _ _) eqn:Hex; [reflexivity|].
      unfold segment. rewrite filter_none; [reflexivity|].
      intros e He. apply not_true_iff_false. intros Hkey. apply String.eqb_eq in Hkey.
      apply not_true_iff_false in Hex. apply Hex. apply List.existsb_exists.
      exists target_file. split; [|apply String.eqb_refl].
      apply sorted_In, distinct_In. rewrite <- Hkey. now apply List.in_map.
    + eapply Permutation_NoDup; [symmetry; apply sorted_Permutation|].
      apply distinct_NoDup.
  - intros k. fold (segment k). destruct (String.eqb_spec k target_file) as [->|Hne].
    + apply filter_all. intros e He. apply bottom_up_In, List.filter_In in He. apply He.
    + apply filter_none. intros e He. apply bottom_up_In, List.filter_In in He.
      destruct He as [_ He]. apply String.eqb_eq in He. rewrite He.
      now apply String.eqb_neq.
Qed.

Lemma sorted_suffix {A} (R : A -> A -> Prop) (l1 l2 : list A) :
  StronglySorted R (l1 ++ l2) -> StronglySorted R l2.
Proof.
  induction l1 as [|x l1 IH]; simpl; intros H; [assumption|].
  apply StronglySorted_inv in H as [H _]. now apply IH.
Qed.

(** Whenever an entry is applied before another entry of the same file, its
    reported line is not the lower one. *)
Lemma ordered_entries_bottom_up plan before first between second after :
  ordered_entries plan = before ++ first :: between ++ second :: after ->
  group_key first = group_key second ->
  entry_line second <= entry_line first.
Proof.
  intros Hsplit Hkey.
  pose proof (ordered_entries_by_file plan (group_key first)) as Hfile.
  pose proof (bottom_up_descending
                (List.filter (fun e => String.eqb (group_key e) (group_key first))
                             (List.filter is_actionable plan))) as Hsorted.
  rewrite <- Hfile, Hsplit in Hsorted.
  rewrite List.filter_app in Hsorted. cbn [List.filter] in Hsorted.
  rewrite String.eqb_refl, List.filter_app in Hsorted. cbn [List.filter] in Hsorted.
  rewrite <- Hkey, String.eqb_refl in Hsorted.
  apply sorted_suffix in Hsorted.
  apply StronglySorted_inv in Hsorted as [_ Hall].
  rewrite List.Forall_forall in Hall. apply Hall.
  apply List.in_or_app. right. now left.
Qed.

(** C4.  At the failing input: a wrong operator reported at line 4 and an
    unbounded recursion reported at line 5 of the same file.  Alone, the
    operator entry is applied and repairs line 4.  Together, the recursion
    entry goes first and puts its guard before line 4, so that the operator
    entry finds the guard at line 4, generates no fix, and the wrong operator
    stays in the file, now at line 6. *)
Theorem lower_edit_lands_on_inserted_guard :
  let alone := execute Scenario.posix Scenario.no_key Scenario.silent_model
                       Scenario.fact_tree [Scenario.operator_entry] Scenario.repo in
  let both := execute Scenario.posix Scenario.no_key Scenario.silent_model
                      Scenario.fact_tree
                      [Scenario.operator_entry; Scenario.recursion_entry] Scenario.repo in
  let lines_of tree := Py.splitlines true (Py.get (tree !! Scenario.fact_path) "") in
  ordered_entries [Scenario.operator_entry; Scenario.recursion_entry]
  = [Scenario.recursion_entry; Scenario.operator_entry]
  /\ map patch_description (applied_patches (fst alone))
     = [Some "Changed '/' to '*' at line 4"]
  /\ nth 3 (lines_of (snd alone)) "" = "    scale = n * 2" +:+ Py.NL
  /\ map patch_description (applied_patches (fst both))
     = [Some "Added negative-input guard for n at line 5"]
  /\ map (fun p => (patch_bug p, patch_status p)) (skipped_patches (fst both))
     = [(Some Scenario.operator_bug, "no_fix_generated")]
  /\ nth 3 (lines_of (snd both)) "" = "    if n < 0:" +:+ Py.NL
  /\ nth 5 (lines_of (snd both)) "" = "    scale = n / 2" +:+ Py.NL.
Proof.
  vm_compute. repeat split; reflexivity.
Qed.
End ApplierFacts.
(* ===================================================================== *)
(** * The reasoning loop: budgets and the stop on repeated failures *)
(* ===================================================================== *)

Section BudgetFacts.
Import ReasoningLoop Budget.
Context {W : Type} (registry : Registry W) (clock : nat -> string)
        (recursion_error : string).

Lemma committed_app a b : committed (a ++ b) = committed a + committed b.
Proof.
  unfold committed. rewrite List.filter_app, List.length_app. lia.
Qed.

Lemma committed_one rep :
  committed [rep] = if Py.truthy (report_commit_sha rep) then 1 else 0.
Proof. unfold committed. simpl. now destruct (Py.truthy _). Qed.

Lemma committed_nonneg reports : 0 <= committed reports.
Proof. unfold committed. lia. Qed.

(** One pass appends one report, counts it, and advances the counter. *)
Lemma iterate_totals t l :
  exists rep l',
    iterate registry clock recursion_error t l
    = (mkTotals (current_iteration t + 1) (iterations t ++ [rep])
                (total_bugs t + bugs_found rep) (total_fixes t + patches_applied rep)
                (total_commits t + committed [rep]),
       l',
       report_all_passed rep
       || (MAX_TOTAL_COMMITS <=? total_commits t + committed [rep])
       || negb (Py.get (should_continue (shared l')) false)).
Proof.
  unfold iterate.
  destruct (run_graph _ _ _ _ _ _) as [ending l1].
  set (rep := match ending with
              | Ended => report l1
              | Raised exc => with_verdict ("graph_error: " +:+ exc) (report l1)
              end).
  exists rep, (mkLoop (shared l1) (memory l1) rep (world l1) (ticks l1)).
  rewrite committed_one. cbn [shared].
  destruct (Py.truthy (report_commit_sha rep)); rewrite ?Z.add_0_r; reflexivity.
Qed.

Lemma split_snoc {A} (l pre post : list A) (x y : A) :
  l ++ [x] = pre ++ y :: post ->
  (post = [] /\ pre = l /\ y = x) \/ exists post', post = post' ++ [x] /\ l = pre ++ y :: post'.
Proof.
  intros H. induction post as [|z post' _] using List.rev_ind.
  - apply List.app_inj_tail in H as [-> ->]. now left.
  - change (pre ++ y :: post' ++ [z]) with (pre ++ (y :: post') ++ [z]) in H.
    rewrite List.app_assoc in H. apply List.app_inj_tail in H as [-> ->].
    right. now exists post'.
Qed.

Lemma within_budget_step max_iterations t rep :
  within_budget max_iterations t ->
  total_commits t < MAX_TOTAL_COMMITS ->
  current_iteration t < max_iterations ->
  within_budget max_iterations
    (mkTotals (current_iteration t + 1) (iterations t ++ [rep])
              (total_bugs t + bugs_found rep) (total_fixes t + patches_applied rep)
              (total_commits t + committed [rep])).
Proof.
  intros (Hn & Hc & Hmax & Hpre) Hbudget Hlt. unfold within_budget. cbn.
  rewrite List.length_app, committed_app. cbn [List.length].
  repeat split; try lia.
  - apply split_snoc in H as [(-> & -> & ->) | (post' & -> & Hl)]; [lia|].
    now apply (Hpre _ _ _ Hl).
  - apply split_snoc in H as [(-> & -> & ->) | (post' & -> & Hl)]; [lia|].
    now apply (Hpre _ _ _ Hl).
Qed.

Lemma while_loop_within_budget fuel max_iterations t l :
  within_budget max_iterations t ->
  total_commits t < MAX_TOTAL_COMMITS ->
  within_budget max_iterations
    (fst (while_loop registry clock recursion_error fuel max_iterations t l))
  /\ total_commits
       (fst (while_loop registry clock recursion_error fuel max_iterations t l))
     <= MAX_TOTAL_COMMITS.
Proof.
  revert t l. induction fuel as [|fuel IH]; intros t l Hinv Hbudget; cbn [while_loop].
  - split; [assumption | simpl; lia].
  - destruct (current_iteration t <? max_iterations) eqn:Hlt;
      [|split; [assumption | simpl; lia]].
    apply Z.ltb_lt in Hlt.
    destruct (iterate_totals t l) as (rep & l' & ->).
    pose proof (within_budget_step max_iterations t rep Hinv Hbudget Hlt) as Hstep.
    pose proof (committed_one rep) as Hone.
    destruct (_ || _ || _) eqn:Hstop.
    + split; [assumption|]. cbn. destruct (Py.truthy _); lia.
    + apply orb_false_iff in Hstop as [Hstop _].
      apply orb_false_iff in Hstop as [_ Hstop]. apply Z.leb_gt in Hstop.
      apply IH; [assumption | exact Hstop].
Qed.

(** The fuel of the model never cuts the loop short: with as many passes as
    iterations remain, more fuel changes nothing. *)
Lemma while_loop_fuel_enough fuel extra max_iterations t l :
  max_iterations - current_iteration t <= Z.of_nat fuel ->
  while_loop registry clock recursion_error (fuel + extra) max_iterations t l
  = while_loop registry clock recursion_error fuel max_iterations t l.
Proof.
  revert t l. induction fuel as [|fuel IH]; intros t l Hfuel.
  - cbn [while_loop Nat.add]. destruct extra; [reflexivity|]. cbn [while_loop].
    destruct (current_iteration t <? max_iterations) eqn:Hlt; [|reflexivity].
    apply Z.ltb_lt in Hlt. lia.
  - cbn [while_loop Nat.add].
    destruct (current_iteration t <? max_iterations); [|reflexivity].
    destruct (iterate_totals t l) as (rep & l' & ->).
    destruct (_ || _ || _); [reflexivity|].
    apply IH. cbn. lia.
Qed.

Lemma run_reasoning_loop_iterations repo_path max_iterations config w :
  exists t l,
    while_loop registry clock recursion_error (Z.to_nat max_iterations) max_iterations
               (mkTotals 0 [] 0 0 0) l
    = (t, snd (while_loop registry clock recursion_error (Z.to_nat max_iterations)
                          max_iterations (mkTotals 0 [] 0 0 0) l))
    /\ result_iterations
         (fst (run_reasoning_loop registry clock recursion_error repo_path
                                  max_iterations config w))
       = iterations t
    /\ iterations_used
         (fst (run_reasoning_loop registry clock recursion_error repo_path
                                  max_iterations config w))
       = List.length (iterations t).
Proof.
  unfold run_reasoning_loop.
  match goal with |- context [while_loop _ _ _ _ _ _ ?l0] => set (l := l0) end.
  destruct (while_loop _ _ _ _ _ _ l) as [t l'] eqn:Hrun.
  exists t, l. rewrite Hrun. cbn. repeat split.
Qed.

(** What the two guards of the loop do bound.  Whatever the tools do,
    [run_reasoning_loop] runs at most [max_iterations] iterations; the
    iterations whose report carries a commit hash number at most
    [MAX_TOTAL_COMMITS] = 10; and every iteration that was started was
    started with fewer than ten such iterations, and fewer than
    [max_iterations] iterations, before it.  This counts iterations, not
    commits. *)
Lemma loop_respects_both_budgets repo_path max_iterations config w :
  let result :=
    fst (run_reasoning_loop registry clock recursion_error repo_path max_iterations
                            config w) in
  Z.of_nat (iterations_used result) <= Z.max 0 max_iterations
  /\ iterations_used result = List.length (result_iterations result)
  /\ committed (result_iterations result) <= MAX_TOTAL_COMMITS
  /\ MAX_TOTAL_COMMITS = 10
  /\ forall pre rep post,
       result_iterations result = pre ++ rep :: post ->
       committed pre < MAX_TOTAL_COMMITS /\ Z.of_nat (List.length pre) < max_iterations.
Proof.
  intros result. subst result.
  destruct (run_reasoning_loop_iterations repo_path max_iterations config w)
    as (t & l & Hrun & -> & ->).
  assert (Hstart : within_budget max_iterations (mkTotals 0 [] 0 0 0)).
  { unfold within_budget. cbn. repeat split; try lia; destruct pre; discriminate. }
  destruct (while_loop_within_budget (Z.to_nat max_iterations) max_iterations _ l Hstart)
    as [(Hn & Hc & Hmax & Hpre) Hle]; [reflexivity|].
  rewrite Hrun in *. cbn [fst] in *.
  rewrite <- Hn, <- Hc. repeat split; try assumption; apply (Hpre _ _ _ H).
Qed.

End BudgetFacts.

Lemma last_of_three {A} (l : list A) (d : A) :
  List.length l = 3%nat -> l = firstn 2 l ++ nth 2 l d :: [].
Proof.
  destruct l as [|a [|b [|c [|e l]]]]; try discriminate. reflexivity.
Defined.


Lemma loop_respects_both_budgets_witness :
  let result :=
    fst (ReasoningLoop.run_reasoning_loop (Scenario.scripted Scenario.stagnating)
           Scenario.utc Scenario.recursion_error Scenario.repo 3 Scenario.loop_config []) in
  Z.of_nat (ReasoningLoop.iterations_used result) <= Z.max 0 3
  /\ Budget.committed (firstn 2 (ReasoningLoop.result_iterations result))
     < ReasoningLoop.MAX_TOTAL_COMMITS.
Proof.
  intros result.
  pose proof (loop_respects_both_budgets
                (Scenario.scripted Scenario.stagnating) Scenario.utc
                Scenario.recursion_error Scenario.repo 3 Scenario.loop_config [])
    as H.
  fold result in H. cbv zeta in H.
  destruct H as (Hused & _ & _ & _ & Hstarted).
  split; [exact Hused|].
  refine (proj1 (Hstarted (firstn 2 (ReasoningLoop.result_iterations result))
                          (nth 2 (ReasoningLoop.result_iterations result)
                               (ReasoningLoop.new_report 0 ""))
                          [] _)).
  apply last_of_three. vm_compute. reflexivity.
Defined.

(** The budget counts iterations, not runs of the commit tool.  Inside one
    graph invocation the continue-edge of VERIFY leads back to CLASSIFY
    without a new iteration being counted, so an iteration can commit more
    than once: here two iterations are reported, each with a commit, while
    the commit tool has run five times (the first invocation is cut at the
    recursion limit, which the model takes as the number of nodes that one
    invocation may run). *)
Remark an_iteration_can_commit_more_than_once :
  let result := fst Scenario.restless_run in
  ReasoningLoop.iterations_used result = 2%nat
  /\ Budget.committed (ReasoningLoop.result_iterations result) = 2
  /\ Scenario.calls "commit_push" (snd Scenario.restless_run) = 5%nat
  /\ map ReasoningLoop.report_verdict (ReasoningLoop.result_iterations result)
     = ["graph_error: " +:+ Scenario.recursion_error; "fail_local_no_ci"].
Proof. vm_compute. repeat split; reflexivity. Qed.

(** C6.  The commit budget does not bound the commits.  The loop adds one
    to its count of commits for an iteration whose report carries a commit
    hash, whatever the number of times the commit tool ran in it, and the
    continue-edge of VERIFY leads back to CLASSIFY inside the same graph
    invocation.  In [Scenario.relapsing_run], with the default of five
    iterations, each of the first four iterations plans, patches and
    commits three times before a repeated report ends it (twenty nodes, no
    recursion limit is reached), and the fifth commits once: the loop ends
    with five iterations, its count of commits at five, under the budget
    of ten, after thirteen runs of the patch applier and thirteen commits.
    In [Scenario.restless_run5], where no report repeats another and the
    invocations are cut at the recursion limit, seventeen. *)
Theorem commits_exceed_the_budget :
  let result := fst Scenario.relapsing_run in
  let trace := snd Scenario.relapsing_run in
  ReasoningLoop.MAX_TOTAL_COMMITS = 10
  /\ ReasoningLoop.iterations_used result = 5%nat
  /\ Budget.committed (ReasoningLoop.result_iterations result) = 5
  /\ map ReasoningLoop.report_verdict (ReasoningLoop.result_iterations result)
     = ["no_new_failures"; "no_new_failures"; "no_new_failures"; "no_new_failures";
        "fail_local_no_ci"]
  /\ Scenario.calls "patch_applier" trace = 13%nat
  /\ Scenario.calls "commit_push" trace = 13%nat
  /\ ReasoningLoop.MAX_TOTAL_COMMITS < Z.of_nat (Scenario.calls "commit_push" trace)
  /\ firstn 20 trace
     = ["test_runner";
        "failure_classifier"; "fix_planner"; "patch_applier"; "commit_push";
        "wait_for_ci"; "verification";
        "failure_classifier"; "fix_planner"; "patch_applier"; "commit_push";
        "wait_for_ci"; "verification";
        "failure_classifier"; "fix_planner"; "patch_applier"; "commit_push";
        "wait_for_ci"; "verification";
        "failure_classifier"]
  /\ ReasoningLoop.iterations_used (fst Scenario.restless_run5) = 5%nat
  /\ Budget.committed (ReasoningLoop.result_iterations (fst Scenario.restless_run5)) = 5
  /\ Scenario.calls "commit_push" (snd Scenario.restless_run5) = 17%nat.
Proof. vm_compute. repeat split; reflexivity. Qed.

Section StagnationFacts.
Import RunMemory ReasoningLoop.
Context {W : Type} (registry : Registry W) (clock : nat -> string)
        (recursion_error : string).

Lemma failure_keys_nonempty bugs :
  bugs <> [] -> nonempty_set (failure_keys bugs) = true.
Proof.
  destruct bugs as [|b bugs]; [congruence|]. intros _.
  unfold nonempty_set, failure_keys. cbn [map list_to_set].
  rewrite bool_decide_eq_false_2; [reflexivity | set_solver].
Qed.

(** After a CLASSIFY phase that classified some bug, the stored keys are the
    keys of what it classified, whether it went on or stopped. *)
Lemma classify_stores_keys state report it max_iterations memory now bugs :
  classified_bugs state = Some bugs -> bugs <> [] ->
  _prev_failure_keys
    (step_state (_reason_transition CLASSIFY state report PLAN_FIX DONE it max_iterations
                                    memory now))
  = Some (failure_keys bugs).
Proof.
  intros Hbugs Hne. unfold _reason_transition. rewrite Hbugs. cbn [Py.get].
  destruct bugs as [|b bugs]; [congruence|]. cbn [Py.nonempty negb].
  destruct (_prev_failure_keys state) as [prev|] eqn:Hprev; cbn [Py.get].
  - case_bool_decide as Heq.
    + rewrite andb_true_r. destruct (nonempty_set prev); cbn [step_state fst snd];
        [now rewrite Hprev, Heq | reflexivity].
    + rewrite andb_false_r. reflexivity.
  - unfold nonempty_set. rewrite bool_decide_eq_true_2 by reflexivity. reflexivity.
Qed.

(** No other phase assigns the stored keys. *)
Lemma other_phases_keep_keys phase state report next_continue next_stop it max_iterations
    memory now :
  phase <> CLASSIFY ->
  _prev_failure_keys
    (step_state (_reason_transition phase state report next_continue next_stop it
                                    max_iterations memory now))
  = _prev_failure_keys state.
Proof.
  intros Hphase. destruct phase; try congruence; unfold _reason_transition;
    repeat match goal with
           | |- context [if ?c then _ else _] => destruct c
           end; reflexivity.
Qed.

Lemma update_keeps_keys state outputs :
  _prev_failure_keys outputs = None ->
  _prev_failure_keys (update state outputs) = _prev_failure_keys state.
Proof. intros H. unfold update. cbn. now rewrite H. Qed.

(** The CLASSIFY transition on a repetition of the stored keys. *)
Lemma classify_repeated state report it max_iterations memory now bugs :
  classified_bugs state = Some bugs -> bugs <> [] ->
  _prev_failure_keys state = Some (failure_keys bugs) ->
  _reason_transition CLASSIFY state report PLAN_FIX DONE it max_iterations (Some memory) now
  = (DONE, state,
     with_verdict "no_new_failures" (with_bugs_found (Z.of_nat (List.length bugs)) report),
     Some (append_failures memory it bugs)).
Proof.
  intros Hbugs Hne Hprev. unfold _reason_transition. rewrite Hbugs, Hprev. cbn [Py.get].
  rewrite (failure_keys_nonempty _ Hne), bool_decide_eq_true_2 by reflexivity.
  destruct bugs; [congruence | reflexivity].
Qed.

(** What the comparison of CLASSIFY does stop.  Let a CLASSIFY phase have
    classified a non-empty list of bugs, and let nothing have assigned the
    stored keys since.  If the classifier now reports a non-empty list of
    bugs with the same set of (file, bug type) pairs, the transition goes
    to DONE with the verdict no_new_failures, and the graph invocation ends
    right there: the classifier is the last tool that runs in it, and the
    state and the world are as the classifier left them.  What ran in the
    invocation before this CLASSIFY phase has run, and the outer loop is
    not told to stop. *)
Lemma repeated_failures_end_the_invocation
    (state0 : State) (report0 : IterationReport) (iteration0 max0 : Z)
    (memory0 : option RunMemory.t) (now0 : string * string) (bugs0 : list BugDict)
    (l : Loop W) (t : AgentTool W) (result : ToolResult) (memory' : RunMemory.t)
    (world' : W) (bugs : list BugDict) (limit : nat) :
  classified_bugs state0 = Some bugs0 ->
  bugs0 <> [] ->
  _prev_failure_keys (shared l)
  = _prev_failure_keys
      (step_state (_reason_transition CLASSIFY state0 report0 PLAN_FIX DONE iteration0 max0
                                      memory0 now0)) ->
  registry "failure_classifier" = inl t ->
  validate_io t (shared l) = [] ->
  execute t (set_tool_skipped false (shared l)) (memory l) (world l)
  = (inl result, memory', world') ->
  _tool_skipped (result_outputs result) = None ->
  _prev_failure_keys (result_outputs result) = None ->
  classified_bugs (update (set_tool_skipped false (shared l)) (result_outputs result))
  = Some bugs ->
  bugs <> [] ->
  failure_keys bugs = failure_keys bugs0 ->
  let state := update (set_tool_skipped false (shared l)) (result_outputs result) in
  let it := Py.get (_current_iteration state) 1 in
  let report' :=
    with_verdict "no_new_failures"
      (with_bugs_found (Z.of_nat (List.length bugs)) (with_invocation result (report l))) in
  _reason_transition CLASSIFY state (with_invocation result (report l)) PLAN_FIX DONE it
                     (Py.get (_max_iterations state) 5) (Some memory')
                     (clock (ticks l), clock (S (ticks l)))
  = (DONE, state, report', Some (append_failures memory' it bugs))
  /\ run_graph registry clock recursion_error (S limit) CLASSIFY l
     = (Ended, mkLoop state (append_failures memory' it bugs) report' world'
                      (S (S (ticks l))))
  /\ report_verdict report' = "no_new_failures"
  /\ tool_invocations report' = tool_invocations (report l) ++ [result].
Proof.
  intros Hbugs0 Hne0 Hkept Hget Hvalid Hexec Hskip Hout Hbugs Hne Hsame state it report'.
  assert (Hprev : _prev_failure_keys state = Some (failure_keys bugs)).
  { subst state. rewrite (update_keeps_keys _ _ Hout). cbn [set_tool_skipped _prev_failure_keys].
    rewrite Hkept, Hsame. now apply classify_stores_keys. }
  pose proof (classify_repeated state (with_invocation result (report l)) it
                (Py.get (_max_iterations state) 5) memory'
                (clock (ticks l), clock (S (ticks l))) bugs Hbugs Hne Hprev) as Hstep.
  split; [exact Hstep|]. split; [|split; reflexivity].
  cbn [run_graph]. unfold node_and_edge. cbn [TRANSITIONS].
  rewrite Hget, Hvalid. cbn [Py.nonempty]. rewrite Hexec.
  fold state.
  assert (Hnot : Py.get (_tool_skipped state) false = false).
  { subst state. unfold update. cbn. now rewrite Hskip. }
  rewrite Hnot. fold it. rewrite Hstep. reflexivity.
Qed.

End StagnationFacts.

Import RunMemory ReasoningLoop.

Lemma repeated_failures_end_the_invocation_witness :
  let l := Scenario.before_second_classification in
  let state :=
    update (set_tool_skipped false (shared l))
           (set_classified_bugs [Scenario.shifted_colon_bug] empty_state) in
  let report' :=
    with_verdict "no_new_failures"
      (with_bugs_found 1
         (with_invocation
            (mkResult "failure_classifier" "success" ""
                      (set_classified_bugs [Scenario.shifted_colon_bug] empty_state) [])
            (report l))) in
  failure_keys [Scenario.shifted_colon_bug] = failure_keys [Scenario.colon_bug]
  /\ run_graph (Scenario.scripted Scenario.stagnating) Scenario.utc
               Scenario.recursion_error 25 CLASSIFY l
     = (Ended,
        mkLoop state
               (append_failures (memory l) 1 [Scenario.shifted_colon_bug])
               report' ["failure_classifier"; "failure_classifier"] 2).
Proof.
  split; [reflexivity|].
  refine (proj1 (proj2
    (repeated_failures_end_the_invocation
       (Scenario.scripted Scenario.stagnating) Scenario.utc Scenario.recursion_error
       Scenario.first_classification (new_report 1 (Scenario.utc 0)) 1 3 (Some init)
       Scenario.clock1 [Scenario.colon_bug]
       Scenario.before_second_classification
       (Scenario.stub "failure_classifier" ["test_output"]
          (fun _ trace =>
             set_classified_bugs
               (Scenario.stagnating (Scenario.calls "failure_classifier" trace))
               Scenario.fresh))
       (mkResult "failure_classifier" "success" ""
                 (set_classified_bugs [Scenario.shifted_colon_bug] empty_state) [])
       (append_failures init 1 [Scenario.colon_bug])
       ["failure_classifier"; "failure_classifier"]
       [Scenario.shifted_colon_bug] 24
       _ _ _ _ _ _ _ _ _ _ _)));
    try reflexivity; try discriminate.
Defined.

(** C5.  The verdict no_new_failures does not stop the run.  The CLASSIFY
    phase goes to DONE, which ends the current graph invocation; the outer
    loop of [run_reasoning_loop] stops on [all_passed], on the commit
    budget, or when [should_continue] is not set, and that flag is still
    as the verification before the repeated report left it.  In
    [Scenario.stagnating_run] the classifier reports, call after call, the
    colon bug, the colon bug again (one line lower), a lint bug in another
    file, nothing, nothing.  The second report repeats the set of the
    first and iteration 1 ends with the verdict no_new_failures; the loop
    then starts iteration 2, which plans, applies and commits a patch, and
    iteration 3.  In [Scenario.stuck_run] every report is the colon bug:
    nothing is patched after the first repetition, but the run does not
    end there, the test runner and the classifier run again in iterations
    2 and 3, up to [max_iterations]. *)
Theorem the_run_goes_on_after_no_new_failures :
  let result := fst Scenario.stagnating_run in
  Scenario.stagnating 1 <> []
  /\ failure_keys (Scenario.stagnating 1) = failure_keys (Scenario.stagnating 0)
  /\ iterations_used result = 3%nat
  /\ map report_verdict (result_iterations result)
     = ["no_new_failures"; "no_bugs_classified"; "no_bugs_classified"]
  /\ map patches_applied (result_iterations result) = [1; 1; 0]
  /\ map report_commit_sha (result_iterations result) = ["c0ffee1"; "c0ffee1"; ""]
  /\ snd Scenario.stagnating_run
     = ["test_runner"; "failure_classifier"; "fix_planner"; "patch_applier";
        "commit_push"; "wait_for_ci"; "verification"; "failure_classifier";
        "test_runner"; "failure_classifier"; "fix_planner"; "patch_applier";
        "commit_push"; "wait_for_ci"; "verification"; "failure_classifier";
        "test_runner"; "failure_classifier"]
  /\ iterations_used (fst Scenario.stuck_run) = 3%nat
  /\ map report_verdict (result_iterations (fst Scenario.stuck_run))
     = ["no_new_failures"; "no_new_failures"; "no_new_failures"]
  /\ snd Scenario.stuck_run
     = ["test_runner"; "failure_classifier"; "fix_planner"; "patch_applier";
        "commit_push"; "wait_for_ci"; "verification"; "failure_classifier";
        "test_runner"; "failure_classifier";
        "test_runner"; "failure_classifier"].
Proof.
  cbv zeta. split; [discriminate|]. split; [reflexivity|].
  repeat split; vm_compute; reflexivity.
Qed.
(* ===================================================================== *)
(** * The order of the sort keys *)
(* ===================================================================== *)

Section KeyOrder.

Lemma ascii_compare_lt_trans a b c :
  Ascii.compare a b = Lt -> Ascii.compare b c = Lt -> Ascii.compare a c = Lt.
Proof.
  unfold Ascii.compare. rewrite !N.compare_lt_iff. lia.
Qed.

Lemma string_compare_refl a : String.compare a a = Eq.
Proof.
  induction a as [|x a IH]; simpl; [reflexivity|].
  unfold Ascii.compare. now rewrite N.compare_refl.
Qed.

Lemma string_compare_lt_trans a b c :
  String.compare a b = Lt -> String.compare b c = Lt -> String.compare a c = Lt.
Proof.
  revert b c. induction a as [|x a IH]; intros [|y b] [|z c]; simpl;
    try discriminate; try reflexivity.
  destruct (Ascii.compare x y) eqn:Hxy; try discriminate;
    destruct (Ascii.compare y z) eqn:Hyz; try discriminate; intros Hab Hbc.
  - apply Ascii.compare_eq_iff in Hxy, Hyz. subst.
    unfold Ascii.compare. rewrite N.compare_refl. now apply (IH b).
  - apply Ascii.compare_eq_iff in Hxy. subst. now rewrite Hyz.
  - apply Ascii.compare_eq_iff in Hyz. subst. now rewrite Hxy.
  - now rewrite (ascii_compare_lt_trans _ _ _ Hxy Hyz).
Qed.

Lemma str_ltb_asym a b : Py.str_ltb a b = true -> Py.str_ltb b a = false.
Proof.
  unfold Py.str_ltb. rewrite (String.compare_antisym a b).
  destruct (String.compare b a); simpl; congruence.
Qed.

Lemma str_ltb_trans a b c :
  Py.str_ltb a b = true -> Py.str_ltb b c = true -> Py.str_ltb a c = true.
Proof.
  unfold Py.str_ltb.
  destruct (String.compare a b) eqn:Hab; try discriminate.
  destruct (String.compare b c) eqn:Hbc; try discriminate.
  now rewrite (string_compare_lt_trans _ _ _ Hab Hbc).
Qed.

Lemma str_ltb_total a b :
  Py.str_ltb a b = false -> Py.str_ltb b a = false -> a = b.
Proof.
  unfold Py.str_ltb. rewrite (String.compare_antisym a b).
  destruct (String.compare b a) eqn:Hba; simpl; try discriminate.
  intros _ _. symmetry. now apply String.compare_eq_iff.
Qed.

Lemma str_ltb_irrefl a : Py.str_ltb a a = false.
Proof. unfold Py.str_ltb. now rewrite string_compare_refl. Qed.

(** The order of the keys [(file, line)] is a strict total order. *)
Lemma key_ltb_asym a b : Py.key_ltb a b = true -> Py.key_ltb b a = false.
Proof.
  unfold Py.key_ltb. rewrite (String.eqb_sym (fst b) (fst a)).
  destruct (String.eqb (fst a) (fst b)).
  - intros H. apply Z.ltb_lt in H. apply Z.ltb_ge. lia.
  - apply str_ltb_asym.
Qed.

Lemma key_ltb_trans a b c :
  Py.key_ltb a b = true -> Py.key_ltb b c = true -> Py.key_ltb a c = true.
Proof.
  unfold Py.key_ltb.
  destruct a as [fa la], b as [fb lb], c as [fc lc]. cbn [fst snd].
  destruct (String.eqb_spec fa fb) as [->|Hab];
    destruct (String.eqb_spec fb fc) as [->|Hbc]; intros H1 H2.
  - apply Z.ltb_lt in H1, H2. apply Z.ltb_lt. lia.
  - exact H2.
  - rewrite (proj2 (String.eqb_neq fa fc) Hab). exact H1.
  - destruct (String.eqb_spec fa fc) as [->|Hac].
    + rewrite (str_ltb_asym _ _ H1) in H2. discriminate.
    + now apply (str_ltb_trans _ fb).
Qed.

Lemma key_ltb_total a b :
  Py.key_ltb a b = false -> Py.key_ltb b a = false -> a = b.
Proof.
  unfold Py.key_ltb. rewrite (String.eqb_sym (fst b) (fst a)).
  destruct a as [fa la], b as [fb lb]. cbn [fst snd].
  destruct (String.eqb_spec fa fb) as [->|Hne].
  - intros H1 H2. apply Z.ltb_ge in H1, H2. f_equal. lia.
  - intros H1 H2. elim Hne. now apply str_ltb_total.
Qed.

(** Not less is transitive: the hypothesis of [sorted_ordered]. *)
Lemma key_ltb_ge_trans a b c :
  Py.key_ltb b a = false -> Py.key_ltb c b = false -> Py.key_ltb c a = false.
Proof.
  intros Hba Hcb.
  destruct (Py.key_ltb c a) eqn:Hca; [|reflexivity].
  destruct (Py.key_ltb a b) eqn:Hab.
  - rewrite (key_ltb_trans _ _ _ Hca Hab) in Hcb. discriminate.
  - pose proof (key_ltb_total _ _ Hab Hba) as ->. congruence.
Qed.

(** A list sorted with [Py.sorted] on [(file, line)] keys is in ascending
    order of the keys. *)
Lemma sorted_by_key {A} (key : A -> string * Z) l :
  StronglySorted (fun a b => Py.key_ltb (key b) (key a) = false)
                 (Py.sorted key Py.key_ltb l).
Proof.
  apply sorted_ordered; [apply key_ltb_asym | apply key_ltb_ge_trans].
Qed.

Lemma sorted_by_key_leb {A} (key : A -> string * Z) l :
  StronglySorted (fun a b => Py.key_leb (key a) (key b) = true)
                 (Py.sorted key Py.key_ltb l).
Proof.
  pose proof (sorted_by_key key l) as Hs.
  induction Hs as [|a l' _ IH Hall]; constructor; [assumption|].
  rewrite List.Forall_forall in Hall |- *. intros b Hb. unfold Py.key_leb.
  now rewrite (Hall b Hb).
Qed.

End KeyOrder.
(* ===================================================================== *)
(** * Run memory and result document: queries, views, score *)
(* ===================================================================== *)

Section StableSort.
Context {A K : Type} `{EqDecision K} (key : A -> K) (ltb : K -> K -> bool).
Hypothesis ltb_irrefl : forall k, ltb k k = false.

Lemma insert_sorted_stable k x l :
  List.filter (fun a => bool_decide (key a = k)) (Py.insert_sorted key ltb x l)
  = List.filter (fun a => bool_decide (key a = k)) (x :: l).
Proof.
  induction l as [|y l IH]; [reflexivity|]. cbn [Py.insert_sorted].
  destruct (ltb (key y) (key x)) eqn:Hyx; [|reflexivity].
  cbn [List.filter] in *. rewrite IH.
  case_bool_decide as Hx; [|reflexivity].
  case_bool_decide as Hy; [|reflexivity].
  rewrite Hx, Hy, ltb_irrefl in Hyx. discriminate.
Qed.

(** The sort is stable: the elements of one key keep their order. *)
Lemma sorted_stable k l :
  List.filter (fun a => bool_decide (key a = k)) (Py.sorted key ltb l)
  = List.filter (fun a => bool_decide (key a = k)) l.
Proof.
  unfold Py.sorted. induction l as [|x l IH]; [reflexivity|].
  cbn [fold_right]. rewrite insert_sorted_stable. cbn [List.filter]. now rewrite IH.
Qed.

End StableSort.

Section MemoryQueries.
Import RunMemory Reachable.

Lemma key_ltb_irrefl k : Py.key_ltb k k = false.
Proof.
  unfold Py.key_ltb. rewrite String.eqb_refl. apply Z.ltb_irrefl.
Qed.

Lemma filter_this_kept {A} (it : A -> Z) n k (l : list A) :
  List.filter (fun r => it r =? k) (List.filter (other_iteration it n) l)
  = if k =? n then [] else List.filter (fun r => it r =? k) l.
Proof.
  induction l as [|x l IH]; simpl; [now destruct (k =? n)|].
  unfold other_iteration at 1.
  destruct (Z.eqb_spec (it x) n) as [Hx|Hx]; simpl.
  - rewrite IH. destruct (Z.eqb_spec k n) as [->|Hk]; [reflexivity|].
    rewrite Hx. now rewrite (proj2 (Z.eqb_neq n k)) by congruence.
  - rewrite IH. destruct (Z.eqb_spec k n) as [->|Hk].
    + now rewrite (proj2 (Z.eqb_neq (it x) n)) by assumption.
    + reflexivity.
Qed.

Lemma filter_this_new {A B} (it : A -> Z) n k (mk : B -> A) (l : list B) :
  (forall b, it (mk b) = n) ->
  List.filter (fun r => it r =? k) (map mk l) = if k =? n then map mk l else [].
Proof.
  intros Hit. induction l as [|b l IH]; simpl; [now destruct (k =? n)|].
  rewrite Hit, IH, (Z.eqb_sym n k). now destruct (k =? n).
Qed.

(** X1.  What is appended for an iteration is what a query for that
    iteration returns, record for record and in the order given: one record
    for each bug or patch, with [unknown], 0 and the empty string standing
    in for missing keys.  Queries for any other iteration return what they
    returned before. *)
Theorem appended_records_are_found :
  forall (m : RunMemory.t) (n k : Z) bugs patches commit_hash,
    failures_for_iteration (append_failures m n bugs) n = map (failure_of_bug n) bugs
    /\ fixes_for_iteration (append_fixes m n patches commit_hash) n
       = map (fix_of_patch n commit_hash) patches
    /\ (k <> n ->
        failures_for_iteration (append_failures m n bugs) k = failures_for_iteration m k
        /\ fixes_for_iteration (append_fixes m n patches commit_hash) k
           = fixes_for_iteration m k)
    /\ failure_of_bug n empty_bug = mkFailure "unknown" 0 "unknown" "" n
    /\ fix_of_patch n commit_hash (mkPatch None "applied" None None None None None)
       = mkFix "unknown" 0 "" commit_hash n.
Proof.
  intros m n k bugs patches commit_hash.
  unfold failures_for_iteration, fixes_for_iteration, append_failures, append_fixes.
  cbn [_failures _fixes]. rewrite !List.filter_app, !filter_this_kept.
  rewrite !(filter_this_new _ n) by reflexivity.
  rewrite Z.eqb_refl. cbn [app]. repeat split.
  - apply Z.eqb_neq in H. rewrite H. apply List.app_nil_r.
  - apply Z.eqb_neq in H. rewrite H. apply List.app_nil_r.
Qed.

(** In a reachable memory no two CI runs belong to one iteration, and the
    fixes of one iteration carry one commit hash. *)
Lemma NoDup_filter_snoc {A} (it : A -> Z) n (l : list A) (x : A) :
  it x = n ->
  List.NoDup (map it l) ->
  List.NoDup (map it (List.filter (other_iteration it n) l ++ [x])).
Proof.
  intros Hx Hnd. rewrite List.map_app. cbn [map].
  apply List.NoDup_app; repeat split.
  - induction l as [|y l IH]; simpl; [constructor|].
    apply List.NoDup_cons_iff in Hnd as [Hy Hnd].
    destruct (other_iteration it n y); simpl; [|now apply IH].
    constructor; [|now apply IH].
    intros Hin. apply Hy. apply List.in_map_iff in Hin as (z & Hz & Hin).
    apply List.filter_In in Hin as [Hin _]. apply List.in_map_iff. now exists z.
  - constructor; [intros []|constructor].
  - intros z Hz [<-|[]]. apply List.in_map_iff in Hz as (y & Hy & Hin).
    apply List.filter_In in Hin as [_ Hin]. unfold other_iteration in Hin.
    rewrite Hy, Hx, Z.eqb_refl in Hin. discriminate.
Qed.

Lemma one_hash_append n commit_hash patches l :
  one_hash l ->
  one_hash (List.filter (other_iteration fix_iteration n) l
            ++ map (fix_of_patch n commit_hash) patches).
Proof.
  intros Hl f1 f2 H1 H2 Heq.
  apply List.in_app_or in H1, H2.
  destruct H1 as [H1|H1], H2 as [H2|H2].
  - apply List.filter_In in H1 as [H1 _], H2 as [H2 _]. now apply Hl.
  - apply List.filter_In in H1 as [_ H1]. apply List.in_map_iff in H2 as (p & <- & _).
    unfold other_iteration in H1. cbn in Heq. rewrite Heq, Z.eqb_refl in H1. discriminate.
  - apply List.filter_In in H2 as [_ H2]. apply List.in_map_iff in H1 as (p & <- & _).
    unfold other_iteration in H2. cbn in Heq. rewrite <- Heq, Z.eqb_refl in H2.
    discriminate.
  - apply List.in_map_iff in H1 as (p1 & <- & _), H2 as (p2 & <- & _). reflexivity.
Qed.

Lemma reachable_inv m :
  reachable m -> List.NoDup (map ci_iteration (_ci_runs m)) /\ one_hash (_fixes m).
Proof.
  induction 1 as [|m n bugs _ [IH1 IH2]|m n patches h _ [IH1 IH2]
                  |m n status s e now _ [IH1 IH2]]; cbn.
  - split; [constructor | intros ? ? []].
  - now split.
  - split; [assumption | now apply one_hash_append].
  - split; [|assumption]. now apply NoDup_filter_snoc.
Qed.

(** X2.  However the appends follow one another, the memory never holds
    two CI runs of one iteration, the CI run of the last call is the latest
    one, and all fix records of one iteration carry the same commit hash. *)
Theorem reachable_memory_is_consistent (m : RunMemory.t) :
  reachable m ->
  List.NoDup (map ci_iteration (ci_runs m))
  /\ (forall f1 f2, In f1 (fixes m) -> In f2 (fixes m) ->
                    fix_iteration f1 = fix_iteration f2 ->
                    fix_commit_hash f1 = fix_commit_hash f2)
  /\ (forall n status start_time end_time now,
        option_map ci_iteration
                   (latest_ci_run (append_ci_run m n status start_time end_time now))
        = Some n
        /\ List.length
             (List.filter (fun r => ci_iteration r =? n)
                          (ci_runs (append_ci_run m n status start_time end_time now)))
           = 1%nat).
Proof.
  intros Hm. destruct (reachable_inv m Hm) as [Hci Hfix]. split; [exact Hci|]. split.
  - intros f1 f2 H1 H2. unfold fixes in H1, H2. apply sorted_In in H1, H2.
    now apply Hfix.
  - intros n status s e now. split.
    + unfold latest_ci_run, append_ci_run. cbn [_ci_runs]. now rewrite last_snoc.
    + unfold ci_runs, append_ci_run. cbn [_ci_runs].
      rewrite List.filter_app, filter_this_kept, Z.eqb_refl. cbn.
      now rewrite Z.eqb_refl.
Qed.

Lemma reachable_memory_is_consistent_witness :
  List.NoDup (map ci_iteration (ci_runs Scenario.two_ci_memory))
  /\ (forall f1 f2, In f1 (fixes Scenario.two_ci_memory) ->
                    In f2 (fixes Scenario.two_ci_memory) ->
                    fix_iteration f1 = fix_iteration f2 ->
                    fix_commit_hash f1 = fix_commit_hash f2)
  /\ (forall n status start_time end_time now,
        option_map ci_iteration
                   (latest_ci_run
                      (append_ci_run Scenario.two_ci_memory n status start_time end_time
                                     now))
        = Some n
        /\ List.length
             (List.filter (fun r => ci_iteration r =? n)
                          (ci_runs (append_ci_run Scenario.two_ci_memory n status
                                                  start_time end_time now)))
           = 1%nat).
Proof.
  apply (reachable_memory_is_consistent Scenario.two_ci_memory).
  unfold Scenario.two_ci_memory, Scenario.one_fix_memory.
  repeat constructor.
Defined.

(** X3.  The views [failures] and [fixes] hold the stored records, each
    as often as it is stored, in ascending order of (file, line); records
    of one file and line keep the order in which they were stored. *)
Theorem views_are_sorted_and_stable :
  forall m : RunMemory.t,
    Permutation (failures m) (_failures m)
    /\ Permutation (fixes m) (_fixes m)
    /\ StronglySorted
         (fun a b => Py.key_leb (failure_file a, failure_line a)
                                (failure_file b, failure_line b) = true)
         (failures m)
    /\ StronglySorted
         (fun a b => Py.key_leb (fix_file a, fix_line a) (fix_file b, fix_line b) = true)
         (fixes m)
    /\ (forall k,
          List.filter (fun f => bool_decide ((failure_file f, failure_line f) = k))
                      (failures m)
          = List.filter (fun f => bool_decide ((failure_file f, failure_line f) = k))
                        (_failures m))
    /\ (forall k,
          List.filter (fun f => bool_decide ((fix_file f, fix_line f) = k)) (fixes m)
          = List.filter (fun f => bool_decide ((fix_file f, fix_line f) = k)) (_fixes m)).
Proof.
  intros m. unfold failures, fixes. repeat split.
  - apply sorted_Permutation.
  - apply sorted_Permutation.
  - apply (sorted_by_key_leb (fun f => (failure_file f, failure_line f))).
  - apply (sorted_by_key_leb (fun f => (fix_file f, fix_line f))).
  - intros k. apply sorted_stable, key_ltb_irrefl.
  - intros k. apply sorted_stable, key_ltb_irrefl.
Qed.

End MemoryQueries.

Section ExportedFacts.
Import RunMemory ResultsExporter Reachable Detected.

Lemma detect_step_inv l st f :
  detect_inv l st -> detect_inv (l ++ [f]) (detect_step st f).
Proof.
  intros (Hnd & Hseen & Hsub & Hcov). unfold detect_step. case_bool_decide as Hin.
  - split; [assumption|]. split; [assumption|]. split.
    + intros e He. destruct (Hsub e He) as (f' & Hf' & ->). exists f'. split; [|reflexivity].
      apply in_or_app. now left.
    + intros f' Hf'. apply in_app_or in Hf'. destruct Hf' as [Hf'|[<-|[]]]; [auto|].
      now apply Hseen.
  - unfold detect_inv. cbn [fst snd]. split; [|split; [|split]].
    + rewrite map_app. cbn [map]. apply NoDup_app. split; [assumption|]. split.
      * intros k Hk Hk2. apply list_elem_of_singleton in Hk2. subst k.
        apply list_elem_of_In in Hk. apply Hseen in Hk. contradiction.
      * apply NoDup_singleton.
    + intros k. rewrite map_app, in_app_iff, elem_of_union, elem_of_singleton, Hseen.
      cbn. intuition.
    + intros e He. apply in_app_or in He. destruct He as [He|[<-|[]]].
      * destruct (Hsub e He) as (f' & Hf' & ->). exists f'. split; [|reflexivity].
        apply in_or_app. now left.
      * exists f. split; [|reflexivity]. apply in_or_app. right. now left.
    + intros f' Hf'. rewrite map_app, in_app_iff. apply in_app_or in Hf'.
      destruct Hf' as [Hf'|[<-|[]]]; [left; auto | right; cbn; auto].
Qed.

Lemma detect_fold_inv l2 : forall l1 st,
  detect_inv l1 st -> detect_inv (l1 ++ l2) (fold_left detect_step l2 st).
Proof.
  induction l2 as [|f l2 IH]; intros l1 st H; cbn [fold_left].
  - now rewrite app_nil_r.
  - replace (l1 ++ f :: l2) with ((l1 ++ [f]) ++ l2) by now rewrite <- app_assoc.
    apply IH. now apply detect_step_inv.
Qed.

Lemma detect_all_inv l : detect_inv l (fold_left detect_step l (∅, [])).
Proof.
  apply (detect_fold_inv l [] (∅, [])). unfold detect_inv; cbn. split; [|split; [|split]].
  - constructor.
  - intros k. split; [intros H; now apply not_elem_of_empty in H | intros []].
  - intros ? [].
  - intros ? [].
Qed.

Lemma detect_length l2 : forall st,
  (List.length (snd (fold_left detect_step l2 st)) <= List.length (snd st) + List.length l2)%nat.
Proof.
  induction l2 as [|f l2 IH]; intros st; cbn [fold_left List.length]; [lia|].
  etransitivity; [apply IH|]. unfold detect_step. case_bool_decide; cbn [snd]; [lia|].
  rewrite List.length_app. cbn. lia.
Qed.

(** X4.  The exported failures hold one entry for every (file, line, bug
    type) that the memory stores, and no two entries for the same one; every
    entry is built from a stored record, with the description
    [file — Line n: message]; the entries stand in ascending order of
    (file, line); and there are at most as many entries as stored records. *)
Theorem failures_detected_once_each :
  forall m : RunMemory.t,
    let detected := _build_failures_detected m in
    NoDup (map entry_key detected)
    /\ (forall f, In f (_failures m) -> In (failure_key f) (map entry_key detected))
    /\ (forall e, In e detected ->
          exists f, In f (_failures m) /\ e = detection f
                    /\ detected_description e
                       = failure_file f +:+ " — Line " +:+ Py.str_of_Z (failure_line f)
                           +:+ ": " +:+ failure_standardized_message f)
    /\ StronglySorted
         (fun a b => Py.key_leb (detected_file a, detected_line a)
                                (detected_file b, detected_line b) = true)
         detected
    /\ (List.length detected <= List.length (_failures m))%nat.
Proof.
  intros m detected. subst detected. unfold _build_failures_detected.
  destruct (detect_all_inv (failures m)) as (Hnd & _ & Hsub & Hcov).
  set (entries := snd (fold_left detect_step (failures m) (∅, []))) in *.
  set (key := fun e : FailureEntry => (detected_file e, detected_line e)).
  pose proof (sorted_Permutation key Py.key_ltb entries) as Hperm.
  split; [|split; [|split; [|split]]].
  - now rewrite (Permutation_map entry_key Hperm).
  - intros f Hf. apply (Permutation_in _ (Permutation_sym (Permutation_map entry_key Hperm))).
    apply Hcov. unfold failures. now apply sorted_In.
  - intros e He. apply sorted_In in He. destruct (Hsub e He) as (f & Hf & ->).
    exists f. unfold failures in Hf. apply sorted_In in Hf. now repeat split.
  - apply (sorted_by_key_leb key).
  - rewrite sorted_length. subst entries.
    etransitivity; [apply detect_length|]. cbn. unfold failures.
    now rewrite sorted_length.
Qed.

(** X5.  The score is 100, plus 10 when the run took less than 300
    seconds (a runtime that is not a number earns no bonus), minus 2 for
    every commit beyond the twentieth, and never below 0: it lies between 0
    and 110, up to twenty commits cost nothing, from seventy-five commits on
    it is 0, more commits never raise it, and the final CI status has no part
    in it. *)
Theorem score_is_bounded_and_monotone :
  forall (final_ci : string) (runtime_seconds : spec_float) (total_commits : Z),
    let score := _calculate_score final_ci runtime_seconds total_commits in
    score_base score = 100
    /\ speed_bonus score = (if SFltb runtime_seconds float_300 then 10 else 0)
    /\ speed_bonus (_calculate_score final_ci S754_nan total_commits) = 0
    /\ commit_penalty score = -2 * Z.max (total_commits - 20) 0
    /\ final_score score = Z.max (100 + speed_bonus score + commit_penalty score) 0
    /\ 0 <= final_score score <= 110
    /\ (total_commits <= 20 -> final_score score = 100 + speed_bonus score)
    /\ (75 <= total_commits -> final_score score = 0)
    /\ (forall more, total_commits <= more ->
          final_score (_calculate_score final_ci runtime_seconds more)
          <= final_score score)
    /\ (forall other_ci,
          _calculate_score other_ci runtime_seconds total_commits = score).
Proof.
  intros final_ci runtime_seconds total_commits score. subst score.
  unfold _calculate_score. cbn [score_base speed_bonus commit_penalty final_score].
  destruct (SFltb runtime_seconds float_300); repeat split; intros; try reflexivity; lia.
Qed.

Lemma size_hashes (l : list FixRecord) :
  one_hash l ->
  (size (list_to_set (List.filter Py.truthy (map fix_commit_hash l)) : gset string)
   <= size (list_to_set (map fix_iteration l) : gset Z))%nat.
Proof.
  induction l as [|f l IH]; intros Hone; [reflexivity|].
  assert (Hl : one_hash l).
  { intros f1 f2 H1 H2. apply Hone; now right. }
  specialize (IH Hl). cbn [map List.filter list_to_set].
  destruct (decide (fix_iteration f ∈ (list_to_set (map fix_iteration l) : gset Z)))
    as [Hin|Hout].
  - apply elem_of_list_to_set, list_elem_of_In, List.in_map_iff in Hin
      as (f' & Hit & Hf').
    assert (Hhash : fix_commit_hash f' = fix_commit_hash f).
    { apply Hone; [now right | now left | assumption]. }
    replace ({[fix_iteration f]} ∪ list_to_set (map fix_iteration l) : gset Z)
      with (list_to_set (map fix_iteration l) : gset Z).
    2:{ apply set_eq. intros x. rewrite elem_of_union, elem_of_singleton.
        split; [auto|]. intros [->|]; [|assumption].
        apply elem_of_list_to_set, list_elem_of_In, List.in_map_iff. now exists f'. }
    destruct (Py.truthy (fix_commit_hash f)) eqn:Ht; [|exact IH].
    cbn [list_to_set].
    replace ({[fix_commit_hash f]}
             ∪ list_to_set (List.filter Py.truthy (map fix_commit_hash l)) : gset string)
      with (list_to_set (List.filter Py.truthy (map fix_commit_hash l)) : gset string);
      [exact IH|].
    apply set_eq. intros x. rewrite elem_of_union, elem_of_singleton.
    split; [auto|]. intros [->|]; [|assumption].
    apply elem_of_list_to_set, list_elem_of_In, List.filter_In. split; [|assumption].
    rewrite <- Hhash. now apply List.in_map.
  - rewrite size_union by (apply disjoint_singleton_l; exact Hout).
    rewrite size_singleton.
    destruct (Py.truthy (fix_commit_hash f)); [|lia].
    cbn [list_to_set]. rewrite size_union_alt, size_singleton.
    set (hashes := list_to_set (List.filter Py.truthy (map fix_commit_hash l))
                   : gset string) in *.
    assert (Hsub : hashes ∖ {[fix_commit_hash f]} ⊆ hashes)
      by (apply subseteq_difference_l; reflexivity).
    apply subseteq_size in Hsub. lia.
Qed.

Lemma size_of_list (l : list string) :
  (size (list_to_set l : gset string) <= List.length l)%nat.
Proof.
  induction l as [|x l IH]; cbn [list_to_set List.length].
  - now rewrite size_empty.
  - rewrite size_union_alt, size_singleton.
    assert (Hsub : (list_to_set l : gset string) ∖ {[x]} ⊆ list_to_set l)
      by (apply subseteq_difference_l; reflexivity).
    apply subseteq_size in Hsub. lia.
Qed.

Lemma hashes_of_view m :
  commit_hashes m = list_to_set (List.filter Py.truthy (map fix_commit_hash (_fixes m))).
Proof.
  unfold commit_hashes. apply set_eq. intros x.
  rewrite !elem_of_list_to_set, !list_elem_of_In, !List.filter_In, !List.in_map_iff.
  unfold fixes. split; intros [(f & Hf & Hin) Ht]; (split; [|assumption]); exists f;
    (split; [assumption|]).
  - now apply sorted_In in Hin.
  - now apply sorted_In.
Qed.

(** X6.  The number of commits that the score counts is the number of
    distinct non-empty commit hashes among the fixes: the empty hash is
    never counted, the count is at most the number of fix records, and in a
    reachable memory at most the number of iterations that have fixes. *)
Theorem unique_commits_are_bounded (m : RunMemory.t) :
  reachable m ->
  0 <= _count_unique_commits m
  /\ ("" ∉ commit_hashes m)
  /\ (forall h, h ∈ commit_hashes m <->
                h <> "" /\ exists f, In f (_fixes m) /\ fix_commit_hash f = h)
  /\ _count_unique_commits m <= Z.of_nat (List.length (_fixes m))
  /\ _count_unique_commits m <= Z.of_nat (size (fixed_iterations m)).
Proof.
  intros Hm. unfold _count_unique_commits. rewrite hashes_of_view.
  assert (Hmem : forall h,
             h ∈ (list_to_set (List.filter Py.truthy (map fix_commit_hash (_fixes m)))
                  : gset string)
             <-> h <> "" /\ exists f, In f (_fixes m) /\ fix_commit_hash f = h).
  { intros h. rewrite elem_of_list_to_set, list_elem_of_In, List.filter_In,
      List.in_map_iff.
    split.
    - intros [(f & Hf & Hin) Ht]. split; [intros ->; discriminate|]. now exists f.
    - intros [Hne (f & Hin & Hf)]. split; [now exists f|].
      destruct h; [congruence | reflexivity]. }
  split; [lia|]. split; [|split; [exact Hmem|split]].
  - intros H. apply Hmem in H as [H _]. congruence.
  - apply Nat2Z.inj_le.
    etransitivity; [apply size_of_list|].
    etransitivity; [apply List.filter_length_le|]. now rewrite List.length_map.
  - apply Nat2Z.inj_le. apply size_hashes. now apply reachable_inv.
Qed.

Lemma unique_commits_are_bounded_witness :
  0 <= _count_unique_commits Scenario.two_ci_memory
  /\ ("" ∉ commit_hashes Scenario.two_ci_memory)
  /\ (forall h, h ∈ commit_hashes Scenario.two_ci_memory <->
                h <> "" /\ exists f, In f (_fixes Scenario.two_ci_memory)
                                     /\ fix_commit_hash f = h)
  /\ _count_unique_commits Scenario.two_ci_memory
     <= Z.of_nat (List.length (_fixes Scenario.two_ci_memory))
  /\ _count_unique_commits Scenario.two_ci_memory
     <= Z.of_nat (size (fixed_iterations Scenario.two_ci_memory)).
Proof.
  apply (unique_commits_are_bounded Scenario.two_ci_memory).
  unfold Scenario.two_ci_memory, Scenario.one_fix_memory.
  repeat constructor.
Defined.

Lemma last_map_some {A B} (f : A -> B) (l : list A) :
  last (map f l) = option_map f (last l).
Proof.
  induction l as [|x [|y l] IH]; [reflexivity | reflexivity |].
  exact IH.
Qed.

(** X7.  The CI timeline has one entry for every stored CI run, in the
    order of the runs, with the iteration and the start time of the run and
    the status PASSED for the conclusion [success] and FAILED for any other;
    the final CI status of the document is the status of the last entry of
    the timeline; in a reachable memory no iteration has two entries. *)
Theorem timeline_mirrors_ci_runs :
  forall m : RunMemory.t,
    let timeline := _build_ci_timeline m in
    map timeline_iteration timeline = map ci_iteration (ci_runs m)
    /\ map timeline_timestamp timeline = map ci_start_time (ci_runs m)
    /\ map timeline_status timeline
       = map (fun ci => if String.eqb (ci_status ci) "success" then "PASSED" else "FAILED")
             (ci_runs m)
    /\ (forall e, In e timeline ->
                  timeline_status e = "PASSED" \/ timeline_status e = "FAILED")
    /\ (forall e, last timeline = Some e ->
                  _resolve_final_ci_status m = timeline_status e)
    /\ (reachable m -> List.NoDup (map timeline_iteration timeline)).
Proof.
  intros m timeline. subst timeline. unfold _build_ci_timeline.
  rewrite !List.map_map. cbn [timeline_iteration timeline_timestamp timeline_status].
  split; [reflexivity|]. split; [reflexivity|]. split; [reflexivity|].
  split; [|split].
  - intros e He. apply List.in_map_iff in He as (ci & <- & _). cbn.
    destruct (String.eqb _ _); auto.
  - intros e He. rewrite last_map_some in He. unfold _resolve_final_ci_status, latest_ci_run.
    unfold ci_runs in He. destruct (last (_ci_runs m)) as [ci|]; [|discriminate].
    cbn in He. injection He as <-. reflexivity.
  - intros Hm. now apply reachable_inv.
Qed.

Lemma fix_status_verified m f :
  fix_status f m = "verified"
  <-> exists ci, In ci (ci_runs m) /\ fix_iteration f <= ci_iteration ci
                 /\ ci_status ci = "success".
Proof.
  unfold fix_status. destruct (existsb _ _) eqn:Hex.
  - split; [intros _|reflexivity].
    apply List.existsb_exists in Hex as (ci & Hin & Hci).
    apply andb_true_iff in Hci as [Hle Hs]. exists ci.
    split; [assumption|]. split; [now apply Z.leb_le | now apply String.eqb_eq].
  - split; [discriminate|]. intros (ci & Hin & Hle & Hs).
    apply not_true_iff_false in Hex. elim Hex. apply List.existsb_exists.
    exists ci. split; [assumption|]. apply andb_true_iff.
    split; [now apply Z.leb_le | now apply String.eqb_eq].
Qed.

(** X8.  The exported fixes hold one entry for every stored fix record, in
    ascending order of (file, line) of the exported path.  An entry is
    [verified] exactly when some CI run of the same or a later iteration
    concluded with [success], and [applied] otherwise.  Formatting the
    exported entries with [format_all] gives back their descriptions. *)
Theorem exported_fixes_follow_the_records :
  forall m : RunMemory.t,
    let entries := _build_fixes m in
    Permutation entries (map (build_fix m) (_fixes m))
    /\ List.length entries = List.length (_fixes m)
    /\ StronglySorted
         (fun a b => Py.key_leb (entry_file a, entry_line a) (entry_file b, entry_line b)
                     = true)
         entries
    /\ (forall e, In e entries -> entry_status e = "verified" \/ entry_status e = "applied")
    /\ (forall f,
          entry_status (build_fix m f) = "verified"
          <-> exists ci, In ci (ci_runs m) /\ fix_iteration f <= ci_iteration ci
                         /\ ci_status ci = "success")
    /\ FormatFix.format_all (map FormatFix.dict_of_entry entries)
       = map entry_description entries.
Proof.
  intros m entries. subst entries. unfold _build_fixes.
  assert (Hperm : Permutation
                    (Py.sorted (fun e => (entry_file e, entry_line e)) Py.key_ltb
                               (map (build_fix m) (fixes m)))
                    (map (build_fix m) (_fixes m))).
  { rewrite sorted_Permutation. apply Permutation_map. unfold fixes.
    apply sorted_Permutation. }
  split; [exact Hperm|]. split; [|split; [|split; [|split]]].
  - rewrite (Permutation_length Hperm). apply List.length_map.
  - apply (sorted_by_key_leb (fun e => (entry_file e, entry_line e))).
  - intros e He. apply sorted_In, List.in_map_iff in He as (f & <- & _).
    cbn. unfold fix_status. destruct (existsb _ _); auto.
  - intros f. apply fix_status_verified.
  - unfold FormatFix.format_all. rewrite List.map_map. apply List.map_ext_in.
    intros e He. apply sorted_In, List.in_map_iff in He as (f & <- & _). reflexivity.
Qed.

End ExportedFacts.
(* ===================================================================== *)
(** * The patch applier: results, files, order, rules *)
(* ===================================================================== *)

Section ApplierResults.
Import RunMemory PatchApplier Reported.

(** The two ways in which [_apply_one] ends: without a patch, the tree as
    it was; or in [_write_patch] for a file that exists. *)
Lemma apply_one_cases os api_key model fs entry repo_path :
  (exists status reason,
      _apply_one os api_key model fs entry repo_path
      = (not_applied (Py.get (plan_bug entry) empty_bug) status reason, fs)
      /\ In status ["skipped_test_file"; "file_not_found"; "read_error"; "no_fix_generated"])
  \/ (exists content fixed description method,
        fs !! abs_path_of os repo_path (Py.get (plan_target_file entry) "") = Some content
        /\ (method = "deterministic" \/ method = "llm")
        /\ _apply_one os api_key model fs entry repo_path
           = _write_patch os fs (abs_path_of os repo_path (Py.get (plan_target_file entry) ""))
                          (Py.splitlines true content) fixed
                          (Py.get (plan_bug entry) empty_bug) description method repo_path).
Proof.
  unfold _apply_one.
  destruct (_is_test_file _); [left; do 2 eexists; split; [reflexivity | cbn; auto]|].
  unfold Tree.is_file. case_bool_decide as Hfile; cbn [negb];
    [|left; do 2 eexists; split; [reflexivity | cbn; auto]].
  unfold Tree.read_text. destruct (read_error os _);
    [left; do 2 eexists; split; [reflexivity | cbn; auto]|].
  destruct Hfile as [content Hcontent]. rewrite Hcontent. cbv zeta.
  assert (Hmodel :
    forall r,
      r = (if String.eqb (Py.get (plan_strategy entry) "") "llm"
              || Py.startswith (Py.get (plan_strategy entry) "") "deterministic"
           then
             match _llm_patch api_key model (Py.splitlines true content)
                     (Py.get (plan_bug entry) empty_bug)
                     (abs_path_of os repo_path (Py.get (plan_target_file entry) ""))
                     (Py.get (plan_source_context entry) "") with
             | (Some fixed_lines, desc) =>
                 _write_patch os fs
                   (abs_path_of os repo_path (Py.get (plan_target_file entry) ""))
                   (Py.splitlines true content) fixed_lines
                   (Py.get (plan_bug entry) empty_bug) desc "llm" repo_path
             | (None, _) =>
                 (not_applied (Py.get (plan_bug entry) empty_bug) "no_fix_generated"
                    ("Could not generate a fix via strategy '"
                       +:+ Py.get (plan_strategy entry) "" +:+ "'."), fs)
             end
           else
             (not_applied (Py.get (plan_bug entry) empty_bug) "no_fix_generated"
                ("Could not generate a fix via strategy '"
                   +:+ Py.get (plan_strategy entry) "" +:+ "'."), fs)) ->
      (exists status reason,
          r = (not_applied (Py.get (plan_bug entry) empty_bug) status reason, fs)
          /\ In status ["skipped_test_file"; "file_not_found"; "read_error";
                        "no_fix_generated"])
      \/ (exists content' fixed description method,
            Some content = Some content'
            /\ (method = "deterministic" \/ method = "llm")
            /\ r = _write_patch os fs
                     (abs_path_of os repo_path (Py.get (plan_target_file entry) ""))
                     (Py.splitlines true content') fixed
                     (Py.get (plan_bug entry) empty_bug) description method repo_path)).
  { intros r ->. destruct (_ || _);
      [|left; do 2 eexists; split; [reflexivity | cbn; auto]].
    destruct (_llm_patch _ _ _ _ _ _) as [[fixed|] desc];
      [|left; do 2 eexists; split; [reflexivity | cbn; auto]].
    right. exists content, fixed, desc, "llm". auto. }
  destruct (Py.startswith _ "deterministic"); [|now apply Hmodel].
  destruct (_deterministic_patch _ _ _) as [[fixed|] desc]; [|now apply Hmodel].
  right. exists content, fixed, desc, "deterministic". auto.
Qed.

Lemma not_applied_status bug status reason :
  In status ["skipped_test_file"; "file_not_found"; "read_error"; "no_fix_generated";
             "write_error"] ->
  patch_status (not_applied bug status reason) <> "applied".
Proof.
  cbn. intros [<-|[<-|[<-|[<-|[<-|[]]]]]]; discriminate.
Qed.

(** What a result with the status [applied] looks like, and what a result
    with another status leaves behind: the tree as it was, unless the write
    itself failed. *)
Lemma apply_one_result os api_key model fs entry repo_path :
  let result := _apply_one os api_key model fs entry repo_path in
  dom (snd result) = dom fs
  /\ (patch_status (fst result) <> "applied" ->
      patch_status (fst result) <> "write_error" -> snd result = fs)
  /\ (patch_status (fst result) = "applied" ->
      (patch_method (fst result) = Some "deterministic"
       \/ patch_method (fst result) = Some "llm")
      /\ exists deltas, patch_patch (fst result) = Some deltas
                        /\ (List.length deltas <= MAX_CHANGED_LINES)%nat).
Proof.
  intros result. subst result.
  destruct (apply_one_cases os api_key model fs entry repo_path)
    as [(status & reason & -> & Hstatus)
       |(content & fixed & description & method & Hfile & Hmethod & ->)].
  - cbn [fst snd]. split; [reflexivity|]. split; [reflexivity|].
    intros H. exfalso. revert H. apply not_applied_status. cbn in *. tauto.
  - unfold _write_patch. destruct (write_error os _) as [exc|]; cbn [fst snd].
    + split; [|split; [intros _ H; now elim H | discriminate]].
      destruct (write_left os _ _); [apply dom_insert_lookup_L; eauto | reflexivity].
    + split; [apply dom_insert_lookup_L; eauto|].
      split; [intros H; now elim H|]. intros _. cbn.
      split; [destruct Hmethod as [->| ->]; auto|].
      eexists. split; [reflexivity|]. apply List.firstn_le_length.
Qed.

Lemma apply_step_reported os api_key model repo_path fs st entry :
  well_reported fs st ->
  well_reported fs (apply_step os api_key model repo_path st entry)
  /\ tally (apply_step os api_key model repo_path st entry) = S (tally st).
Proof.
  destruct st as [[applied skipped] fs0]. intros (Hdom & Hnone & Happlied & Hskipped).
  cbn [fst snd] in *. unfold apply_step.
  pose proof (apply_one_result os api_key model fs0 entry repo_path) as Hone.
  destruct (_apply_one os api_key model fs0 entry repo_path) as [result fs1].
  cbn [fst snd] in Hone. destruct Hone as (Hdom1 & Hkeep & Hshape).
  destruct (String.eqb_spec (patch_status result) "applied") as [Hst|Hst].
  - split; [|unfold tally; cbn [fst snd]; rewrite List.length_app; cbn; lia].
    unfold well_reported. cbn [fst snd]. split; [congruence|].
    split; [intros H; now destruct applied|]. split; [|assumption].
    apply List.Forall_app. split; [assumption|]. constructor; [|constructor].
    split; [assumption|]. now apply Hshape.
  - split; [|unfold tally; cbn [fst snd]; rewrite List.length_app; cbn; lia].
    unfold well_reported. cbn [fst snd].
    split; [congruence|]. split; [|split; [assumption|]].
    + intros Hnil Hwritten. apply List.Forall_app in Hwritten as [Hbefore Hnew].
      apply List.Forall_inv in Hnew. rewrite (Hkeep Hst Hnew). now apply Hnone.
    + apply List.Forall_app. split; [assumption|]. now constructor.
Qed.

Lemma apply_fold_reported os api_key model repo_path fs entries : forall st,
  well_reported fs st ->
  well_reported fs (fold_left (apply_step os api_key model repo_path) entries st)
  /\ tally (fold_left (apply_step os api_key model repo_path) entries st)
     = (tally st + List.length entries)%nat.
Proof.
  induction entries as [|e entries IH]; intros st Hst; cbn [fold_left List.length].
  - split; [assumption | lia].
  - destruct (apply_step_reported os api_key model repo_path fs st e Hst) as [Hst' Htally].
    destruct (IH _ Hst') as [Hfinal Hcount]. split; [assumption|]. lia.
Qed.

Lemma apply_fold_skipped os api_key model repo_path entries : forall st,
  exists results,
    snd (fst (fold_left (apply_step os api_key model repo_path) entries st))
    = snd (fst st) ++ results.
Proof.
  induction entries as [|e entries IH]; intros st; cbn [fold_left].
  - exists []. now rewrite List.app_nil_r.
  - destruct (IH (apply_step os api_key model repo_path st e)) as [results ->].
    destruct st as [[applied skipped] fs0]. unfold apply_step.
    destruct (_apply_one _ _ _ _ _ _) as [result fs1].
    destruct (String.eqb _ _); cbn [fst snd].
    + now exists results.
    + exists (result :: results). now rewrite <- List.app_assoc.
Qed.

Lemma filter_split {A} (p : A -> bool) (l : list A) :
  Permutation (List.filter p l ++ List.filter (fun a => negb (p a)) l) l.
Proof.
  induction l as [|a l IH]; cbn [List.filter]; [reflexivity|].
  destruct (p a); cbn [negb app].
  - now constructor.
  - symmetry. apply Permutation_cons_app. now symmetry.
Qed.

Lemma filter_filter_key (g : PlanEntry -> string) k k' (l : list PlanEntry) :
  k' <> k ->
  List.filter (fun e => String.eqb (g e) k')
              (List.filter (fun e => negb (String.eqb (g e) k)) l)
  = List.filter (fun e => String.eqb (g e) k') l.
Proof.
  intros Hne. induction l as [|e l IH]; cbn [List.filter]; [reflexivity|].
  destruct (String.eqb_spec (g e) k) as [Hk|Hk]; cbn [negb List.filter].
  - rewrite IH. destruct (String.eqb_spec (g e) k'); [congruence | reflexivity].
  - now rewrite IH.
Qed.

Lemma flat_map_ext_In {A B} (f g : A -> list B) l :
  (forall a, In a l -> f a = g a) -> flat_map f l = flat_map g l.
Proof.
  induction l as [|a l IH]; intros H; cbn [flat_map]; [reflexivity|].
  rewrite (H a (or_introl eq_refl)), IH; [reflexivity|].
  intros b Hb. apply H. now right.
Qed.

(** Grouping by key loses and invents nothing. *)
Lemma groups_partition (g : PlanEntry -> string) keys : forall l,
  List.NoDup keys ->
  (forall e, In e l -> In (g e) keys) ->
  Permutation (flat_map (fun k => List.filter (fun e => String.eqb (g e) k) l) keys) l.
Proof.
  induction keys as [|k keys IH]; intros l Hnd Hin; cbn [flat_map].
  - destruct l as [|e l]; [reflexivity|]. destruct (Hin e (or_introl eq_refl)).
  - apply List.NoDup_cons_iff in Hnd as [Hk Hnd].
    transitivity (List.filter (fun e => String.eqb (g e) k) l
                  ++ List.filter (fun e => negb (String.eqb (g e) k)) l);
      [|apply filter_split].
    apply Permutation_app_head.
    rewrite (flat_map_ext_In _
               (fun k' => List.filter (fun e => String.eqb (g e) k')
                            (List.filter (fun e => negb (String.eqb (g e) k)) l))).
    + apply IH; [assumption|].
      intros e He. apply List.filter_In in He as [He Hne].
      destruct (Hin e He) as [Heq|H]; [|assumption].
      now rewrite <- Heq, String.eqb_refl in Hne.
    + intros k' Hk'. symmetry. apply filter_filter_key. intros ->. contradiction.
Qed.

Lemma flat_map_Permutation {A B} (f g : A -> list B) l :
  (forall a, Permutation (f a) (g a)) ->
  Permutation (flat_map f l) (flat_map g l).
Proof.
  intros H. induction l as [|a l IH]; cbn [flat_map]; [reflexivity|].
  now apply Permutation_app.
Qed.

(** The entries that [execute] applies are the actionable entries of the
    plan, each as often as the plan has it. *)
Lemma ordered_entries_Permutation plan :
  Permutation (ordered_entries plan) (List.filter is_actionable plan).
Proof.
  unfold ordered_entries. cbv zeta.
  set (actionable := List.filter is_actionable plan).
  rewrite (flat_map_Permutation _
             (fun k => List.filter (fun e => String.eqb (group_key e) k) actionable))
    by (intros k; apply sorted_Permutation).
  rewrite (Permutation_flat_map _ (sorted_Permutation (fun k => k) Py.str_ltb _)).
  apply groups_partition; [apply distinct_NoDup|].
  intros e He. apply distinct_In. now apply List.in_map.
Qed.

Lemma skipped_status_not_applied entry : patch_status (skipped_entry entry) <> "applied".
Proof. unfold skipped_entry. cbn. discriminate. Qed.

(** The results of [execute], counted and shaped. *)
Lemma execute_reported os api_key model fs plan repo_path :
  let result := execute os api_key model fs plan repo_path in
  well_reported fs (applied_patches (fst result), skipped_patches (fst result), snd result)
  /\ (List.length (applied_patches (fst result))
      + List.length (skipped_patches (fst result)))%nat = List.length plan
  /\ applied_count (fst result) = Z.of_nat (List.length (applied_patches (fst result))).
Proof.
  cbv zeta. unfold execute. cbv zeta.
  set (start := ([] : list PatchDict,
                 map skipped_entry (List.filter (fun e => negb (is_actionable e)) plan), fs)).
  assert (Hstart : well_reported fs start).
  { unfold well_reported, start. cbn [fst snd]. repeat split; [constructor|].
    apply List.Forall_forall. intros p Hp. apply List.in_map_iff in Hp as (e & <- & _).
    apply skipped_status_not_applied. }
  destruct (apply_fold_reported os api_key model repo_path fs (ordered_entries plan)
              start Hstart) as [Hreported Htally].
  destruct (fold_left _ _ start) as [[applied skipped] fs']. cbn [fst snd] in *.
  unfold tally, start in Htally. cbn [fst snd List.length] in Htally.
  cbn [applied_patches skipped_patches applied_count].
  split; [assumption|]. split; [|reflexivity].
  rewrite Htally, List.length_map, (Permutation_length (ordered_entries_Permutation plan)).
  pose proof (Permutation_length (filter_split is_actionable plan)) as Hsplit.
  rewrite List.length_app in Hsplit. lia.
Qed.

(** X9.  Every entry of the plan gets exactly one result: the applied and
    the skipped patches together are as many as the plan has entries, and
    [applied_count] is the number of applied patches.  An applied patch has
    the status [applied], the method [deterministic] or [llm], and a patch
    list of at most [MAX_CHANGED_LINES] line changes; no skipped patch has
    the status [applied].  The skipped list begins with the entries of
    strategy [skip_test_file] or [unresolvable], in plan order, each with
    the status [skipped_<strategy>]. *)
Theorem every_plan_entry_is_reported os api_key model fs plan repo_path :
  let outputs := fst (execute os api_key model fs plan repo_path) in
  (List.length (applied_patches outputs) + List.length (skipped_patches outputs))%nat
  = List.length plan
  /\ applied_count outputs = Z.of_nat (List.length (applied_patches outputs))
  /\ Forall (fun p => patch_status p = "applied"
                      /\ (patch_method p = Some "deterministic"
                          \/ patch_method p = Some "llm")
                      /\ exists deltas, patch_patch p = Some deltas
                                        /\ (List.length deltas <= MAX_CHANGED_LINES)%nat)
            (applied_patches outputs)
  /\ Forall (fun p => patch_status p <> "applied") (skipped_patches outputs)
  /\ exists results,
       skipped_patches outputs
       = map (fun entry =>
                mkPatch (plan_bug entry) ("skipped_" +:+ Py.get (plan_strategy entry) "")
                        None None None
                        (Some (Py.get (plan_reason entry) (Py.get (plan_strategy entry) "")))
                        None)
             (List.filter (fun entry =>
                             String.eqb (Py.get (plan_strategy entry) "") "skip_test_file"
                             || String.eqb (Py.get (plan_strategy entry) "") "unresolvable")
                          plan)
         ++ results.
Proof.
  cbv zeta.
  destruct (execute_reported os api_key model fs plan repo_path)
    as ((_ & _ & Happlied & Hskipped) & Hcount & Happlied_count).
  cbn [fst snd] in *.
  split; [assumption|]. split; [assumption|]. split; [assumption|]. split; [assumption|].
  unfold execute. cbv zeta.
  destruct (apply_fold_skipped os api_key model repo_path (ordered_entries plan)
              ([], map skipped_entry (List.filter (fun e => negb (is_actionable e)) plan), fs))
    as [results Hresults].
  destruct (fold_left _ _ _) as [[applied skipped] fs']. cbn [fst snd] in *.
  exists results. rewrite Hresults. f_equal.
  unfold is_actionable. cbv zeta.
  rewrite (List.filter_ext _ (fun entry =>
             String.eqb (Py.get (plan_strategy entry) "") "skip_test_file"
             || String.eqb (Py.get (plan_strategy entry) "") "unresolvable"))
    by (intros e; apply negb_involutive).
  reflexivity.
Qed.

(** X10.  [execute] creates and deletes no file: the tree after it has the
    paths of the tree before it.  When no patch is reported as applied and
    no result has the status [write_error], the tree is the one before, byte
    for byte (a write that raised may have emptied its target); and the
    empty plan reports nothing and changes nothing. *)
Theorem only_existing_files_are_rewritten os api_key model fs plan repo_path :
  let result := execute os api_key model fs plan repo_path in
  let no_failed_write :=
    Forall (fun p => patch_status p <> "write_error") (skipped_patches (fst result)) in
  dom (snd result) = dom fs
  /\ (applied_patches (fst result) = [] -> no_failed_write -> snd result = fs)
  /\ (applied_count (fst result) = 0 -> no_failed_write -> snd result = fs)
  /\ execute os api_key model fs [] repo_path = (mkOutputs [] [] 0, fs).
Proof.
  cbv zeta.
  destruct (execute_reported os api_key model fs plan repo_path)
    as ((Hdom & Hnone & _ & _) & _ & Hcount).
  cbn [fst snd] in *.
  split; [assumption|]. split; [assumption|]. split; [|reflexivity].
  intros Hzero. apply Hnone. rewrite Hzero in Hcount.
  destruct (applied_patches _); [reflexivity | discriminate].
Qed.

End ApplierResults.

Section ApplierOrder.
Import RunMemory PatchApplier.

Lemma str_ltb_ge_trans a b c :
  Py.str_ltb b a = false -> Py.str_ltb c b = false -> Py.str_ltb c a = false.
Proof.
  intros Hba Hcb.
  destruct (Py.str_ltb c a) eqn:Hca; [|reflexivity].
  destruct (Py.str_ltb a b) eqn:Hab.
  - rewrite (str_ltb_trans _ _ _ Hca Hab) in Hcb. discriminate.
  - pose proof (str_ltb_total _ _ Hab Hba) as ->. congruence.
Qed.

Lemma sorted_app {A} (R : A -> A -> Prop) (l1 l2 : list A) :
  StronglySorted R l1 -> StronglySorted R l2 ->
  (forall a b, In a l1 -> In b l2 -> R a b) ->
  StronglySorted R (l1 ++ l2).
Proof.
  intros H1 H2 Hcross. induction H1 as [|a l1 H1 IH Hall]; cbn [app]; [assumption|].
  constructor.
  - apply IH. intros x y Hx. apply Hcross. now right.
  - apply List.Forall_app. split; [assumption|].
    apply List.Forall_forall. intros b Hb. apply Hcross; [now left | assumption].
Qed.

Lemma sorted_one_key {A} (R : A -> A -> Prop) (l : list A) :
  (forall a b, In a l -> In b l -> R a b) -> StronglySorted R l.
Proof.
  induction l as [|a l IH]; intros H; constructor.
  - apply IH. intros x y Hx Hy. apply H; now right.
  - apply List.Forall_forall. intros b Hb. apply H; [now left | now right].
Qed.

(** Groups laid out in the order of their keys give a list in the order of
    the keys. *)
Lemma groups_sorted (segment : string -> list PlanEntry) keys :
  StronglySorted (fun a b => Py.str_ltb b a = false) keys ->
  (forall k e, In e (segment k) -> group_key e = k) ->
  StronglySorted (fun a b => Py.str_ltb (group_key b) (group_key a) = false)
                 (flat_map segment keys).
Proof.
  intros Hs Hkey. induction Hs as [|k keys Hs IH Hall]; cbn [flat_map]; [constructor|].
  apply sorted_app; [|assumption|].
  - apply sorted_one_key. intros a b Ha Hb.
    rewrite (Hkey k a Ha), (Hkey k b Hb). apply str_ltb_irrefl.
  - intros a b Ha Hb. apply in_flat_map in Hb as (k' & Hk' & Hb).
    rewrite (Hkey k a Ha), (Hkey k' b Hb).
    rewrite List.Forall_forall in Hall. now apply Hall.
Qed.

Lemma ordered_entries_sorted plan :
  StronglySorted (fun a b => Py.str_ltb (group_key b) (group_key a) = false)
                 (ordered_entries plan).
Proof.
  unfold ordered_entries. cbv zeta. apply groups_sorted.
  - apply (sorted_ordered (fun k : string => k) Py.str_ltb);
      [apply str_ltb_asym | apply str_ltb_ge_trans].
  - intros k e He. apply bottom_up_In, List.filter_In in He as [_ He].
    now apply String.eqb_eq.
Qed.

(** X12.  The entries that [execute] applies are the actionable entries of
    the plan, each once.  They are applied file after file in ascending
    order of the target; the entries of one file stand together, from the
    highest reported line to the lowest; and entries of one file and one
    line keep the order of the plan. *)
Theorem entries_are_applied_file_by_file_bottom_up plan :
  Permutation (ordered_entries plan) (List.filter is_actionable plan)
  /\ (forall before first between second after,
        ordered_entries plan = before ++ first :: between ++ second :: after ->
        Py.str_ltb (group_key second) (group_key first) = false
        /\ (group_key first = group_key second ->
            entry_line second <= entry_line first
            /\ Forall (fun e => group_key e = group_key first) between))
  /\ (forall target_file line,
        List.filter (fun e => entry_line e =? line)
          (List.filter (fun e => String.eqb (group_key e) target_file)
                       (ordered_entries plan))
        = List.filter (fun e => entry_line e =? line)
            (List.filter (fun e => String.eqb (group_key e) target_file)
                         (List.filter is_actionable plan))).
Proof.
  split; [apply ordered_entries_Permutation|]. split.
  - intros before first between second after Hsplit.
    pose proof (ordered_entries_sorted plan) as Hs. rewrite Hsplit in Hs.
    apply sorted_suffix in Hs. apply StronglySorted_inv in Hs as [Hrest Hfirst].
    rewrite List.Forall_forall in Hfirst.
    split; [apply Hfirst, List.in_or_app; right; now left|].
    intros Hkey. split; [now apply (ordered_entries_bottom_up plan _ _ _ _ _ Hsplit)|].
    apply List.Forall_forall. intros e He.
    apply List.in_split in He as (b1 & b2 & ->).
    rewrite <- List.app_assoc in Hrest. cbn [app] in Hrest.
    apply sorted_suffix in Hrest. apply StronglySorted_inv in Hrest as [_ Hmid].
    rewrite List.Forall_forall in Hmid.
    apply str_ltb_total.
    + apply Hfirst, List.in_or_app. left. apply List.in_or_app. right. now left.
    + rewrite Hkey. apply Hmid, List.in_or_app. right. now left.
  - intros target_file line. rewrite ordered_entries_by_file. unfold bottom_up.
    pose proof (sorted_stable entry_line (fun a b => b <? a) Z.ltb_irrefl line) as Hstable.
    assert (Hext : forall e : PlanEntry,
               (entry_line e =? line) = bool_decide (entry_line e = line)).
    { intros e. destruct (Z.eqb_spec (entry_line e) line);
        [now rewrite bool_decide_eq_true_2 | now rewrite bool_decide_eq_false_2]. }
    rewrite !(List.filter_ext _ _ Hext). apply Hstable.
Qed.

End ApplierOrder.

Section ApplierRules.
Import RunMemory PatchApplier.

(** ** Where the deterministic rules edit *)

Lemma keeps_set (n idx : nat) (x : string) (lines : list string) :
  (n <= idx)%nat -> List.firstn n (<[idx := x]> lines) = List.firstn n lines.
Proof. intros H. now apply take_insert_ge. Qed.

Lemma keeps_insert_at (n p : nat) (x : string) (lines : list string) :
  (n <= p)%nat -> (n <= List.length lines)%nat ->
  List.firstn n (Tree.insert_at p x lines) = List.firstn n lines.
Proof.
  intros Hp Hn. unfold Tree.insert_at.
  rewrite List.firstn_app, List.firstn_firstn, List.length_firstn.
  replace (n - Nat.min p (List.length lines))%nat with 0%nat by lia.
  replace (Nat.min n p) with n by lia. cbn [List.firstn]. apply List.app_nil_r.
Qed.

Lemma keeps_pop (n p : nat) (lines : list string) :
  (n <= p)%nat -> (n <= List.length lines)%nat ->
  List.firstn n (Tree.pop p lines) = List.firstn n lines.
Proof.
  intros Hp Hn. unfold Tree.pop.
  rewrite List.firstn_app, List.firstn_firstn, List.length_firstn.
  replace (n - Nat.min p (List.length lines))%nat with 0%nat by lia.
  replace (Nat.min n p) with n by lia. cbn [List.firstn]. apply List.app_nil_r.
Qed.

Lemma keeps_wrap (n : nat) (lines rest : list string) :
  (n <= List.length lines)%nat ->
  List.firstn n (List.firstn n lines ++ rest) = List.firstn n lines.
Proof.
  intros Hn. rewrite List.firstn_app, List.firstn_firstn, List.length_firstn.
  replace (n - Nat.min n (List.length lines))%nat with 0%nat by lia.
  replace (Nat.min n n) with n by lia. cbn [List.firstn]. apply List.app_nil_r.
Qed.

Lemma keeps_fewer (n m : nat) (lines fixed : list string) :
  (n <= m)%nat ->
  List.firstn m fixed = List.firstn m lines -> List.firstn n fixed = List.firstn n lines.
Proof.
  intros Hle H. replace n with (Nat.min n m) by lia.
  now rewrite <- !List.firstn_firstn, H.
Qed.

(** The result of a rule read off an equation: every branch that returns
    lines is one of the four edits above. *)
Ltac branches H :=
  repeat match type of H with
         | context [match ?x with _ => _ end] => destruct x
         end;
  try discriminate H.

Ltac edit_at idx :=
  first [ apply keeps_set | apply keeps_insert_at | apply keeps_pop | apply keeps_wrap ];
  lia.

Lemma or_none_some r fixed d : or_none r = (Some fixed, d) -> r = (Some fixed, d).
Proof. unfold or_none. destruct r as [[l|] d']; cbn; congruence. Qed.

Lemma fix_indentation_keeps lines idx fixed :
  (idx < List.length lines)%nat ->
  _fix_indentation lines idx = Some fixed ->
  List.firstn idx fixed = List.firstn idx lines.
Proof.
  intros Hidx H. unfold _fix_indentation in H. destruct idx as [|idx]; [discriminate|].
  cbv zeta in H. branches H; injection H as <-; edit_at (S idx).
Qed.

Lemma remove_unused_import_keeps lines idx bug fixed d :
  (idx < List.length lines)%nat ->
  _remove_unused_import lines idx bug = (Some fixed, d) ->
  List.firstn idx fixed = List.firstn idx lines.
Proof.
  intros Hidx H. unfold _remove_unused_import in H. cbv zeta in H.
  branches H; injection H as <- _; edit_at idx.
Qed.

Lemma fix_type_error_keeps lines idx bug fixed d :
  _fix_type_error lines idx bug = (Some fixed, d) ->
  List.firstn idx fixed = List.firstn idx lines.
Proof.
  intros H. unfold _fix_type_error in H. cbv zeta in H.
  branches H; injection H as <- _; edit_at idx.
Qed.

Lemma fix_logic_error_keeps lines idx bug fixed d :
  _fix_logic_error lines idx bug = (Some fixed, d) ->
  List.firstn idx fixed = List.firstn idx lines.
Proof.
  intros H. unfold _fix_logic_error in H. cbv zeta in H.
  branches H; injection H as <- _; edit_at idx.
Qed.

Lemma fix_zero_division_keeps lines idx bug fixed d :
  (idx < List.length lines)%nat ->
  _fix_zero_division lines idx bug = (Some fixed, d) ->
  List.firstn idx fixed = List.firstn idx lines.
Proof.
  intros Hidx H. unfold _fix_zero_division in H. cbv zeta in H.
  branches H; injection H as <- _; edit_at idx.
Qed.

Lemma fix_index_error_keeps lines idx bug fixed d :
  (idx < List.length lines)%nat ->
  _fix_index_error lines idx bug = (Some fixed, d) ->
  List.firstn idx fixed = List.firstn idx lines.
Proof.
  intros Hidx H. unfold _fix_index_error in H. cbv zeta in H.
  branches H; injection H as <- _; edit_at idx.
Qed.

Lemma above_In span idx lines i line :
  In (i, line) (above span idx lines) -> (idx - (span - 1) <= i)%nat.
Proof.
  unfold above. cbv zeta. rewrite <- List.in_rev, List.filter_In. cbn [fst].
  intros [_ H]. now apply Nat.leb_le.
Qed.

(** The guard of the recursion rule goes at most two lines above the
    reported one. *)
Lemma guard_position_bound param_name lines idx scan :
  (forall i line, In (i, line) scan -> (idx - 4 <= i)%nat) ->
  (idx - 2 <= guard_position param_name lines idx scan)%nat.
Proof.
  induction scan as [|[i line] scan IH]; intros Hscan; cbn [guard_position]; [lia|].
  cbv zeta. destruct (_ || _).
  - destruct (List.find _ _) as [j|] eqn:Hfind; [|lia].
    apply List.find_some in Hfind as [Hj _]. apply List.in_seq in Hj.
    specialize (Hscan i line (or_introl eq_refl)). lia.
  - apply IH. intros i' line' H. apply (Hscan i' line'). now right.
Qed.

Lemma fix_recursion_error_keeps lines idx bug fixed d :
  (idx < List.length lines)%nat ->
  _fix_recursion_error lines idx bug = (Some fixed, d) ->
  List.firstn (idx - 2) fixed = List.firstn (idx - 2) lines.
Proof.
  intros Hidx H. unfold _fix_recursion_error in H. cbv zeta in H.
  injection H as <- _. apply keeps_insert_at; [|lia].
  apply guard_position_bound. intros i line Hin. apply above_In in Hin. lia.
Qed.

Lemma rules_edit_within_the_file strategy lines bug fixed description :
  _deterministic_patch strategy lines bug = (Some fixed, description) ->
  1 <= Py.get (bug_line bug) 0 <= Z.of_nat (List.length lines).
Proof.
  intros H. unfold _deterministic_patch in H. cbv zeta in H.
  destruct (Z.ltb_spec (Py.get (bug_line bug) 0) 1); [discriminate|].
  destruct (Z.ltb_spec (Z.of_nat (List.length lines)) (Py.get (bug_line bug) 0));
    [discriminate | lia].
Qed.

(** X13.  When a deterministic rule returns lines, the reported line is a
    line of the file, and the rule edits at or below it: the lines above
    the reported one are returned as they were.  The one exception is the
    recursion rule, whose guard can go up to two lines higher; all but the
    last two lines above the reported one are kept by every rule. *)
Theorem rules_keep_the_lines_above strategy lines bug fixed description :
  _deterministic_patch strategy lines bug = (Some fixed, description) ->
  1 <= Py.get (bug_line bug) 0 <= Z.of_nat (List.length lines)
  /\ (strategy <> "deterministic_recursion_error" ->
      List.firstn (Z.to_nat (Py.get (bug_line bug) 0 - 1)) fixed
      = List.firstn (Z.to_nat (Py.get (bug_line bug) 0 - 1)) lines)
  /\ List.firstn (Z.to_nat (Py.get (bug_line bug) 0 - 1) - 2) fixed
     = List.firstn (Z.to_nat (Py.get (bug_line bug) 0 - 1) - 2) lines.
Proof.
  intros H. unfold _deterministic_patch in H. cbv zeta in H.
  set (line_no := Py.get (bug_line bug) 0) in *.
  destruct (Z.ltb_spec line_no 1) as [|Hlow]; [discriminate|].
  destruct (Z.ltb_spec (Z.of_nat (List.length lines)) line_no) as [|Hhigh];
    [discriminate|].
  cbn [orb] in H. split; [lia|].
  set (idx := Z.to_nat (line_no - 1)) in *.
  assert (Hidx : (idx < List.length lines)%nat) by lia.
  assert (Hmost : List.firstn idx fixed = List.firstn idx lines ->
                  (strategy <> "deterministic_recursion_error" ->
                   List.firstn idx fixed = List.firstn idx lines)
                  /\ List.firstn (idx - 2) fixed = List.firstn (idx - 2) lines).
  { intros Hkeep. split; [auto|]. apply (keeps_fewer _ idx); [lia | assumption]. }
  destruct (String.eqb strategy "deterministic_indent").
  { destruct (_fix_indentation lines idx) as [l|] eqn:Hrule; [|discriminate].
    injection H as <- _. now apply Hmost, fix_indentation_keeps. }
  destruct (String.eqb strategy "deterministic_colon").
  { destruct (negb _); [|discriminate]. injection H as <- _.
    apply Hmost. now apply keeps_set. }
  destruct (String.eqb strategy "deterministic_bracket").
  { destruct (Py.truthy _); [|discriminate]. injection H as <- _.
    apply Hmost. now apply keeps_set. }
  destruct (String.eqb strategy "deterministic_semicolon").
  { destruct (negb _); [|discriminate]. injection H as <- _.
    apply Hmost. now apply keeps_set. }
  destruct (String.eqb strategy "deterministic_unused_import").
  { apply or_none_some in H. now apply Hmost, (remove_unused_import_keeps _ _ bug _ description). }
  destruct (String.eqb strategy "deterministic_type_error").
  { apply or_none_some in H. now apply Hmost, (fix_type_error_keeps _ _ bug _ description). }
  destruct (String.eqb strategy "deterministic_logic").
  { apply or_none_some in H. now apply Hmost, (fix_logic_error_keeps _ _ bug _ description). }
  destruct (String.eqb strategy "deterministic_zero_division").
  { apply or_none_some in H. now apply Hmost, (fix_zero_division_keeps _ _ bug _ description). }
  destruct (String.eqb strategy "deterministic_index_error").
  { apply or_none_some in H. now apply Hmost, (fix_index_error_keeps _ _ bug _ description). }
  destruct (String.eqb_spec strategy "deterministic_recursion_error") as [->|Hne];
    [|discriminate].
  apply or_none_some in H. split; [intros Hne; now elim Hne|].
  now apply (fix_recursion_error_keeps _ _ bug _ description).
Qed.

Lemma rules_keep_the_lines_above_witness :
  1 <= Py.get (bug_line Scenario.operator_bug) 0
    <= Z.of_nat (List.length Scenario.fact_lines)
  /\ ("deterministic_logic" <> "deterministic_recursion_error" ->
      List.firstn (Z.to_nat (Py.get (bug_line Scenario.operator_bug) 0 - 1))
                  (<[3%nat := "    scale = n * 2" +:+ Py.NL]> Scenario.fact_lines)
      = List.firstn (Z.to_nat (Py.get (bug_line Scenario.operator_bug) 0 - 1))
                    Scenario.fact_lines)
  /\ List.firstn (Z.to_nat (Py.get (bug_line Scenario.operator_bug) 0 - 1) - 2)
                 (<[3%nat := "    scale = n * 2" +:+ Py.NL]> Scenario.fact_lines)
     = List.firstn (Z.to_nat (Py.get (bug_line Scenario.operator_bug) 0 - 1) - 2)
                   Scenario.fact_lines.
Proof.
  apply (rules_keep_the_lines_above "deterministic_logic" Scenario.fact_lines
           Scenario.operator_bug
           (<[3%nat := "    scale = n * 2" +:+ Py.NL]> Scenario.fact_lines)
           "Changed '/' to '*' at line 4").
  vm_compute. reflexivity.
Defined.

(** ** Without a key for the model *)

Lemma llm_patch_no_key model lines bug abs_path source_context :
  _llm_patch "" model lines bug abs_path source_context = (None, "").
Proof. reflexivity. Qed.

(** Without a key, what a result with the status [applied] tells. *)
Lemma no_key_applied os model fs entry repo_path :
  patch_status (fst (_apply_one os "" model fs entry repo_path)) = "applied" ->
  patch_method (fst (_apply_one os "" model fs entry repo_path)) = Some "deterministic"
  /\ Py.startswith (Py.get (plan_strategy entry) "") "deterministic" = true
  /\ _is_test_file (Py.get (plan_target_file entry) "") = false
  /\ exists content,
       fs !! abs_path_of os repo_path (Py.get (plan_target_file entry) "") = Some content
       /\ 1 <= Py.get (bug_line (Py.get (plan_bug entry) empty_bug)) 0
            <= Z.of_nat (List.length (Py.splitlines true content)).
Proof.
  unfold _apply_one.
  destruct (_is_test_file _); [discriminate|].
  unfold Tree.is_file. case_bool_decide as Hfile; cbn [negb]; [|discriminate].
  unfold Tree.read_text. destruct (read_error os _); [discriminate|].
  destruct Hfile as [content Hcontent]. rewrite Hcontent. cbv zeta.
  rewrite llm_patch_no_key.
  destruct (Py.startswith _ "deterministic");
    [|destruct (_ || _); discriminate].
  rewrite orb_true_r.
  destruct (_deterministic_patch _ _ _) as [[fixed|] description] eqn:Hrule;
    [|discriminate].
  apply rules_edit_within_the_file in Hrule.
  unfold _write_patch. destruct (write_error os _); [discriminate|].
  cbn [fst patch_status patch_method]. intros _.
  split; [reflexivity|]. split; [reflexivity|]. split; [reflexivity|].
  exists content. split; [reflexivity | exact Hrule].
Qed.

(** Without a key, an entry of another strategy leaves the tree alone. *)
Lemma no_key_untouched os model fs entry repo_path :
  Py.startswith (Py.get (plan_strategy entry) "") "deterministic" = false ->
  snd (_apply_one os "" model fs entry repo_path) = fs.
Proof.
  intros Hdet. unfold _apply_one.
  destruct (_is_test_file _); [reflexivity|].
  destruct (negb _); [reflexivity|].
  destruct (Tree.read_text _ _ _) as [original|exc]; [|reflexivity].
  cbv zeta. rewrite Hdet, llm_patch_no_key. now destruct (_ || _).
Qed.

(** X11.  Without an API key the model is never consulted: the result of
    [_apply_one] does not depend on it.  A patch is then reported applied
    only by a deterministic rule, for a strategy that begins with
    [deterministic], a target that is not named as a test file and exists
    in the tree, and a reported line that is a line of that file.  A result
    with a status other than [applied] and [write_error] leaves the tree as
    it was, and whatever the status, no file but the target changes. *)
Theorem without_api_key_only_rules_apply os model fs entry repo_path :
  let result := _apply_one os "" model fs entry repo_path in
  let target_file := Py.get (plan_target_file entry) "" in
  let line_no := Py.get (bug_line (Py.get (plan_bug entry) empty_bug)) 0 in
  (forall other_model, _apply_one os "" other_model fs entry repo_path = result)
  /\ (patch_status (fst result) = "applied" ->
      patch_method (fst result) = Some "deterministic"
      /\ Py.startswith (Py.get (plan_strategy entry) "") "deterministic" = true
      /\ _is_test_file target_file = false
      /\ exists content,
           fs !! abs_path_of os repo_path target_file = Some content
           /\ 1 <= line_no <= Z.of_nat (List.length (Py.splitlines true content)))
  /\ (patch_status (fst result) <> "applied" ->
      patch_status (fst result) <> "write_error" -> snd result = fs)
  /\ (forall path, path <> abs_path_of os repo_path target_file ->
                   snd result !! path = fs !! path).
Proof.
  cbv zeta. split; [|split; [|split]].
  - intros other_model. unfold _apply_one.
    destruct (_is_test_file _); [reflexivity|].
    destruct (negb _); [reflexivity|].
    destruct (Tree.read_text _ _ _) as [original|exc]; [|reflexivity].
    cbv zeta. now rewrite !llm_patch_no_key.
  - apply no_key_applied.
  - apply apply_one_result.
  - intros path Hpath. apply apply_one_frame. intros _. congruence.
Qed.

End ApplierRules.
(* ===================================================================== *)
(** * The fix planner: one entry per location, strategies, escalation *)
(* ===================================================================== *)

Section PlannerResults.
Import RunMemory FixPlanner Protected Planned.

Lemma escalate_location bug : location (escalate bug) = location bug.
Proof. reflexivity. Qed.

Lemma plan_one_bug os fs bug repo_path :
  plan_bug (_plan_one os fs bug repo_path) = Some bug.
Proof.
  unfold _plan_one. cbv zeta.
  destruct (_is_test_file _); [reflexivity|].
  destruct (if Tree.is_file _ _ then _ else _) as [abs_path|]; [|reflexivity].
  destruct (Tree.read_text _ _ _) as [content|exc]; [|reflexivity].
  now destruct (_choose_strategy _ _ _ _).
Qed.

(** The entry that one step of the loop appends. *)
Lemma plan_step_new os fs repo_path prev st bug :
  location bug ∉ fst st ->
  exists entry,
    plan_step os fs repo_path prev st bug = ({[location bug]} ∪ fst st, snd st ++ [entry])
    /\ (plan_bug entry = Some bug \/ plan_bug entry = Some (escalate bug))
    /\ entry_location entry = location bug.
Proof.
  intros Hnew. unfold plan_step. cbv zeta. fold (location bug).
  rewrite bool_decide_eq_false_2 by assumption.
  eexists. split; [reflexivity|].
  assert (Hbug : forall b e,
             plan_bug e = Some b ->
             plan_bug (if (bool_decide ((Py.get (bug_file bug) "unknown",
                                          Py.get (RunMemory.bug_type bug) "") ∈ prev)
                           || bool_decide ((Py.get (bug_file bug) "unknown", "") ∈ prev))
                          && Py.startswith (Py.get (plan_strategy e) "") "deterministic"
                       then mkEntry (plan_bug e) (Some "llm") (plan_reason e)
                              (Some ("Escalated to LLM: deterministic fix already failed for "
                                     +:+ Py.get (RunMemory.bug_type bug) "" +:+ " in "
                                     +:+ Py.get (bug_file bug) "unknown"))
                              (plan_target_file e) (plan_source_context e)
                              (plan_line_range e)
                       else e) = Some b).
  { intros b e He. now destruct (_ && _). }
  destruct (_ || _) eqn:Htried.
  - pose proof (Hbug _ _ (plan_one_bug os fs (escalate bug) repo_path)) as H.
    split; [right; exact H|]. unfold entry_location. now rewrite H.
  - pose proof (Hbug _ _ (plan_one_bug os fs bug repo_path)) as H.
    split; [left; exact H|]. unfold entry_location. now rewrite H.
Qed.

Lemma plan_step_seen os fs repo_path prev st bug :
  location bug ∈ fst st -> plan_step os fs repo_path prev st bug = st.
Proof.
  intros Hseen. unfold plan_step. cbv zeta. fold (location bug).
  now rewrite bool_decide_eq_true_2.
Qed.

Lemma plan_step_located os fs repo_path prev done st bug :
  located done st -> located (done ++ [bug]) (plan_step os fs repo_path prev st bug).
Proof.
  intros (Hnd & Hseen & Hdone & Hfrom & Hlen).
  destruct (decide (location bug ∈ fst st)) as [Hin|Hnew].
  - rewrite plan_step_seen by assumption. unfold located.
    split; [assumption|]. split; [assumption|]. split; [|split].
    + intros loc. rewrite List.map_app, List.in_app_iff, <- Hdone. cbn [map In].
      split; [auto|]. intros [H|[<-|[]]]; assumption.
    + intros entry He. destruct (Hfrom entry He) as (b & Hb & Hcase).
      exists b. split; [apply List.in_or_app; now left | assumption].
    + rewrite List.length_app. cbn. lia.
  - destruct (plan_step_new os fs repo_path prev st bug Hnew)
      as (entry & -> & Hbug & Hloc).
    unfold located. cbn [fst snd]. rewrite !List.map_app. cbn [map].
    split; [|split; [|split; [|split]]].
    + apply List.NoDup_app; [assumption | constructor; [intros []|constructor] |].
      intros loc Hl [<-|[]]. apply Hnew. rewrite Hloc in Hl. now apply Hseen.
    + intros loc. rewrite List.in_app_iff, elem_of_union, elem_of_singleton, Hseen, Hloc.
      cbn [In]. intuition congruence.
    + intros loc. rewrite List.in_app_iff, elem_of_union, elem_of_singleton, Hdone.
      cbn [In]. intuition congruence.
    + intros e He. apply List.in_app_or in He as [He|[<-|[]]].
      * destruct (Hfrom e He) as (b & Hb & Hcase).
        exists b. split; [apply List.in_or_app; now left | assumption].
      * exists bug. split; [apply List.in_or_app; right; now left | assumption].
    + rewrite !List.length_app. cbn. lia.
Qed.

Lemma plan_fold_located os fs repo_path prev bugs : forall done st,
  located done st ->
  located (done ++ bugs) (fold_left (plan_step os fs repo_path prev) bugs st).
Proof.
  induction bugs as [|bug bugs IH]; intros done st Hst; cbn [fold_left].
  - now rewrite List.app_nil_r.
  - replace (done ++ bug :: bugs) with ((done ++ [bug]) ++ bugs)
      by (now rewrite <- List.app_assoc).
    apply IH. now apply plan_step_located.
Qed.

Lemma located_start : located [] (∅, []).
Proof.
  unfold located. cbn [fst snd map List.length].
  split; [constructor|]. split; [|split; [|split; [|lia]]].
  - intros loc. split; [intros H; now apply not_elem_of_empty in H | intros []].
  - intros loc. split; [intros H; now apply not_elem_of_empty in H | intros []].
  - intros entry [].
Qed.

Lemma plan_has_bug os fs memory applied_patches bugs repo_path entry :
  In entry (execute os fs memory applied_patches bugs repo_path) ->
  exists bug, In bug bugs
              /\ (plan_bug entry = Some bug \/ plan_bug entry = Some (escalate bug)).
Proof.
  unfold execute.
  pose proof (plan_fold_located os fs repo_path (prev_fix_keys memory applied_patches)
                bugs [] (∅, []) located_start) as (_ & _ & _ & Hfrom & _).
  apply Hfrom.
Qed.

(** X14.  The plan has exactly one entry for every distinct location
    [(file, line)] of the classified bugs: no two entries plan the same
    location, every bug's location is planned, every entry carries one of
    the bugs, as given or marked [_escalate_to_llm], and the plan is no
    longer than the list of bugs.  A bug whose location was seen
    earlier in the list is dropped: the plan is the same without it. *)
Theorem plan_has_one_entry_per_location os fs memory applied_patches bugs repo_path :
  let plan := execute os fs memory applied_patches bugs repo_path in
  List.NoDup (map entry_location plan)
  /\ (forall bug, In bug bugs -> In (location bug) (map entry_location plan))
  /\ (forall entry, In entry plan ->
        exists bug, In bug bugs
                    /\ (plan_bug entry = Some bug \/ plan_bug entry = Some (escalate bug)))
  /\ (List.length plan <= List.length bugs)%nat
  /\ (forall before bug after,
        bugs = before ++ bug :: after ->
        In (location bug) (map location before) ->
        plan = execute os fs memory applied_patches (before ++ after) repo_path).
Proof.
  cbv zeta. unfold execute.
  set (prev := prev_fix_keys memory applied_patches).
  pose proof (plan_fold_located os fs repo_path prev bugs [] (∅, []) located_start)
    as (Hnd & Hseen & Hdone & Hfrom & Hlen). cbn [app] in *.
  split; [assumption|]. split.
  { intros bug Hbug. apply Hseen, Hdone. now apply List.in_map. }
  split; [assumption|]. split; [assumption|].
  intros before bug after -> Hdup.
  rewrite !List.fold_left_app. cbn [fold_left].
  pose proof (plan_fold_located os fs repo_path prev before [] (∅, []) located_start)
    as (_ & _ & Hbefore & _). cbn [app] in Hbefore.
  rewrite (plan_step_seen os fs repo_path prev _ bug); [reflexivity|].
  now apply Hbefore.
Qed.

(** ** Strategies *)

Ltac named := cbn; repeat first [left; reflexivity | right].

Lemma choose_strategy_shape bug_type line_no message lines :
  In (fst (_choose_strategy bug_type line_no message lines)) (List.skipn 2 strategies)
  /\ (Py.startswith (fst (_choose_strategy bug_type line_no message lines))
                    "deterministic" = true ->
      1 <= line_no <= Z.of_nat (List.length lines)).
Proof.
  unfold _choose_strategy.
  destruct (Z.ltb_spec line_no 1) as [|Hlow];
    [split; [named | intros Hs; vm_compute in Hs; discriminate]|].
  destruct (Z.ltb_spec (Z.of_nat (List.length lines)) line_no) as [|Hhigh];
    [split; [named | intros Hs; vm_compute in Hs; discriminate]|].
  cbn [orb]. cbv zeta. split; [|intros _; lia].
  repeat match goal with
         | |- context [if ?c then _ else _] => destruct c; [named|]
         end.
  named.
Qed.

Lemma read_text_lookup os fs path content :
  Tree.read_text os fs path = inl content -> fs !! path = Some content.
Proof.
  unfold Tree.read_text. destruct (read_error os path); [discriminate|].
  destruct (fs !! path); [congruence | discriminate].
Qed.

Lemma skipn_strategies strategy :
  In strategy (List.skipn 2 strategies) ->
  In strategy strategies /\ strategy <> "skip_test_file".
Proof.
  intros H. split; [right; right; exact H|].
  intros ->. cbn in H. repeat (destruct H as [H|H]; [discriminate|]). exact H.
Qed.

Lemma plan_one_planned os fs prev bug repo_path :
  already_tried prev bug = false ->
  well_planned os fs prev (_plan_one os fs bug repo_path).
Proof.
  intros Hfresh. unfold well_planned, _plan_one. cbv zeta.
  destruct (_is_test_file _) eqn:Htest.
  { do 3 eexists. repeat (split; [reflexivity|]). split; [named|].
    split; [now rewrite Htest|]. intros H. vm_compute in H. discriminate. }
  destruct (if Tree.is_file _ _ then _ else _) as [abs_path|].
  2:{ do 3 eexists. repeat (split; [reflexivity|]). split; [named|].
      split; [rewrite Htest; split; discriminate|].
      intros H. vm_compute in H. discriminate. }
  destruct (Tree.read_text _ _ _) as [content|exc] eqn:Hread.
  2:{ do 3 eexists. repeat (split; [reflexivity|]). split; [named|].
      split; [rewrite Htest; split; discriminate|].
      intros H. vm_compute in H. discriminate. }
  pose proof (choose_strategy_shape (Py.get (RunMemory.bug_type bug) "")
                (Py.get (bug_line bug) 0) (Py.get (bug_message bug) "")
                (Py.splitlines true content)) as [Hnamed Hrange].
  destruct (_choose_strategy _ _ _ _) as [strategy description]. cbn [fst] in *.
  apply skipn_strategies in Hnamed as [Hnamed Hskip].
  do 3 eexists. repeat (split; [reflexivity|]). split; [assumption|].
  split; [rewrite Htest; split; [contradiction | discriminate]|].
  intros Hdet. split; [assumption|]. exists content. split; [assumption | now apply Hrange].
Qed.

Lemma escalate_tried prev bug : already_tried prev (escalate bug) = already_tried prev bug.
Proof. reflexivity. Qed.

(** The entry of a bug that was tried before: never a deterministic one. *)
Lemma plan_step_planned os fs repo_path prev st bug :
  Forall (well_planned os fs prev) (snd st) ->
  Forall (well_planned os fs prev) (snd (plan_step os fs repo_path prev st bug)).
Proof.
  intros Hst. unfold plan_step. cbv zeta. destruct (bool_decide _); [assumption|].
  cbn [snd]. apply List.Forall_app. split; [assumption|]. constructor; [|constructor].
  fold (already_tried prev bug).
  destruct (already_tried prev bug) eqn:Htried; cbn [andb];
    [|now apply plan_one_planned].
  (* the bug was tried before: what [_plan_one] says of the marked bug, with
     a deterministic strategy replaced *)
  assert (Hone : forall e,
             (exists strategy target b,
                 plan_strategy e = Some strategy /\ plan_target_file e = Some target
                 /\ plan_bug e = Some b /\ In strategy strategies
                 /\ (strategy = "skip_test_file"
                     <-> _is_test_file (Py.get (bug_file b) "unknown") = true)
                 /\ already_tried prev b = true) ->
             well_planned os fs prev
               (if Py.startswith (Py.get (plan_strategy e) "") "deterministic"
                then mkEntry (plan_bug e) (Some "llm") (plan_reason e)
                       (Some ("Escalated to LLM: deterministic fix already failed for "
                              +:+ Py.get (RunMemory.bug_type bug) "" +:+ " in "
                              +:+ Py.get (bug_file bug) "unknown"))
                       (plan_target_file e) (plan_source_context e) (plan_line_range e)
                else e)).
  { intros e (strategy & target & b & Hs & Ht & Hb & Hnamed & Hskip & Hb_tried).
    rewrite Hs. cbn [Py.get].
    destruct (Py.startswith strategy "deterministic") eqn:Hdet.
    - exists "llm", target, b. cbn [plan_strategy plan_target_file plan_bug].
      split; [reflexivity|]. split; [assumption|]. split; [assumption|].
      split; [named|]. split.
      + split; [discriminate|]. intros Htest. apply Hskip in Htest. subst strategy.
        vm_compute in Hdet. discriminate.
      + intros H. vm_compute in H. discriminate.
    - exists strategy, target, b. repeat (split; [assumption|]).
      intros H. congruence. }
  apply Hone. clear Hone.
  unfold _plan_one. cbv zeta.
  change (Py.get (bug_file (escalate bug)) "unknown") with (Py.get (bug_file bug) "unknown").
  destruct (_is_test_file _) eqn:Htest.
  { do 3 eexists. repeat (split; [reflexivity|]). split; [named|].
    split; [change (bug_file (escalate bug)) with (bug_file bug); now rewrite Htest | exact Htried]. }
  destruct (if Tree.is_file _ _ then _ else _) as [abs_path|].
  2:{ do 3 eexists. repeat (split; [reflexivity|]). split; [named|].
      split; [change (bug_file (escalate bug)) with (bug_file bug); rewrite Htest; split; discriminate | exact Htried]. }
  destruct (Tree.read_text _ _ _) as [content|exc].
  2:{ do 3 eexists. repeat (split; [reflexivity|]). split; [named|].
      split; [change (bug_file (escalate bug)) with (bug_file bug); rewrite Htest; split; discriminate | exact Htried]. }
  pose proof (choose_strategy_shape (Py.get (RunMemory.bug_type (escalate bug)) "")
                (Py.get (bug_line (escalate bug)) 0)
                (Py.get (bug_message (escalate bug)) "")
                (Py.splitlines true content)) as [Hnamed _].
  destruct (_choose_strategy _ _ _ _) as [strategy description]. cbn [fst] in *.
  apply skipn_strategies in Hnamed as [Hnamed Hskip].
  do 3 eexists. repeat (split; [reflexivity|]). split; [assumption|].
  split; [change (bug_file (escalate bug)) with (bug_file bug); rewrite Htest; split; [contradiction | discriminate] | exact Htried].
Qed.

Lemma plan_fold_planned os fs repo_path prev bugs : forall st,
  Forall (well_planned os fs prev) (snd st) ->
  Forall (well_planned os fs prev) (snd (fold_left (plan_step os fs repo_path prev) bugs st)).
Proof.
  induction bugs as [|bug bugs IH]; intros st Hst; cbn [fold_left]; [assumption|].
  now apply IH, plan_step_planned.
Qed.

Lemma execute_planned os fs memory applied_patches bugs repo_path :
  Forall (well_planned os fs (prev_fix_keys memory applied_patches))
         (execute os fs memory applied_patches bugs repo_path).
Proof. unfold execute. apply plan_fold_planned. constructor. Qed.

(** X15.  Every entry of the plan names its bug, its target and one of
    thirteen strategies.  The strategy is [skip_test_file] exactly for a bug
    in a test file.  A strategy that begins with [deterministic] is planned
    only for a bug whose file has no earlier fix (neither for its bug type
    nor at all), whose target was read from the tree, and whose line is a
    line of that file: a bug that was tried before, and a line out of range,
    never get a deterministic strategy. *)
Theorem plan_entries_are_well_formed os fs memory applied_patches bugs repo_path :
  Forall
    (fun entry =>
       exists strategy target bug,
         plan_strategy entry = Some strategy
         /\ plan_target_file entry = Some target
         /\ plan_bug entry = Some bug
         /\ In strategy
               [ "skip_test_file"; "unresolvable"; "llm";
                 "deterministic_indent"; "deterministic_colon"; "deterministic_semicolon";
                 "deterministic_bracket"; "deterministic_unused_import";
                 "deterministic_type_error"; "deterministic_logic";
                 "deterministic_zero_division"; "deterministic_index_error";
                 "deterministic_recursion_error" ]
         /\ (strategy = "skip_test_file"
             <-> _is_test_file (Py.get (bug_file bug) "unknown") = true)
         /\ (Py.startswith strategy "deterministic" = true ->
             ((Py.get (bug_file bug) "unknown", Py.get (RunMemory.bug_type bug) "")
                ∉ prev_fix_keys memory applied_patches)
             /\ ((Py.get (bug_file bug) "unknown", "")
                   ∉ prev_fix_keys memory applied_patches)
             /\ exists content,
                  fs !! target = Some content
                  /\ 1 <= Py.get (bug_line bug) 0
                       <= Z.of_nat (List.length (Py.splitlines true content))))
    (execute os fs memory applied_patches bugs repo_path).
Proof.
  apply List.Forall_forall. intros entry He.
  pose proof (execute_planned os fs memory applied_patches bugs repo_path) as Hall.
  rewrite List.Forall_forall in Hall.
  destruct (Hall entry He) as (strategy & target & bug & Hs & Ht & Hb & Hnamed & Hskip & Hdet).
  exists strategy, target, bug. repeat (split; [assumption|]).
  intros H. destruct (Hdet H) as [Hfresh (content & Hread & Hrange)].
  unfold already_tried in Hfresh. apply orb_false_elim in Hfresh as [H1 H2].
  apply bool_decide_eq_false in H1, H2.
  split; [assumption|]. split; [assumption|].
  exists content. split; [now apply (read_text_lookup os) | assumption].
Qed.

End PlannerResults.

Section PlanThenApply.
Import RunMemory Planned.

Lemma apply_fold_none os api_key model repo_path entries : forall st,
  (forall e fs, In e entries ->
     patch_status (fst (PatchApplier._apply_one os api_key model fs e repo_path))
     <> "applied"
     /\ snd (PatchApplier._apply_one os api_key model fs e repo_path) = fs) ->
  fst (fst (fold_left (PatchApplier.apply_step os api_key model repo_path) entries st))
  = fst (fst st)
  /\ snd (fold_left (PatchApplier.apply_step os api_key model repo_path) entries st)
     = snd st.
Proof.
  induction entries as [|e entries IH]; intros st H; cbn [fold_left]; [now split|].
  destruct (IH (PatchApplier.apply_step os api_key model repo_path st e)) as [-> ->];
    [intros e' fs' He'; apply H; now right|].
  destruct st as [[applied skipped] fs]. unfold PatchApplier.apply_step.
  destruct (H e fs (or_introl eq_refl)) as [He Hfs].
  destruct (PatchApplier._apply_one os api_key model fs e repo_path) as [result fs'].
  cbn [fst snd] in He, Hfs. apply String.eqb_neq in He. rewrite He. now split.
Qed.

(** X16.  Planner and applier together, without a key for the model: when
    every classified bug lies in a file for which the run memory holds a
    fix, the planner gives no entry a deterministic strategy, and the
    applier then applies nothing: no patch is reported applied, every entry
    of the plan is reported skipped, and the tree stays as it was. *)
Theorem second_attempts_need_the_model os fs memory applied_patches bugs repo_path model :
  (forall bug, In bug bugs ->
     exists fix_, In fix_ (RunMemory.fixes memory)
                  /\ fix_file fix_ = Py.get (bug_file bug) "unknown") ->
  let plan := FixPlanner.execute os fs (Some memory) applied_patches bugs repo_path in
  let result := PatchApplier.execute os "" model fs plan repo_path in
  Forall (fun entry =>
            Py.startswith (Py.get (plan_strategy entry) "") "deterministic" = false) plan
  /\ PatchApplier.applied_patches (fst result) = []
  /\ PatchApplier.applied_count (fst result) = 0
  /\ List.length (PatchApplier.skipped_patches (fst result)) = List.length plan
  /\ snd result = fs.
Proof.
  intros Hfixed plan result.
  assert (Hplan : Forall (fun entry =>
                            Py.startswith (Py.get (plan_strategy entry) "")
                                          "deterministic" = false) plan).
  { apply List.Forall_forall. intros entry He.
    pose proof (execute_planned os fs (Some memory) applied_patches bugs repo_path) as Hall.
    rewrite List.Forall_forall in Hall.
    destruct (Hall entry He) as (strategy & target & bug & Hs & _ & Hb & _ & _ & Hdet).
    rewrite Hs. cbn [Py.get].
    destruct (Py.startswith strategy "deterministic"); [|reflexivity].
    destruct (Hdet eq_refl) as [Hfresh _]. exfalso.
    destruct (plan_has_bug os fs (Some memory) applied_patches bugs repo_path entry He)
      as (bug' & Hbug' & Hcase).
    assert (Hfile : exists b, In b bugs /\ bug_file bug = bug_file b).
    { exists bug'. split; [assumption|].
      destruct Hcase as [H|H]; rewrite Hb in H; injection H as ->; reflexivity. }
    destruct Hfile as (b & Hbin & Hfile).
    destruct (Hfixed b Hbin) as (fix_ & Hfix & Hsame).
    unfold already_tried in Hfresh. apply orb_false_elim in Hfresh as [_ Hfresh].
    apply bool_decide_eq_false in Hfresh. apply Hfresh.
    unfold FixPlanner.prev_fix_keys. apply elem_of_list_to_set, elem_of_app. left.
    apply list_elem_of_In, List.in_map_iff. exists fix_.
    split; [now rewrite Hsame, Hfile | assumption]. }
  assert (Hnone : PatchApplier.applied_patches (fst result) = [] /\ snd result = fs).
  { subst result. unfold PatchApplier.execute. cbv zeta.
    pose proof (apply_fold_none os "" model repo_path (PatchApplier.ordered_entries plan)
                  ([], map PatchApplier.skipped_entry
                         (List.filter (fun e => negb (PatchApplier.is_actionable e)) plan),
                   fs)) as Hfold.
    destruct (fold_left _ _ _) as [[applied skipped] fs']. cbn [fst snd] in *.
    apply Hfold. intros e fs0 He.
    apply ordered_entries_In in He as [He _].
    rewrite List.Forall_forall in Hplan. split.
    - intros Happlied. apply no_key_applied in Happlied as (_ & Hdet & _).
      rewrite (Hplan e He) in Hdet. discriminate.
    - apply no_key_untouched. now apply Hplan. }
  destruct Hnone as [Hnone Htree].
  destruct (execute_reported os "" model fs plan repo_path)
    as (_ & Hcount & Happlied).
  fold result in Hcount, Happlied.
  split; [assumption|]. split; [assumption|].
  split; [now rewrite Happlied, Hnone|].
  split; [rewrite Hnone in Hcount; exact Hcount | exact Htree].
Qed.

(** ** Plans that the applier can carry out *)

Lemma truthy_append a b : Py.truthy (a +:+ b) = Py.truthy a || Py.truthy b.
Proof. now destruct a. Qed.

Lemma truthy_repeat c n : Py.truthy (Py.repeat_char c n) = (0 <? n)%nat.
Proof. now destruct n. Qed.

Lemma truthy_brackets p b c :
  (0 <? p) || (0 <? b) || (0 <? c) = true ->
  Py.truthy (Py.repeat_char ")" (Z.to_nat p) +:+ Py.repeat_char "]" (Z.to_nat b)
             +:+ Py.repeat_char "}" (Z.to_nat c)) = true.
Proof.
  intros H. rewrite !truthy_append, !truthy_repeat.
  apply orb_true_iff in H as [H|H]; [apply orb_true_iff in H as [H|H]|];
    apply Z.ltb_lt in H.
  - replace (0 <? Z.to_nat p)%nat with true by (symmetry; apply Nat.ltb_lt; lia).
    reflexivity.
  - replace (0 <? Z.to_nat b)%nat with true by (symmetry; apply Nat.ltb_lt; lia).
    now rewrite orb_true_r.
  - replace (0 <? Z.to_nat c)%nat with true by (symmetry; apply Nat.ltb_lt; lia).
    now rewrite !orb_true_r.
Qed.

(** Where the planner names the colon or the bracket strategy. *)
Lemma choose_colon_or_bracket bug_type line_no message lines :
  fst (FixPlanner._choose_strategy bug_type line_no message lines) = "deterministic_colon"
  \/ fst (FixPlanner._choose_strategy bug_type line_no message lines)
     = "deterministic_bracket" ->
  1 <= line_no
  /\ line_no <= Z.of_nat (List.length lines)
  /\ ((fst (FixPlanner._choose_strategy bug_type line_no message lines)
       = "deterministic_colon"
       /\ negb (Py.endswith (Py.rstrip (nth (Z.to_nat (line_no - 1)) lines "")) ":") = true)
      \/ (fst (FixPlanner._choose_strategy bug_type line_no message lines)
          = "deterministic_bracket"
          /\ (0 <? FixPlanner.open_count "(" ")"
                     (Py.rstrip (nth (Z.to_nat (line_no - 1)) lines "")))
             || (0 <? FixPlanner.open_count "[" "]"
                        (Py.rstrip (nth (Z.to_nat (line_no - 1)) lines "")))
             || (0 <? FixPlanner.open_count "{" "}"
                        (Py.rstrip (nth (Z.to_nat (line_no - 1)) lines ""))) = true)).
Proof.
  unfold FixPlanner._choose_strategy.
  destruct (Z.ltb_spec line_no 1) as [|Hlow];
    [cbn [orb fst]; intros [H0|H0]; discriminate|].
  destruct (Z.ltb_spec (Z.of_nat (List.length lines)) line_no) as [|Hhigh];
    [cbn [orb fst]; intros [H0|H0]; discriminate|].
  cbn [orb]. cbv zeta.
  destruct (String.eqb _ "INDENTATION"); [cbn [fst]; intros [H0|H0]; discriminate|].
  destruct (_ && _ && negb _) eqn:Hcolon; [|clear Hcolon].
  { cbn [fst]. intros _. apply andb_true_iff in Hcolon as [_ Hend].
    split; [lia|]. split; [lia|]. left. now split. }
  destruct (_ && Py.contains _ "missing semicolon");
    [cbn [fst]; intros [H0|H0]; discriminate|].
  destruct (_ && _ && _) eqn:Hbracket; [|clear Hbracket].
  { cbn [fst]. intros _. apply andb_true_iff in Hbracket as [_ Hopen].
    split; [lia|]. split; [lia|]. right. now split. }
  repeat match goal with
         | |- context [if ?c then _ else _] =>
             destruct c; [cbn [fst]; intros [H0|H0]; discriminate|]
         end.
  cbn [fst]. intros [H0|H0]; discriminate.
Qed.

(** X17.  The colon and the bracket strategy are planned only where the
    applier's rule of the same name applies: when [_choose_strategy] names
    one of them for a bug and the lines of its file, [_deterministic_patch]
    on the same lines returns them with a non-empty suffix (the colon for
    the colon strategy) and a newline put at the end of the reported line,
    stripped of trailing space, and every other line as it was. *)
Theorem colon_and_bracket_plans_apply bug lines :
  let strategy :=
    fst (FixPlanner._choose_strategy (Py.get (RunMemory.bug_type bug) "")
           (Py.get (bug_line bug) 0) (Py.get (bug_message bug) "") lines) in
  let idx := Z.to_nat (Py.get (bug_line bug) 0 - 1) in
  strategy = "deterministic_colon" \/ strategy = "deterministic_bracket" ->
  exists suffix,
    Py.truthy suffix = true
    /\ (strategy = "deterministic_colon" -> suffix = ":")
    /\ fst (PatchApplier._deterministic_patch strategy lines bug)
       = Some (<[idx := Py.rstrip (nth idx lines "") +:+ suffix +:+ Py.NL]> lines).
Proof.
  cbv zeta. intros Hplanned.
  destruct (choose_colon_or_bracket _ _ _ _ Hplanned) as (Hlow & Hhigh & Hcase).
  unfold PatchApplier._deterministic_patch.
  rewrite (proj2 (Z.ltb_ge _ _) Hlow), (proj2 (Z.ltb_ge _ _) Hhigh). cbn [orb]. cbv zeta.
  destruct Hcase as [[-> Hend]|[-> Hopen]]; cbn [String.eqb Ascii.eqb Bool.eqb].
  - exists ":". split; [reflexivity|]. split; [reflexivity|]. now rewrite Hend.
  - eexists. split; [apply (truthy_brackets _ _ _ Hopen)|]. split; [discriminate|].
    unfold PatchApplier.append_to_line. now rewrite (truthy_brackets _ _ _ Hopen).
Qed.

End PlanThenApply.

Lemma second_attempts_need_the_model_witness :
  let plan := FixPlanner.execute Scenario.posix Scenario.fact_tree
                (Some Scenario.fact_fix_memory) []
                [Scenario.operator_bug; Scenario.recursion_bug] Scenario.repo in
  let result := PatchApplier.execute Scenario.posix "" Scenario.silent_model
                  Scenario.fact_tree plan Scenario.repo in
  Forall (fun entry =>
            Py.startswith (Py.get (plan_strategy entry) "") "deterministic" = false) plan
  /\ PatchApplier.applied_patches (fst result) = []
  /\ PatchApplier.applied_count (fst result) = 0
  /\ List.length (PatchApplier.skipped_patches (fst result)) = List.length plan
  /\ snd result = Scenario.fact_tree.
Proof.
  apply (second_attempts_need_the_model Scenario.posix Scenario.fact_tree
           Scenario.fact_fix_memory []
           [Scenario.operator_bug; Scenario.recursion_bug] Scenario.repo
           Scenario.silent_model).
  intros bug [<-|[<-|[]]]; eexists; (split; [left; reflexivity | reflexivity]).
Defined.

Lemma colon_and_bracket_plans_apply_witness :
  exists suffix,
    Py.truthy suffix = true
    /\ ("deterministic_colon" = "deterministic_colon" -> suffix = ":")
    /\ fst (PatchApplier._deterministic_patch "deterministic_colon"
              Scenario.fact_header Scenario.header_bug)
       = Some (<[0%nat := Py.rstrip (nth 0 Scenario.fact_header "") +:+ suffix +:+ Py.NL]>
                 Scenario.fact_header).
Proof.
  apply (colon_and_bracket_plans_apply Scenario.header_bug Scenario.fact_header).
  left. vm_compute. reflexivity.
Defined.
(* ===================================================================== *)
(** * The reasoning loop: reports of a run, verdicts, memory *)
(* ===================================================================== *)

Section ReportFacts.
Import RunMemory ReasoningLoop Numbered.
Context {W : Type} (registry : Registry W) (clock : nat -> string)
        (recursion_error : string).

Ltac cases :=
  repeat match goal with
         | |- context [match ?x with _ => _ end] => destruct x
         end.

(** A transition writes counts, verdicts and results into the report and
    leaves its number, its time and its invocations alone. *)
Lemma reason_transition_report phase state rep next_continue next_stop it max_iterations
      memory now :
  let rep' := step_report (_reason_transition phase state rep next_continue next_stop it
                                             max_iterations memory now) in
  iteration rep' = iteration rep
  /\ timestamp rep' = timestamp rep
  /\ tool_invocations rep' = tool_invocations rep.
Proof.
  cbv zeta. unfold _reason_transition, step_report.
  destruct phase, memory as [m|]; cbv zeta; cases; repeat split.
Qed.

Lemma node_and_edge_iteration phase l :
  iteration (report (snd (node_and_edge registry clock phase l))) = iteration (report l).
Proof.
  unfold node_and_edge.
  destruct (TRANSITIONS phase) as [[[tool_name next_continue] next_stop]|]; [|reflexivity].
  destruct (registry tool_name) as [t|exc]; [|reflexivity].
  destruct (Py.nonempty _); [reflexivity|].
  destruct (execute t _ _ _) as [[[result|exc] memory'] world']; [|reflexivity].
  destruct (Py.get _ false); [reflexivity|].
  match goal with
  | |- context [_reason_transition ?p ?s ?r ?c ?st ?i ?mx ?m ?n] =>
      pose proof (reason_transition_report p s r c st i mx m n) as [Hit _];
      destruct (_reason_transition p s r c st i mx m n) as [[[next state'] rep'] mem']
  end.
  unfold step_report in Hit. cbn [fst snd] in Hit.
  destruct next; cbn [snd report]; exact Hit.
Qed.

Lemma run_graph_iteration limit : forall phase l,
  iteration (report (snd (run_graph registry clock recursion_error limit phase l)))
  = iteration (report l).
Proof.
  induction limit as [|limit IH]; intros phase l; cbn [run_graph]; [reflexivity|].
  pose proof (node_and_edge_iteration phase l) as Hnode.
  destruct (node_and_edge registry clock phase l) as [[next|ending] l'];
    cbn [snd] in *; [|assumption].
  now rewrite IH.
Qed.

(** One pass of the loop: the new report carries the number of the pass. *)
Lemma iterate_report t l :
  exists rep l',
    iterate registry clock recursion_error t l
    = (mkTotals (current_iteration t + 1) (iterations t ++ [rep])
                (total_bugs t + bugs_found rep) (total_fixes t + patches_applied rep)
                (if Py.truthy (report_commit_sha rep)
                 then total_commits t + 1 else total_commits t),
       l',
       report_all_passed rep
       || (MAX_TOTAL_COMMITS <=? (if Py.truthy (report_commit_sha rep)
                                  then total_commits t + 1 else total_commits t))
       || negb (Py.get (should_continue (shared l')) false))
    /\ iteration rep = current_iteration t + 1.
Proof.
  unfold iterate. cbv zeta.
  match goal with
  | |- context [run_graph _ _ _ ?n ?p ?l0] =>
      pose proof (run_graph_iteration n p l0) as Hit;
      destruct (run_graph registry clock recursion_error n p l0) as [ending l1]
  end.
  cbn [snd report new_report iteration] in Hit.
  eexists. eexists. split; [reflexivity|].
  destruct ending; cbn [with_verdict iteration]; exact Hit.
Qed.

Lemma total_snoc count reports rep :
  total count (reports ++ [rep]) = total count reports + count rep.
Proof.
  unfold total. induction reports as [|r reports IH]; cbn [app fold_right]; lia.
Qed.

Lemma numbers_snoc n : numbers (S n) = numbers n ++ [Z.of_nat (S n)].
Proof. unfold numbers. now rewrite List.seq_S, List.map_app. Qed.

Lemma numbered_step t rep :
  numbered t ->
  iteration rep = current_iteration t + 1 ->
  forall commits,
    numbered (mkTotals (current_iteration t + 1) (iterations t ++ [rep])
                       (total_bugs t + bugs_found rep)
                       (total_fixes t + patches_applied rep) commits).
Proof.
  intros (Hnum & Hcur & Hbugs & Hfixes) Hit commits. unfold numbered.
  cbn [iterations current_iteration total_bugs total_fixes].
  rewrite List.length_app, List.map_app, !total_snoc. cbn [List.length map].
  replace (List.length (iterations t) + 1)%nat with (S (List.length (iterations t))) by lia.
  rewrite numbers_snoc, Hnum, Hit, Hcur, Hbugs, Hfixes.
  repeat split; try lia. do 2 f_equal. lia.
Qed.

(** Over the whole loop: the reports are numbered from one, the totals are
    their sums, and a report that says [all_passed] is the last one. *)
Lemma while_loop_numbered fuel max_iterations : forall t l,
  numbered t ->
  Forall not_passed (iterations t) ->
  numbered (fst (while_loop registry clock recursion_error fuel max_iterations t l))
  /\ Forall not_passed
       (removelast
          (iterations (fst (while_loop registry clock recursion_error fuel
                                       max_iterations t l)))).
Proof.
  assert (Hrest : forall reports : list IterationReport,
             Forall not_passed reports -> Forall not_passed (removelast reports)).
  { intros reports H. apply List.Forall_forall. intros r Hr.
    rewrite List.Forall_forall in H. apply H.
    destruct reports as [|r0 reports]; [destruct Hr|].
    pose proof (@List.app_removelast_last _ (r0 :: reports) r0 ltac:(discriminate)) as Heq.
    rewrite Heq. apply List.in_or_app. now left. }
  induction fuel as [|fuel IH]; intros t l Hnum Hall; cbn [while_loop].
  - split; [assumption | now apply Hrest].
  - destruct (current_iteration t <? max_iterations); [|split; [assumption | now apply Hrest]].
    destruct (iterate_report t l) as (rep & l' & -> & Hit).
    pose proof (numbered_step t rep Hnum Hit) as Hstep.
    destruct (_ || _ || _) eqn:Hstop.
    + cbn [fst iterations]. split; [apply Hstep|].
      now rewrite List.removelast_last.
    + apply orb_false_iff in Hstop as [Hstop _].
      apply orb_false_iff in Hstop as [Hpassed _].
      apply IH; [apply Hstep|]. cbn [iterations].
      apply List.Forall_app. split; [assumption|]. now constructor.
Qed.

(** X18.  Whatever the tools do, the reports of a run are numbered
    1, 2, ... in order; [total_bugs_found] and [total_fixes_applied] are the
    sums of the reports' counts; a report that says [all_passed] ends the
    run, so only the last report can say it; the status is [healed] exactly
    when the last report says it, and [partial] exactly when it does not
    and some patch was applied.  With [max_iterations] at or below zero no
    tool runs: there is no report, the status is [failed], and the world and
    the memory are as at the start. *)
Theorem reports_are_numbered_and_a_pass_is_last repo_path max_iterations config w :
  let run := run_reasoning_loop registry clock recursion_error repo_path max_iterations
                                config w in
  let result := fst run in
  let passed :=
    exists rep, last (result_iterations result) = Some rep /\ report_all_passed rep = true in
  map iteration (result_iterations result)
  = map Z.of_nat (List.seq 1 (iterations_used result))
  /\ total_bugs_found result = total bugs_found (result_iterations result)
  /\ total_fixes_applied result = total patches_applied (result_iterations result)
  /\ Forall (fun rep => report_all_passed rep = false)
            (removelast (result_iterations result))
  /\ (status result = "healed" <-> passed)
  /\ (status result = "partial" <-> ~ passed /\ 0 < total_fixes_applied result)
  /\ (status result = "failed" <-> ~ passed /\ total_fixes_applied result <= 0)
  /\ (max_iterations <= 0 ->
      result_iterations result = [] /\ status result = "failed"
      /\ final_memory result = RunMemory.init /\ snd run = w).
Proof.
  cbv zeta. unfold run_reasoning_loop.
  match goal with |- context [while_loop _ _ _ _ _ _ ?l0] => set (l := l0) end.
  assert (Hstart : numbered (mkTotals 0 [] 0 0 0)) by (unfold numbered; cbn; auto).
  destruct (while_loop_numbered (Z.to_nat max_iterations) max_iterations
              (mkTotals 0 [] 0 0 0) l Hstart (List.Forall_nil _))
    as [(Hnum & _ & Hbugs & Hfixes) Hlast].
  assert (Hnone : max_iterations <= 0 ->
                  while_loop registry clock recursion_error (Z.to_nat max_iterations)
                             max_iterations (mkTotals 0 [] 0 0 0) l
                  = (mkTotals 0 [] 0 0 0, l)).
  { intros Hle. replace (Z.to_nat max_iterations) with 0%nat by lia. reflexivity. }
  destruct (while_loop _ _ _ _ _ _ l) as [t l'].
  cbn [fst snd result_iterations iterations_used total_bugs_found total_fixes_applied
       status final_memory] in *.
  split; [exact Hnum|]. split; [exact Hbugs|]. split; [exact Hfixes|].
  split; [exact Hlast|].
  assert (Hpassed : (exists rep, last (iterations t) = Some rep
                                 /\ report_all_passed rep = true)
                    <-> match last (iterations t) with
                        | Some rep => report_all_passed rep
                        | None => false
                        end = true).
  { destruct (last (iterations t)) as [rep|].
    - split; [intros (r & [= <-] & H); exact H | intros H; now exists rep].
    - split; [intros (r & H & _); discriminate | discriminate]. }
  rewrite Hpassed.
  destruct (match last (iterations t) with Some rep => report_all_passed rep | None => false
            end) eqn:Hfinal.
  - split; [tauto|]. split; [split; [discriminate | intros [H _]; now elim H]|].
    split; [split; [discriminate | intros [H _]; now elim H]|].
    intros Hle. injection (Hnone Hle) as -> ->. cbn in Hfinal. discriminate.
  - split; [split; [destruct (0 <? total_fixes t); discriminate | discriminate]|].
    destruct (Z.ltb_spec 0 (total_fixes t)) as [Hpos|Hneg].
    + split; [split; [intros _; split; [discriminate | exact Hpos] | reflexivity]|].
      split; [split; [discriminate | intros [_ H]; lia]|].
      intros Hle. injection (Hnone Hle) as -> ->. cbn in Hpos. lia.
    + split; [split; [discriminate | intros [_ H]; lia]|].
      split; [split; [intros _; split; [discriminate | exact Hneg] | reflexivity]|].
      intros Hle. injection (Hnone Hle) as -> ->. cbn [iterations andb memory world].
      repeat split.
Qed.

End ReportFacts.

Section TransitionFacts.
Import RunMemory ReasoningLoop Reachable.

Ltac cases :=
  repeat match goal with
         | |- context [match ?x with _ => _ end] => destruct x
         end.

Lemma get_true (field : option bool) : Py.get field false = true -> field = Some true.
Proof. destruct field as [[|]|]; cbn; congruence. Qed.

(** X19.  A transition marks the report [all_passed] only on evidence: the
    latest CI run recorded in the memory succeeded (RUN_TESTS), nothing was
    classified and the local tests passed (CLASSIFY), or, at VERIFY, the
    verification said so or CI was unavailable and the local tests passed.
    No other phase sets the mark.  Before VERIFY a fresh mark ends the
    invocation with the verdict [pass]; at VERIFY, with CI available, a
    marked report ends the invocation. *)
Theorem pass_is_reported_only_on_evidence phase state rep next_continue next_stop
        it max_iterations memory now :
  let step := _reason_transition phase state rep next_continue next_stop it max_iterations
                                 memory now in
  (report_all_passed (step_report step) = true ->
     report_all_passed rep = true
     \/ (phase = RUN_TESTS
         /\ exists m run, memory = Some m /\ latest_ci_run m = Some run
                          /\ RunMemory.ci_status run = "success")
     \/ (phase = CLASSIFY
         /\ Py.get (classified_bugs state) [] = [] /\ local_all_passed state = Some true)
     \/ (phase = VERIFY
         /\ (all_passed state = Some true
             \/ (_ci_unavailable state = Some true /\ local_all_passed state = Some true))))
  /\ (phase <> VERIFY ->
      report_all_passed rep = false -> report_all_passed (step_report step) = true ->
      step_phase step = DONE /\ report_verdict (step_report step) = "pass")
  /\ (phase = VERIFY ->
      Py.get (_ci_unavailable state) false = false ->
      report_all_passed (step_report step) = true ->
      step_phase step = DONE).
Proof.
  cbv zeta. unfold step_report, step_phase. destruct phase.
  - (* RUN_TESTS *)
    unfold _reason_transition. cbv zeta.
    destruct memory as [m|]; [destruct (last (ci_runs m)) as [run|] eqn:Hlast|].
    + destruct (String.eqb_spec (RunMemory.ci_status run) "success") as [Hok|Hno].
      * cbn [fst snd]. split; [|split; [auto | discriminate]].
        intros _. right. left. split; [reflexivity|]. now exists m, run.
      * cbn [fst snd]. split; [auto|]. split; [congruence | discriminate].
    + cbn [fst snd]. split; [auto|]. split; [congruence | discriminate].
    + cbn [fst snd]. split; [auto|]. split; [congruence | discriminate].
  - (* CLASSIFY *)
    unfold _reason_transition. cbv zeta.
    destruct (Py.get (classified_bugs state) []) as [|bug bugs] eqn:Hbugs;
      cbn [Py.nonempty negb].
    + destruct (Py.get (local_all_passed state) false) eqn:Hlocal.
      * cbn [fst snd]. split; [|split; [auto | discriminate]].
        intros _. right. right. left. split; [reflexivity|].
        split; [reflexivity | now apply get_true].
      * cbn [fst snd]. split; [auto|]. split; [cbn; congruence | discriminate].
    + destruct (_ && _); cbn [fst snd]; (split; [auto|]);
        (split; [cbn; congruence | discriminate]).
  - (* PLAN_FIX *)
    unfold _reason_transition. cbv zeta.
    destruct (negb _); cbn [fst snd]; (split; [auto|]);
      (split; [cbn; congruence | discriminate]).
  - (* APPLY_PATCH *)
    unfold _reason_transition. cbv zeta.
    destruct (_ =? 0); cbn [fst snd]; (split; [auto|]);
      (split; [cbn; congruence | discriminate]).
  - (* COMMIT_PUSH *)
    unfold _reason_transition. cbv zeta.
    destruct (negb _); [|destruct (String.eqb _ "push_failed")]; cbn [fst snd];
      (split; [cbn; auto; try discriminate|]);
      (split; [cbn; congruence | discriminate]).
  - (* WAIT_FOR_CI *)
    unfold _reason_transition. cbv zeta.
    destruct (negb _); cbn [fst snd]; (split; [auto|]);
      (split; [cbn; congruence | discriminate]).
  - (* FETCH_CI_RESULTS *)
    unfold _reason_transition. cbv zeta.
    destruct (negb _); cbn [fst snd]; (split; [auto|]);
      (split; [cbn; congruence | discriminate]).
  - (* VERIFY *)
    unfold _reason_transition. cbv zeta.
    split; [|split; [intros H; now elim H|]].
    + destruct (Py.get (_ci_unavailable state) false) eqn:Hci.
      * destruct (Py.get (local_all_passed state) false) eqn:Hlocal.
        -- cbn [fst snd]. intros _. do 3 right. split; [reflexivity|]. right.
           split; now apply get_true.
        -- destruct (Py.get (all_passed state) false) eqn:Hall;
             destruct (negb _); cbn [fst snd]; cbn; intros H; try discriminate H;
             do 3 right; (split; [reflexivity|]); left; now apply get_true.
      * cbn [with_verdict with_ci_conclusion with_all_passed report_all_passed].
        destruct (Py.get (all_passed state) false) eqn:Hall;
          cases; cbn [fst snd]; cbn; intros H; try discriminate H;
          do 3 right; (split; [reflexivity|]); left; now apply get_true.
    + intros _ ->. cbn [with_verdict with_ci_conclusion with_all_passed report_all_passed].
      destruct (Py.get (all_passed state) false); [reflexivity|].
      cases; cbn; discriminate.
  - (* DONE *)
    cbn. split; [auto|]. split; [congruence | discriminate].
Qed.

(** The memory that a transition leaves. *)
Lemma transition_memory phase state rep next_continue next_stop it max_iterations m now :
  exists m',
    snd (_reason_transition phase state rep next_continue next_stop it max_iterations
                            (Some m) now) = Some m'
    /\ (m' = m
        \/ (phase = CLASSIFY /\ exists bugs, m' = append_failures m it bugs)
        \/ (phase = COMMIT_PUSH
            /\ exists patches sha, sha <> "" /\ m' = append_fixes m it patches sha)
        \/ ((phase = FETCH_CI_RESULTS \/ phase = VERIFY)
            /\ exists status, m' = append_ci_run m it status "" "" now)).
Proof.
  destruct phase; unfold _reason_transition; cbv zeta.
  - cases; eexists; (split; [reflexivity|]); now left.
  - destruct (Py.get (classified_bugs state) []) as [|bug bugs]; cbn [Py.nonempty negb].
    + cases; eexists; (split; [reflexivity|]); now left.
    + cases; eexists; (split; [reflexivity|]); right; left;
        (split; [reflexivity|]); now eexists.
  - cases; eexists; (split; [reflexivity|]); now left.
  - cases; eexists; (split; [reflexivity|]); now left.
  - destruct (Py.get (commit_sha state) "") as [|c sha] eqn:Hsha; cbn [Py.truthy negb].
    + eexists. split; [reflexivity|]. now left.
    + cases; eexists; (split; [reflexivity|]); right; right; left;
        (split; [reflexivity|]); do 2 eexists; (split; [|reflexivity]); discriminate.
  - cases; eexists; (split; [reflexivity|]); now left.
  - cases; eexists; (split; [reflexivity|]); do 3 right;
      (split; [now left|]); now eexists.
  - destruct (Py.get (_ci_unavailable state) false);
      [destruct (Py.get (local_all_passed state) false)|].
    + eexists. split; [reflexivity|]. do 3 right. split; [now right|]. now eexists.
    + cases; eexists; (split; [reflexivity|]); now left.
    + cases; eexists; (split; [reflexivity|]); now left.
  - eexists. split; [reflexivity|]. now left.
Qed.

Lemma filter_this_one {A} (it : A -> Z) n k (x : A) :
  it x = n -> k <> n -> List.filter (fun r => it r =? k) [x] = [].
Proof.
  intros Hx Hk. cbn. rewrite Hx. now rewrite (proj2 (Z.eqb_neq n k)) by congruence.
Qed.

(** X20.  A transition writes only records of the current iteration into
    the run memory, and only in four phases: failures at CLASSIFY, fixes at
    COMMIT_PUSH, a CI run at FETCH_CI_RESULTS or VERIFY.  What the memory
    holds for any other iteration stays as it was, and a memory built by
    the append methods stays one. *)
Theorem transitions_write_the_current_iteration phase state rep next_continue next_stop
        it max_iterations m now :
  let step := _reason_transition phase state rep next_continue next_stop it max_iterations
                                 (Some m) now in
  exists m',
    snd step = Some m'
    /\ (forall k, k <> it ->
          failures_for_iteration m' k = failures_for_iteration m k
          /\ fixes_for_iteration m' k = fixes_for_iteration m k
          /\ List.filter (fun run => ci_iteration run =? k) (ci_runs m')
             = List.filter (fun run => ci_iteration run =? k) (ci_runs m))
    /\ (_failures m' <> _failures m -> phase = CLASSIFY)
    /\ (_fixes m' <> _fixes m -> phase = COMMIT_PUSH)
    /\ (_ci_runs m' <> _ci_runs m -> phase = FETCH_CI_RESULTS \/ phase = VERIFY)
    /\ (reachable m -> reachable m').
Proof.
  cbv zeta.
  destruct (transition_memory phase state rep next_continue next_stop it max_iterations
              m now) as (m' & Hstep & Hcase).
  exists m'. split; [exact Hstep|]. clear Hstep.
  destruct Hcase as [->|[(-> & bugs & ->)|[(-> & patches & sha & Hsha & ->)
                                          |(Hphase & status & ->)]]].
  - split; [auto|]. repeat (split; [intros H; now elim H|]). auto.
  - split.
    { intros k Hk. unfold failures_for_iteration, fixes_for_iteration, append_failures.
      cbn [_failures _fixes ci_runs _ci_runs].
      rewrite List.filter_app, filter_this_kept, (filter_this_new _ it) by reflexivity.
      apply Z.eqb_neq in Hk. rewrite Hk. now rewrite List.app_nil_r. }
    split; [reflexivity|]. split; [intros H; now elim H|].
    split; [intros H; now elim H|]. apply reach_failures.
  - split.
    { intros k Hk. unfold failures_for_iteration, fixes_for_iteration, append_fixes.
      cbn [_failures _fixes ci_runs _ci_runs].
      rewrite List.filter_app, filter_this_kept, (filter_this_new _ it) by reflexivity.
      apply Z.eqb_neq in Hk. rewrite Hk. now rewrite List.app_nil_r. }
    split; [intros H; now elim H|]. split; [reflexivity|].
    split; [intros H; now elim H|]. apply reach_fixes.
  - split.
    { intros k Hk. unfold failures_for_iteration, fixes_for_iteration, append_ci_run.
      cbn [_failures _fixes ci_runs _ci_runs].
      rewrite List.filter_app, filter_this_kept, (filter_this_one _ it) by auto.
      apply Z.eqb_neq in Hk. rewrite Hk. now rewrite List.app_nil_r. }
    split; [intros H; now elim H|]. split; [intros H; now elim H|].
    split; [intros _; exact Hphase|]. apply reach_ci_run.
Qed.

End TransitionFacts.
(* ===================================================================== *)
(** * The classifier tool: priority order, enrichment *)
(* ===================================================================== *)

Section ToolOrder.
Import RunMemory FailureClassifierTool.

Lemma sort_key_ltb_false a b :
  sort_key_ltb a b = false
  <-> fst b < fst a \/ (fst a = fst b /\ Py.key_ltb (snd a) (snd b) = false).
Proof.
  unfold sort_key_ltb. destruct (Z.eqb_spec (fst a) (fst b)) as [Heq|Hne].
  - split; [intros H; right; now split | intros [H|[_ H]]; [lia | exact H]].
  - rewrite Z.ltb_ge. split; [intros H; left; lia | intros [H|[H _]]; [lia | contradiction]].
Qed.

Lemma sort_key_ltb_asym a b : sort_key_ltb a b = true -> sort_key_ltb b a = false.
Proof.
  intros H. apply sort_key_ltb_false. unfold sort_key_ltb in H.
  destruct (Z.eqb_spec (fst a) (fst b)) as [Heq|Hne].
  - right. split; [congruence | now apply key_ltb_asym].
  - left. now apply Z.ltb_lt.
Qed.

Lemma sort_key_ltb_ge_trans a b c :
  sort_key_ltb b a = false -> sort_key_ltb c b = false -> sort_key_ltb c a = false.
Proof.
  rewrite !sort_key_ltb_false.
  intros [Hba|[Hba Kba]] [Hcb|[Hcb Kcb]].
  - left. lia.
  - left. lia.
  - left. lia.
  - right. split; [congruence|]. now apply (key_ltb_ge_trans _ (snd b)).
Qed.

Lemma sorted_without {A} (R : A -> A -> Prop) (l1 l2 : list A) (x : A) :
  StronglySorted R (l1 ++ x :: l2) -> StronglySorted R (l1 ++ l2).
Proof.
  induction l1 as [|y l1 IH]; cbn [app]; intros H.
  - now apply StronglySorted_inv in H as [H _].
  - apply StronglySorted_inv in H as [Hs Hall]. constructor; [now apply IH|].
    apply List.Forall_app in Hall as [H1 H2]. apply List.Forall_app. split; [assumption|].
    now apply List.Forall_inv_tail in H2.
Qed.

(** Dropping the entries of a key seen before keeps the order. *)
Lemma unique_fold_sorted (R : BugDict -> BugDict -> Prop) rest : forall st,
  StronglySorted R (snd st ++ rest) ->
  StronglySorted R (snd (fold_left unique_step rest st)).
Proof.
  induction rest as [|b rest IH]; intros st Hs; cbn [fold_left].
  - now rewrite List.app_nil_r in Hs.
  - apply IH. unfold unique_step. case_bool_decide.
    + now apply sorted_without in Hs.
    + cbn [snd]. now rewrite <- List.app_assoc.
Qed.

Lemma unique_fold_In rest : forall st b,
  In b (snd (fold_left unique_step rest st)) -> In b (snd st) \/ In b rest.
Proof.
  induction rest as [|b0 rest IH]; intros st b Hb; cbn [fold_left] in Hb; [now left|].
  apply IH in Hb as [Hb|Hb]; [|right; now right].
  unfold unique_step in Hb. case_bool_decide; [now left|].
  cbn [snd] in Hb. apply List.in_app_or in Hb as [Hb|[<-|[]]]; [now left | right; now left].
Qed.

Lemma unique_fold_keeps rest : forall st b,
  In b (snd st) -> In b (snd (fold_left unique_step rest st)).
Proof.
  induction rest as [|b0 rest IH]; intros st b Hb; cbn [fold_left]; [assumption|].
  apply IH. unfold unique_step. case_bool_decide; [assumption|].
  cbn [snd]. apply List.in_or_app. now left.
Qed.

Lemma unique_fold_covers rest : forall st,
  (forall k, k ∈ fst st <-> In k (map dict_key (snd st))) ->
  forall b, In b rest ->
            exists b', In b' (snd (fold_left unique_step rest st))
                       /\ dict_key b' = dict_key b.
Proof.
  induction rest as [|b0 rest IH]; intros st Hseen b Hb; [destruct Hb|].
  cbn [fold_left].
  assert (Hstep : forall k, k ∈ fst (unique_step st b0)
                            <-> In k (map dict_key (snd (unique_step st b0)))).
  { intros k. unfold unique_step. case_bool_decide; [apply Hseen|].
    cbn [fst snd]. rewrite List.map_app, List.in_app_iff, elem_of_union, elem_of_singleton,
                     Hseen. cbn. intuition. }
  destruct Hb as [<-|Hb]; [|now apply IH].
  assert (Hin : In (dict_key b0) (map dict_key (snd (unique_step st b0)))).
  { unfold unique_step. case_bool_decide as Hk; [now apply Hseen|].
    cbn [snd]. rewrite List.map_app. apply List.in_or_app. right. now left. }
  apply List.in_map_iff in Hin as (b' & Hkey & Hb').
  exists b'. split; [now apply unique_fold_keeps | assumption].
Qed.

(** X21.  The bugs that the classifier tool outputs are in priority order:
    ascending in the rank of the severity (high, medium, low), then in the
    file, then in the line.  Every output bug is a classified report with
    its path normalised, the severity of its bug type (high for SYNTAX,
    INDENTATION and IMPORT, medium for TYPE_ERROR and LOGIC, low for
    anything else) and a fix hint; every classified report is represented
    by an output bug of its key; and without test output nothing is
    classified. *)
Theorem classified_bugs_are_prioritised os api_key ask test_output repo_path :
  let reports :=
    ErrorClassifier.classify_errors_async api_key ask (Py.get test_output "") in
  let bugs := execute os api_key ask test_output repo_path in
  let rank b := severity_order (Py.get (bug_severity b) "") in
  let place b := (Py.get (bug_file b) "", Py.get (bug_line b) 0) in
  StronglySorted
    (fun a b => rank a < rank b
                \/ (rank a = rank b /\ Py.key_leb (place a) (place b) = true)) bugs
  /\ Forall
       (fun b =>
          exists report,
            In report reports
            /\ b = enrich os (Py.get repo_path "") report
            /\ bug_file b
               = Some (_normalize_path os (ErrorClassifier.file report)
                                       (Py.get repo_path ""))
            /\ bug_line b = Some (ErrorClassifier.line report)
            /\ bug_type b = Some (ErrorClassifier.bug_type report)
            /\ bug_severity b
               = Some (if existsb (String.eqb (ErrorClassifier.bug_type report))
                                  ["SYNTAX"; "INDENTATION"; "IMPORT"] then "high"
                       else if existsb (String.eqb (ErrorClassifier.bug_type report))
                                       ["TYPE_ERROR"; "LOGIC"] then "medium"
                       else "low")
            /\ (exists hint, bug_fix_hint b = Some hint /\ hint <> ""))
       bugs
  /\ (Py.get test_output "" <> "" ->
      Forall (fun report =>
                exists b, In b bugs
                          /\ dict_key b = dict_key (enrich os (Py.get repo_path "") report))
             reports)
  /\ (Py.get test_output "" = "" -> bugs = []).
Proof.
  cbv zeta. unfold execute. cbv zeta.
  destruct (Py.get test_output "") as [|c log] eqn:Hlog; cbn [Py.truthy negb].
  { split; [constructor|]. split; [constructor|]. split; [intros H; now elim H | reflexivity]. }
  set (reports := ErrorClassifier.classify_errors_async api_key ask (String c log)).
  destruct reports as [|r0 reports'] eqn:Hreports; cbn [Py.nonempty negb].
  { split; [constructor|]. split; [constructor|]. split; [constructor | discriminate]. }
  rewrite <- Hreports. clear Hreports r0 reports'.
  set (classified := map (enrich os (Py.get repo_path "")) reports).
  split; [|split; [|split; [|discriminate]]].
  - unfold unique. apply unique_fold_sorted. cbn [snd app].
    pose proof (sorted_ordered sort_key sort_key_ltb sort_key_ltb_asym
                  sort_key_ltb_ge_trans classified) as Hs.
    induction Hs as [|a l _ IH Hall]; constructor; [assumption|].
    rewrite List.Forall_forall in Hall |- *. intros b Hb.
    pose proof (Hall b Hb) as Hle.
    apply sort_key_ltb_false in Hle as [Hlt|[Heq Hle]]; unfold sort_key in *;
      cbn [fst snd] in *.
    + now left.
    + right. split; [now symmetry|]. unfold Py.key_leb. now rewrite Hle.
  - apply List.Forall_forall. intros b Hb. unfold unique in Hb.
    apply unique_fold_In in Hb as [[]|Hb]. apply sorted_In in Hb.
    apply List.in_map_iff in Hb as (report & <- & Hreport).
    exists report. split; [assumption|]. split; [reflexivity|].
    unfold enrich. cbn [bug_file bug_line bug_type bug_severity bug_fix_hint].
    repeat (split; [reflexivity|]). split.
    + f_equal. unfold _SEVERITY. cbn [existsb].
      repeat (destruct (String.eqb _ _); [reflexivity|]). reflexivity.
    + eexists. split; [reflexivity|]. unfold _FIX_HINTS.
      repeat (destruct (String.eqb _ _); [discriminate|]). discriminate.
  - intros _. apply List.Forall_forall. intros report Hreport. unfold unique.
    apply unique_fold_covers.
    + cbn. intros k. split; [intros H; now apply not_elem_of_empty in H | intros []].
    + apply sorted_In. now apply List.in_map.
Qed.

End ToolOrder.

Section ClassifierOrder.
Import ErrorClassifier Distinct.

Lemma first_with_some k l b : first_with k l = Some b -> In b l /\ key b = k.
Proof.
  unfold first_with. intros H. apply List.find_some in H as [Hin Hk].
  split; [assumption | now apply key_eqb_eq].
Qed.

Lemma valid_value t : valid_type (value t) = true.
Proof. now destruct t. Qed.

Lemma valid_type_named t :
  valid_type t = true ->
  In t ["LINTING"; "SYNTAX"; "LOGIC"; "TYPE_ERROR"; "IMPORT"; "INDENTATION"].
Proof.
  unfold valid_type. intros H. apply List.existsb_exists in H as (v & _ & Hv).
  apply String.eqb_eq in Hv. subst t. destruct v; cbn; auto 10.
Qed.

Lemma candidates_typed rules log b :
  In b (candidates rules log) -> valid_type (bug_type b) = true.
Proof.
  unfold candidates. intros H. apply in_flat_map in H as ([[pattern t] template] & _ & H).
  apply List.in_map_iff in H as (m & <- & _). apply valid_value.
Qed.

Lemma regex_bugs_typed log b :
  In b (fst (_regex_classify log)) -> valid_type (bug_type b) = true.
Proof.
  rewrite regex_classify_bugs. intros Hb.
  destruct (regex_bugs_inv _REGEX_RULES log) as [_ Hfirst].
  destruct (first_with (key b) (fst (regex_pass _REGEX_RULES log))) as [b'|] eqn:Hfound.
  - rewrite Hfirst in Hfound. apply first_with_some in Hfound as [Hin Hkey].
    replace (bug_type b) with (bug_type b') by (now injection Hkey).
    now apply (candidates_typed _REGEX_RULES log).
  - apply first_with_none in Hfound. elim Hfound. now apply List.in_map.
Qed.

Lemma llm_bugs_typed api_key ask lines b :
  In b (_llm_classify api_key ask lines) -> valid_type (bug_type b) = true.
Proof.
  unfold _llm_classify. destruct (negb _); [intros []|].
  destruct (negb _); [intros []|]. destruct (ask lines) as [items|]; [|intros []].
  intros H. apply in_flat_map in H as (item & _ & H). unfold report_of_item in H.
  destruct (valid_type _) eqn:Hvalid; [|destruct H].
  destruct H as [<-|[]]. exact Hvalid.
Qed.

Lemma infer_type_valid error_msg : valid_type (infer_type error_msg) = true.
Proof.
  unfold infer_type.
  repeat match goal with |- context [if ?c then _ else _] => destruct c end; reflexivity.
Qed.

Lemma traced_bugs_typed log b :
  In b (source_bugs_from_tracebacks log) -> valid_type (bug_type b) = true.
Proof.
  unfold source_bugs_from_tracebacks. intros H. apply in_flat_map in H as (m & _ & H).
  unfold trace_section in H. destruct (_ !! _) as [info|]; [|destruct H].
  destruct (last _) as [[src_file src_line]|]; [|destruct H].
  destruct H as [<-|[]]. apply infer_type_valid.
Qed.

Lemma merge_fold_In l : forall st b,
  In b (snd (fold_left merge_step l st)) -> In b (snd st) \/ In b l.
Proof.
  induction l as [|lb l IH]; intros st b Hb; cbn [fold_left] in Hb; [now left|].
  apply IH in Hb as [Hb|Hb]; [|right; now right].
  unfold merge_step in Hb. case_bool_decide; [now left|].
  cbn [snd] in Hb. apply List.in_app_or in Hb as [Hb|[<-|[]]]; [now left | right; now left].
Qed.

Lemma trace_In bugs log b :
  In b (_trace_test_bugs_to_source bugs log) ->
  In b bugs \/ In b (source_bugs_from_tracebacks log).
Proof.
  unfold _trace_test_bugs_to_source. case_bool_decide as Hnone; [now left|].
  destruct (negb _); [now left|].
  intros Hb. apply dedup_In, List.in_app_or in Hb as [Hb|Hb].
  - left. now apply List.filter_In in Hb.
  - now right.
Qed.

Lemma by_location_sorted bugs :
  StronglySorted (fun a b => Py.key_leb (file a, line a) (file b, line b) = true)
                 (by_location bugs).
Proof. apply (sorted_by_key_leb (fun b => (file b, line b))). Qed.

(** X22.  The classification comes in ascending order of (file, line), and
    every bug in it has one of the six bug types, whatever the model
    answers: items of another type are dropped.  Without an API key the
    model is not consulted; if moreover the log has no FAILED summary line,
    the asynchronous classification is the regex-only one. *)
Theorem classification_is_sorted_and_typed api_key ask log :
  let bugs := classify_errors_async api_key ask log in
  StronglySorted (fun a b => Py.key_leb (file a, line a) (file b, line b) = true) bugs
  /\ Forall (fun b => In (bug_type b)
                         ["LINTING"; "SYNTAX"; "LOGIC"; "TYPE_ERROR"; "IMPORT";
                          "INDENTATION"]) bugs
  /\ StronglySorted (fun a b => Py.key_leb (file a, line a) (file b, line b) = true)
                    (classify_errors log)
  /\ (forall other, classify_errors_async "" other log = classify_errors_async "" ask log)
  /\ (failed_tests log = ∅ -> classify_errors_async "" ask log = classify_errors log).
Proof.
  cbv zeta. split; [|split; [|split; [|split]]].
  - unfold classify_errors_async. destruct (_regex_classify log) as [bugs unmatched].
    apply by_location_sorted.
  - apply List.Forall_forall. intros b Hb. apply valid_type_named.
    unfold classify_errors_async in Hb.
    pose proof (regex_bugs_typed log) as Hregex.
    destruct (_regex_classify log) as [bugs unmatched]. cbn [fst] in Hregex.
    apply sorted_In, trace_In in Hb as [Hb|Hb]; [|now apply (traced_bugs_typed log)].
    destruct (Py.nonempty unmatched); [|now apply Hregex].
    apply merge_fold_In in Hb as [Hb|Hb]; [now apply Hregex|].
    now apply (llm_bugs_typed api_key ask unmatched).
  - apply by_location_sorted.
  - intros other. unfold classify_errors_async.
    destruct (_regex_classify log) as [bugs unmatched].
    unfold _llm_classify. now destruct (negb (Py.nonempty unmatched)).
  - intros Hnone. unfold classify_errors_async, classify_errors.
    destruct (_regex_classify log) as [bugs unmatched]. cbn [fst].
    unfold _trace_test_bugs_to_source. rewrite bool_decide_eq_true_2 by assumption.
    unfold _llm_classify.
    destruct (Py.nonempty unmatched); [|reflexivity].
    now destruct (negb (Py.nonempty unmatched)).
Qed.

End ClassifierOrder.
(* ===================================================================== *)
(** * The verification tool and the transition behind it *)
(* ===================================================================== *)

Section VerificationFacts.
Import RunMemory ReasoningLoop VerificationTool.

(** The three outputs that the loop reads, in either path of the tool. *)
Lemma outputs_fields passed continue verdict_ output local :
  all_passed (outputs passed continue verdict_ output local) = Some passed
  /\ should_continue (outputs passed continue verdict_ output local) = Some continue
  /\ verdict (outputs passed continue verdict_ output local) = Some verdict_
  /\ local_all_passed (outputs passed continue verdict_ output local) = local
  /\ _ci_unavailable (outputs passed continue verdict_ output local) = None
  /\ ReasoningLoop.ci_conclusion (outputs passed continue verdict_ output local) = None.
Proof. destruct local; repeat split. Qed.

(** The tool, case by case: the fallback on the local tests, or the reading
    of the CI conclusion. *)
Lemma execute_cases state suites memory local now :
  (exists summary counts,
      execute state suites memory local now
      = (mkResult "verification" (if fst local then "success" else "failure") summary
                  (outputs (fst local) (negb (fst local))
                           (if fst local then "pass" else "fail") (snd local)
                           (Some (fst local))) [],
         counts,
         if fst local
         then match memory with
              | Some m => Some (append_ci_run m (Py.get (_current_iteration state) 1)
                                              "success" "" "" now)
              | None => None
              end
         else memory)
      /\ improvement counts = 0
      /\ (Py.get (_ci_unavailable state) false = true
          \/ Py.get (ReasoningLoop.ci_conclusion state) "" = ""))
  \/ (exists conclusion summary counts continue verdict_ output,
        execute state suites memory local now
        = (mkResult "verification"
                    (if String.eqb conclusion "success" then "success" else "failure")
                    summary
                    (outputs (String.eqb conclusion "success") continue verdict_ output None)
                    [],
           counts, memory)
        /\ Py.get (_ci_unavailable state) false = false
        /\ conclusion <> ""
        /\ (Py.get (ReasoningLoop.ci_conclusion state) "" <> "" ->
            conclusion = Py.get (ReasoningLoop.ci_conclusion state) "")
        /\ (String.eqb conclusion "success" = true -> continue = false /\ verdict_ = "pass")
        /\ (String.eqb conclusion "success" = false ->
            (verdict_ = "partial" /\ continue = true /\ 0 < improvement counts)
            \/ (verdict_ = "fail" /\ continue = (0 <? failing counts)
                /\ improvement counts <= 0))).
Proof.
  unfold execute. cbv zeta.
  set (conclusion :=
         match memory with
         | Some m =>
             match latest_ci_run m with
             | Some latest =>
                 if Py.truthy (Py.get (ReasoningLoop.ci_conclusion state) "")
                 then Py.get (ReasoningLoop.ci_conclusion state) ""
                 else RunMemory.ci_status latest
             | None => Py.get (ReasoningLoop.ci_conclusion state) ""
             end
         | None => Py.get (ReasoningLoop.ci_conclusion state) ""
         end).
  assert (Hkept : Py.get (ReasoningLoop.ci_conclusion state) "" <> "" ->
                  conclusion = Py.get (ReasoningLoop.ci_conclusion state) "").
  { intros Hne. unfold conclusion.
    destruct (Py.get (ReasoningLoop.ci_conclusion state) "") as [|c s]; [now elim Hne|].
    destruct memory as [m|]; [destruct (latest_ci_run m)|]; reflexivity. }
  destruct (Py.get (_ci_unavailable state) false) eqn:Hci; cbn [orb].
  - left. destruct local as [[|] output]; cbn [fst snd negb];
      do 2 eexists; (split; [reflexivity|]); (split; [reflexivity|]); now left.
  - destruct (Py.truthy conclusion) eqn:Htruthy; cbn [negb].
    + right. exists conclusion.
      destruct (String.eqb conclusion "success") eqn:Hpass.
      * do 5 eexists. split; [reflexivity|]. split; [reflexivity|].
        split; [intros ->; discriminate|]. split; [exact Hkept|].
        split; [intros _; now split | discriminate].
      * match goal with
        | |- context [0 <? ?d] => destruct (Z.ltb_spec 0 d) as [Hpos|Hneg]
        end.
        -- do 5 eexists. split; [reflexivity|]. split; [reflexivity|].
           split; [intros ->; discriminate|]. split; [exact Hkept|].
           split; [discriminate|]. intros _. left. cbn [improvement]. now repeat split.
        -- do 5 eexists. split; [reflexivity|]. split; [reflexivity|].
           split; [intros ->; discriminate|]. split; [exact Hkept|].
           split; [discriminate|]. intros _. right. cbn [improvement failing].
           now repeat split.
    + left. assert (Hempty : Py.get (ReasoningLoop.ci_conclusion state) "" = "").
      { destruct (Py.get (ReasoningLoop.ci_conclusion state) "") as [|c s] eqn:Hc;
          [reflexivity|].
        rewrite Hkept in Htruthy by discriminate. discriminate. }
      destruct local as [[|] output]; cbn [fst snd negb];
        do 2 eexists; (split; [reflexivity|]); (split; [reflexivity|]); now right.
Qed.

Lemma execute_ignores_local state suites memory local other now :
  Py.get (_ci_unavailable state) false = false ->
  Py.get (ReasoningLoop.ci_conclusion state) "" <> "" ->
  execute state suites memory other now = execute state suites memory local now.
Proof.
  intros Hci Hne. unfold execute. cbv zeta. rewrite Hci. cbn [orb].
  destruct (Py.get (ReasoningLoop.ci_conclusion state) "") as [|c s]; [now elim Hne|].
  cbn [Py.truthy].
  destruct memory as [m|]; [destruct (latest_ci_run m)|]; reflexivity.
Qed.

(** X23.  The verification tool always outputs [all_passed],
    [should_continue] and a verdict among [pass], [partial] and [fail].  The
    verdict is [pass] exactly when [all_passed] is true, and then
    [should_continue] is false and the status is [success]; otherwise the
    status is [failure].  A [partial] verdict continues and reports a
    positive improvement.  The tool changes the memory only when [all_passed]
    is true, and then by appending a success run of the current iteration,
    its timestamps read from the clock.  With CI available and a non-empty
    conclusion in the state, the local tests are not run, and [all_passed]
    says whether the conclusion is [success]. *)
Theorem verification_verdict_is_consistent state suites memory local now :
  let run := execute state suites memory local now in
  let result := fst (fst run) in
  exists passed continue verdict_,
    all_passed (result_outputs result) = Some passed
    /\ should_continue (result_outputs result) = Some continue
    /\ verdict (result_outputs result) = Some verdict_
    /\ In verdict_ ["pass"; "partial"; "fail"]
    /\ (verdict_ = "pass" <-> passed = true)
    /\ (passed = true -> continue = false)
    /\ result_status result = (if passed then "success" else "failure")
    /\ (verdict_ = "partial" -> continue = true /\ 0 < improvement (snd (fst run)))
    /\ (snd run <> memory ->
        passed = true
        /\ exists m,
             memory = Some m
             /\ snd run = Some (append_ci_run m (Py.get (_current_iteration state) 1)
                                              "success" "" "" now))
    /\ (Py.get (_ci_unavailable state) false = false ->
        Py.get (ReasoningLoop.ci_conclusion state) "" <> "" ->
        (passed = true <-> Py.get (ReasoningLoop.ci_conclusion state) "" = "success")
        /\ forall other, execute state suites memory other now = run).
Proof.
  cbv zeta.
  destruct (execute_cases state suites memory local now)
    as [(summary & counts & Hrun & Himp & Hwhy)
       |(conclusion & summary & counts & continue & verdict_ & output & Hrun & Hci & Hne
         & Hkept & Hpass & Hfail)].
  - rewrite Hrun. cbn [fst snd result_outputs result_status].
    destruct (outputs_fields (fst local) (negb (fst local))
                (if fst local then "pass" else "fail") (snd local) (Some (fst local)))
      as (Ha & Hs & Hv & _).
    exists (fst local), (negb (fst local)), (if fst local then "pass" else "fail").
    split; [exact Ha|]. split; [exact Hs|]. split; [exact Hv|].
    destruct (fst local) eqn:Hlocal; cbn [negb].
    + split; [cbn; auto|]. split; [tauto|]. split; [reflexivity|]. split; [reflexivity|].
      split; [discriminate|]. split.
      * intros Hchanged. split; [reflexivity|].
        destruct memory as [m|]; [now exists m | now elim Hchanged].
      * intros Hav Hcc. destruct Hwhy as [Hwhy|Hwhy]; [congruence | contradiction].
    + split; [cbn; auto|]. split; [split; discriminate|]. split; [discriminate|].
      split; [reflexivity|]. split; [discriminate|]. split; [intros H; now elim H|].
      intros Hav Hcc. destruct Hwhy as [Hwhy|Hwhy]; [congruence | contradiction].
  - rewrite Hrun. cbn [fst snd result_outputs result_status].
    destruct (outputs_fields (String.eqb conclusion "success") continue verdict_ output None)
      as (Ha & Hs & Hv & _).
    exists (String.eqb conclusion "success"), continue, verdict_.
    split; [exact Ha|]. split; [exact Hs|]. split; [exact Hv|].
    assert (Hlast : Py.get (_ci_unavailable state) false = false ->
                    Py.get (ReasoningLoop.ci_conclusion state) "" <> "" ->
                    (String.eqb conclusion "success" = true
                     <-> Py.get (ReasoningLoop.ci_conclusion state) "" = "success")
                    /\ forall other,
                         execute state suites memory other now
                         = (mkResult "verification"
                              (if String.eqb conclusion "success"
                               then "success" else "failure") summary
                              (outputs (String.eqb conclusion "success") continue verdict_
                                       output None) [], counts, memory)).
    { intros Hav Hcc. rewrite <- (Hkept Hcc). split; [apply String.eqb_eq|].
      intros other. rewrite <- Hrun. now apply execute_ignores_local. }
    destruct (String.eqb conclusion "success") eqn:Hsuccess.
    + destruct (Hpass eq_refl) as [-> ->].
      split; [cbn; auto|]. split; [tauto|]. split; [reflexivity|]. split; [reflexivity|].
      split; [discriminate|]. split; [intros H; now elim H | exact Hlast].
    + destruct (Hfail eq_refl) as [(-> & -> & Hpos)|(-> & -> & Hneg)].
      * split; [cbn; auto|]. split; [split; discriminate|]. split; [discriminate|].
        split; [reflexivity|]. split; [intros _; now split|].
        split; [intros H; now elim H | exact Hlast].
      * split; [cbn; auto|]. split; [split; discriminate|]. split; [discriminate|].
        split; [reflexivity|]. split; [discriminate|].
        split; [intros H; now elim H | exact Hlast].
Qed.

Lemma update_outputs state passed continue verdict_ output local :
  all_passed (update state (outputs passed continue verdict_ output local)) = Some passed
  /\ should_continue (update state (outputs passed continue verdict_ output local))
     = Some continue
  /\ verdict (update state (outputs passed continue verdict_ output local)) = Some verdict_
  /\ local_all_passed (update state (outputs passed continue verdict_ output local))
     = over local (local_all_passed state)
  /\ _ci_unavailable (update state (outputs passed continue verdict_ output local))
     = _ci_unavailable state.
Proof. destruct local; repeat split. Qed.

Lemma not_at_limit it max_iterations : negb (max_iterations <=? it) = (it <? max_iterations).
Proof. destruct (Z.leb_spec max_iterations it), (Z.ltb_spec it max_iterations); auto; lia. Qed.

(** The VERIFY transition on the outputs of the tool. *)
Lemma verify_on_outputs state passed continue verdict_ output local rep next_continue
      next_stop it max_iterations memory now :
  (Py.get (_ci_unavailable state) false = true -> local = Some passed) ->
  (passed = true -> continue = false) ->
  (Py.get (_ci_unavailable state) false = true -> passed = false -> continue = true) ->
  let step := _reason_transition VERIFY
                (update state (outputs passed continue verdict_ output local)) rep
                next_continue next_stop it max_iterations memory now in
  report_all_passed (step_report step) = passed
  /\ step_phase step
     = (if passed then DONE
        else if continue && (it <? max_iterations) then next_continue else next_stop)
  /\ report_verdict (step_report step)
     = (if Py.get (_ci_unavailable state) false
        then if passed then "pass_local"
             else if it <? max_iterations then verdict_ else "fail_local_no_ci"
        else verdict_).
Proof.
  intros Hlocal Hstop Hgo. cbv zeta.
  destruct (update_outputs state passed continue verdict_ output local)
    as (Ha & Hs & Hv & Hl & Hc).
  unfold _reason_transition, step_report, step_phase. cbv zeta.
  rewrite Ha, Hs, Hv, Hl, Hc, not_at_limit. cbn [Py.get].
  destruct (Py.get (_ci_unavailable state) false) eqn:Hci.
  - rewrite (Hlocal eq_refl). cbn [over Py.get].
    destruct passed.
    + cbn. auto.
    + rewrite (Hgo eq_refl eq_refl). cbn [andb].
      destruct (it <? max_iterations); cbn; auto.
  - cbn [with_verdict with_ci_conclusion with_all_passed report_all_passed].
    destruct passed.
    + cbn. auto.
    + destruct (continue && (it <? max_iterations)); cbn; auto.
Qed.

(** X24.  Tool and transition composed: after the verification tool, the
    VERIFY transition marks the report [all_passed] exactly when the tool
    said so, and then the invocation ends; otherwise the loop goes back to
    CLASSIFY exactly when the tool said [should_continue] and the iteration
    limit is not reached, and stops otherwise.  The verdict of the report is
    the tool's, except that a pass found with CI unavailable reads
    [pass_local] and a local failure at the limit reads
    [fail_local_no_ci]. *)
Theorem verify_transition_follows_the_tool state suites memory local now rep
        next_continue next_stop it max_iterations now' :
  let run := execute state suites memory local now in
  let out := result_outputs (fst (fst run)) in
  let passed := Py.get (all_passed out) false in
  let continue := Py.get (should_continue out) false in
  let step := _reason_transition VERIFY (update state out) rep next_continue next_stop
                                 it max_iterations (snd run) now' in
  report_all_passed (step_report step) = passed
  /\ step_phase step
     = (if passed then DONE
        else if continue && (it <? max_iterations) then next_continue else next_stop)
  /\ report_verdict (step_report step)
     = (if Py.get (_ci_unavailable state) false
        then if passed then "pass_local"
             else if it <? max_iterations then Py.get (verdict out) "fail"
                  else "fail_local_no_ci"
        else Py.get (verdict out) "fail")
  /\ In (Py.get (verdict out) "fail") ["pass"; "partial"; "fail"].
Proof.
  cbv zeta.
  destruct (execute_cases state suites memory local now)
    as [(summary & counts & Hrun & Himp & Hwhy)
       |(conclusion & summary & counts & continue & verdict_ & output & Hrun & Hci & Hne
         & Hkept & Hpass & Hfail)].
  - rewrite Hrun. cbn [fst snd result_outputs].
    destruct (outputs_fields (fst local) (negb (fst local))
                (if fst local then "pass" else "fail") (snd local) (Some (fst local)))
      as (Ha & Hs & Hv & _).
    rewrite Ha, Hs, Hv. cbn [Py.get].
    destruct (verify_on_outputs state (fst local) (negb (fst local))
                (if fst local then "pass" else "fail") (snd local) (Some (fst local))
                rep next_continue next_stop it max_iterations
                (if fst local
                 then match memory with
                      | Some m => Some (append_ci_run m (Py.get (_current_iteration state) 1)
                                                      "success" "" "" now)
                      | None => None
                      end
                 else memory) now')
      as (H1 & H2 & H3).
    + reflexivity.
    + now intros ->.
    + now intros _ ->.
    + split; [exact H1|]. split; [exact H2|]. split; [exact H3|].
      destruct (fst local); cbn; auto.
  - rewrite Hrun. cbn [fst snd result_outputs].
    destruct (outputs_fields (String.eqb conclusion "success") continue verdict_ output None)
      as (Ha & Hs & Hv & _).
    rewrite Ha, Hs, Hv. cbn [Py.get].
    destruct (verify_on_outputs state (String.eqb conclusion "success") continue verdict_
                output None rep next_continue next_stop it max_iterations memory now')
      as (H1 & H2 & H3).
    + rewrite Hci. discriminate.
    + intros H. now apply Hpass.
    + rewrite Hci. discriminate.
    + split; [exact H1|]. split; [exact H2|]. split; [exact H3|].
      destruct (String.eqb conclusion "success") eqn:Hsuccess.
      * destruct (Hpass eq_refl) as [_ ->]. cbn. auto.
      * destruct (Hfail eq_refl) as [(-> & _)|(-> & _)]; cbn; auto.
Qed.

End VerificationFacts.
